(** * NetBpfLoad: a shallow embedding of the eBPF object loader

    The development follows [netbpfload/NetBpfLoad.cpp] (the ELF reader,
    the metadata decoder, the map manager, the relocation applier, the
    program loader and the per-location orchestrator).

    Conventions.
    - C++ integers are [Z] with the wrap-around of their width written out
      ([cast_int], [cast_uint]).
    - A [vector<char>] is a [list byte]; a [std::string] is a [string].
    - A C++ function [int f(..., T& out)] is a computation returning the pair
      [(ret, out)]; where the callers never read [out] after a non-zero
      [ret], a placeholder stands for it.
    - Running C++ code either completes ([Val]), runs into undefined
      behaviour ([Undef]: an access outside an object, a signed overflow)
      or calls [abort()] ([Abort]).
    - The buffer of a section, whose size the object file dictates, is
      allocated or not as the environment decides ([f_maxalloc]); without
      it the program terminates.  The other allocations are assumed to
      succeed; logging ([ALOG*], [dumpIns]) is not modelled. *)

From Stdlib Require Import ZArith List String Ascii Lia Bool.
From coqutil Require Import Byte Word.LittleEndianList.
Import ListNotations.
Local Open Scope Z_scope.

(** ** Outcomes and the state-passing monad *)

Inductive outcome (A : Type) : Type :=
| Val (a : A)
| Undef
| Abort.
Arguments Val {A} a.
Arguments Undef {A}.
Arguments Abort {A}.

Definition M (S A : Type) : Type := S -> outcome (A * S).

Definition Ret {S A : Type} (a : A) : M S A := fun s => Val (a, s).

Definition bind {S A B : Type} (c : M S A) (k : A -> M S B) : M S B :=
  fun s => match c s with
           | Val (a, s') => k a s'
           | Undef => Undef
           | Abort => Abort
           end.

Definition undefined {S A : Type} : M S A := fun _ => Undef.
Definition aborted {S A : Type} : M S A := fun _ => Abort.

Notation "x <- c ;; k" := (bind c (fun x => k))
  (at level 61, c at next level, right associativity).
Notation "' pat <- c ;; k" := (bind c (fun x => match x with pat => k end))
  (at level 61, pat pattern, c at next level, right associativity).

(** ** Machine integers *)

(** Conversion to [unsigned int]. *)
Definition cast_uint (z : Z) : Z := z mod 2 ^ 32.

(** Conversion to [int] (two's complement). *)
Definition cast_int (z : Z) : Z := (z + 2 ^ 31) mod 2 ^ 32 - 2 ^ 31.

(** errno values of Linux used by the loader. *)
Definition ENOMEM : Z := 12.
Definition ENOTDIR : Z := 20.
Definition EINVAL : Z := 22.
Definition ENOTUNIQ : Z := 76.

(** ** Bytes and C strings *)

Definition NUL : byte := Byte.x00.

(** An unsigned little-endian field of [len] bytes at offset [off]. *)
Definition field (off len : nat) (b : list byte) : Z :=
  le_combine (firstn len (skipn off b)).

(** [n] consecutive records of [sz] bytes each. *)
Fixpoint chunks (sz n : nat) (b : list byte) : list (list byte) :=
  match n with
  | O => []
  | S n' => firstn sz b :: chunks sz n' (skipn sz b)
  end.

(** The characters of [buf] before its first NUL; [None] when [buf] holds
    no NUL: a C string function would then read past the buffer. *)
Fixpoint c_str (buf : list byte) : option (list byte) :=
  match buf with
  | [] => None
  | b :: rest =>
      if Byte.eqb b NUL then Some []
      else option_map (cons b) (c_str rest)
  end.

(** The C string starting at [buf.data() + off]. *)
Definition cstr_at (buf : list byte) (off : Z) : option string :=
  if off <? 0 then None
  else option_map string_of_list_byte (c_str (skipn (Z.to_nat off) buf)).

(** ** std::ifstream over a file opened in binary mode

    Once [failbit] is set it stays set: the loader never calls [clear()], and
    both [seekg] and [read] do nothing on a stream that is not good. *)

(** A file as it is opened: its bytes, and what the environment allows
    while it is read.  [f_maxbytes] is the largest offset that the file
    system of the file takes (a seek beyond it is refused).
    [f_maxalloc] is the size of the largest buffer that the process
    gets. *)
Record file : Type := mkFile {
  f_bytes : list byte;
  f_maxbytes : N;
  f_maxalloc : N
}.

Record ifstream : Type := mkStream {
  s_file : file;
  s_pos : Z;
  s_fail : bool
}.

Definition set_fail (s : ifstream) : ifstream :=
  {| s_file := s_file s; s_pos := s_pos s; s_fail := true |}.

Definition set_pos (p : Z) (s : ifstream) : ifstream :=
  {| s_file := s_file s; s_pos := p; s_fail := s_fail s |}.

(** [elfFile.seekg(off)]: an offset that is negative as a [streamoff]
    (2^63 and above as an unsigned value) is refused, and so is one beyond
    the largest offset of the file system; seeking past the end of the file
    is allowed. *)
Definition seekg (off : Z) : M ifstream unit := fun s =>
  if s_fail s then Val (tt, s)
  else if (2 ^ 63 <=? off) || (Z.of_N (f_maxbytes (s_file s)) <? off)
  then Val (tt, set_fail s)
  else Val (tt, set_pos off s).

(** [elfFile.fail()] *)
Definition fail : M ifstream bool := fun s => Val (s_fail s, s).

(** [elfFile.read(buf, n)]: the bytes stored into [buf]; a short read sets
    [failbit]. *)
Definition read (n : Z) : M ifstream (list byte) := fun s =>
  if s_fail s then Val ([], s)
  else
    let got := firstn (Z.to_nat n) (skipn (Z.to_nat (s_pos s)) (f_bytes (s_file s))) in
    if Z.of_nat (List.length got) =? n
    then Val (got, set_pos (s_pos s + n) s)
    else Val (got, set_fail s).

(** [v.resize(n)] of a [vector<char>]: beyond [max_size()] the library
    reports a length error, and without memory for [n] bytes the allocation
    fails; either terminates the program. *)
Definition resize_check (n : Z) : M ifstream unit := fun s =>
  if (2 ^ 63 <=? n) || (Z.of_N (f_maxalloc (s_file s)) <? n) then Abort else Val (tt, s).

(** ** ELF structures (the fields the loader reads) *)

Record Elf64_Ehdr : Type := mkEhdr {
  e_shoff : Z;
  e_shentsize : Z;
  e_shnum : Z;
  e_shstrndx : Z
}.

Definition sizeof_Ehdr : Z := 64.

Definition parse_Ehdr (b : list byte) : Elf64_Ehdr :=
  {| e_shoff := field 40 8 b;
     e_shentsize := field 58 2 b;
     e_shnum := field 60 2 b;
     e_shstrndx := field 62 2 b |}.

Record Elf64_Shdr : Type := mkShdr {
  sh_name : Z;
  sh_type : Z;
  sh_offset : Z;
  sh_size : Z
}.

Definition sizeof_Shdr : Z := 64.

Definition parse_Shdr (b : list byte) : Elf64_Shdr :=
  {| sh_name := field 0 4 b;
     sh_type := field 4 4 b;
     sh_offset := field 24 8 b;
     sh_size := field 32 8 b |}.

Record Elf64_Sym : Type := mkSym {
  st_name : Z;
  st_info : Z;
  st_shndx : Z;
  st_value : Z
}.

Definition sizeof_Sym : Z := 24.

Definition parse_Sym (b : list byte) : Elf64_Sym :=
  {| st_name := field 0 4 b;
     st_info := field 4 1 b;
     st_shndx := field 6 2 b;
     st_value := field 8 8 b |}.

Definition SHT_SYMTAB : Z := 2.
Definition STT_FUNC : Z := 2.
Definition ELF_ST_TYPE (info : Z) : Z := Z.land info 15.

(** ** The ELF reader *)

Definition readElfHeader : M ifstream (Z * Elf64_Ehdr) :=
  let eh0 := parse_Ehdr [] in
  _ <- seekg 0 ;;
  f <- fail ;;
  if f then Ret (-1, eh0) else
  b <- read sizeof_Ehdr ;;
  f <- fail ;;
  if f then Ret (-1, eh0) else
  Ret (0, parse_Ehdr b).

(** Reads all section header tables into an Shdr array.  The vector holds
    [e_shnum] headers of 64 bytes; [e_shnum * e_shentsize] bytes are read
    into its storage. *)
Definition readSectionHeadersAll : M ifstream (Z * list Elf64_Shdr) :=
  '(ret, eh) <- readElfHeader ;;
  if negb (ret =? 0) then Ret (ret, []) else
  _ <- seekg (e_shoff eh) ;;
  f <- fail ;;
  if f then Ret (-1, []) else
  let room := e_shnum eh * sizeof_Shdr in
  let want := e_shnum eh * e_shentsize eh in
  if 2 ^ 31 <=? want then undefined else
  b <- read want ;;
  if room <? Z.of_nat (List.length b) then undefined else
  f <- fail ;;
  if f then Ret (- ENOMEM, []) else
  let storage := b ++ repeat NUL (Z.to_nat room - List.length b) in
  Ret (0, map parse_Shdr (chunks (Z.to_nat sizeof_Shdr) (Z.to_nat (e_shnum eh)) storage)).

(** Read a section by its index. *)
Definition readSectionByIdx (id : Z) : M ifstream (Z * list byte) :=
  '(ret, shTable) <- readSectionHeadersAll ;;
  if negb (ret =? 0) then Ret (ret, []) else
  if id <? 0 then undefined else
  match nth_error shTable (Z.to_nat id) with
  | None => undefined
  | Some sh =>
      _ <- seekg (sh_offset sh) ;;
      f <- fail ;;
      if f then Ret (-1, []) else
      _ <- resize_check (sh_size sh) ;;
      b <- read (sh_size sh) ;;
      f <- fail ;;
      if f then Ret (-1, []) else
      Ret (0, b)
  end.

(** Read whole section header string table. *)
Definition readSectionHeaderStrtab : M ifstream (Z * list byte) :=
  '(ret, eh) <- readElfHeader ;;
  if negb (ret =? 0) then Ret (ret, []) else
  '(ret, strtab) <- readSectionByIdx (e_shstrndx eh) ;;
  if negb (ret =? 0) then Ret (ret, []) else
  Ret (0, strtab).

(** Get name from offset in strtab; [nameOff] is an [int]. *)
Definition getSymName (nameOff : Z) : M ifstream (Z * string) :=
  '(ret, secStrTab) <- readSectionHeaderStrtab ;;
  if negb (ret =? 0) then Ret (ret, EmptyString) else
  if cast_int (Z.of_nat (List.length secStrTab)) <=? nameOff then Ret (-1, EmptyString) else
  match cstr_at secStrTab nameOff with
  | None => undefined
  | Some name => Ret (0, name)
  end.

(** The loop of [readSectionByName] over the section headers. *)
Fixpoint readSectionByName_loop (name : string) (secStrTab : list byte)
    (shTable : list Elf64_Shdr) : M ifstream (Z * list byte) :=
  match shTable with
  | [] => Ret (-2, [])
  | sh :: rest =>
      (* secStrTab.data() is null for a vector that never held storage *)
      if (Nat.eqb (List.length secStrTab) 0 && (sh_name sh =? 0))%bool
      then readSectionByName_loop name secStrTab rest
      else
        match cstr_at secStrTab (sh_name sh) with
        | None => undefined
        | Some secname =>
            if String.eqb secname name then
              _ <- resize_check (sh_size sh) ;;
              _ <- seekg (sh_offset sh) ;;
              f <- fail ;;
              if f then Ret (-1, []) else
              b <- read (sh_size sh) ;;
              f <- fail ;;
              if f then Ret (-1, []) else
              Ret (0, b)
            else readSectionByName_loop name secStrTab rest
        end
  end.

(** Reads a full section by name. *)
Definition readSectionByName (name : string) : M ifstream (Z * list byte) :=
  '(ret, shTable) <- readSectionHeadersAll ;;
  if negb (ret =? 0) then Ret (ret, []) else
  '(ret, secStrTab) <- readSectionHeaderStrtab ;;
  if negb (ret =? 0) then Ret (ret, []) else
  readSectionByName_loop name secStrTab shTable.

(** The byte of a [vector<char>] at an index known to be in range, as an
    [unsigned char]. *)
Definition uchar_at (b : list byte) (i : nat) : Z := byte.unsigned (nth i b NUL).

Definition readSectionUint (name : string) (defVal : Z) : M ifstream Z :=
  '(ret, theBytes) <- readSectionByName name ;;
  if negb (ret =? 0) then Ret defVal
  else if Z.of_nat (List.length theBytes) <? 4 then Ret defVal
  else
    (* decode first 4 bytes as LE32 uint *)
    let value := uchar_at theBytes 3 in
    let value := cast_uint (Z.shiftl value 8) in
    let value := cast_uint (value + uchar_at theBytes 2) in
    let value := cast_uint (Z.shiftl value 8) in
    let value := cast_uint (value + uchar_at theBytes 1) in
    let value := cast_uint (Z.shiftl value 8) in
    let value := cast_uint (value + uchar_at theBytes 0) in
    Ret value.

(** ** Loops with early exit *)

Inductive step (R St : Type) : Type :=
| Return (r : R)        (* [return r] inside the loop body *)
| Break (st : St)       (* [break] *)
| Continue (st : St).   (* end of the body, or [continue] *)
Arguments Return {R St} r.
Arguments Break {R St} st.
Arguments Continue {R St} st.

(** [for (int i = lo; i < lo + n; i++) body]; the result is [Return r] when
    the body returned, and the final loop state otherwise. *)
Fixpoint for_range {S R St : Type} (n : nat) (i : Z)
    (body : Z -> St -> M S (step R St)) (st : St) : M S (R + St) :=
  match n with
  | O => Ret (inr st)
  | S n' =>
      r <- body i st ;;
      match r with
      | Return r => Ret (inl r)
      | Break st' => Ret (inr st')
      | Continue st' => for_range n' (i + 1) body st'
      end
  end.

(** [for (auto& x : xs) body] *)
Fixpoint for_each {S R St X : Type} (xs : list X)
    (body : X -> St -> M S (step R St)) (st : St) : M S (R + St) :=
  match xs with
  | [] => Ret (inr st)
  | x :: rest =>
      r <- body x st ;;
      match r with
      | Return r => Ret (inl r)
      | Break st' => Ret (inr st')
      | Continue st' => for_each rest body st'
      end
  end.

(** ** Strings *)

Definition replace_char (from to : ascii) (s : string) : string :=
  string_of_list_ascii
    (map (fun c => if Ascii.eqb c from then to else c) (list_ascii_of_string s)).

(** [s.find_last_of(c)]; [None] is [npos]. *)
Fixpoint find_last_of (c : ascii) (s : string) : option nat :=
  match s with
  | EmptyString => None
  | String a rest =>
      match find_last_of c rest with
      | Some k => Some (S k)
      | None => if Ascii.eqb a c then Some O else None
      end
  end.

(** [s.substr(0, s.find_last_of(c))] *)
Definition strip_from_last (c : ascii) (s : string) : string :=
  match find_last_of c s with
  | Some k => substring 0 k s
  | None => s
  end.

(** [Split(path, "/").back()] *)
Definition basename (path : string) : string :=
  match find_last_of "/"%char path with
  | Some k => substring (S k) (String.length path - S k) path
  | None => path
  end.

Definition pathToObjName (path : string) : string :=
  let filename := basename path in
  let name := strip_from_last "."%char filename in
  strip_from_last "@"%char name.

(** [strncmp(s1, s2, n)]: zero when the strings agree on their first [n]
    characters or up to a common NUL.  An array is given by its bytes, a
    literal by its characters: the end of the list is the literal's NUL. *)
Fixpoint strncmp (s1 s2 : list byte) (n : nat) : Z :=
  match n with
  | O => 0
  | S n' =>
      let c1 := hd NUL s1 in
      let c2 := hd NUL s2 in
      if negb (Byte.eqb c1 c2) then byte.unsigned c1 - byte.unsigned c2
      else if Byte.eqb c1 NUL then 0
      else strncmp (tl s1) (tl s2) n'
  end.

(** ** Domains (loader.h) *)

Inductive domain : Type :=
| unrecognized    (* invalid for this version of the bpfloader *)
| unspecified     (* means just use the default for that specific pin location *)
| tethering
| net_private
| net_shared
| netd_readonly
| netd_shared.

Definition domain_eqb (a b : domain) : bool :=
  match a, b with
  | unrecognized, unrecognized | unspecified, unspecified
  | tethering, tethering | net_private, net_private
  | net_shared, net_shared | netd_readonly, netd_readonly
  | netd_shared, netd_shared => true
  | _, _ => false
  end.

(** Note: this does not include domain::unrecognized, but does include
    domain::unspecified *)
Definition AllDomains : list domain :=
  [unspecified; tethering; net_private; net_shared; netd_readonly; netd_shared].

Definition is_unrecognized (d : domain) : bool := domain_eqb d unrecognized.

(** Note: this doesn't handle unrecognized, handle it first. *)
Definition specified (d : domain) : bool := negb (domain_eqb d unspecified).

(** Modelled from the spec: the array size BPF_SELINUX_CONTEXT_CHAR_ARRAY_SIZE
    is declared in bpf/bpf_map_def.h, which is not among the sources; the
    spec gives the selinux_context token at most 31 characters, that is an
    array of 32. *)
Definition BPF_SELINUX_CONTEXT_CHAR_ARRAY_SIZE : nat := 32.

(** Modelled from the spec: the array size BPF_PIN_SUBDIR_CHAR_ARRAY_SIZE is
    declared in bpf/bpf_map_def.h, which is not among the sources; the spec
    gives the pin_subdir token at most 31 characters, that is an array of
    32. *)
Definition BPF_PIN_SUBDIR_CHAR_ARRAY_SIZE : nat := 32.

Definition lookupSelinuxContext (d : domain) (unspec : string) : string :=
  match d with
  | unspecified => unspec
  | tethering => "fs_bpf_tethering"
  | net_private => "fs_bpf_net_private"
  | net_shared => "fs_bpf_net_shared"
  | netd_readonly => "fs_bpf_netd_readonly"
  | netd_shared => "fs_bpf_netd_shared"
  | unrecognized => "(unrecognized)"
  end%string.

Fixpoint getDomainFromSelinuxContext_loop (s : list byte) (ds : list domain)
    : outcome domain :=
  match ds with
  | [] =>
      (* We should return 'unrecognized' here, however: returning unspecified
         will result in the system simply using the default context *)
      Val unspecified
  | d :: rest =>
      let tok := lookupSelinuxContext d "" in
      if (BPF_SELINUX_CONTEXT_CHAR_ARRAY_SIZE <=? String.length tok)%nat then Abort
      else if strncmp s (list_byte_of_string tok) BPF_SELINUX_CONTEXT_CHAR_ARRAY_SIZE =? 0
      then Val d
      else getDomainFromSelinuxContext_loop s rest
  end.

Definition getDomainFromSelinuxContext (s : list byte) : outcome domain :=
  getDomainFromSelinuxContext_loop s AllDomains.

Definition lookupPinSubdir (d : domain) (unspec : string) : string :=
  match d with
  | unspecified => unspec
  | tethering => "tethering/"
  | net_private => "net_private/"
  | net_shared => "net_shared/"
  | netd_readonly => "netd_readonly/"
  | netd_shared => "netd_shared/"
  | unrecognized => "(unrecognized)"
  end%string.

Fixpoint getDomainFromPinSubdir_loop (s : list byte) (ds : list domain)
    : outcome domain :=
  match ds with
  | [] =>
      (* pin_subdir affects the object's full pathname: a true error *)
      Val unrecognized
  | d :: rest =>
      let tok := lookupPinSubdir d "" in
      if (BPF_PIN_SUBDIR_CHAR_ARRAY_SIZE <=? String.length tok)%nat then Abort
      else if strncmp s (list_byte_of_string tok) BPF_PIN_SUBDIR_CHAR_ARRAY_SIZE =? 0
      then Val d
      else getDomainFromPinSubdir_loop s rest
  end.

Definition getDomainFromPinSubdir (s : list byte) : outcome domain :=
  getDomainFromPinSubdir_loop s AllDomains.

(** Lifts a computation without state into the monad. *)
Definition lift_outcome {S A : Type} (o : outcome A) : M S A :=
  fun s => match o with
           | Val a => Val (a, s)
           | Undef => Undef
           | Abort => Abort
           end.

(** ** Program and attach types (linux/bpf.h), as far as the loader names them *)

Inductive bpf_prog_type : Type :=
| BPF_PROG_TYPE_UNSPEC
| BPF_PROG_TYPE_SOCKET_FILTER
| BPF_PROG_TYPE_SCHED_CLS
| BPF_PROG_TYPE_SCHED_ACT
| BPF_PROG_TYPE_XDP
| BPF_PROG_TYPE_CGROUP_SKB
| BPF_PROG_TYPE_CGROUP_SOCK
| BPF_PROG_TYPE_LWT_IN
| BPF_PROG_TYPE_LWT_OUT
| BPF_PROG_TYPE_LWT_XMIT
| BPF_PROG_TYPE_SOCK_OPS
| BPF_PROG_TYPE_CGROUP_SOCK_ADDR
| BPF_PROG_TYPE_LWT_SEG6LOCAL
| BPF_PROG_TYPE_CGROUP_SYSCTL
| BPF_PROG_TYPE_CGROUP_SOCKOPT.

Inductive bpf_attach_type : Type :=
| BPF_CGROUP_INET_INGRESS
| BPF_CGROUP_INET_EGRESS
| BPF_CGROUP_INET_SOCK_CREATE
| BPF_CGROUP_SOCK_OPS
| BPF_CGROUP_INET4_BIND
| BPF_CGROUP_INET6_BIND
| BPF_CGROUP_INET4_CONNECT
| BPF_CGROUP_INET6_CONNECT
| BPF_CGROUP_INET4_POST_BIND
| BPF_CGROUP_INET6_POST_BIND
| BPF_CGROUP_UDP4_SENDMSG
| BPF_CGROUP_UDP6_SENDMSG
| BPF_CGROUP_SYSCTL
| BPF_CGROUP_UDP4_RECVMSG
| BPF_CGROUP_UDP6_RECVMSG
| BPF_CGROUP_GETSOCKOPT
| BPF_CGROUP_SETSOCKOPT
| BPF_CGROUP_INET_SOCK_RELEASE.

(** Unspecified attach type is 0 which is BPF_CGROUP_INET_INGRESS. *)
Definition BPF_ATTACH_TYPE_UNSPEC : bpf_attach_type := BPF_CGROUP_INET_INGRESS.

Definition prog_type_is_unspec (t : bpf_prog_type) : bool :=
  match t with BPF_PROG_TYPE_UNSPEC => true | _ => false end.

Record sectionType : Type := mkSectionType {
  snt_name : string;
  snt_type : bpf_prog_type;
  snt_expected_attach_type : bpf_attach_type
}.

Definition sectionNameTypes : list sectionType :=
  [ mkSectionType "bind4/"             BPF_PROG_TYPE_CGROUP_SOCK_ADDR BPF_CGROUP_INET4_BIND;
    mkSectionType "bind6/"             BPF_PROG_TYPE_CGROUP_SOCK_ADDR BPF_CGROUP_INET6_BIND;
    mkSectionType "cgroupskb/"         BPF_PROG_TYPE_CGROUP_SKB       BPF_ATTACH_TYPE_UNSPEC;
    mkSectionType "cgroupsock/"        BPF_PROG_TYPE_CGROUP_SOCK      BPF_ATTACH_TYPE_UNSPEC;
    mkSectionType "cgroupsockcreate/"  BPF_PROG_TYPE_CGROUP_SOCK      BPF_CGROUP_INET_SOCK_CREATE;
    mkSectionType "cgroupsockrelease/" BPF_PROG_TYPE_CGROUP_SOCK      BPF_CGROUP_INET_SOCK_RELEASE;
    mkSectionType "connect4/"          BPF_PROG_TYPE_CGROUP_SOCK_ADDR BPF_CGROUP_INET4_CONNECT;
    mkSectionType "connect6/"          BPF_PROG_TYPE_CGROUP_SOCK_ADDR BPF_CGROUP_INET6_CONNECT;
    mkSectionType "egress/"            BPF_PROG_TYPE_CGROUP_SKB       BPF_CGROUP_INET_EGRESS;
    mkSectionType "getsockopt/"        BPF_PROG_TYPE_CGROUP_SOCKOPT   BPF_CGROUP_GETSOCKOPT;
    mkSectionType "ingress/"           BPF_PROG_TYPE_CGROUP_SKB       BPF_CGROUP_INET_INGRESS;
    mkSectionType "lwt_in/"            BPF_PROG_TYPE_LWT_IN           BPF_ATTACH_TYPE_UNSPEC;
    mkSectionType "lwt_out/"           BPF_PROG_TYPE_LWT_OUT          BPF_ATTACH_TYPE_UNSPEC;
    mkSectionType "lwt_seg6local/"     BPF_PROG_TYPE_LWT_SEG6LOCAL    BPF_ATTACH_TYPE_UNSPEC;
    mkSectionType "lwt_xmit/"          BPF_PROG_TYPE_LWT_XMIT         BPF_ATTACH_TYPE_UNSPEC;
    mkSectionType "postbind4/"         BPF_PROG_TYPE_CGROUP_SOCK      BPF_CGROUP_INET4_POST_BIND;
    mkSectionType "postbind6/"         BPF_PROG_TYPE_CGROUP_SOCK      BPF_CGROUP_INET6_POST_BIND;
    mkSectionType "recvmsg4/"          BPF_PROG_TYPE_CGROUP_SOCK_ADDR BPF_CGROUP_UDP4_RECVMSG;
    mkSectionType "recvmsg6/"          BPF_PROG_TYPE_CGROUP_SOCK_ADDR BPF_CGROUP_UDP6_RECVMSG;
    mkSectionType "schedact/"          BPF_PROG_TYPE_SCHED_ACT        BPF_ATTACH_TYPE_UNSPEC;
    mkSectionType "schedcls/"          BPF_PROG_TYPE_SCHED_CLS        BPF_ATTACH_TYPE_UNSPEC;
    mkSectionType "sendmsg4/"          BPF_PROG_TYPE_CGROUP_SOCK_ADDR BPF_CGROUP_UDP4_SENDMSG;
    mkSectionType "sendmsg6/"          BPF_PROG_TYPE_CGROUP_SOCK_ADDR BPF_CGROUP_UDP6_SENDMSG;
    mkSectionType "setsockopt/"        BPF_PROG_TYPE_CGROUP_SOCKOPT   BPF_CGROUP_SETSOCKOPT;
    mkSectionType "skfilter/"          BPF_PROG_TYPE_SOCKET_FILTER    BPF_ATTACH_TYPE_UNSPEC;
    mkSectionType "sockops/"           BPF_PROG_TYPE_SOCK_OPS         BPF_CGROUP_SOCK_OPS;
    mkSectionType "sysctl"             BPF_PROG_TYPE_CGROUP_SYSCTL    BPF_CGROUP_SYSCTL;
    mkSectionType "xdp/"               BPF_PROG_TYPE_XDP              BPF_ATTACH_TYPE_UNSPEC
  ]%string.

(** [StartsWith(s, pre)] *)
Definition StartsWith (s pre : string) : bool := String.prefix pre s.

Fixpoint getSectionType_loop (name : string) (tbl : list sectionType) : bpf_prog_type :=
  match tbl with
  | [] => BPF_PROG_TYPE_UNSPEC
  | snt :: rest =>
      if StartsWith name (snt_name snt) then snt_type snt
      else getSectionType_loop name rest
  end.

Definition getSectionType (name : string) : bpf_prog_type :=
  getSectionType_loop name sectionNameTypes.

Fixpoint getExpectedAttachType_loop (name : string) (tbl : list sectionType)
    : bpf_attach_type :=
  match tbl with
  | [] => BPF_ATTACH_TYPE_UNSPEC
  | snt :: rest =>
      if StartsWith name (snt_name snt) then snt_expected_attach_type snt
      else getExpectedAttachType_loop name rest
  end.

Definition getExpectedAttachType (name : string) : bpf_attach_type :=
  getExpectedAttachType_loop name sectionNameTypes.

(** ** Map and program definitions (bpf/bpf_map_def.h)

    The header is not among the sources.  The loader reads the fields below;
    their place in the C structs, the sizes of the structs and the DEFAULT_
    constants are taken from a [Headers] record. *)

Record bpf_map_def : Type := mkMapDef {
  md_type : Z;
  md_key_size : Z;
  md_value_size : Z;
  md_max_entries : Z;
  md_map_flags : Z;
  md_zero : Z;
  md_gid : Z;
  md_mode : Z;
  md_bpfloader_min_ver : Z;
  md_bpfloader_max_ver : Z;
  md_min_kver : Z;
  md_max_kver : Z;
  md_selinux_context : list byte;
  md_pin_subdir : list byte;
  md_shared : bool;
  md_ignore_on_eng : bool;
  md_ignore_on_user : bool;
  md_ignore_on_userdebug : bool;
  md_ignore_on_arm32 : bool;
  md_ignore_on_aarch64 : bool;
  md_ignore_on_x86_32 : bool;
  md_ignore_on_x86_64 : bool;
  md_ignore_on_riscv64 : bool;
  md_uid : Z
}.

Record bpf_prog_def : Type := mkProgDef {
  pd_uid : Z;
  pd_gid : Z;
  pd_min_kver : Z;
  pd_max_kver : Z;
  pd_optional : bool;
  pd_bpfloader_min_ver : Z;
  pd_bpfloader_max_ver : Z;
  pd_selinux_context : list byte;
  pd_pin_subdir : list byte;
  pd_ignore_on_eng : bool;
  pd_ignore_on_user : bool;
  pd_ignore_on_userdebug : bool;
  pd_ignore_on_arm32 : bool;
  pd_ignore_on_aarch64 : bool;
  pd_ignore_on_x86_32 : bool;
  pd_ignore_on_x86_64 : bool;
  pd_ignore_on_riscv64 : bool
}.

Record Headers : Type := mkHeaders {
  DEFAULT_BPFLOADER_MIN_VER : Z;
  DEFAULT_BPFLOADER_MAX_VER : Z;
  DEFAULT_SIZEOF_BPF_MAP_DEF : Z;
  DEFAULT_SIZEOF_BPF_PROG_DEF : Z;
  (* sizeof(struct bpf_map_def), sizeof(struct bpf_prog_def) *)
  sizeof_bpf_map_def : nat;
  sizeof_bpf_prog_def : nat;
  (* offsetof the fields that get a non-zero default *)
  offsetof_map_bpfloader_max_ver : nat;
  offsetof_map_max_kver : nat;
  offsetof_prog_bpfloader_max_ver : nat;
  (* the fields of a struct held in memory *)
  view_map_def : list byte -> bpf_map_def;
  view_prog_def : list byte -> bpf_prog_def
}.

(** [memset(&p, 0, sizeof(p))] *)
Definition memset0 (size : nat) : list byte := repeat NUL size.

(** Assignment to an [unsigned int] field at byte offset [off] of a struct. *)
Definition store_u32 (off : nat) (v : Z) (p : list byte) : list byte :=
  firstn off p ++ le_split 4 v ++ skipn (off + 4) p.

(** [memcpy(dst, src, n)]; [None] when [n] bytes are not there to be read or
    written. *)
Definition memcpy (dst src : list byte) (n : nat) : option (list byte) :=
  if ((n <=? List.length src) && (n <=? List.length dst))%nat
  then Some (firstn n src ++ skipn n dst)
  else None.

Record codeSection : Type := mkCodeSection {
  cs_type : bpf_prog_type;
  cs_expected_attach_type : bpf_attach_type;
  cs_name : string;
  cs_data : list byte;
  cs_rel_data : list byte;
  cs_prog_def : option (list byte);   (* the struct bpf_prog_def, as stored *)
  cs_prog_fd : Z                      (* fd after loading; -1 when not open *)
}.

(** *** The decoding rule of the specification, in its words *)

Section DecodingRule.

Variable hdr : Headers.

(** The in-memory record before the copy: zero-initialized, then seeded
    with the defaults that are not zero. *)
Definition default_prog_def : list byte :=
  store_u32 (offsetof_prog_bpfloader_max_ver hdr) (DEFAULT_BPFLOADER_MAX_VER hdr)
    (memset0 (sizeof_bpf_prog_def hdr)).

Definition default_map_def : list byte :=
  store_u32 (offsetof_map_max_kver hdr) 4294967295
    (store_u32 (offsetof_map_bpfloader_max_ver hdr) (DEFAULT_BPFLOADER_MAX_VER hdr)
       (memset0 (sizeof_bpf_map_def hdr))).

(** The i-th record: the minimum of the advertised size and the size of the
    in-memory record is copied from the file, from the cursor, which
    advances by the advertised size; the rest is the defaulted record. *)
Definition decoded_record (defaults : list byte) (size advertised : nat)
    (data : list byte) (i : nat) : list byte :=
  let trimmed := Nat.min advertised size in
  firstn trimmed (skipn (i * advertised) data) ++ skipn trimmed defaults.

Definition decoded_records (defaults : list byte) (size advertised : nat)
    (data : list byte) : list (list byte) :=
  map (decoded_record defaults size advertised data)
    (seq 0 (List.length data / advertised)).

(** The fields with a default lie within their structs, and the two of the
    map definition do not overlap. *)
Definition layout_ok : Prop :=
  (offsetof_prog_bpfloader_max_ver hdr + 4 <= sizeof_bpf_prog_def hdr)%nat /\
  (offsetof_map_bpfloader_max_ver hdr + 4 <= sizeof_bpf_map_def hdr)%nat /\
  (offsetof_map_max_kver hdr + 4 <= sizeof_bpf_map_def hdr)%nat /\
  ((offsetof_map_bpfloader_max_ver hdr + 4 <= offsetof_map_max_kver hdr)%nat \/
   (offsetof_map_max_kver hdr + 4 <= offsetof_map_bpfloader_max_ver hdr)%nat).

End DecodingRule.

(** ** Symbols, program definitions and code sections *)

Definition symCompare (a b : Elf64_Sym) : bool := st_value a <? st_value b.

Fixpoint readSectionByType_loop (type : Z) (shTable : list Elf64_Shdr)
    : M ifstream (Z * list byte) :=
  match shTable with
  | [] => Ret (-2, [])
  | sh :: rest =>
      if negb (cast_int (sh_type sh) =? type) then readSectionByType_loop type rest
      else
        _ <- resize_check (sh_size sh) ;;
        _ <- seekg (sh_offset sh) ;;
        f <- fail ;;
        if f then Ret (-1, []) else
        b <- read (sh_size sh) ;;
        f <- fail ;;
        if f then Ret (-1, []) else
        Ret (0, b)
  end.

Definition readSectionByType (type : Z) : M ifstream (Z * list byte) :=
  '(ret, shTable) <- readSectionHeadersAll ;;
  if negb (ret =? 0) then Ret (ret, []) else
  readSectionByType_loop type shTable.

(** The first index at or after [k] whose element satisfies [p]. *)
Fixpoint find_index {A : Type} (p : A -> bool) (l : list A) (k : nat) : option nat :=
  match l with
  | [] => None
  | x :: rest => if p x then Some k else find_index p rest (S k)
  end.

Section Reader.

(** [std::sort(first, last, comp)] of the C++ library in use: the order it
    gives to elements that compare equal is not specified. *)
Variable std_sort : (Elf64_Sym -> Elf64_Sym -> bool) -> list Elf64_Sym -> list Elf64_Sym.

Variable hdr : Headers.

Definition readSymTab (sort : bool) : M ifstream (Z * list Elf64_Sym) :=
  '(ret, secData) <- readSectionByType SHT_SYMTAB ;;
  if negb (ret =? 0) then Ret (ret, []) else
  let numElems := cast_int (Z.of_nat (List.length secData) / sizeof_Sym) in
  if numElems <? 0 then undefined else
  let data := map parse_Sym (chunks (Z.to_nat sizeof_Sym) (Z.to_nat numElems) secData) in
  Ret (0, if sort then std_sort symCompare data else data).

(** The search of [getSectionSymNames] for the index of the section. *)
Definition getSectionSymNames_find (sectionName : string) (shTable : list Elf64_Shdr)
    : M ifstream (Z + Z) :=
  for_each (combine (map Z.of_nat (seq 0 (List.length shTable))) shTable)
    (fun '(i, sh) (sec_idx : Z) =>
       '(ret, name) <- getSymName (cast_int (sh_name sh)) ;;
       if negb (ret =? 0) then Ret (Return ret) else
       if String.eqb name sectionName then Ret (Break i)
       else Ret (Continue sec_idx))
    (-1).

(** The collection of the names of the symbols of section [sec_idx]. *)
Definition getSectionSymNames_collect (sec_idx : Z) (symbolType : option Z)
    (symtab : list Elf64_Sym) : M ifstream ((Z * list string) + list string) :=
  for_each symtab
    (fun sym (names : list string) =>
       if match symbolType with
          | Some t => negb (ELF_ST_TYPE (st_info sym) =? t)
          | None => false
          end
       then Ret (Continue names)
       else if st_shndx sym =? sec_idx then
         '(ret, s) <- getSymName (cast_int (st_name sym)) ;;
         if negb (ret =? 0) then Ret (Return (ret, names)) else
         Ret (Continue (names ++ [s]))
       else Ret (Continue names))
    [].

Definition getSectionSymNames (sectionName : string) (symbolType : option Z)
    : M ifstream (Z * list string) :=
  '(ret, symtab) <- readSymTab true ;;
  if negb (ret =? 0) then Ret (ret, []) else
  (* Get index of section *)
  '(ret, shTable) <- readSectionHeadersAll ;;
  if negb (ret =? 0) then Ret (ret, []) else
  r <- getSectionSymNames_find sectionName shTable ;;
  match r with
  | inl ret => Ret (ret, [])
  | inr sec_idx =>
      (* No section found with matching name *)
      if sec_idx =? -1 then Ret (-1, []) else
      r <- getSectionSymNames_collect sec_idx symbolType symtab ;;
      match r with
      | inl (ret, names) => Ret (ret, names)
      | inr names => Ret (0, names)
      end
  end.

(** The loop of [readProgDefs] over the records: [dataPtr] is the part of
    the section from the cursor on. *)
Fixpoint readProgDefs_loop (n : nat) (dataPtr : list byte)
    (sizeOfBpfProgDef trimmedSize : nat) : option (list (list byte)) :=
  match n with
  | O => Some []
  | S n' =>
      (* First we zero initialize *)
      let p := memset0 (sizeof_bpf_prog_def hdr) in
      (* Then we set non-zero defaults *)
      let p := store_u32 (offsetof_prog_bpfloader_max_ver hdr)
                 (DEFAULT_BPFLOADER_MAX_VER hdr) p in
      (* Then we copy over the structure prefix from the ELF file. *)
      match memcpy p dataPtr trimmedSize with
      | None => None
      | Some p =>
          (* Move to next struct in the ELF file *)
          option_map (cons p)
            (readProgDefs_loop n' (skipn sizeOfBpfProgDef dataPtr)
               sizeOfBpfProgDef trimmedSize)
      end
  end.

Definition readProgDefs (sizeOfBpfProgDef : Z) : M ifstream (Z * list (list byte)) :=
  '(ret, pdData) <- readSectionByName "progs" ;;
  if negb (ret =? 0) then Ret (ret, []) else
  if sizeOfBpfProgDef =? 0 then undefined else
  if negb (Z.of_nat (List.length pdData) mod sizeOfBpfProgDef =? 0) then Ret (-1, []) else
  let progCount := cast_int (Z.of_nat (List.length pdData) / sizeOfBpfProgDef) in
  if progCount <? 0 then aborted else
  let trimmedSize := Z.min sizeOfBpfProgDef (Z.of_nat (sizeof_bpf_prog_def hdr)) in
  match readProgDefs_loop (Z.to_nat progCount) pdData
          (Z.to_nat sizeOfBpfProgDef) (Z.to_nat trimmedSize) with
  | None => undefined
  | Some pd => Ret (0, pd)
  end.

(** The body of the loop of [readCodeSections] over the section headers. *)
Definition readCodeSections_body (shTable : list Elf64_Shdr) (entries : Z)
    (pd : list (list byte)) (progDefNames : list string)
    (i : Z) (cs : list codeSection) : M ifstream (step (Z * list codeSection) (list codeSection)) :=
  match nth_error shTable (Z.to_nat i) with
  | None => undefined
  | Some sh =>
      '(ret, name) <- getSymName (cast_int (sh_name sh)) ;;
      if negb (ret =? 0) then Ret (Return (ret, cs)) else
      let ptype := getSectionType name in
      if prog_type_is_unspec ptype then Ret (Continue cs) else
      (* This must be done before '/' is replaced with '_'. *)
      let expected_attach_type := getExpectedAttachType name in
      let oldName := name in
      (* convert all slashes to underscores *)
      let name := replace_char "/" "_" name in
      '(ret, data) <- readSectionByIdx i ;;
      if negb (ret =? 0) then Ret (Return (ret, cs)) else
      '(ret, csSymNames) <- getSectionSymNames oldName (Some STT_FUNC) ;;
      match csSymNames with
      | [] => Ret (Return (ret, cs))
      | sym0 :: _ =>
          if negb (ret =? 0) then Ret (Return (ret, cs)) else
          match
            match find_index (String.eqb (sym0 ++ "_def")) progDefNames 0 with
            | None => Some None
            | Some k => option_map Some (nth_error pd k)
            end
          with
          | None => undefined
          | Some prog_def =>
              (* Check for rel section *)
              '(ret, rel_data) <-
                (if (0 <? Z.of_nat (List.length data)) && (i <? entries) then
                   match nth_error shTable (Z.to_nat (i + 1)) with
                   | None => undefined
                   | Some sh1 =>
                       '(ret, name1) <- getSymName (cast_int (sh_name sh1)) ;;
                       if negb (ret =? 0) then Ret (ret, []) else
                       if String.eqb name1 (".rel" ++ oldName) then
                         readSectionByIdx (i + 1)
                       else Ret (0, [])
                   end
                 else Ret (0, [])) ;;
              if negb (ret =? 0) then Ret (Return (ret, cs)) else
              if 0 <? Z.of_nat (List.length data) then
                Ret (Continue (cs ++ [ {| cs_type := ptype;
                                          cs_expected_attach_type := expected_attach_type;
                                          cs_name := name;
                                          cs_data := data;
                                          cs_rel_data := rel_data;
                                          cs_prog_def := prog_def;
                                          cs_prog_fd := -1 |} ]))
              else Ret (Continue cs)
          end
      end
  end.

(** [readCodeSections(elfFile, cs, sizeOfBpfProgDef)] for an empty [cs]. *)
Definition readCodeSections (sizeOfBpfProgDef : Z) : M ifstream (Z * list codeSection) :=
  '(ret, shTable) <- readSectionHeadersAll ;;
  if negb (ret =? 0) then Ret (ret, []) else
  let entries := cast_int (Z.of_nat (List.length shTable)) in
  '(ret, pd) <- readProgDefs sizeOfBpfProgDef ;;
  if negb (ret =? 0) then Ret (ret, []) else
  '(ret, progDefNames) <- getSectionSymNames "progs" None ;;
  if negb (Nat.eqb (List.length pd) 0) && negb (ret =? 0) then Ret (ret, []) else
  r <- for_range (Z.to_nat entries) 0
         (readCodeSections_body shTable entries pd progDefNames) [] ;;
  match r with
  | inl (ret, cs) => Ret (ret, cs)
  | inr cs => Ret (0, cs)
  end.

(** [getSymNameByIdx(elfFile, index, name)]; [index] is an [int]. *)
Definition getSymNameByIdx (index : Z) : M ifstream (Z * string) :=
  '(ret, symtab) <- readSymTab false ;;
  if negb (ret =? 0) then Ret (ret, EmptyString) else
  if cast_int (Z.of_nat (List.length symtab)) <=? index then Ret (-1, EmptyString) else
  if index <? 0 then undefined else
  match nth_error symtab (Z.to_nat index) with
  | None => undefined
  | Some sym => getSymName (cast_int (st_name sym))
  end.

End Reader.

(** ** The kernel and the file system

    What the loader reaches through system calls and through the helpers of
    bpf/BpfUtils.h and BpfSyscallWrappers.h is an interface over a state [W]
    of the world outside the process.  A call that fails returns its result
    together with [errno]. *)

Record bpf_map_create_req : Type := mkMapCreateReq {
  req_map_type : Z;
  req_key_size : Z;
  req_value_size : Z;
  req_max_entries : Z;
  req_map_flags : Z;
  req_map_name : string
}.

Record bpf_prog_load_req : Type := mkProgLoadReq {
  req_prog_type : bpf_prog_type;
  req_kern_version : Z;
  req_license : string;
  req_insns : list byte;
  req_insn_cnt : Z;
  req_expected_attach_type : bpf_attach_type;
  req_prog_name : string
}.

Record Sys (W : Type) : Type := mkSys {
  (* the environment, fixed for the run *)
  kernelVersion : Z;
  isAtLeastKernelVersion : Z -> Z -> Z -> bool;
  page_size : Z;
  getBuildType : string;
  isArm : bool;
  isX86 : bool;
  isRiscV : bool;
  isKernel32Bit : bool;
  isKernel64Bit : bool;
  (* files *)
  readdir_all : string -> W -> option (list string);  (* opendir, then readdir until NULL *)
  open_file : string -> W -> option file;             (* ifstream(path, ios::in | ios::binary) *)
  access_F_OK : string -> W -> bool;                  (* access(path, F_OK) == 0 *)
  (* bpf *)
  mapRetrieveRO : string -> W -> (Z * Z) * W;
  bpf_MAP_CREATE : bpf_map_create_req -> W -> (Z * Z) * W;
  retrieveProgram : string -> W -> Z * W;
  bpf_PROG_LOAD : bpf_prog_load_req -> W -> Z * W;
  bpfFdPin : Z -> string -> W -> (Z * Z) * W;
  renameat2_NOREPLACE : string -> string -> W -> (Z * Z) * W;
  chmod : string -> Z -> W -> (Z * Z) * W;
  chown : string -> Z -> Z -> W -> (Z * Z) * W;
  bpfGetFdMapType : Z -> W -> Z;
  bpfGetFdKeySize : Z -> W -> Z;
  bpfGetFdValueSize : Z -> W -> Z;
  bpfGetFdMaxEntries : Z -> W -> Z;
  bpfGetFdMapFlags : Z -> W -> Z
}.
Arguments kernelVersion {W} _.
Arguments isAtLeastKernelVersion {W} _ _ _ _.
Arguments page_size {W} _.
Arguments getBuildType {W} _.
Arguments isArm {W} _.
Arguments isX86 {W} _.
Arguments isRiscV {W} _.
Arguments isKernel32Bit {W} _.
Arguments isKernel64Bit {W} _.
Arguments readdir_all {W} _ _ _.
Arguments open_file {W} _ _ _.
Arguments access_F_OK {W} _ _ _.
Arguments mapRetrieveRO {W} _ _ _.
Arguments bpf_MAP_CREATE {W} _ _ _.
Arguments retrieveProgram {W} _ _ _.
Arguments bpf_PROG_LOAD {W} _ _ _.
Arguments bpfFdPin {W} _ _ _ _.
Arguments renameat2_NOREPLACE {W} _ _ _ _.
Arguments chmod {W} _ _ _ _.
Arguments chown {W} _ _ _ _ _.
Arguments bpfGetFdMapType {W} _ _ _.
Arguments bpfGetFdKeySize {W} _ _ _.
Arguments bpfGetFdValueSize {W} _ _ _.
Arguments bpfGetFdMaxEntries {W} _ _ _.
Arguments bpfGetFdMapFlags {W} _ _ _.

(** A system call as a computation. *)
Definition call {W A : Type} (f : W -> A * W) : M W A := fun w => Val (f w).

(** A query that leaves the world as it is. *)
Definition query {W A : Type} (f : W -> A) : M W A := fun w => Val (f w, w).

Definition liftE {W A : Type} (c : M ifstream A) : M (ifstream * W) A :=
  fun '(e, w) => match c e with
                 | Val (a, e') => Val (a, (e', w))
                 | Undef => Undef
                 | Abort => Abort
                 end.

Definition liftW {W A : Type} (c : M W A) : M (ifstream * W) A :=
  fun '(e, w) => match c w with
                 | Val (a, w') => Val (a, (e, w'))
                 | Undef => Undef
                 | Abort => Abort
                 end.

(** Map types and flags of linux/bpf.h. *)
Definition BPF_MAP_TYPE_HASH : Z := 1.
Definition BPF_MAP_TYPE_ARRAY : Z := 2.
Definition BPF_MAP_TYPE_DEVMAP : Z := 14.
Definition BPF_MAP_TYPE_DEVMAP_HASH : Z := 25.
Definition BPF_MAP_TYPE_RINGBUF : Z := 27.
Definition BPF_F_RDONLY_PROG : Z := 128.

Definition BPF_FS_PATH : string := "/sys/fs/bpf/".

(** A [unique_fd] is its descriptor; -1 when it owns none. *)
Definition null_fd : Z := -1.
Definition fd_ok (fd : Z) : bool := 0 <=? fd.

(** [strlcpy(dst, src, size)] into a zeroed array, read back as a string. *)
Definition strlcpy (src : string) (size : nat) : string := substring 0 (size - 1) src.
Definition BPF_OBJ_NAME_LEN : nat := 16.

(** [EndsWith(s, suffix)] *)
Definition EndsWith (s suffix : string) : bool :=
  (String.length suffix <=? String.length s)%nat &&
  String.eqb (substring (String.length s - String.length suffix) (String.length suffix) s) suffix.

(** What the loop of [loadAllElfObjects] keeps of the result of one object. *)
Definition keep_critical (retVal : Z) (r : Z * bool) : Z :=
  if negb (fst r =? 0) && snd r then fst r else retVal.

Record Location : Type := mkLocation {
  loc_dir : string;
  loc_prefix : string
}.

(** ** Relocation of one instruction (struct bpf_insn of linux/bpf.h: the
    opcode in byte 0, dst_reg in the low and src_reg in the high half of
    byte 1, off in bytes 2-3, imm in bytes 4-7) *)

Definition sizeof_bpf_insn : Z := 8.
Definition BPF_LD_IMM_DW : Z := 24.        (* BPF_LD | BPF_IMM | BPF_DW = 0x18 *)
Definition BPF_PSEUDO_MAP_FD : Z := 1.

Definition insn_code (insns : list byte) (idx : nat) : Z :=
  byte.unsigned (nth (8 * idx) insns NUL).
Definition insn_regs (insns : list byte) (idx : nat) : Z :=
  byte.unsigned (nth (8 * idx + 1) insns NUL).
Definition insn_dst_reg (insns : list byte) (idx : nat) : Z :=
  Z.land (insn_regs insns idx) 15.

Definition store_u8 (off : nat) (v : Z) (p : list byte) : list byte :=
  firstn off p ++ [byte.of_Z v] ++ skipn (off + 1) p.

Definition set_insn_imm (insns : list byte) (idx : nat) (v : Z) : list byte :=
  store_u32 (8 * idx + 4) v insns.

Definition set_insn_src_reg (insns : list byte) (idx : nat) (v : Z) : list byte :=
  store_u8 (8 * idx + 1)
    (Z.lor (Z.land (insn_regs insns idx) 15) (Z.shiftl (Z.land v 15) 4)) insns.

(** [applyRelo(insnsPtr, offset, fd)] on the bytes of a code section.  On an
    opcode that is not the 64-bit immediate load the instructions are only
    logged ([dumpIns]). *)
Definition applyRelo (insns : list byte) (offset : Z) (fd : Z) : outcome (list byte) :=
  let insnIndex := cast_int (offset / sizeof_bpf_insn) in
  if (insnIndex <? 0) || (Z.of_nat (List.length insns) <? 8 * insnIndex + 8) then Undef else
  let idx := Z.to_nat insnIndex in
  if negb (insn_code insns idx =? BPF_LD_IMM_DW) then Val insns
  else
    let insns := set_insn_imm insns idx fd in
    let insns := set_insn_src_reg insns idx BPF_PSEUDO_MAP_FD in
    Val insns.

Definition sizeof_Rel : Z := 16.
Definition r_offset (rel : list byte) : Z := field 0 8 rel.
Definition r_info (rel : list byte) : Z := field 8 8 rel.
Definition ELF64_R_SYM (info : Z) : Z := Z.shiftr info 32.

Definition set_cs_data (c : codeSection) (data : list byte) : codeSection :=
  {| cs_type := cs_type c;
     cs_expected_attach_type := cs_expected_attach_type c;
     cs_name := cs_name c;
     cs_data := data;
     cs_rel_data := cs_rel_data c;
     cs_prog_def := cs_prog_def c;
     cs_prog_fd := cs_prog_fd c |}.

Section Loader.

Variable std_sort : (Elf64_Sym -> Elf64_Sym -> bool) -> list Elf64_Sym -> list Elf64_Sym.
Variable hdr : Headers.
Variable W : Type.
Variable sys : Sys W.

Definition isEng : bool := String.eqb (getBuildType sys) "eng".
Definition isUser : bool := String.eqb (getBuildType sys) "user".
Definition isUserdebug : bool := String.eqb (getBuildType sys) "userdebug".

(** *** The map manager *)

Definition mapMatchesExpectations (fd : Z) (mapDef : bpf_map_def) (type : Z) (w : W) : bool :=
  (* on 4.9-T kernels just pretend the map matches our expectations *)
  if negb (isAtLeastKernelVersion sys 4 14 0) then true else
  let fd_type := bpfGetFdMapType sys fd w in
  let fd_key_size := bpfGetFdKeySize sys fd w in
  let fd_value_size := bpfGetFdValueSize sys fd w in
  let fd_max_entries := bpfGetFdMaxEntries sys fd w in
  let fd_map_flags := bpfGetFdMapFlags sys fd w in
  let desired_map_flags := cast_int (md_map_flags mapDef) in
  let desired_map_flags :=
    if (type =? BPF_MAP_TYPE_DEVMAP) || (type =? BPF_MAP_TYPE_DEVMAP_HASH)
    then Z.lor desired_map_flags BPF_F_RDONLY_PROG
    else desired_map_flags in
  let desired_max_entries := md_max_entries mapDef in
  let desired_max_entries :=
    if type =? BPF_MAP_TYPE_RINGBUF then
      if desired_max_entries <? page_size sys then page_size sys else desired_max_entries
    else desired_max_entries in
  (fd_type =? cast_int type) &&
  (fd_key_size =? cast_int (md_key_size mapDef)) &&
  (fd_value_size =? cast_int (md_value_size mapDef)) &&
  (fd_max_entries =? cast_int desired_max_entries) &&
  (fd_map_flags =? desired_map_flags).

(** The decoding loop of [createMaps]; [dataPtr] is the part of the section
    from the cursor on. *)
Fixpoint createMaps_decode (n : nat) (dataPtr : list byte)
    (sizeOfBpfMapDef trimmedSize : nat) : option (list (list byte)) :=
  match n with
  | O => Some []
  | S n' =>
      (* First we zero initialize *)
      let m := memset0 (sizeof_bpf_map_def hdr) in
      (* Then we set non-zero defaults *)
      let m := store_u32 (offsetof_map_bpfloader_max_ver hdr)
                 (DEFAULT_BPFLOADER_MAX_VER hdr) m in
      let m := store_u32 (offsetof_map_max_kver hdr) 4294967295 m in
      (* Then we copy over the structure prefix from the ELF file. *)
      match memcpy m dataPtr trimmedSize with
      | None => None
      | Some m =>
          (* Move to next struct in the ELF file *)
          option_map (cons m)
            (createMaps_decode n' (skipn sizeOfBpfMapDef dataPtr)
               sizeOfBpfMapDef trimmedSize)
      end
  end.

(** The kernel map type used for a definition. *)
Definition createMaps_type (m : bpf_map_def) : Z :=
  let type := md_type m in
  let type :=
    (* On Linux Kernels older than 4.14 this map type doesn't exist, but it
       can kind of be approximated: ARRAY has the same userspace api *)
    if (type =? BPF_MAP_TYPE_DEVMAP) && negb (isAtLeastKernelVersion sys 4 14 0)
    then BPF_MAP_TYPE_ARRAY else type in
  let type :=
    (* On Linux Kernels older than 5.4 this map type doesn't exist, but it
       can kind of be approximated: HASH has the same userspace visible api. *)
    if (type =? BPF_MAP_TYPE_DEVMAP_HASH) && negb (isAtLeastKernelVersion sys 5 4 0)
    then BPF_MAP_TYPE_HASH else type in
  type.

Definition createMaps_max_entries (m : bpf_map_def) (type : Z) : Z :=
  let max_entries := md_max_entries m in
  if type =? BPF_MAP_TYPE_RINGBUF then
    if max_entries <? page_size sys then page_size sys else max_entries
  else max_entries.

(** Format of pin location is /sys/fs/bpf/<pin_subdir|prefix>map_<objName>_<mapName>
    except that maps shared across .o's have empty <objName> *)
Definition createMaps_pin_loc (objName prefix : string) (m : bpf_map_def)
    (pin_subdir : domain) (mapName : string) : string :=
  (BPF_FS_PATH ++ lookupPinSubdir pin_subdir prefix ++ "map_" ++
   (if md_shared m then "" else objName) ++ "_" ++ mapName)%string.

(** The descriptor of the map: of the pinned map when the pin location
    exists, of a new map otherwise.  The result is [reuse], the descriptor
    and [saved_errno]. *)
Definition createMaps_obtain (m : bpf_map_def) (type max_entries : Z)
    (mapName mapPinLoc : string) : M W (bool * (Z * Z)) :=
  exists_ <- query (access_F_OK sys mapPinLoc) ;;
  if exists_ : bool then
    r <- call (mapRetrieveRO sys mapPinLoc) ;; Ret (true, r)
  else
    let req :=
      {| req_map_type := type;
         req_key_size := md_key_size m;
         req_value_size := md_value_size m;
         req_max_entries := max_entries;
         req_map_flags := md_map_flags m;
         req_map_name :=
           if isAtLeastKernelVersion sys 4 15 0
           then strlcpy mapName BPF_OBJ_NAME_LEN else EmptyString |} in
    r <- call (bpf_MAP_CREATE sys req) ;; Ret (false, r).

(** Pinning of a new map: [inl code] when [createMaps] returns [code],
    [inr ret] with the last value of [ret] otherwise. *)
Definition createMaps_pin (objName : string) (m : bpf_map_def) (selinux_context : domain)
    (fd : Z) (mapName mapPinLoc : string) : M W (Z + Z) :=
  r <- (if specified selinux_context then
          let createLoc :=
            (BPF_FS_PATH ++ lookupPinSubdir selinux_context "" ++
             "tmp_map_" ++ objName ++ "_" ++ mapName)%string in
          '(ret, err) <- call (bpfFdPin sys fd createLoc) ;;
          if negb (ret =? 0) then Ret (inl (- err)) else
          '(ret, err) <- call (renameat2_NOREPLACE sys createLoc mapPinLoc) ;;
          if negb (ret =? 0) then Ret (inl (- err)) else Ret (inr ret)
        else
          '(ret, err) <- call (bpfFdPin sys fd mapPinLoc) ;;
          if negb (ret =? 0) then Ret (inl (- err)) else Ret (inr ret)) ;;
  match r with
  | inl code => Ret (inl code)
  | inr _ =>
      '(ret, err) <- call (chmod sys mapPinLoc (md_mode m)) ;;
      if negb (ret =? 0) then Ret (inl (- err)) else
      '(ret, err) <- call (chown sys mapPinLoc (md_uid m) (md_gid m)) ;;
      if negb (ret =? 0) then Ret (inl (- err)) else
      Ret (inr ret)
  end.

(** The part of the loop body for a map that is not skipped: the map is
    created or reused, checked, and pinned when it is new. *)
Definition createMaps_create (objName prefix : string) (m : bpf_map_def)
    (mapName : string) (st : Z * list Z) : M W (step (Z * list Z) (Z * list Z)) :=
  let '(ret, mapFds) := st in
  let type := createMaps_type m in
  let max_entries := createMaps_max_entries m type in
  selinux_context <- lift_outcome (getDomainFromSelinuxContext (md_selinux_context m)) ;;
  pin_subdir <- lift_outcome (getDomainFromPinSubdir (md_pin_subdir m)) ;;
  if is_unrecognized pin_subdir then Ret (Return (- ENOTDIR, mapFds)) else
  let mapPinLoc := createMaps_pin_loc objName prefix m pin_subdir mapName in
  '(reuse, (fd, saved_errno)) <- createMaps_obtain m type max_entries mapName mapPinLoc ;;
  if negb (fd_ok fd) then Ret (Return (- saved_errno, mapFds)) else
  (* When reusing a pinned map, we need to check the map type/sizes/etc
     match, but for safety (since reuse code path is rare) run these
     checks even if we just created it.  We assume failure is due to
     pinned map mismatch, hence the 'NOT UNIQUE' return code. *)
  matches <- query (mapMatchesExpectations fd m type) ;;
  if negb matches then Ret (Return (- ENOTUNIQ, mapFds)) else
  if negb reuse then
    r <- createMaps_pin objName m selinux_context fd mapName mapPinLoc ;;
    match r with
    | inl code => Ret (Return (code, mapFds))
    | inr ret => Ret (Continue (ret, mapFds ++ [fd]))
    end
  else Ret (Continue (ret, mapFds ++ [fd])).

(** The body of the loop of [createMaps] over the map names; the loop state
    is the local [ret] and the vector [mapFds]. *)
Definition createMaps_body (objName prefix : string) (bpfloader_ver kvers : Z)
    (md : list (list byte)) (mapNames : list string)
    (i : Z) (st : Z * list Z) : M W (step (Z * list Z) (Z * list Z)) :=
  let '(ret, mapFds) := st in
  match nth_error md (Z.to_nat i), nth_error mapNames (Z.to_nat i) with
  | Some raw, Some mapName =>
      let m := view_map_def hdr raw in
      if negb (md_zero m =? 0) then aborted else
      if bpfloader_ver <? md_bpfloader_min_ver m
      then Ret (Continue (ret, mapFds ++ [null_fd])) else
      if md_bpfloader_max_ver m <=? bpfloader_ver
      then Ret (Continue (ret, mapFds ++ [null_fd])) else
      if kvers <? md_min_kver m
      then Ret (Continue (ret, mapFds ++ [null_fd])) else
      if md_max_kver m <=? kvers
      then Ret (Continue (ret, mapFds ++ [null_fd])) else
      if (md_ignore_on_eng m && isEng) || (md_ignore_on_user m && isUser) ||
         (md_ignore_on_userdebug m && isUserdebug)
      then Ret (Continue (ret, mapFds ++ [null_fd])) else
      if (isArm sys && isKernel32Bit sys && md_ignore_on_arm32 m) ||
         (isArm sys && isKernel64Bit sys && md_ignore_on_aarch64 m) ||
         (isX86 sys && isKernel32Bit sys && md_ignore_on_x86_32 m) ||
         (isX86 sys && isKernel64Bit sys && md_ignore_on_x86_64 m) ||
         (isRiscV sys && md_ignore_on_riscv64 m)
      then Ret (Continue (ret, mapFds ++ [null_fd])) else
      createMaps_create objName prefix m mapName (ret, mapFds)
  | _, _ => undefined
  end.

(** [createMaps(elfPath, elfFile, mapFds, prefix, sizeOfBpfMapDef,
    bpfloader_ver)] for an empty [mapFds]. *)
Definition createMaps (elfPath : string) (prefix : string) (sizeOfBpfMapDef : Z)
    (bpfloader_ver : Z) : M (ifstream * W) (Z * list Z) :=
  let objName := pathToObjName elfPath in
  '(ret, mdData) <- liftE (readSectionByName "maps") ;;
  if ret =? -2 then Ret (0, []) else     (* no maps to read *)
  if negb (ret =? 0) then Ret (ret, []) else
  if sizeOfBpfMapDef =? 0 then undefined else
  if negb (Z.of_nat (List.length mdData) mod sizeOfBpfMapDef =? 0) then Ret (-1, []) else
  let mapCount := cast_int (Z.of_nat (List.length mdData) / sizeOfBpfMapDef) in
  if mapCount <? 0 then aborted else
  let trimmedSize := Z.min sizeOfBpfMapDef (Z.of_nat (sizeof_bpf_map_def hdr)) in
  match createMaps_decode (Z.to_nat mapCount) mdData
          (Z.to_nat sizeOfBpfMapDef) (Z.to_nat trimmedSize) with
  | None => undefined
  | Some md =>
      '(ret, mapNames) <- liftE (getSectionSymNames std_sort "maps" None) ;;
      if negb (ret =? 0) then Ret (ret, []) else
      let kvers := kernelVersion sys in
      r <- liftW (for_range (Z.to_nat (cast_int (Z.of_nat (List.length mapNames)))) 0
                    (createMaps_body objName prefix bpfloader_ver kvers md mapNames)
                    (ret, [])) ;;
      match r with
      | inl (code, mapFds) => Ret (code, mapFds)
      | inr (ret, mapFds) => Ret (ret, mapFds)
      end
  end.

(** *** The relocation applier *)

(** The body of the loop of [applyMapRelo] over the relocation records of
    one code section: [rel] is the record, the loop state the bytes of the
    section.  [Return] leaves [applyMapRelo] altogether. *)
Definition applyMapRelo_record (mapNames : list string) (mapFds : list Z)
    (rel : list byte) (data : list byte) : M ifstream (step (list byte) (list byte)) :=
  let symIndex := cast_int (ELF64_R_SYM (r_info rel)) in
  '(ret, symName) <- getSymNameByIdx std_sort symIndex ;;
  if negb (ret =? 0) then Ret (Return data) else
  (* Find the map fd and apply relo *)
  match find_index (String.eqb symName) mapNames 0 with
  | None => Ret (Continue data)
  | Some j =>
      match nth_error mapFds j with
      | None => undefined
      | Some fd =>
          data' <- lift_outcome (applyRelo data (r_offset rel) fd) ;;
          Ret (Continue data')
      end
  end.

(** The loop of [applyMapRelo] over the code sections; a [return] from
    inside leaves the sections that follow as they are. *)
Fixpoint applyMapRelo_sections (mapNames : list string) (mapFds : list Z)
    (cs : list codeSection) : M ifstream (list codeSection) :=
  match cs with
  | [] => Ret []
  | c :: rest =>
      let n_rel := cast_int (Z.of_nat (List.length (cs_rel_data c)) / sizeof_Rel) in
      r <- for_each (chunks (Z.to_nat sizeof_Rel) (Z.to_nat n_rel) (cs_rel_data c))
             (applyMapRelo_record mapNames mapFds) (cs_data c) ;;
      match r with
      | inl data => Ret (set_cs_data c data :: rest)
      | inr data =>
          rest' <- applyMapRelo_sections mapNames mapFds rest ;;
          Ret (set_cs_data c data :: rest')
      end
  end.

Definition applyMapRelo (mapFds : list Z) (cs : list codeSection)
    : M ifstream (list codeSection) :=
  '(ret, mapNames) <- getSectionSymNames std_sort "maps" None ;;
  if negb (ret =? 0) then Ret cs else
  applyMapRelo_sections mapNames mapFds cs.



(** *** The program loader *)

(** The body of the loop of [loadCodeSections] over the code sections. *)
Definition loadCodeSections_body (elfPath objName : string) (license : string)
    (prefix : string) (bpfloader_ver kvers : Z) (c : codeSection) (_ : unit)
    : M W (step Z unit) :=
  let name := cs_name c in
  match cs_prog_def c with
  | None => Ret (Return (- EINVAL))
  | Some raw =>
      let prog_def := view_prog_def hdr raw in
      let min_kver := pd_min_kver prog_def in
      let max_kver := pd_max_kver prog_def in
      if kvers <? min_kver then Ret (Continue tt) else
      if max_kver <=? kvers then Ret (Continue tt) else
      let bpfMinVer := pd_bpfloader_min_ver prog_def in
      let bpfMaxVer := pd_bpfloader_max_ver prog_def in
      selinux_context <- lift_outcome (getDomainFromSelinuxContext (pd_selinux_context prog_def)) ;;
      pin_subdir <- lift_outcome (getDomainFromPinSubdir (pd_pin_subdir prog_def)) ;;
      (* Note: make sure to only check for unrecognized *after* verifying
         bpfloader version limits include this bpfloader's version. *)
      if bpfloader_ver <? bpfMinVer then Ret (Continue tt) else
      if bpfMaxVer <=? bpfloader_ver then Ret (Continue tt) else
      if (pd_ignore_on_eng prog_def && isEng) ||
         (pd_ignore_on_user prog_def && isUser) ||
         (pd_ignore_on_userdebug prog_def && isUserdebug)
      then Ret (Continue tt) else
      if (isArm sys && isKernel32Bit sys && pd_ignore_on_arm32 prog_def) ||
         (isArm sys && isKernel64Bit sys && pd_ignore_on_aarch64 prog_def) ||
         (isX86 sys && isKernel32Bit sys && pd_ignore_on_x86_32 prog_def) ||
         (isX86 sys && isKernel64Bit sys && pd_ignore_on_x86_64 prog_def) ||
         (isRiscV sys && pd_ignore_on_riscv64 prog_def)
      then Ret (Continue tt) else
      if is_unrecognized pin_subdir then Ret (Return (- ENOTDIR)) else
      (* strip any potential $foo suffix *)
      let name := strip_from_last "$" name in
      let progPinLoc :=
        (BPF_FS_PATH ++ lookupPinSubdir pin_subdir prefix ++ "prog_" ++
         objName ++ "_" ++ name)%string in
      exists_ <- query (access_F_OK sys progPinLoc) ;;
      r <- (if exists_ : bool then
              fd <- call (retrieveProgram sys progPinLoc) ;; Ret (Some (true, fd))
            else
              let req :=
                {| req_prog_type := cs_type c;
                   req_kern_version := kvers;
                   req_license := license;
                   req_insns := cs_data c;
                   req_insn_cnt :=
                     cast_uint (Z.of_nat (List.length (cs_data c)) / sizeof_bpf_insn);
                   req_expected_attach_type := cs_expected_attach_type c;
                   req_prog_name :=
                     if isAtLeastKernelVersion sys 4 15 0
                     then strlcpy (cs_name c) BPF_OBJ_NAME_LEN else EmptyString |} in
              fd <- call (bpf_PROG_LOAD sys req) ;;
              if negb (fd_ok fd) && pd_optional prog_def
              then Ret None      (* failed program is marked optional - continuing *)
              else Ret (Some (false, fd))) ;;
      match r with
      | None => Ret (Continue tt)
      | Some (reuse, fd) =>
          if negb (fd_ok fd) then Ret (Return fd) else
          if negb reuse then
            r <- (if specified selinux_context then
                    let createLoc :=
                      (BPF_FS_PATH ++ lookupPinSubdir selinux_context "" ++
                       "tmp_prog_" ++ objName ++ "_" ++ name)%string in
                    '(ret, err) <- call (bpfFdPin sys fd createLoc) ;;
                    if negb (ret =? 0) then Ret (Some (- err)) else
                    '(ret, err) <- call (renameat2_NOREPLACE sys createLoc progPinLoc) ;;
                    if negb (ret =? 0) then Ret (Some (- err)) else Ret None
                  else
                    '(ret, err) <- call (bpfFdPin sys fd progPinLoc) ;;
                    if negb (ret =? 0) then Ret (Some (- err)) else Ret None) ;;
            match r with
            | Some code => Ret (Return code)
            | None =>
                '(ret, err) <- call (chmod sys progPinLoc 288 (* 0440 *)) ;;
                if negb (ret =? 0) then Ret (Return (- err)) else
                '(ret, err) <- call (chown sys progPinLoc (pd_uid prog_def) (pd_gid prog_def)) ;;
                if negb (ret =? 0) then Ret (Return (- err)) else
                Ret (Continue tt)
            end
          else Ret (Continue tt)
      end
  end.

Definition loadCodeSections (elfPath : string) (cs : list codeSection) (license : string)
    (prefix : string) (bpfloader_ver : Z) : M W Z :=
  let kvers := kernelVersion sys in
  if kvers =? 0 then Ret (- EINVAL) else
  let objName := pathToObjName elfPath in
  r <- for_each cs
         (loadCodeSections_body elfPath objName license prefix bpfloader_ver kvers) tt ;;
  match r with
  | inl code => Ret code
  | inr _ => Ret 0
  end.

(** *** One ELF object *)

(** The part of [loadProg] that loads the object, once its version window
    admits the loader. *)
Definition loadProg_load (elfPath : string) (bpfloader_ver : Z) (location : Location)
    (isCritical : bool) (license : list byte) (sizeOfBpfMapDef sizeOfBpfProgDef : Z)
    : M (ifstream * W) (Z * bool) :=
  if sizeOfBpfMapDef <? DEFAULT_SIZEOF_BPF_MAP_DEF hdr then Ret (-1, isCritical) else
  if sizeOfBpfProgDef <? DEFAULT_SIZEOF_BPF_PROG_DEF hdr then Ret (-1, isCritical) else
  '(ret, cs) <- liftE (readCodeSections std_sort hdr sizeOfBpfProgDef) ;;
  if negb (ret =? 0) then Ret (ret, isCritical) else
  '(ret, mapFds) <- createMaps elfPath (loc_prefix location) sizeOfBpfMapDef bpfloader_ver ;;
  if negb (ret =? 0) then Ret (ret, isCritical) else
  cs <- liftE (applyMapRelo mapFds cs) ;;
  match c_str license with
  | None => undefined
  | Some lic =>
      ret <- liftW (loadCodeSections elfPath cs (string_of_list_byte lic)
                      (loc_prefix location) bpfloader_ver) ;;
      Ret (ret, isCritical)
  end.

(** [loadProg] once the file is open: the result is the return value and
    [*isCritical]. *)
Definition loadProg_stream (elfPath : string) (bpfloader_ver : Z) (location : Location)
    : M (ifstream * W) (Z * bool) :=
  '(ret, critical) <- liftE (readSectionByName "critical") ;;
  let isCritical := ret =? 0 in
  '(ret, license) <- liftE (readSectionByName "license") ;;
  if negb (ret =? 0) then Ret (ret, isCritical) else
  (* the following default values are for bpfloader V0.0 format which does
     not include them *)
  bpfLoaderMinVer <-
    liftE (readSectionUint "bpfloader_min_ver" (DEFAULT_BPFLOADER_MIN_VER hdr)) ;;
  bpfLoaderMaxVer <-
    liftE (readSectionUint "bpfloader_max_ver" (DEFAULT_BPFLOADER_MAX_VER hdr)) ;;
  bpfLoaderMinRequiredVer <-
    liftE (readSectionUint "bpfloader_min_required_ver" 0) ;;
  sizeOfBpfMapDef <-
    liftE (readSectionUint "size_of_bpf_map_def" (DEFAULT_SIZEOF_BPF_MAP_DEF hdr)) ;;
  sizeOfBpfProgDef <-
    liftE (readSectionUint "size_of_bpf_prog_def" (DEFAULT_SIZEOF_BPF_PROG_DEF hdr)) ;;
  (* inclusive lower bound check *)
  if bpfloader_ver <? bpfLoaderMinVer then Ret (0, isCritical) else
  (* exclusive upper bound check *)
  if bpfLoaderMaxVer <=? bpfloader_ver then Ret (0, isCritical) else
  if bpfloader_ver <? bpfLoaderMinRequiredVer then Ret (-1, isCritical) else
  loadProg_load elfPath bpfloader_ver location isCritical license
    sizeOfBpfMapDef sizeOfBpfProgDef.

Definition loadProg (elfPath : string) (bpfloader_ver : Z) (location : Location)
    : M W (Z * bool) := fun w =>
  match open_file sys elfPath w with
  | None => Val ((-1, false), w)
  | Some f =>
      match loadProg_stream elfPath bpfloader_ver location
              ({| s_file := f; s_pos := 0; s_fail := false |}, w) with
      | Val (r, (_, w')) => Val (r, w')
      | Undef => Undef
      | Abort => Abort
      end
  end.

(** *** The orchestrator *)

(** The body of the loop of [loadAllElfObjects] over the directory entries;
    the loop state is [retVal]. *)
Definition loadAllElfObjects_body (bpfloader_ver : Z) (location : Location)
    (s : string) (retVal : Z) : M W (step Z Z) :=
  if negb (EndsWith s ".o") then Ret (Continue retVal) else
  let progPath := (loc_dir location ++ s)%string in
  '(ret, critical) <- loadProg progPath bpfloader_ver location ;;
  if negb (ret =? 0) then
    Ret (Continue (if critical : bool then ret else retVal))
  else Ret (Continue retVal).

Definition loadAllElfObjects (bpfloader_ver : Z) (location : Location) : M W Z :=
  let retVal := 0 in
  dir <- query (readdir_all sys (loc_dir location)) ;;
  match dir with
  | None => Ret retVal
  | Some ents =>
      r <- for_each ents (loadAllElfObjects_body bpfloader_ver location) retVal ;;
      match r with
      | inl retVal => Ret retVal
      | inr retVal => Ret retVal
      end
  end.

(** *** Notions of the specification, in its words *)

(** A map definition is skipped by gating: the loader version is outside the
    half-open window of the definition, or the kernel version is, or the
    definition is ignored on the build flavor, or on the architecture and
    bitness of the kernel. *)
Definition map_gated_out (bpfloader_ver : Z) (m : bpf_map_def) : bool :=
  (bpfloader_ver <? md_bpfloader_min_ver m) ||
  (md_bpfloader_max_ver m <=? bpfloader_ver) ||
  (kernelVersion sys <? md_min_kver m) ||
  (md_max_kver m <=? kernelVersion sys) ||
  ((md_ignore_on_eng m && isEng) || (md_ignore_on_user m && isUser) ||
   (md_ignore_on_userdebug m && isUserdebug)) ||
  ((isArm sys && isKernel32Bit sys && md_ignore_on_arm32 m) ||
   (isArm sys && isKernel64Bit sys && md_ignore_on_aarch64 m) ||
   (isX86 sys && isKernel32Bit sys && md_ignore_on_x86_32 m) ||
   (isX86 sys && isKernel64Bit sys && md_ignore_on_x86_64 m) ||
   (isRiscV sys && md_ignore_on_riscv64 m)).

(** The same for a program definition. *)
Definition prog_gated_out (bpfloader_ver : Z) (p : bpf_prog_def) : bool :=
  (kernelVersion sys <? pd_min_kver p) ||
  (pd_max_kver p <=? kernelVersion sys) ||
  (bpfloader_ver <? pd_bpfloader_min_ver p) ||
  (pd_bpfloader_max_ver p <=? bpfloader_ver) ||
  ((pd_ignore_on_eng p && isEng) || (pd_ignore_on_user p && isUser) ||
   (pd_ignore_on_userdebug p && isUserdebug)) ||
  ((isArm sys && isKernel32Bit sys && pd_ignore_on_arm32 p) ||
   (isArm sys && isKernel64Bit sys && pd_ignore_on_aarch64 p) ||
   (isX86 sys && isKernel32Bit sys && pd_ignore_on_x86_32 p) ||
   (isX86 sys && isKernel64Bit sys && pd_ignore_on_x86_64 p) ||
   (isRiscV sys && pd_ignore_on_riscv64 p)).

(** The desired effective values of the equivalence check: max_entries
    rounded up to the page size for a ringbuf, map_flags with
    BPF_F_RDONLY_PROG added for the devmap kinds. *)
Definition desired_max_entries (m : bpf_map_def) (type : Z) : Z :=
  if type =? BPF_MAP_TYPE_RINGBUF
  then Z.max (md_max_entries m) (page_size sys)
  else md_max_entries m.

Definition desired_map_flags (m : bpf_map_def) (type : Z) : Z :=
  if (type =? BPF_MAP_TYPE_DEVMAP) || (type =? BPF_MAP_TYPE_DEVMAP_HASH)
  then Z.lor (cast_int (md_map_flags m)) BPF_F_RDONLY_PROG
  else cast_int (md_map_flags m).

(** The maps section of the object behind [s] holds the definitions [md],
    one per [sizeOfBpfMapDef] bytes, named in order by [mapNames]; reading
    both leaves the stream as [s2]. *)
Definition maps_read (sizeOfBpfMapDef : Z) (s : ifstream) (md : list (list byte))
    (mapNames : list string) (s2 : ifstream) : Prop :=
  exists mdData s1,
    readSectionByName "maps" s = Val ((0, mdData), s1) /\
    0 < sizeOfBpfMapDef /\
    Z.of_nat (List.length mdData) mod sizeOfBpfMapDef = 0 /\
    Z.of_nat (List.length mdData) / sizeOfBpfMapDef < 2 ^ 31 /\
    createMaps_decode (Z.to_nat (Z.of_nat (List.length mdData) / sizeOfBpfMapDef)) mdData
      (Z.to_nat sizeOfBpfMapDef)
      (Z.to_nat (Z.min sizeOfBpfMapDef (Z.of_nat (sizeof_bpf_map_def hdr)))) = Some md /\
    getSectionSymNames std_sort "maps" None s1 = Val ((0, mapNames), s2) /\
    Z.of_nat (List.length mapNames) < 2 ^ 31.

(** The descriptors [fds] are those of the first definitions of [md]: null
    for a definition that is skipped, open for one that is not. *)
Definition aligned (ver : Z) (md : list (list byte)) (fds : list Z) : Prop :=
  forall i fd,
    nth_error fds i = Some fd ->
    exists raw,
      nth_error md i = Some raw /\
      (map_gated_out ver (view_map_def hdr raw) = true -> fd = null_fd) /\
      (map_gated_out ver (view_map_def hdr raw) = false -> fd_ok fd = true).

(** A call that fails sets [errno] to a positive value. *)
Definition errno_set : Prop :=
  (forall path w fd e w', mapRetrieveRO sys path w = ((fd, e), w') -> fd < 0 -> 0 < e) /\
  (forall req w fd e w', bpf_MAP_CREATE sys req w = ((fd, e), w') -> fd < 0 -> 0 < e) /\
  (forall fd path w r e w', bpfFdPin sys fd path w = ((r, e), w') -> r <> 0 -> 0 < e) /\
  (forall from to w r e w', renameat2_NOREPLACE sys from to w = ((r, e), w') -> r <> 0 -> 0 < e) /\
  (forall path mode w r e w', chmod sys path mode w = ((r, e), w') -> r <> 0 -> 0 < e) /\
  (forall path uid gid w r e w', chown sys path uid gid w = ((r, e), w') -> r <> 0 -> 0 < e).

(** The objects of a location in the order of the directory, each with the
    value its load returned and its critical bit. *)
Fixpoint load_objects (bpfloader_ver : Z) (location : Location) (ents : list string)
    : M W (list (Z * bool)) :=
  match ents with
  | [] => Ret []
  | s :: rest =>
      if negb (EndsWith s ".o") then load_objects bpfloader_ver location rest
      else
        r <- loadProg (loc_dir location ++ s) bpfloader_ver location ;;
        rs <- load_objects bpfloader_ver location rest ;;
        Ret (r :: rs)
  end.

(** The first critical per-object error of the results, or zero. *)
Fixpoint first_critical_error (rs : list (Z * bool)) : Z :=
  match rs with
  | [] => 0
  | (ret, critical) :: rest =>
      if negb (ret =? 0) && critical then ret else first_critical_error rest
  end.

(** [r] is the last critical per-object error of the results, or zero when
    no critical object failed. *)
Definition last_critical_error (rs : list (Z * bool)) (r : Z) : Prop :=
  (r = 0 /\ forall ret critical, In (ret, critical) rs -> ret <> 0 -> critical = false) \/
  (r <> 0 /\ exists pre post,
     rs = pre ++ (r, true) :: post /\
     forall ret critical, In (ret, critical) post -> ret <> 0 -> critical = false).

End Loader.

Arguments isEng {W} sys.
Arguments isUser {W} sys.
Arguments isUserdebug {W} sys.
Arguments mapMatchesExpectations {W} sys fd mapDef type w.
Arguments createMaps_type {W} sys m.
Arguments createMaps_max_entries {W} sys m type.
Arguments createMaps_obtain {W} sys m type max_entries mapName mapPinLoc.
Arguments createMaps_pin {W} sys objName m selinux_context fd mapName mapPinLoc.
Arguments createMaps_create {W} sys objName prefix m mapName st.
Arguments createMaps_body hdr {W} sys objName prefix bpfloader_ver kvers md mapNames i st.
Arguments createMaps std_sort hdr {W} sys elfPath prefix sizeOfBpfMapDef bpfloader_ver.
Arguments loadCodeSections_body hdr {W} sys elfPath objName license prefix bpfloader_ver kvers c _.
Arguments loadCodeSections hdr {W} sys elfPath cs license prefix bpfloader_ver.
Arguments loadProg_load std_sort hdr {W} sys elfPath bpfloader_ver location isCritical license
  sizeOfBpfMapDef sizeOfBpfProgDef.
Arguments loadProg_stream std_sort hdr {W} sys elfPath bpfloader_ver location.
Arguments loadProg std_sort hdr {W} sys elfPath bpfloader_ver location.
Arguments loadAllElfObjects_body std_sort hdr {W} sys bpfloader_ver location s retVal.
Arguments loadAllElfObjects std_sort hdr {W} sys bpfloader_ver location.
Arguments map_gated_out {W} sys bpfloader_ver m.
Arguments prog_gated_out {W} sys bpfloader_ver p.
Arguments desired_max_entries {W} sys m type.
Arguments errno_set {W} sys.
Arguments aligned hdr {W} sys ver md fds.
Arguments load_objects std_sort hdr {W} sys bpfloader_ver location ents.


(** * Further notions, for the properties of the readers and the loader *)

(** The pin location of the program of a code section, and the request by
    which the program is loaded, as [loadCodeSections] makes them. *)
Definition prog_pin_loc (objName prefix : string) (pin_subdir : domain) (c : codeSection)
    : string :=
  (BPF_FS_PATH ++ lookupPinSubdir pin_subdir prefix ++ "prog_" ++
   objName ++ "_" ++ strip_from_last "$" (cs_name c))%string.

Definition prog_load_req {W : Type} (sys : Sys W) (license : string) (c : codeSection)
    : bpf_prog_load_req :=
  {| req_prog_type := cs_type c;
     req_kern_version := kernelVersion sys;
     req_license := license;
     req_insns := cs_data c;
     req_insn_cnt := cast_uint (Z.of_nat (List.length (cs_data c)) / sizeof_bpf_insn);
     req_expected_attach_type := cs_expected_attach_type c;
     req_prog_name :=
       if isAtLeastKernelVersion sys 4 15 0
       then strlcpy (cs_name c) BPF_OBJ_NAME_LEN else EmptyString |}.

(** No name of the list is a prefix of another. *)
Fixpoint prefix_free (names : list string) : bool :=
  match names with
  | [] => true
  | n :: rest =>
      forallb (fun m => negb (String.prefix n m) && negb (String.prefix m n)) rest &&
      prefix_free rest
  end.

(** The character [c] occurs in [s]. *)
Fixpoint has_char (c : ascii) (s : string) : bool :=
  match s with
  | EmptyString => false
  | String a rest => Ascii.eqb a c || has_char c rest
  end.

(** No byte of [t] is NUL. *)
Definition nul_free (t : list byte) : bool :=
  forallb (fun b => negb (Byte.eqb b NUL)) t.

(** The array [s] holds the C string [tok]: its characters, then a NUL. *)
Definition holds_token (s : list byte) (tok : string) : Prop :=
  firstn (S (String.length tok)) s = list_byte_of_string tok ++ [NUL].

(** [data] is [orig] with map descriptors placed into some of its 64-bit
    immediate loads: the length, every opcode, destination register and
    offset field are those of [orig], and an instruction that is not a
    64-bit immediate load is unchanged. *)
Definition relocated_from (orig data : list byte) : Prop :=
  List.length data = List.length orig /\
  forall idx : nat,
    insn_code data idx = insn_code orig idx /\
    insn_dst_reg data idx = insn_dst_reg orig idx /\
    nth (8 * idx + 2) data NUL = nth (8 * idx + 2) orig NUL /\
    nth (8 * idx + 3) data NUL = nth (8 * idx + 3) orig NUL /\
    (insn_code orig idx <> BPF_LD_IMM_DW ->
     forall k, (k < 8)%nat -> nth (8 * idx + k) data NUL = nth (8 * idx + k) orig NUL).

(** The code sections [cs'] are the sections [cs] after relocation. *)
Definition sections_relocated (cs cs' : list codeSection) : Prop :=
  Forall2 (fun c c' =>
             cs_type c' = cs_type c /\
             cs_expected_attach_type c' = cs_expected_attach_type c /\
             cs_name c' = cs_name c /\
             cs_rel_data c' = cs_rel_data c /\
             cs_prog_def c' = cs_prog_def c /\
             cs_prog_fd c' = cs_prog_fd c /\
             relocated_from (cs_data c) (cs_data c')) cs cs'.

(** What a reader of sections leaves behind: the file is the same, and the
    stream is good after the codes 0 and -2 and failed after -1 and
    -ENOMEM. *)
Definition reader_outcome (s : ifstream) (ret : Z) (s' : ifstream) : Prop :=
  s_file s' = s_file s /\
  ((s_fail s' = false /\ (ret = 0 \/ ret = -2)) \/
   (s_fail s' = true /\ (ret = -1 \/ ret = - ENOMEM))).

(** The name of a section: the C string at [sh_name] in the string table of
    section names. *)
Definition section_name (strtab : list byte) (sh : Elf64_Shdr) : option string :=
  cstr_at strtab (sh_name sh).

(** The bytes of the file at [off], [size] of them. *)
Definition file_bytes (file : list byte) (off size : Z) : list byte :=
  firstn (Z.to_nat size) (skipn (Z.to_nat off) file).

(** What [readCodeSections] collects from the object that the stream [s]
    reads: the bytes of a section of the object, the [i]-th, that has code,
    under the name [oldName] of that section with its slashes replaced,
    with the program type and the attach type that the table of section
    names gives to [oldName], and not loaded yet. *)
Definition code_section_ok (s : ifstream) (c : codeSection) : Prop :=
  exists shTable s0 i sh oldName s1 s2,
    readSectionHeadersAll s = Val ((0, shTable), s0) /\
    0 <= i /\
    nth_error shTable (Z.to_nat i) = Some sh /\
    getSymName (cast_int (sh_name sh)) s = Val ((0, oldName), s1) /\
    readSectionByIdx i s = Val ((0, cs_data c), s2) /\
    cs_data c <> [] /\
    cs_name c = replace_char "/" "_" oldName /\
    has_char "/" (cs_name c) = false /\
    cs_type c = getSectionType oldName /\
    cs_type c <> BPF_PROG_TYPE_UNSPEC /\
    cs_expected_attach_type c = getExpectedAttachType oldName /\
    cs_prog_fd c = -1.

(** ** Startup (NetBpfLoad.cpp: the search locations, [doLoad] and [main]) *)

Definition ENOENT : Z := 2.
Definition EEXIST : Z := 17.

(** API levels of android/api-level.h. *)
Definition ANDROID_API_T : Z := 33.
Definition ANDROID_API_U : Z := 34.
Definition ANDROID_API_V : Z := 35.

Definition locations : list Location :=
  [ (* S+ Tethering mainline module (network_stack): tether offload *)
    mkLocation "/apex/com.android.tethering/etc/bpf/" "tethering/";
    (* T+ Tethering mainline module (shared with netd & system server) *)
    mkLocation "/apex/com.android.tethering/etc/bpf/netd_shared/" "netd_shared/";
    (* T+ Tethering mainline module (shared with netd & system server) *)
    mkLocation "/apex/com.android.tethering/etc/bpf/netd_readonly/" "netd_readonly/";
    (* T+ Tethering mainline module (shared with system server) *)
    mkLocation "/apex/com.android.tethering/etc/bpf/net_shared/" "net_shared/";
    (* T+ Tethering mainline module (not shared, just network_stack) *)
    mkLocation "/apex/com.android.tethering/etc/bpf/net_private/" "net_private/" ]%string.

Definition platformBpfLoader : string := "/system/bin/bpfloader".

(** What the startup code reaches beyond [Sys]: the process, the system
    properties, and the system calls on files and on one test map.  The
    release of descriptors at the end of a scope is not modelled. *)
Record Platform (W : Type) : Type := mkPlatform {
  getuid : Z;
  GetProperty : string -> string -> string;      (* key, default value *)
  GetIntProperty : string -> Z -> Z;
  android_get_device_api_level : Z;
  isUserspace32bit : bool;
  access_errno : string -> W -> Z;               (* errno of a failed access(path, F_OK) *)
  umask : Z -> W -> Z * W;
  mkdir : string -> Z -> W -> (Z * Z) * W;       (* the result and errno, zero before the call *)
  open_WRONLY : string -> W -> (Z * Z) * W;      (* open(path, O_WRONLY | O_CLOEXEC) *)
  write : Z -> string -> W -> (Z * Z) * W;
  sleep : Z -> W -> W;
  createMap : Z -> Z -> Z -> Z -> Z -> W -> Z * W;
  writeToMapEntry : Z -> Z -> Z -> Z -> W -> Z * W;
  execve : string -> W -> bool * W;              (* true: the new program has taken over *)
  SetProperty : string -> string -> W -> bool * W
}.
Arguments getuid {W} _.
Arguments GetProperty {W} _ _ _.
Arguments GetIntProperty {W} _ _ _.
Arguments android_get_device_api_level {W} _.
Arguments isUserspace32bit {W} _.
Arguments access_errno {W} _ _ _.
Arguments umask {W} _ _ _.
Arguments mkdir {W} _ _ _ _.
Arguments open_WRONLY {W} _ _ _.
Arguments write {W} _ _ _ _.
Arguments sleep {W} _ _ _.
Arguments createMap {W} _ _ _ _ _ _ _.
Arguments writeToMapEntry {W} _ _ _ _ _ _.
Arguments execve {W} _ _ _.
Arguments SetProperty {W} _ _ _ _.

(** How the process ends: [main] returns a code, or another program has
    replaced this one ([execve] does not return then). *)
Inductive exit_status : Type :=
| Exited (code : Z)
| Replaced (path : string).

(** [Tokenize(s, ",")]: the non-empty pieces of [s] between commas.  [cur]
    holds the characters of the current piece, last first. *)
Fixpoint Tokenize_from (cur : list ascii) (s : string) : list string :=
  let flush rest :=
    match cur with
    | [] => rest
    | _ => string_of_list_ascii (rev cur) :: rest
    end in
  match s with
  | EmptyString => flush []
  | String c s' =>
      if Ascii.eqb c ","%char then flush (Tokenize_from [] s')
      else Tokenize_from (c :: cur) s'
  end.

Definition Tokenize (s : string) : list string := Tokenize_from [] s.

Section Startup.

Variable std_sort : (Elf64_Sym -> Elf64_Sym -> bool) -> list Elf64_Sym -> list Elf64_Sym.
Variable hdr : Headers.
Variable W : Type.
Variable sys : Sys W.
Variable plat : Platform W.

(** [exists(path)]; an error other than ENOENT aborts. *)
Definition exists_ (path : string) : M W bool := fun w =>
  if access_F_OK sys path w then Val (true, w)
  else if access_errno plat path w =? ENOENT then Val (false, w)
  else Abort.

Definition createSysFsBpfSubDir (prefix : string) : M W Z :=
  if negb (String.eqb prefix "") then
    prevUmask <- call (umask plat 0) ;;
    let s := ("/sys/fs/bpf/" ++ prefix)%string in
    '(ret, err) <- call (mkdir plat s 1023 (* S_ISVTX | S_IRWXU | S_IRWXG | S_IRWXO *)) ;;
    if negb (ret =? 0) && negb (err =? EEXIST) then Ret (- err) else
    _ <- call (umask plat prevUmask) ;;
    Ret 0
  else Ret 0.

(** Technically 'value' doesn't need to be newline terminated, but it's best
    to include a newline. *)
Definition writeProcSysFile (filename value : string) : M W Z :=
  '(fd, err) <- call (open_WRONLY plat filename) ;;
  if fd <? 0 then Ret (- err) else
  let len := cast_int (Z.of_nat (String.length value)) in
  '(v, err) <- call (write plat fd value) ;;
  if v <? 0 then Ret (- err) else
  if negb (v =? len) then Ret (- EINVAL) else
  Ret 0.

Definition hasGSM : bool :=
  negb (String.eqb (GetProperty plat "gsm.current.phone-type" "") "").

Definition isTV : bool :=
  if hasGSM then false   (* TVs don't do GSM *)
  else StartsWith (GetProperty plat "ro.oem.key1" "") "ATV00".

Definition isWear : bool :=
  let wearSdkInt := GetIntProperty plat "ro.cw_build.wear_sdk.version" 0 in
  let buildChars := GetProperty plat "ro.build.characteristics" "" in
  let v := Tokenize buildChars in
  let watch := existsb (String.eqb "watch") v in
  (0 <? wearSdkInt) || watch.

(** Any released device will have codename REL instead of a 'real'
    codename. *)
Definition unreleased : bool :=
  negb (String.eqb (GetProperty plat "ro.build.version.codename" "REL") "REL").

Definition effective_api_level : Z :=
  android_get_device_api_level plat + (if unreleased then 1 else 0).

Definition runningAsRoot : bool := getuid plat =? 0.   (* true iff U QPR3 or V+ *)
Definition isAtLeastT : bool := ANDROID_API_T <=? effective_api_level.
Definition isAtLeastU : bool := ANDROID_API_U <=? effective_api_level.
Definition isAtLeastV : bool := ANDROID_API_V <=? effective_api_level.

(** Version of Network BpfLoader depends on the Android OS version *)
Definition bpfloader_version : Z :=
  let bpfloader_ver := 42 in                                            (* [42] MAINLINE *)
  let bpfloader_ver := if isAtLeastT then bpfloader_ver + 1 else bpfloader_ver in  (* [43] *)
  let bpfloader_ver := if isAtLeastU then bpfloader_ver + 1 else bpfloader_ver in  (* [44] *)
  let bpfloader_ver := if runningAsRoot then bpfloader_ver + 1 else bpfloader_ver in (* [45] *)
  let bpfloader_ver := if isAtLeastV then bpfloader_ver + 1 else bpfloader_ver in  (* [46] *)
  bpfloader_ver.

(** The part of [doLoad] after the checks of the platform: the proc files,
    the pin subdirectories, the objects of all locations, the test of the
    kernel, and the hand-over to the platform loader. *)
Definition doLoad_load (bpfloader_ver : Z) : M W exit_status :=
  r <- (if runningAsRoot then
          (* Linux 5.16-rc1 changed the default to 2 (disabled but changeable),
             but we need 0 (enabled) *)
          ret <- writeProcSysFile "/proc/sys/kernel/unprivileged_bpf_disabled"
                   (String (ascii_of_nat 48) (String (ascii_of_nat 10) EmptyString)) ;;
          Ret (negb (ret =? 0) && isAtLeastKernelVersion sys 5 13 0)
        else Ret false) ;;
  if r : bool then Ret (Exited 1) else
  r <- (if isAtLeastU then
          (* Enable the eBPF JIT *)
          ret <- writeProcSysFile "/proc/sys/net/core/bpf_jit_enable"
                   (String (ascii_of_nat 49) (String (ascii_of_nat 10) EmptyString)) ;;
          if negb (ret =? 0) then Ret true else
          (* Enable JIT kallsyms export for privileged users only *)
          ret <- writeProcSysFile "/proc/sys/net/core/bpf_jit_kallsyms"
                   (String (ascii_of_nat 49) (String (ascii_of_nat 10) EmptyString)) ;;
          Ret (negb (ret =? 0))
        else Ret false) ;;
  if r : bool then Ret (Exited 1) else
  (* Create all the pin subdirectories *)
  r <- for_each locations
         (fun location (_ : unit) =>
            ret <- createSysFsBpfSubDir (loc_prefix location) ;;
            if negb (ret =? 0) then Ret (Return (Exited 1)) else Ret (Continue tt))
         tt ;;
  match r with
  | inl status => Ret status
  | inr _ =>
      ret <- createSysFsBpfSubDir "loader" ;;
      if negb (ret =? 0) then Ret (Exited 1) else
      (* Load all ELF objects, create programs and maps, and pin them *)
      r <- for_each locations
             (fun location (_ : unit) =>
                ret <- loadAllElfObjects std_sort hdr sys bpfloader_ver location ;;
                if negb (ret =? 0) then
                  _ <- call (fun w => (tt, sleep plat 20 w)) ;;
                  Ret (Return (Exited 2))
                else Ret (Continue tt))
             tt ;;
      match r with
      | inl status => Ret status
      | inr _ =>
          let key := 1 in
          let value := 123 in
          map <- call (createMap plat BPF_MAP_TYPE_ARRAY 4 4 2 0) ;;
          ret <- call (writeToMapEntry plat map key value 0 (* BPF_ANY *)) ;;
          if negb (ret =? 0) then Ret (Exited 1) else
          (* leave a flag that we're done *)
          ret <- createSysFsBpfSubDir "netd_shared/mainline_done" ;;
          if negb (ret =? 0) then Ret (Exited 1) else
          (* platform bpfloader will only succeed when run as root *)
          if negb runningAsRoot then Ret (Exited 0) else
          (* platform BpfLoader *needs* to run as root *)
          replaced <- call (execve plat platformBpfLoader) ;;
          if replaced : bool then Ret (Replaced platformBpfLoader) else Ret (Exited 1)
      end
  end.

(** [doLoad(argv, envp)].  The checks of the kernel against the LTS releases
    and [logTetheringApexVersion] only log; they are left out. *)
Definition doLoad : M W exit_status :=
  if 2 ^ 31 <=? effective_api_level then undefined else
  (* last in U QPR2 beta1 *)
  has_platform_bpfloader_rc <- exists_ "/system/etc/init/bpfloader.rc" ;;
  (* first in U QPR2 beta~2 *)
  has_platform_netbpfload_rc <- exists_ "/system/etc/init/netbpfload.rc" ;;
  let bpfloader_ver := bpfloader_version in
  if negb has_platform_bpfloader_rc && negb has_platform_netbpfload_rc
  then Ret (Exited 1) else
  if has_platform_bpfloader_rc && has_platform_netbpfload_rc
  then Ret (Exited 1) else
  if negb isAtLeastT then Ret (Exited 1) else
  (* both S and T require kernel 4.9 (and eBpf support) *)
  if isAtLeastT && negb (isAtLeastKernelVersion sys 4 9 0) then Ret (Exited 1) else
  (* U bumps the kernel requirement up to 4.14 *)
  if isAtLeastU && negb (isAtLeastKernelVersion sys 4 14 0) then Ret (Exited 1) else
  (* V bumps the kernel requirement up to 4.19 *)
  if isAtLeastV && negb (isAtLeastKernelVersion sys 4 19 0) then Ret (Exited 1) else
  (* Technically already required by U, but only enforce on V+ *)
  if isAtLeastV && isKernel32Bit sys && isAtLeastKernelVersion sys 5 16 0 && negb isTV
  then Ret (Exited 1) else
  (* Various known ABI layout issues, particularly wrt. bpf and ipsec/xfrm. *)
  if isAtLeastV && isKernel32Bit sys && isX86 sys && negb isTV then Ret (Exited 1) else
  if isUserspace32bit plat && isAtLeastKernelVersion sys 6 2 0 &&
     (negb isTV && negb (isWear && isArm sys))
  then Ret (Exited 1) else
  (* Ensure we can determine the Android build type. *)
  if negb (isEng sys) && negb (isUser sys) && negb (isUserdebug sys) then Ret (Exited 1) else
  doLoad_load bpfloader_ver.

(** [main(argc, argv, envp)]; [argv] holds the [argc] arguments. *)
Definition main (argv : list string) : M W exit_status :=
  match argv with
  | [_; arg1] =>
      if String.eqb arg1 "done" then
        (* we're being re-exec'ed from platform bpfloader to 'finalize' things *)
        ok <- call (SetProperty plat "bpf.progs_loaded" "1") ;;
        if negb ok then Ret (Exited 125) else Ret (Exited 0)
      else doLoad
  | _ => doLoad
  end.

(** What [doLoad] has checked of the platform when it goes on to load. *)
Definition platform_checked (w : W) : Prop :=
  xorb (access_F_OK sys "/system/etc/init/bpfloader.rc" w)
       (access_F_OK sys "/system/etc/init/netbpfload.rc" w) = true /\
  isAtLeastT = true /\
  isAtLeastKernelVersion sys 4 9 0 = true /\
  (isAtLeastU = true -> isAtLeastKernelVersion sys 4 14 0 = true) /\
  (isAtLeastV = true -> isAtLeastKernelVersion sys 4 19 0 = true) /\
  (isAtLeastV = true -> isKernel32Bit sys = true ->
   isAtLeastKernelVersion sys 5 16 0 = true \/ isX86 sys = true -> isTV = true) /\
  (isUserspace32bit plat = true -> isAtLeastKernelVersion sys 6 2 0 = true ->
   isTV = true \/ (isWear = true /\ isArm sys = true)) /\
  (isEng sys = true \/ isUser sys = true \/ isUserdebug sys = true) /\
  43 <= bpfloader_version <= 46.

End Startup.

Arguments exists_ {W} sys plat path.
Arguments createSysFsBpfSubDir {W} plat prefix.
Arguments writeProcSysFile {W} plat filename value.
Arguments hasGSM {W} plat.
Arguments isTV {W} plat.
Arguments isWear {W} plat.
Arguments unreleased {W} plat.
Arguments effective_api_level {W} plat.
Arguments runningAsRoot {W} plat.
Arguments isAtLeastT {W} plat.
Arguments isAtLeastU {W} plat.
Arguments isAtLeastV {W} plat.
Arguments bpfloader_version {W} plat.
Arguments doLoad_load std_sort hdr {W} sys plat bpfloader_ver.
Arguments doLoad std_sort hdr {W} sys plat.
Arguments main std_sort hdr {W} sys plat argv.
Arguments platform_checked {W} sys plat w.


(** * Concrete objects and a concrete world, for running the loader *)

Module Fixture.

(** ** A writer of ELF relocatable objects *)

Inductive sec_content : Type :=
| Data (b : list byte)
| Symtab      (* the symbol table made of the symbols given *)
| Strtab.     (* the string table of all section and symbol names *)

Record sec_spec : Type := mkSec {
  sec_name : string;
  sec_type : Z;
  sec_body : sec_content
}.

Record sym_spec : Type := mkSymSpec {
  sym_name : string;
  sym_info : Z;
  sym_shndx : Z;
  sym_value : Z
}.

Definition u8 (v : Z) : list byte := le_split 1 v.
Definition u16 (v : Z) : list byte := le_split 2 v.
Definition u32 (v : Z) : list byte := le_split 4 v.
Definition u64 (v : Z) : list byte := le_split 8 v.
Definition zeros (n : nat) : list byte := repeat NUL n.

(** The offsets of the names in a string table that starts with a NUL. *)
Fixpoint name_offsets (names : list string) (off : Z) : list Z :=
  match names with
  | [] => []
  | n :: rest => off :: name_offsets rest (off + Z.of_nat (String.length n) + 1)
  end.

Definition strtab_bytes (names : list string) : list byte :=
  NUL :: List.concat (map (fun n => list_byte_of_string n ++ [NUL]) names).

Definition encode_sym (name_off : Z) (s : sym_spec) : list byte :=
  u32 name_off ++ u8 (sym_info s) ++ u8 0 ++ u16 (sym_shndx s) ++
  u64 (sym_value s) ++ u64 0.

Definition encode_shdr (name_off type offset size : Z) : list byte :=
  u32 name_off ++ u32 type ++ u64 0 ++ u64 0 ++ u64 offset ++ u64 size ++
  u32 0 ++ u32 0 ++ u64 0 ++ u64 0.

Definition encode_ehdr (shoff shnum shstrndx : Z) : list byte :=
  [Byte.x7f; Byte.x45; Byte.x4c; Byte.x46; Byte.x02; Byte.x01; Byte.x01; Byte.x00] ++
  zeros 8 ++ u16 1 ++ u16 247 ++ u32 1 ++ u64 0 ++ u64 0 ++ u64 shoff ++
  u32 0 ++ u16 64 ++ u16 0 ++ u16 0 ++ u16 64 ++ u16 shnum ++ u16 shstrndx.

Fixpoint section_offsets (bodies : list (list byte)) (off : Z) : list Z :=
  match bodies with
  | [] => []
  | b :: rest => off :: section_offsets rest (off + Z.of_nat (List.length b))
  end.

Definition is_strtab (s : sec_spec) : bool :=
  match sec_body s with Strtab => true | _ => false end.

Definition mk_elf (secs : list sec_spec) (syms : list sym_spec) : list byte :=
  let names := map sec_name secs ++ map sym_name syms in
  let offs := name_offsets names 1 in
  let sec_offs := firstn (List.length secs) offs in
  let sym_offs := skipn (List.length secs) offs in
  let strtab := strtab_bytes names in
  let symtab := List.concat (map (fun '(o, s) => encode_sym o s) (combine sym_offs syms)) in
  let bodies :=
    map (fun s => match sec_body s with
                  | Data b => b
                  | Symtab => symtab
                  | Strtab => strtab
                  end) secs in
  let offsets := section_offsets bodies 64 in
  let shoff := 64 + Z.of_nat (List.length (List.concat bodies)) in
  let shdrs :=
    List.concat (map (fun '(s, (no, (b, o))) =>
                   encode_shdr no (sec_type s) o (Z.of_nat (List.length b)))
                (combine secs (combine sec_offs (combine bodies offsets)))) in
  let shstrndx :=
    match find_index is_strtab secs 0 with Some k => Z.of_nat k | None => 0 end in
  encode_ehdr shoff (Z.of_nat (List.length secs)) shstrndx ++ List.concat bodies ++ shdrs.

(** A file on a device: its file system takes offsets up to 16 TiB less
    one block of 4 KiB (ext4 with such blocks), and a process gets buffers
    of up to 1 GiB. *)
Definition on_disk (bytes : list byte) : file :=
  {| f_bytes := bytes;
     f_maxbytes := 17592186040320;
     f_maxalloc := 1073741824 |}.

Definition stream_of (bytes : list byte) : ifstream :=
  {| s_file := on_disk bytes; s_pos := 0; s_fail := false |}.

Definition SHT_NULL : Z := 0.
Definition SHT_PROGBITS : Z := 1.
Definition SHT_STRTAB : Z := 3.
Definition SHT_REL : Z := 9.

Definition null_sec : sec_spec := mkSec "" SHT_NULL (Data []).
Definition symtab_sec : sec_spec := mkSec ".symtab" SHT_SYMTAB Symtab.
Definition strtab_sec : sec_spec := mkSec ".strtab" SHT_STRTAB Strtab.
Definition data_sec (name : string) (b : list byte) : sec_spec :=
  mkSec name SHT_PROGBITS (Data b).
Definition string_sec (name : string) (s : string) : sec_spec :=
  mkSec name SHT_PROGBITS (Data (list_byte_of_string s ++ [NUL])).
Definition uint_sec (name : string) (v : Z) : sec_spec :=
  mkSec name SHT_PROGBITS (Data (u32 v)).

(** ** A layout of the definition structs, in the manner of bpf_map_def.h *)

Definition flag (off : nat) (b : list byte) : bool := negb (field off 1 b =? 0).
Definition bit (off : nat) (k : Z) (b : list byte) : bool := Z.testbit (field off 1 b) k.

Definition sample_view_map_def (b : list byte) : bpf_map_def :=
  {| md_type := field 0 4 b;
     md_key_size := field 4 4 b;
     md_value_size := field 8 4 b;
     md_max_entries := field 12 4 b;
     md_map_flags := field 16 4 b;
     md_zero := field 20 4 b;
     md_gid := field 24 4 b;
     md_mode := field 28 4 b;
     md_bpfloader_min_ver := field 32 4 b;
     md_bpfloader_max_ver := field 36 4 b;
     md_min_kver := field 40 4 b;
     md_max_kver := field 44 4 b;
     md_selinux_context := firstn 32 (skipn 48 b);
     md_pin_subdir := firstn 32 (skipn 80 b);
     md_shared := flag 112 b;
     md_ignore_on_eng := bit 113 0 b;
     md_ignore_on_user := bit 113 1 b;
     md_ignore_on_userdebug := bit 113 2 b;
     md_ignore_on_arm32 := bit 113 3 b;
     md_ignore_on_aarch64 := bit 113 4 b;
     md_ignore_on_x86_32 := bit 113 5 b;
     md_ignore_on_x86_64 := bit 113 6 b;
     md_ignore_on_riscv64 := bit 113 7 b;
     md_uid := field 116 4 b |}.

Definition sample_view_prog_def (b : list byte) : bpf_prog_def :=
  {| pd_uid := field 0 4 b;
     pd_gid := field 4 4 b;
     pd_min_kver := field 8 4 b;
     pd_max_kver := field 12 4 b;
     pd_optional := flag 16 b;
     pd_ignore_on_eng := bit 17 0 b;
     pd_ignore_on_user := bit 17 1 b;
     pd_ignore_on_userdebug := bit 17 2 b;
     pd_ignore_on_arm32 := bit 17 3 b;
     pd_ignore_on_aarch64 := bit 17 4 b;
     pd_ignore_on_x86_32 := bit 17 5 b;
     pd_ignore_on_x86_64 := bit 17 6 b;
     pd_ignore_on_riscv64 := bit 17 7 b;
     pd_bpfloader_min_ver := field 20 4 b;
     pd_bpfloader_max_ver := field 24 4 b;
     pd_selinux_context := firstn 32 (skipn 28 b);
     pd_pin_subdir := firstn 32 (skipn 60 b) |}.

Definition sample_hdr : Headers :=
  {| DEFAULT_BPFLOADER_MIN_VER := 0;
     DEFAULT_BPFLOADER_MAX_VER := 65536;
     DEFAULT_SIZEOF_BPF_MAP_DEF := 32;
     DEFAULT_SIZEOF_BPF_PROG_DEF := 20;
     sizeof_bpf_map_def := 120;
     sizeof_bpf_prog_def := 92;
     offsetof_map_bpfloader_max_ver := 36;
     offsetof_map_max_kver := 44;
     offsetof_prog_bpfloader_max_ver := 24;
     view_map_def := sample_view_map_def;
     view_prog_def := sample_view_prog_def |}.

(** A token in a [char[32]] array. *)
Definition token (s : string) : list byte :=
  list_byte_of_string s ++ zeros (32 - String.length s).

(** The records as an object file of the full width holds them. *)
Definition encode_map_def (type key_size value_size max_entries map_flags : Z)
    (min_ver max_ver min_kver max_kver : Z) (selinux_context pin_subdir : string)
    (shared : bool) (ignore_bits : Z) : list byte :=
  u32 type ++ u32 key_size ++ u32 value_size ++ u32 max_entries ++ u32 map_flags ++
  u32 0 ++ u32 0 ++ u32 432 ++ u32 min_ver ++ u32 max_ver ++ u32 min_kver ++ u32 max_kver ++
  token selinux_context ++ token pin_subdir ++
  u8 (if shared then 1 else 0) ++ u8 ignore_bits ++ zeros 2 ++ u32 0.

Definition encode_prog_def (min_kver max_kver : Z) (optional : bool) (ignore_bits : Z)
    (min_ver max_ver : Z) (selinux_context pin_subdir : string) : list byte :=
  u32 0 ++ u32 0 ++ u32 min_kver ++ u32 max_kver ++
  u8 (if optional then 1 else 0) ++ u8 ignore_bits ++ zeros 2 ++
  u32 min_ver ++ u32 max_ver ++ token selinux_context ++ token pin_subdir.

(** ** A sort: insertion into a sorted list *)

Fixpoint insert_by (lt : Elf64_Sym -> Elf64_Sym -> bool) (x : Elf64_Sym)
    (l : list Elf64_Sym) : list Elf64_Sym :=
  match l with
  | [] => [x]
  | y :: rest => if lt y x then y :: insert_by lt x rest else x :: l
  end.

Definition sample_sort (lt : Elf64_Sym -> Elf64_Sym -> bool) (l : list Elf64_Sym)
    : list Elf64_Sym :=
  fold_right (insert_by lt) [] l.

(** ** A small kernel: descriptors and pins, and a file system to read *)

Inductive kobj : Type :=
| KMap (type key_size value_size max_entries map_flags : Z)
| KProg.

Record world : Type := mkWorld {
  w_files : list (string * list byte);
  w_dirs : list (string * list string);
  w_fds : list kobj;                 (* descriptor 3 + k is the k-th *)
  w_pins : list (string * kobj)
}.

Fixpoint assoc {A : Type} (k : string) (l : list (string * A)) : option A :=
  match l with
  | [] => None
  | (k', v) :: rest => if String.eqb k k' then Some v else assoc k rest
  end.

Fixpoint remove_key {A : Type} (k : string) (l : list (string * A)) : list (string * A) :=
  match l with
  | [] => []
  | (k', v) :: rest =>
      if String.eqb k k' then remove_key k rest else (k', v) :: remove_key k rest
  end.

Definition fd_obj (fd : Z) (w : world) : option kobj :=
  if fd <? 3 then None else nth_error (w_fds w) (Z.to_nat (fd - 3)).

Definition new_fd (o : kobj) (w : world) : Z * world :=
  (3 + Z.of_nat (List.length (w_fds w)),
   {| w_files := w_files w; w_dirs := w_dirs w;
      w_fds := w_fds w ++ [o]; w_pins := w_pins w |}).

Definition set_pins (pins : list (string * kobj)) (w : world) : world :=
  {| w_files := w_files w; w_dirs := w_dirs w; w_fds := w_fds w; w_pins := pins |}.

Definition open_pin (path : string) (w : world) : Z * Z * world :=
  match assoc path (w_pins w) with
  | Some o => let '(fd, w') := new_fd o w in (fd, 0, w')
  | None => (-1, 2, w)
  end.

Definition map_attr (sel : Z -> Z -> Z -> Z -> Z -> Z) (fd : Z) (w : world) : Z :=
  match fd_obj fd w with
  | Some (KMap t k v m f) => sel t k v m f
  | _ => -1
  end.

Definition KVER (a b c : Z) : Z := a * 2 ^ 24 + b * 2 ^ 16 + c.

(** The last instruction of a program the toy verifier accepts is [exit]. *)
Definition verifier_accepts (insns : list byte) : bool :=
  match rev (chunks 8 (List.length insns / 8) insns) with
  | last :: _ => field 0 1 last =? 149
  | [] => false
  end.

Definition sample_sys (kver : Z) (build : string) : Sys world :=
  {| kernelVersion := kver;
     isAtLeastKernelVersion := fun a b c => KVER a b c <=? kver;
     page_size := 4096;
     getBuildType := build;
     isArm := true;
     isX86 := false;
     isRiscV := false;
     isKernel32Bit := false;
     isKernel64Bit := true;
     readdir_all := fun dir w => assoc dir (w_dirs w);
     open_file := fun path w => option_map on_disk (assoc path (w_files w));
     access_F_OK := fun path w =>
       match assoc path (w_pins w) with Some _ => true | None => false end;
     mapRetrieveRO := open_pin;
     bpf_MAP_CREATE := fun req w =>
       let flags :=
         if (req_map_type req =? BPF_MAP_TYPE_DEVMAP) ||
            (req_map_type req =? BPF_MAP_TYPE_DEVMAP_HASH)
         then Z.lor (req_map_flags req) BPF_F_RDONLY_PROG
         else req_map_flags req in
       let '(fd, w') :=
         new_fd (KMap (req_map_type req) (req_key_size req) (req_value_size req)
                   (req_max_entries req) flags) w in
       (fd, 0, w');
     retrieveProgram := fun path w => let '(fd, _, w') := open_pin path w in (fd, w');
     bpf_PROG_LOAD := fun req w =>
       if verifier_accepts (req_insns req) then new_fd KProg w else (-1, w);
     bpfFdPin := fun fd path w =>
       match fd_obj fd w, assoc path (w_pins w) with
       | Some o, None => (0, 0, set_pins ((path, o) :: w_pins w) w)
       | Some _, Some _ => (-1, 17, w)
       | None, _ => (-1, 9, w)
       end;
     renameat2_NOREPLACE := fun from to w =>
       match assoc from (w_pins w), assoc to (w_pins w) with
       | Some o, None => (0, 0, set_pins ((to, o) :: remove_key from (w_pins w)) w)
       | Some _, Some _ => (-1, 17, w)
       | None, _ => (-1, 2, w)
       end;
     chmod := fun _ _ w => (0, 0, w);
     chown := fun _ _ _ w => (0, 0, w);
     bpfGetFdMapType := map_attr (fun t _ _ _ _ => t);
     bpfGetFdKeySize := map_attr (fun _ k _ _ _ => k);
     bpfGetFdValueSize := map_attr (fun _ _ v _ _ => v);
     bpfGetFdMaxEntries := map_attr (fun _ _ _ m _ => m);
     bpfGetFdMapFlags := map_attr (fun _ _ _ _ f => f) |}.

Definition world_of (files : list (string * list byte))
    (dirs : list (string * list string)) : world :=
  {| w_files := files; w_dirs := dirs; w_fds := []; w_pins := [] |}.

(** One instruction. *)
Definition insn (code regs imm : Z) : list byte := u8 code ++ u8 regs ++ u16 0 ++ u32 imm.

(** ** Objects *)

(** Two hash maps, [map_a] for loaders from version 100 on and [map_b] for
    all, and one XDP program that loads the descriptor of [map_b]. *)
Definition elf_good : list byte :=
  mk_elf
    [ null_sec;
      string_sec "license" "Apache 2.0";
      uint_sec "bpfloader_min_ver" 0;
      uint_sec "bpfloader_max_ver" 65536;
      uint_sec "size_of_bpf_map_def" 120;
      uint_sec "size_of_bpf_prog_def" 92;
      data_sec "maps"
        (encode_map_def 1 4 8 16 0 100 65536 0 4294967295 "" "" false 0 ++
         encode_map_def 1 4 8 16 0 0 65536 0 4294967295 "" "" false 0);
      data_sec "progs" (encode_prog_def 0 4294967295 false 0 0 65536 "" "");
      data_sec "xdp/foo" (insn 24 1 0 ++ insn 0 0 0 ++ insn 149 0 0);
      mkSec ".relxdp/foo" SHT_REL (Data (u64 0 ++ u64 (2 * 2 ^ 32 + 1)));
      symtab_sec;
      strtab_sec ]
    [ mkSymSpec "" 0 0 0;
      mkSymSpec "map_a" 17 6 0;
      mkSymSpec "map_b" 17 6 120;
      mkSymSpec "foo_def" 17 7 0;
      mkSymSpec "foo" 18 8 0 ].

(** A critical object for loaders from version 100 on, which requires
    version 100. *)
Definition elf_future : list byte :=
  mk_elf
    [ null_sec;
      string_sec "critical" "tethering";
      string_sec "license" "Apache 2.0";
      uint_sec "bpfloader_min_ver" 100;
      uint_sec "bpfloader_min_required_ver" 100;
      symtab_sec;
      strtab_sec ]
    [ mkSymSpec "" 0 0 0 ].

(** A critical object for all loaders, which requires version 100. *)
Definition elf_required : list byte :=
  mk_elf
    [ null_sec;
      string_sec "critical" "tethering";
      string_sec "license" "Apache 2.0";
      uint_sec "bpfloader_min_required_ver" 100;
      symtab_sec;
      strtab_sec ]
    [ mkSymSpec "" 0 0 0 ].

(** A critical object without a progs section. *)
Definition elf_no_progs : list byte :=
  mk_elf
    [ null_sec;
      string_sec "critical" "tethering";
      string_sec "license" "Apache 2.0";
      symtab_sec;
      strtab_sec ]
    [ mkSymSpec "" 0 0 0 ].

(** An object whose only program is for loaders from version 100 on and
    names a pin subdirectory that no loader knows. *)
Definition elf_bogus_subdir : list byte :=
  mk_elf
    [ null_sec;
      string_sec "license" "Apache 2.0";
      uint_sec "size_of_bpf_prog_def" 92;
      data_sec "progs" (encode_prog_def 0 4294967295 false 0 100 65536 "" "bogus/");
      data_sec "xdp/foo" (insn 183 0 0 ++ insn 149 0 0);
      symtab_sec;
      strtab_sec ]
    [ mkSymSpec "" 0 0 0;
      mkSymSpec "foo_def" 17 3 0;
      mkSymSpec "foo" 18 4 0 ].

(** An object whose last section is its code section. *)
Definition elf_code_last : list byte :=
  mk_elf
    [ null_sec;
      string_sec "license" "Apache 2.0";
      uint_sec "size_of_bpf_prog_def" 92;
      data_sec "progs" (encode_prog_def 0 4294967295 false 0 0 65536 "" "");
      symtab_sec;
      strtab_sec;
      data_sec "xdp/foo" (insn 183 0 0 ++ insn 149 0 0) ]
    [ mkSymSpec "" 0 0 0;
      mkSymSpec "foo_def" 17 3 0;
      mkSymSpec "foo" 18 6 0 ].

(** [elf_good] with the value size of [map_b] changed to 16. *)
Definition elf_resized : list byte :=
  mk_elf
    [ null_sec;
      string_sec "license" "Apache 2.0";
      uint_sec "bpfloader_min_ver" 0;
      uint_sec "bpfloader_max_ver" 65536;
      uint_sec "size_of_bpf_map_def" 120;
      uint_sec "size_of_bpf_prog_def" 92;
      data_sec "maps"
        (encode_map_def 1 4 8 16 0 100 65536 0 4294967295 "" "" false 0 ++
         encode_map_def 1 4 16 16 0 0 65536 0 4294967295 "" "" false 0);
      data_sec "progs" (encode_prog_def 0 4294967295 false 0 0 65536 "" "");
      data_sec "xdp/foo" (insn 24 1 0 ++ insn 0 0 0 ++ insn 149 0 0);
      mkSec ".relxdp/foo" SHT_REL (Data (u64 0 ++ u64 (2 * 2 ^ 32 + 1)));
      symtab_sec;
      strtab_sec ]
    [ mkSymSpec "" 0 0 0;
      mkSymSpec "map_a" 17 6 0;
      mkSymSpec "map_b" 17 6 120;
      mkSymSpec "foo_def" 17 7 0;
      mkSymSpec "foo" 18 8 0 ].

(** An object with one map, for all loaders, which names a pin
    subdirectory that no loader knows. *)
Definition elf_bogus_map : list byte :=
  mk_elf
    [ null_sec;
      string_sec "license" "Apache 2.0";
      uint_sec "size_of_bpf_map_def" 120;
      data_sec "maps"
        (encode_map_def 1 4 8 16 0 0 65536 0 4294967295 "" "bogus/" false 0);
      symtab_sec;
      strtab_sec ]
    [ mkSymSpec "" 0 0 0;
      mkSymSpec "map_c" 17 3 0 ].

(** An object with one map and one program, for all loaders, whose
    selinux_context is one that no loader knows. *)
Definition elf_bogus_context : list byte :=
  mk_elf
    [ null_sec;
      string_sec "license" "Apache 2.0";
      uint_sec "size_of_bpf_map_def" 120;
      uint_sec "size_of_bpf_prog_def" 92;
      data_sec "maps"
        (encode_map_def 1 4 8 16 0 0 65536 0 4294967295 "bogus" "" false 0);
      data_sec "progs" (encode_prog_def 0 4294967295 false 0 0 65536 "bogus" "");
      data_sec "xdp/foo" (insn 183 0 0 ++ insn 149 0 0);
      symtab_sec;
      strtab_sec ]
    [ mkSymSpec "" 0 0 0;
      mkSymSpec "map_c" 17 4 0;
      mkSymSpec "foo_def" 17 5 0;
      mkSymSpec "foo" 18 6 0 ].


(** One map, for loaders from version 100 on, whose definition has 1 in
    its [zero] field. *)
Definition elf_nonzero_map : list byte :=
  mk_elf
    [ null_sec;
      string_sec "license" "Apache 2.0";
      uint_sec "size_of_bpf_map_def" 120;
      data_sec "maps"
        (store_u32 20 1
           (encode_map_def 1 4 8 16 0 100 65536 0 4294967295 "" "" false 0));
      symtab_sec;
      strtab_sec ]
    [ mkSymSpec "" 0 0 0;
      mkSymSpec "map_z" 17 3 0 ].

(** The result and the final state of a computation that completes. *)
Definition result_of {S A : Type} (c : outcome (A * S)) (dflt : A) : A :=
  match c with Val (a, _) => a | _ => dflt end.

Definition state_after {S A : Type} (c : outcome (A * S)) (dflt : S) : S :=
  match c with Val (_, s) => s | _ => dflt end.

(** The maps section of an object, as [createMaps] reads it. *)
Definition maps_data (elf : list byte) : list byte :=
  snd (result_of (readSectionByName "maps" (stream_of elf)) (0, [])).

Definition maps_stream1 (elf : list byte) : ifstream :=
  state_after (readSectionByName "maps" (stream_of elf)) (stream_of elf).

Definition maps_defs (elf : list byte) (sz : Z) : list (list byte) :=
  match createMaps_decode sample_hdr
          (Z.to_nat (Z.of_nat (List.length (maps_data elf)) / sz)) (maps_data elf)
          (Z.to_nat sz) (Z.to_nat (Z.min sz (Z.of_nat (sizeof_bpf_map_def sample_hdr)))) with
  | Some md => md
  | None => []
  end.

Definition maps_names (elf : list byte) : list string :=
  snd (result_of (getSectionSymNames sample_sort "maps" None (maps_stream1 elf)) (0, [])).

Definition maps_stream2 (elf : list byte) : ifstream :=
  state_after (getSectionSymNames sample_sort "maps" None (maps_stream1 elf)) (stream_of elf).

(** The code sections of an object. *)
Definition code_sections (elf : list byte) (sz : Z) : list codeSection :=
  snd (result_of (readCodeSections sample_sort sample_hdr sz (stream_of elf)) (0, [])).


Definition sample_location : Location := mkLocation "/apex/bpf/" "tethering/".

(** A 5.10 kernel of a userdebug build. *)
Definition sys_5_10 : Sys world := sample_sys (KVER 5 10 0) "userdebug".

(** A 4.9 kernel of a userdebug build. *)
Definition sys_4_9 : Sys world := sample_sys (KVER 4 9 0) "userdebug".

(** A directory with one object. *)
Definition world_one (elf : list byte) : world :=
  world_of [("/apex/bpf/a.o", elf)]%string [("/apex/bpf/", ["."; ".."; "a.o"])]%string.

(** A directory with two critical objects that fail differently. *)
Definition world_two_critical : world :=
  world_of [("/apex/bpf/a.o", elf_required); ("/apex/bpf/b.o", elf_no_progs)]%string
    [("/apex/bpf/", ["."; ".."; "a.o"; "b.o"])]%string.

(** [map_b] of object a is pinned already, with values of 8 bytes. *)
Definition world_pinned : world :=
  {| w_files := []; w_dirs := []; w_fds := [];
     w_pins := [("/sys/fs/bpf/tethering/map_a_map_b"%string, KMap 1 4 8 16 0)] |}.

Definition good_code : list byte := insn 24 1 0 ++ insn 0 0 0 ++ insn 149 0 0.

(** Reuse of a pinned map whose value size differs (the 5.10 kernel). *)
Definition mismatch_world : world :=
  state_after
    (createMaps_obtain sys_5_10
       (view_map_def sample_hdr (nth 1 (maps_defs elf_resized 120) [])) 1 16 "map_b"%string
       "/sys/fs/bpf/tethering/map_a_map_b" world_pinned) world_pinned.

(** The streams of [loadProg] on [elf_good], one after each section read. *)
Definition good_s1 : ifstream :=
  state_after (readSectionByName "critical" (stream_of elf_good)) (stream_of elf_good).
Definition good_s2 : ifstream :=
  state_after (readSectionByName "license" good_s1) good_s1.
Definition good_s3 : ifstream :=
  state_after (readSectionUint "bpfloader_min_ver" 0 good_s2) good_s2.
Definition good_s4 : ifstream :=
  state_after (readSectionUint "bpfloader_max_ver" 65536 good_s3) good_s3.
Definition good_s5 : ifstream :=
  state_after (readSectionUint "bpfloader_min_required_ver" 0 good_s4) good_s4.
Definition good_s6 : ifstream :=
  state_after (readSectionUint "size_of_bpf_map_def" 32 good_s5) good_s5.
Definition good_s7 : ifstream :=
  state_after (readSectionUint "size_of_bpf_prog_def" 20 good_s6) good_s6.

(** ** A device: the kernel above, with the files and properties that the
    startup code reaches *)

Record host : Type := mkHost {
  h_world : world;
  h_scripts : list string;            (* the init scripts of the platform *)
  h_umask : Z;
  h_made : list string;               (* directories made under /sys/fs/bpf/ *)
  h_written : list string;            (* what was written to proc files *)
  h_props : list (string * string)    (* properties set *)
}.

Definition with_world (h : host) (w : world) : host :=
  {| h_world := w; h_scripts := h_scripts h; h_umask := h_umask h; h_made := h_made h;
     h_written := h_written h; h_props := h_props h |}.

Definition on_world {A : Type} (f : world -> A * world) (h : host) : A * host :=
  let '(a, w) := f (h_world h) in (a, with_world h w).

(** The kernel of [sys], reached from a device. *)
Definition sys_on_host (sys : Sys world) : Sys host :=
  {| kernelVersion := kernelVersion sys;
     isAtLeastKernelVersion := isAtLeastKernelVersion sys;
     page_size := page_size sys;
     getBuildType := getBuildType sys;
     isArm := isArm sys;
     isX86 := isX86 sys;
     isRiscV := isRiscV sys;
     isKernel32Bit := isKernel32Bit sys;
     isKernel64Bit := isKernel64Bit sys;
     readdir_all := fun dir h => readdir_all sys dir (h_world h);
     open_file := fun path h => open_file sys path (h_world h);
     access_F_OK := fun path h =>
       existsb (String.eqb path) (h_scripts h) || access_F_OK sys path (h_world h);
     mapRetrieveRO := fun path => on_world (mapRetrieveRO sys path);
     bpf_MAP_CREATE := fun req => on_world (bpf_MAP_CREATE sys req);
     retrieveProgram := fun path => on_world (retrieveProgram sys path);
     bpf_PROG_LOAD := fun req => on_world (bpf_PROG_LOAD sys req);
     bpfFdPin := fun fd path => on_world (bpfFdPin sys fd path);
     renameat2_NOREPLACE := fun from to => on_world (renameat2_NOREPLACE sys from to);
     chmod := fun path mode => on_world (chmod sys path mode);
     chown := fun path uid gid => on_world (chown sys path uid gid);
     bpfGetFdMapType := fun fd h => bpfGetFdMapType sys fd (h_world h);
     bpfGetFdKeySize := fun fd h => bpfGetFdKeySize sys fd (h_world h);
     bpfGetFdValueSize := fun fd h => bpfGetFdValueSize sys fd (h_world h);
     bpfGetFdMaxEntries := fun fd h => bpfGetFdMaxEntries sys fd (h_world h);
     bpfGetFdMapFlags := fun fd h => bpfGetFdMapFlags sys fd (h_world h) |}.

(** A device of the given uid and API level, with the given properties;
    every call succeeds, but a directory can be made only once. *)
Definition sample_platform (uid api : Z) (props : list (string * string)) : Platform host :=
  {| getuid := uid;
     GetProperty := fun key dflt =>
       match assoc key props with Some v => v | None => dflt end;
     GetIntProperty := fun _ dflt => dflt;
     android_get_device_api_level := api;
     isUserspace32bit := false;
     access_errno := fun _ _ => ENOENT;
     umask := fun m h =>
       (h_umask h,
        {| h_world := h_world h; h_scripts := h_scripts h; h_umask := m; h_made := h_made h;
           h_written := h_written h; h_props := h_props h |});
     mkdir := fun path _ h =>
       if existsb (String.eqb path) (h_made h) then ((-1, EEXIST), h)
       else ((0, 0),
             {| h_world := h_world h; h_scripts := h_scripts h; h_umask := h_umask h;
                h_made := path :: h_made h; h_written := h_written h;
                h_props := h_props h |});
     open_WRONLY := fun _ h => ((3, 0), h);
     write := fun _ value h =>
       ((Z.of_nat (String.length value), 0),
        {| h_world := h_world h; h_scripts := h_scripts h; h_umask := h_umask h;
           h_made := h_made h; h_written := value :: h_written h;
           h_props := h_props h |});
     sleep := fun _ h => h;
     createMap := fun _ _ _ _ _ h => (4, h);
     writeToMapEntry := fun _ _ _ _ h => (0, h);
     execve := fun _ h => (true, h);
     SetProperty := fun key value h =>
       (true,
        {| h_world := h_world h; h_scripts := h_scripts h; h_umask := h_umask h;
           h_made := h_made h; h_written := h_written h;
           h_props := (key, value) :: h_props h |}) |}.

(** A device of Android U (API level 34) that runs the loader as root, and
    one of Android S (API level 31). *)
Definition platform_U : Platform host := sample_platform 0 34 [].
Definition platform_S : Platform host := sample_platform 0 31 [].

(** A device with the init script of netbpfload and no object to load. *)
Definition host_empty : host :=
  {| h_world := world_of [] [];
     h_scripts := ["/system/etc/init/netbpfload.rc"%string];
     h_umask := 18 (* 022 *);
     h_made := [];
     h_written := [];
     h_props := [] |}.

(** A device whose directory of the tethering objects holds a critical
    object without programs. *)
Definition host_critical : host :=
  {| h_world :=
       world_of [("/apex/com.android.tethering/etc/bpf/a.o", elf_no_progs)]%string
         [("/apex/com.android.tethering/etc/bpf/", ["."; ".."; "a.o"])]%string;
     h_scripts := ["/system/etc/init/netbpfload.rc"%string];
     h_umask := 18 (* 022 *);
     h_made := [];
     h_written := [];
     h_props := [] |}.

(** An object with two map symbols and one map definition. *)
Definition elf_short_maps : list byte :=
  mk_elf
    [ null_sec;
      string_sec "license" "Apache 2.0";
      uint_sec "size_of_bpf_map_def" 120;
      data_sec "maps"
        (encode_map_def 1 4 8 16 0 0 65536 0 4294967295 "" "" false 0);
      symtab_sec;
      strtab_sec ]
    [ mkSymSpec "" 0 0 0;
      mkSymSpec "map_a" 17 3 0;
      mkSymSpec "map_b" 17 3 120 ].

(** A stream that has failed. *)
Definition failed_stream : ifstream := set_fail (stream_of elf_good).

(** The section headers and the names of the sections of [elf_good]. *)
Definition good_shTable : list Elf64_Shdr :=
  snd (result_of (readSectionHeadersAll (stream_of elf_good)) (0, [])).
Definition good_sh1 : ifstream :=
  state_after (readSectionHeadersAll (stream_of elf_good)) (stream_of elf_good).
Definition good_strtab : list byte :=
  snd (result_of (readSectionHeaderStrtab good_sh1) (0, [])).
Definition good_sh2 : ifstream :=
  state_after (readSectionHeaderStrtab good_sh1) good_sh1.

(** The definition of a devmap. *)
Definition sample_devmap : bpf_map_def :=
  sample_view_map_def (encode_map_def 14 4 4 16 0 0 65536 0 4294967295 "" "" false 0).

(** [elf_good] read by a process that gets buffers of at most 200 bytes:
    the string table of 159 bytes can be read, the maps section of 240
    bytes cannot. *)
Definition short_of_memory : ifstream :=
  {| s_file := {| f_bytes := elf_good;
                  f_maxbytes := 17592186040320;
                  f_maxalloc := 200 |};
     s_pos := 0;
     s_fail := false |}.
Definition short_sh1 : ifstream :=
  state_after (readSectionHeadersAll short_of_memory) short_of_memory.
Definition short_sh2 : ifstream :=
  state_after (readSectionHeaderStrtab short_sh1) short_sh1.

(** [elf_good] with the header of its license section, at 806 in the file,
    patched: the section is declared at the offset 2^44, and with a size of
    2^40 bytes. *)
Definition elf_far_license : list byte :=
  store_u32 830 0 (store_u32 834 4096 elf_good).
Definition elf_huge_license : list byte :=
  store_u32 838 0 (store_u32 842 256 elf_good).

Definition sh1_of (elf : list byte) : ifstream :=
  state_after (readSectionHeadersAll (stream_of elf)) (stream_of elf).
Definition sh2_of (elf : list byte) : ifstream :=
  state_after (readSectionHeaderStrtab (sh1_of elf)) (sh1_of elf).
Definition shTable_of (elf : list byte) : list Elf64_Shdr :=
  snd (result_of (readSectionHeadersAll (stream_of elf)) (0, [])).

(** [host_empty] after a run of the loader. *)
Definition booted_host : host :=
  state_after (doLoad sample_sort sample_hdr (sys_on_host sys_5_10) platform_U host_empty)
    host_empty.

End Fixture.



(** * Properties *)

Import Fixture.

(** The components of an equation between results of system calls. *)
Ltac result_eqs H :=
  match type of H with
  | (?a, ?b, _) = (?x, ?y, _) =>
      assert (a = x) by congruence; assert (b = y) by congruence; clear H
  end.

(** ** Integers and bytes *)

Lemma cast_uint_id (z : Z) : 0 <= z < 2 ^ 32 -> cast_uint z = z.
Proof. intros H. unfold cast_uint. apply Z.mod_small. exact H. Qed.

Lemma cast_int_id (z : Z) : - 2 ^ 31 <= z < 2 ^ 31 -> cast_int z = z.
Proof.
  intros H. unfold cast_int.
  rewrite Z.mod_small by lia. lia.
Qed.

Lemma uchar_range (b : byte) : 0 <= byte.unsigned b < 256.
Proof. pose proof (byte.unsigned_range b) as H. change (2 ^ 8) with 256 in H. exact H. Qed.

Lemma lor_shiftl_8 (a b : Z) :
  0 <= a < 256 -> Z.lor a (Z.shiftl b 8) = a + 256 * b.
Proof.
  intros Ha.
  assert (Hland : Z.land a (Z.shiftl b 8) = 0).
  2: { pose proof (Z.add_lor_land a (Z.shiftl b 8)) as Hadd.
       rewrite Hland in Hadd.
       rewrite (Z.shiftl_mul_pow2 b 8) in * by (apply Z.leb_le; reflexivity).
       change (2 ^ 8) with 256 in *. lia. }
  - apply Z.bits_inj'. intros n Hn.
    rewrite Z.land_spec, Z.bits_0, Z.shiftl_spec by lia.
    destruct (Z.ltb_spec n 8) as [Hlt|Hge].
    + rewrite (Z.testbit_neg_r b) by lia. apply andb_false_r.
    + replace (Z.testbit a n) with false; [reflexivity|].
      symmetry. destruct (Z.eq_dec a 0) as [->|Hnz]; [apply Z.bits_0|].
      apply Z.bits_above_log2; [lia|].
      apply Z.lt_le_trans with 8; [|lia].
      apply Z.log2_lt_pow2; [lia|]. change (2 ^ 8) with 256. lia.
Qed.

Lemma le_combine_cons (h : byte) (t : list byte) :
  le_combine (h :: t) = Z.lor (byte.unsigned h) (Z.shiftl (le_combine t) 8).
Proof. reflexivity. Qed.

Lemma le_combine_nil : le_combine [] = 0.
Proof. reflexivity. Qed.

Lemma le_combine_4 (b0 b1 b2 b3 : byte) :
  le_combine [b0; b1; b2; b3] =
  byte.unsigned b0 + 256 * (byte.unsigned b1 + 256 * (byte.unsigned b2 + 256 * byte.unsigned b3)).
Proof.
  pose proof (uchar_range b0). pose proof (uchar_range b1).
  pose proof (uchar_range b2). pose proof (uchar_range b3).
  rewrite !le_combine_cons, le_combine_nil.
  rewrite !lor_shiftl_8 by assumption. lia.
Qed.

(** Bytes written over a part of a buffer. *)
Lemma nth_splice (off : nat) (bs p : list byte) (k : nat) :
  (off + List.length bs <= List.length p)%nat ->
  nth k (firstn off p ++ bs ++ skipn (off + List.length bs) p) NUL =
  if ((off <=? k) && (k <? off + List.length bs))%nat
  then nth (k - off) bs NUL else nth k p NUL.
Proof.
  intros Hlen.
  assert (Hfirst : List.length (firstn off p) = off) by (rewrite length_firstn; lia).
  destruct (Nat.leb_spec off k) as [Hle|Hgt]; cbn [andb].
  - rewrite app_nth2 by lia. rewrite Hfirst.
    destruct (Nat.ltb_spec k (off + List.length bs)) as [Hlt|Hge].
    + rewrite app_nth1 by lia. reflexivity.
    + rewrite app_nth2 by lia. rewrite nth_skipn. f_equal. lia.
  - rewrite app_nth1 by lia. rewrite nth_firstn.
    destruct (Nat.ltb_spec k off); [reflexivity|lia].
Qed.

Lemma length_splice (off : nat) (bs p : list byte) :
  (off + List.length bs <= List.length p)%nat ->
  List.length (firstn off p ++ bs ++ skipn (off + List.length bs) p) = List.length p.
Proof.
  intros Hlen. rewrite !length_app, length_firstn, length_skipn. lia.
Qed.

Lemma length_le_split' (n : nat) (v : Z) : List.length (le_split n v) = n.
Proof. apply length_le_split. Qed.

Lemma nth_store_u32 (off : nat) (v : Z) (p : list byte) (k : nat) :
  (off + 4 <= List.length p)%nat ->
  nth k (store_u32 off v p) NUL =
  if ((off <=? k) && (k <? off + 4))%nat then nth (k - off) (le_split 4 v) NUL
  else nth k p NUL.
Proof.
  intros Hlen. unfold store_u32.
  pose proof (nth_splice off (le_split 4 v) p k) as H.
  rewrite length_le_split in H. apply H. exact Hlen.
Qed.

Lemma length_store_u32 (off : nat) (v : Z) (p : list byte) :
  (off + 4 <= List.length p)%nat -> List.length (store_u32 off v p) = List.length p.
Proof.
  intros Hlen. unfold store_u32.
  pose proof (length_splice off (le_split 4 v) p) as H.
  rewrite length_le_split in H. apply H. exact Hlen.
Qed.

Lemma nth_store_u8 (off : nat) (v : Z) (p : list byte) (k : nat) :
  (off + 1 <= List.length p)%nat ->
  nth k (store_u8 off v p) NUL = if (k =? off)%nat then byte.of_Z v else nth k p NUL.
Proof.
  intros Hlen. unfold store_u8.
  pose proof (nth_splice off [byte.of_Z v] p k) as H.
  cbn [List.length] in H. rewrite H by lia. clear H.
  destruct (Nat.eqb_spec k off) as [->|Hne].
  - rewrite Nat.leb_refl. destruct (Nat.ltb_spec off (off + 1)); [|lia].
    cbn [andb]. rewrite Nat.sub_diag. reflexivity.
  - destruct (Nat.leb_spec off k); cbn [andb]; [|reflexivity].
    destruct (Nat.ltb_spec k (off + 1)); [lia|reflexivity].
Qed.

Lemma length_store_u8 (off : nat) (v : Z) (p : list byte) :
  (off + 1 <= List.length p)%nat -> List.length (store_u8 off v p) = List.length p.
Proof.
  intros Hlen. unfold store_u8.
  apply (length_splice off [byte.of_Z v] p). cbn [List.length]. lia.
Qed.

(** A field is made of the bytes at its place. *)
Lemma field_ext (off len : nat) (p q : list byte) :
  (off + len <= List.length p)%nat ->
  (off + len <= List.length q)%nat ->
  (forall k, (off <= k < off + len)%nat -> nth k p NUL = nth k q NUL) ->
  field off len p = field off len q.
Proof.
  intros Hp Hq Hnth. unfold field. f_equal.
  apply (nth_ext _ _ NUL NUL).
  - rewrite !length_firstn, !length_skipn. lia.
  - intros n Hn. rewrite length_firstn, length_skipn in Hn.
    rewrite !nth_firstn. destruct (Nat.ltb_spec n len); [|reflexivity].
    rewrite !nth_skipn. apply Hnth. lia.
Qed.

Lemma field_store_u32 (off : nat) (v : Z) (p : list byte) :
  (off + 4 <= List.length p)%nat ->
  field off 4 (store_u32 off v p) = v mod 2 ^ 32.
Proof.
  intros Hlen. unfold field.
  replace (firstn 4 (skipn off (store_u32 off v p))) with (le_split 4 v).
  { rewrite le_combine_split. reflexivity. }
  apply (nth_ext _ _ NUL NUL).
  - rewrite length_firstn, length_skipn, length_store_u32, length_le_split by exact Hlen. lia.
  - intros n Hn. rewrite length_le_split in Hn.
    rewrite nth_firstn. destruct (Nat.ltb_spec n 4); [|lia].
    rewrite nth_skipn, nth_store_u32 by exact Hlen.
    destruct (Nat.leb_spec off (off + n)); [|lia].
    destruct (Nat.ltb_spec (off + n) (off + 4)); [|lia].
    cbn [andb]. f_equal. lia.
Qed.

(** ** The scalar sections *)

(** The arithmetic of [readSectionUint] on four bytes is their little-endian
    value. *)
Lemma readSectionUint_decode (b0 b1 b2 b3 : byte) :
  cast_uint (cast_uint (Z.shiftl
    (cast_uint (cast_uint (Z.shiftl
      (cast_uint (cast_uint (Z.shiftl (byte.unsigned b3) 8) + byte.unsigned b2)) 8)
       + byte.unsigned b1)) 8) + byte.unsigned b0)
  = le_combine [b0; b1; b2; b3].
Proof.
  pose proof (uchar_range b0). pose proof (uchar_range b1).
  pose proof (uchar_range b2). pose proof (uchar_range b3).
  rewrite le_combine_4. unfold cast_uint.
  rewrite !Z.shiftl_mul_pow2 by lia.
  change (2 ^ 8) with 256. change (2 ^ 32) with 4294967296.
  rewrite (Z.mod_small (byte.unsigned b3 * 256)) by lia.
  rewrite (Z.mod_small (byte.unsigned b3 * 256 + byte.unsigned b2)) by lia.
  rewrite (Z.mod_small ((byte.unsigned b3 * 256 + byte.unsigned b2) * 256)) by lia.
  rewrite (Z.mod_small ((byte.unsigned b3 * 256 + byte.unsigned b2) * 256 + byte.unsigned b1)) by lia.
  rewrite (Z.mod_small (((byte.unsigned b3 * 256 + byte.unsigned b2) * 256 + byte.unsigned b1) * 256)) by lia.
  rewrite Z.mod_small by lia.
  lia.
Qed.

(** C9. [readSectionUint(name, elf, d)]: when the named section is read
    ([readSectionByName] returns 0) and holds at least 4 bytes, the result
    equals a 32-bit [value] iff the first 4 bytes are the little-endian
    encoding of [value]; otherwise (no such section, a failed read, or fewer
    than 4 bytes) the result is the default [d].  So, for every 32-bit
    [value] other than [d], the result equals [value] iff the section is
    read, holds at least 4 bytes and its first 4 bytes encode [value]. *)
Theorem readSectionUint_spec (name : string) (d : Z) (s s' : ifstream)
    (ret : Z) (theBytes : list byte) :
  readSectionByName name s = Val ((ret, theBytes), s') ->
  exists v,
    readSectionUint name d s = Val (v, s') /\
    (ret = 0 /\ (4 <= List.length theBytes)%nat ->
     forall value, 0 <= value < 2 ^ 32 ->
       (v = value <-> firstn 4 theBytes = le_split 4 value)) /\
    (~ (ret = 0 /\ (4 <= List.length theBytes)%nat) -> v = d) /\
    (forall value, 0 <= value < 2 ^ 32 -> value <> d ->
       (v = value <->
        ret = 0 /\ (4 <= List.length theBytes)%nat /\
        firstn 4 theBytes = le_split 4 value)).
Proof.
  intros Hread. unfold readSectionUint, bind. rewrite Hread.
  destruct (Z.eqb_spec ret 0) as [Hret|Hret]; cbn [negb].
  2: { exists d. split; [reflexivity|]. split; [intros [? _]; contradiction|].
       split; [reflexivity|]. intros value _ Hne. split.
       - intros <-. contradiction.
       - intros [? _]. contradiction. }
  destruct (Z.ltb_spec (Z.of_nat (List.length theBytes)) 4) as [Hlen|Hlen].
  { exists d. split; [reflexivity|]. split; [intros [_ ?]; lia|].
    split; [reflexivity|]. intros value _ Hne. split.
    - intros <-. contradiction.
    - intros (_ & ? & _). lia. }
  destruct theBytes as [|b0 [|b1 [|b2 [|b3 rest]]]]; cbn [List.length] in Hlen; try lia.
  assert (Hdecode : forall value, 0 <= value < 2 ^ 32 ->
            (le_combine [b0; b1; b2; b3] = value <->
             firstn 4 (b0 :: b1 :: b2 :: b3 :: rest) = le_split 4 value)).
  { intros value Hvalue. cbn [firstn]. split.
    - intros <-. symmetry. exact (split_le_combine [b0; b1; b2; b3]).
    - intros ->. rewrite le_combine_split.
      change (Z.of_nat 4 * 8) with 32. apply Z.mod_small. exact Hvalue. }
  eexists. split; [reflexivity|].
  unfold uchar_at. cbn [nth]. rewrite readSectionUint_decode.
  split; [|split].
  - intros _ value Hvalue. exact (Hdecode value Hvalue).
  - intros Hn. exfalso. apply Hn. split; [exact Hret|cbn [List.length]; lia].
  - intros value Hvalue _. rewrite (Hdecode value Hvalue). split.
    + intros H. split; [exact Hret|]. split; [cbn [List.length]; lia|exact H].
    + intros (_ & _ & H). exact H.
Qed.

(** ** The token tables *)

Lemma AllDomains_tokens_fit (d : domain) :
  In d AllDomains ->
  (String.length (lookupSelinuxContext d "") < BPF_SELINUX_CONTEXT_CHAR_ARRAY_SIZE)%nat /\
  (String.length (lookupPinSubdir d "") < BPF_PIN_SUBDIR_CHAR_ARRAY_SIZE)%nat.
Proof.
  unfold AllDomains, BPF_SELINUX_CONTEXT_CHAR_ARRAY_SIZE, BPF_PIN_SUBDIR_CHAR_ARRAY_SIZE.
  cbn [In]. intros H.
  repeat (destruct H as [<-|H]; [cbn; lia|]). contradiction.
Qed.

Lemma AllDomains_recognized (d : domain) : In d AllDomains -> d <> unrecognized.
Proof.
  unfold AllDomains. cbn [In]. intros H.
  repeat (destruct H as [<-|H]; [discriminate|]). contradiction.
Qed.

(** The search of [getDomainFromSelinuxContext] returns the first domain of
    the list whose token compares equal, and [unspecified] when there is
    none. *)
Lemma getDomainFromSelinuxContext_loop_spec (s : list byte) (ds : list domain) :
  (forall d, In d ds ->
     (String.length (lookupSelinuxContext d "") < BPF_SELINUX_CONTEXT_CHAR_ARRAY_SIZE)%nat) ->
  (exists d, In d ds /\ getDomainFromSelinuxContext_loop s ds = Val d /\
     strncmp s (list_byte_of_string (lookupSelinuxContext d ""))
       BPF_SELINUX_CONTEXT_CHAR_ARRAY_SIZE = 0) \/
  (getDomainFromSelinuxContext_loop s ds = Val unspecified /\
   forall d, In d ds ->
     strncmp s (list_byte_of_string (lookupSelinuxContext d ""))
       BPF_SELINUX_CONTEXT_CHAR_ARRAY_SIZE <> 0).
Proof.
  induction ds as [|d ds IH]; intros Hfit.
  - right. split; [reflexivity|]. intros d [].
  - cbn [getDomainFromSelinuxContext_loop].
    pose proof (Hfit d (or_introl eq_refl)) as Hd.
    destruct (Nat.leb_spec BPF_SELINUX_CONTEXT_CHAR_ARRAY_SIZE
                (String.length (lookupSelinuxContext d ""))) as [Hle|_]; [lia|].
    destruct (Z.eqb_spec (strncmp s (list_byte_of_string (lookupSelinuxContext d ""))
                            BPF_SELINUX_CONTEXT_CHAR_ARRAY_SIZE) 0) as [Heq|Hne].
    + left. exists d. split; [left; reflexivity|]. split; [reflexivity|exact Heq].
    + destruct IH as [[d' [Hin [Hrun Hcmp]]]|[Hrun Hnone]].
      * intros d' Hd'. apply Hfit. right. exact Hd'.
      * left. exists d'. split; [right; exact Hin|]. split; assumption.
      * right. split; [exact Hrun|]. intros d' [<-|Hd']; [exact Hne|apply Hnone; exact Hd'].
Qed.

(** The search of [getDomainFromPinSubdir] returns the first domain of the
    list whose token compares equal, and [unrecognized] when there is none. *)
Lemma getDomainFromPinSubdir_loop_spec (s : list byte) (ds : list domain) :
  (forall d, In d ds ->
     (String.length (lookupPinSubdir d "") < BPF_PIN_SUBDIR_CHAR_ARRAY_SIZE)%nat) ->
  (exists d, In d ds /\ getDomainFromPinSubdir_loop s ds = Val d /\
     strncmp s (list_byte_of_string (lookupPinSubdir d ""))
       BPF_PIN_SUBDIR_CHAR_ARRAY_SIZE = 0) \/
  (getDomainFromPinSubdir_loop s ds = Val unrecognized /\
   forall d, In d ds ->
     strncmp s (list_byte_of_string (lookupPinSubdir d ""))
       BPF_PIN_SUBDIR_CHAR_ARRAY_SIZE <> 0).
Proof.
  induction ds as [|d ds IH]; intros Hfit.
  - right. split; [reflexivity|]. intros d [].
  - cbn [getDomainFromPinSubdir_loop].
    pose proof (Hfit d (or_introl eq_refl)) as Hd.
    destruct (Nat.leb_spec BPF_PIN_SUBDIR_CHAR_ARRAY_SIZE
                (String.length (lookupPinSubdir d ""))) as [Hle|_]; [lia|].
    destruct (Z.eqb_spec (strncmp s (list_byte_of_string (lookupPinSubdir d ""))
                            BPF_PIN_SUBDIR_CHAR_ARRAY_SIZE) 0) as [Heq|Hne].
    + left. exists d. split; [left; reflexivity|]. split; [reflexivity|exact Heq].
    + destruct IH as [[d' [Hin [Hrun Hcmp]]]|[Hrun Hnone]].
      * intros d' Hd'. apply Hfit. right. exact Hd'.
      * left. exists d'. split; [right; exact Hin|]. split; assumption.
      * right. split; [exact Hrun|]. intros d' [<-|Hd']; [exact Hne|apply Hnone; exact Hd'].
Qed.

(** A selinux_context token never decodes to [unrecognized], and the
    decoding never aborts. *)
Lemma getDomainFromSelinuxContext_recognized (s : list byte) :
  exists d, getDomainFromSelinuxContext s = Val d /\ d <> unrecognized.
Proof.
  unfold getDomainFromSelinuxContext.
  destruct (getDomainFromSelinuxContext_loop_spec s AllDomains)
    as [[d [Hin [Hrun _]]]|[Hrun _]].
  - intros d Hd. apply (AllDomains_tokens_fit d Hd).
  - exists d. split; [exact Hrun|apply AllDomains_recognized; exact Hin].
  - exists unspecified. split; [exact Hrun|discriminate].
Qed.

Lemma getDomainFromPinSubdir_total (s : list byte) :
  exists d, getDomainFromPinSubdir s = Val d.
Proof.
  unfold getDomainFromPinSubdir.
  destruct (getDomainFromPinSubdir_loop_spec s AllDomains)
    as [[d [_ [Hrun _]]]|[Hrun _]].
  - intros d Hd. apply (AllDomains_tokens_fit d Hd).
  - exists d. exact Hrun.
  - exists unrecognized. exact Hrun.
Qed.

(** C10. For every domain of [AllDomains], the token of the domain decodes
    back to the domain, in the table of selinux contexts and in the table of
    pin subdirectories; the empty token is the one of [unspecified]. *)
Theorem token_tables_round_trip (d : domain) :
  In d AllDomains ->
  getDomainFromSelinuxContext (list_byte_of_string (lookupSelinuxContext d "")) = Val d /\
  getDomainFromPinSubdir (list_byte_of_string (lookupPinSubdir d "")) = Val d.
Proof.
  unfold AllDomains. cbn [In]. intros H.
  repeat (destruct H as [<-|H]; [split; vm_compute; reflexivity|]).
  contradiction.
Qed.

Lemma token_tables_round_trip_witness :
  In net_shared AllDomains /\
  getDomainFromSelinuxContext (list_byte_of_string (lookupSelinuxContext net_shared "")) =
    Val net_shared /\
  getDomainFromPinSubdir (list_byte_of_string (lookupPinSubdir net_shared "")) =
    Val net_shared.
Proof.
  assert (H : In net_shared AllDomains) by (simpl; do 3 right; left; reflexivity).
  split; [exact H|]. exact (token_tables_round_trip net_shared H).
Defined.

(** ** Loops *)

(** A loop whose body never breaks runs its first [k] iterations and then
    the others. *)
Lemma for_range_split {T R St : Type} (body : Z -> St -> M T (step R St)) :
  (forall i st s st' s', body i st s <> Val (Break st', s')) ->
  forall k j lo st s,
    for_range (k + j) lo body st s =
    match for_range k lo body st s with
    | Val (inr st', s') => for_range j (lo + Z.of_nat k) body st' s'
    | Val (inl r, s') => Val (inl r, s')
    | Undef => Undef
    | Abort => Abort
    end.
Proof.
  intros Hnb k. induction k as [|k IH]; intros j lo st s.
  - cbn [Nat.add for_range Ret]. rewrite Z.add_0_r. reflexivity.
  - cbn [Nat.add for_range]. unfold bind.
    destruct (body lo st s) as [[[r|st'|st'] s']| |] eqn:Hb; try reflexivity.
    + exfalso. exact (Hnb _ _ _ _ _ Hb).
    + rewrite IH. replace (lo + 1 + Z.of_nat k) with (lo + Z.of_nat (S k)) by lia.
      reflexivity.
Qed.

(** An invariant of the loop state holds of the final state, and of the
    state at a return. *)
Lemma for_range_invariant {T R St : Type} (body : Z -> St -> M T (step R St))
    (I : nat -> St -> Prop) (Q : nat -> R -> Prop) (lo : Z) :
  (forall k st s r s', I k st -> body (lo + Z.of_nat k) st s = Val (r, s') ->
     match r with
     | Continue st' => I (S k) st'
     | Return r => Q k r
     | Break _ => False
     end) ->
  forall n k st s r s',
    I k st ->
    for_range n (lo + Z.of_nat k) body st s = Val (r, s') ->
    match r with
    | inr st' => I (k + n)%nat st'
    | inl r => exists k', (k <= k' < k + n)%nat /\ Q k' r
    end.
Proof.
  intros Hbody n. induction n as [|n IH]; intros k st s r s' HI Hrun.
  - cbn in Hrun. injection Hrun as <- <-. rewrite Nat.add_0_r. exact HI.
  - cbn [for_range] in Hrun. unfold bind in Hrun.
    destruct (body (lo + Z.of_nat k) st s) as [[[r0|st0|st0] s0]| |] eqn:Hb;
      try discriminate; pose proof (Hbody _ _ _ _ _ HI Hb) as Hstep; cbn in Hstep.
    + cbn in Hrun. injection Hrun as <- <-. exists k. split; [lia|exact Hstep].
    + contradiction.
    + replace (lo + Z.of_nat k + 1) with (lo + Z.of_nat (S k)) in Hrun by lia.
      specialize (IH _ _ _ _ _ Hstep Hrun).
      destruct r as [r|st'].
      * destruct IH as [k' [Hk' HQ]]. exists k'. split; [lia|exact HQ].
      * replace (k + S n)%nat with (S k + n)%nat by lia. exact IH.
Qed.

Lemma for_each_app {T R St X : Type} (body : X -> St -> M T (step R St)) :
  (forall x st s st' s', body x st s <> Val (Break st', s')) ->
  forall xs ys st s,
    for_each (xs ++ ys) body st s =
    match for_each xs body st s with
    | Val (inr st', s') => for_each ys body st' s'
    | Val (inl r, s') => Val (inl r, s')
    | Undef => Undef
    | Abort => Abort
    end.
Proof.
  intros Hnb xs. induction xs as [|x xs IH]; intros ys st s.
  - reflexivity.
  - cbn [app for_each]. unfold bind.
    destruct (body x st s) as [[[r|st'|st'] s']| |] eqn:Hb; try reflexivity.
    + exfalso. exact (Hnb _ _ _ _ _ Hb).
    + apply IH.
Qed.

(** ** The metadata decoder *)

Lemma length_memset0 (n : nat) : List.length (memset0 n) = n.
Proof. apply repeat_length. Qed.

Lemma memcpy_prefix (dst src : list byte) (n : nat) :
  (n <= List.length src)%nat -> (n <= List.length dst)%nat ->
  memcpy dst src n = Some (firstn n src ++ skipn n dst).
Proof.
  intros Hsrc Hdst. unfold memcpy.
  destruct (Nat.leb_spec n (List.length src)); [|lia].
  destruct (Nat.leb_spec n (List.length dst)); [|lia].
  reflexivity.
Qed.


Section Decoder.

Variable hdr : Headers.

(** The loop over the records, from the k-th record on. *)
Lemma readProgDefs_loop_spec (adv : nat) (data : list byte) :
  (0 < adv)%nat ->
  (Nat.min adv (sizeof_bpf_prog_def hdr) <= List.length (default_prog_def hdr))%nat ->
  forall n k,
    List.length data = ((k + n) * adv)%nat ->
    readProgDefs_loop hdr n (skipn (k * adv) data) adv (Nat.min adv (sizeof_bpf_prog_def hdr)) =
    Some (map (decoded_record (default_prog_def hdr) (sizeof_bpf_prog_def hdr) adv data)
            (seq k n)).
Proof.
  intros Hadv Hdef n. induction n as [|n IH]; intros k Hlen.
  - reflexivity.
  - cbn [readProgDefs_loop seq map]. fold (default_prog_def hdr).
    rewrite memcpy_prefix.
    + rewrite skipn_skipn. replace (adv + k * adv)%nat with (S k * adv)%nat by lia.
      rewrite IH by lia. reflexivity.
    + rewrite length_skipn. nia.
    + exact Hdef.
Qed.

Lemma createMaps_decode_spec (adv : nat) (data : list byte) :
  (0 < adv)%nat ->
  (Nat.min adv (sizeof_bpf_map_def hdr) <= List.length (default_map_def hdr))%nat ->
  forall n k,
    List.length data = ((k + n) * adv)%nat ->
    createMaps_decode hdr n (skipn (k * adv) data) adv (Nat.min adv (sizeof_bpf_map_def hdr)) =
    Some (map (decoded_record (default_map_def hdr) (sizeof_bpf_map_def hdr) adv data)
            (seq k n)).
Proof.
  intros Hadv Hdef n. induction n as [|n IH]; intros k Hlen.
  - reflexivity.
  - cbn [createMaps_decode seq map]. fold (default_map_def hdr).
    rewrite memcpy_prefix.
    + rewrite skipn_skipn. replace (adv + k * adv)%nat with (S k * adv)%nat by lia.
      rewrite IH by lia. reflexivity.
    + rewrite length_skipn. nia.
    + exact Hdef.
Qed.


Lemma length_default_prog_def :
  layout_ok hdr -> List.length (default_prog_def hdr) = sizeof_bpf_prog_def hdr.
Proof.
  intros (Hp & _). unfold default_prog_def.
  rewrite length_store_u32; rewrite length_memset0; lia.
Qed.

Lemma length_default_map_def :
  layout_ok hdr -> List.length (default_map_def hdr) = sizeof_bpf_map_def hdr.
Proof.
  intros (_ & Hm & Hk & _). unfold default_map_def.
  assert (H1 : List.length
                 (store_u32 (offsetof_map_bpfloader_max_ver hdr)
                    (DEFAULT_BPFLOADER_MAX_VER hdr) (memset0 (sizeof_bpf_map_def hdr))) =
               sizeof_bpf_map_def hdr)
    by (rewrite length_store_u32; rewrite length_memset0; lia).
  rewrite length_store_u32 by (rewrite H1; lia). exact H1.
Qed.

Lemma nth_memset0 (n k : nat) : nth k (memset0 n) NUL = NUL.
Proof. unfold memset0. apply nth_repeat. Qed.

(** The seeded defaults. *)
Lemma default_defs_spec :
  layout_ok hdr ->
  (field (offsetof_prog_bpfloader_max_ver hdr) 4 (default_prog_def hdr) =
     DEFAULT_BPFLOADER_MAX_VER hdr mod 2 ^ 32 /\
   forall k, ~ (offsetof_prog_bpfloader_max_ver hdr <= k <
                offsetof_prog_bpfloader_max_ver hdr + 4)%nat ->
     nth k (default_prog_def hdr) NUL = NUL) /\
  (field (offsetof_map_bpfloader_max_ver hdr) 4 (default_map_def hdr) =
     DEFAULT_BPFLOADER_MAX_VER hdr mod 2 ^ 32 /\
   field (offsetof_map_max_kver hdr) 4 (default_map_def hdr) = 4294967295 /\
   forall k, ~ (offsetof_map_bpfloader_max_ver hdr <= k <
                offsetof_map_bpfloader_max_ver hdr + 4)%nat ->
             ~ (offsetof_map_max_kver hdr <= k < offsetof_map_max_kver hdr + 4)%nat ->
     nth k (default_map_def hdr) NUL = NUL).
Proof.
  intros Hlay. pose proof Hlay as (Hp & Hm & Hk & Hdisj).
  assert (H1 : List.length
                 (store_u32 (offsetof_map_bpfloader_max_ver hdr)
                    (DEFAULT_BPFLOADER_MAX_VER hdr) (memset0 (sizeof_bpf_map_def hdr))) =
               sizeof_bpf_map_def hdr)
    by (rewrite length_store_u32; rewrite length_memset0; lia).
  split; [split|split; [|split]].
  - unfold default_prog_def. apply field_store_u32. rewrite length_memset0. lia.
  - intros k Hk'. unfold default_prog_def.
    rewrite nth_store_u32 by (rewrite length_memset0; lia).
    destruct (Nat.leb_spec (offsetof_prog_bpfloader_max_ver hdr) k); cbn [andb];
      [|apply nth_memset0].
    destruct (Nat.ltb_spec k (offsetof_prog_bpfloader_max_ver hdr + 4)); [lia|apply nth_memset0].
  - unfold default_map_def.
    rewrite (field_ext _ 4 _
               (store_u32 (offsetof_map_bpfloader_max_ver hdr) (DEFAULT_BPFLOADER_MAX_VER hdr)
                  (memset0 (sizeof_bpf_map_def hdr)))).
    + apply field_store_u32. rewrite length_memset0. lia.
    + rewrite length_store_u32; rewrite H1; lia.
    + rewrite H1. lia.
    + intros k Hk'. rewrite nth_store_u32 by (rewrite H1; lia).
      destruct (Nat.leb_spec (offsetof_map_max_kver hdr) k); cbn [andb]; [|reflexivity].
      destruct (Nat.ltb_spec k (offsetof_map_max_kver hdr + 4)); [lia|reflexivity].
  - unfold default_map_def. rewrite field_store_u32; [reflexivity|].
    rewrite H1. lia.
  - intros k Hk1 Hk2. unfold default_map_def.
    rewrite nth_store_u32 by (rewrite H1; lia).
    rewrite nth_store_u32 by (rewrite length_memset0; lia).
    rewrite nth_memset0.
    destruct (Nat.leb_spec (offsetof_map_max_kver hdr) k),
             (Nat.ltb_spec k (offsetof_map_max_kver hdr + 4)); cbn [andb]; try lia;
    destruct (Nat.leb_spec (offsetof_map_bpfloader_max_ver hdr) k),
             (Nat.ltb_spec k (offsetof_map_bpfloader_max_ver hdr + 4)); cbn [andb];
      try lia; reflexivity.
Qed.

Lemma to_nat_div (a : nat) (b : Z) :
  0 < b -> Z.to_nat (Z.of_nat a / b) = (a / Z.to_nat b)%nat.
Proof.
  intros Hb. rewrite <- (Z2Nat.id b) at 1 by lia.
  rewrite <- Nat2Z.inj_div. apply Nat2Z.id.
Qed.

Lemma to_nat_min (a : Z) (b : nat) :
  0 < a -> Z.to_nat (Z.min a (Z.of_nat b)) = Nat.min (Z.to_nat a) b.
Proof. intros Ha. lia. Qed.

Lemma length_multiple (a : nat) (b : Z) :
  0 < b -> Z.of_nat a mod b = 0 -> a = ((0 + a / Z.to_nat b) * Z.to_nat b)%nat.
Proof.
  intros Hb Hmod.
  assert (Hz : Z.of_nat a = b * (Z.of_nat a / b)) by (apply Z_div_exact_full_2; lia).
  apply Nat2Z.inj. rewrite Nat.add_0_l, Nat2Z.inj_mul, Nat2Z.inj_div.
  rewrite Z2Nat.id by lia. lia.
Qed.


Variable std_sort : (Elf64_Sym -> Elf64_Sym -> bool) -> list Elf64_Sym -> list Elf64_Sym.
Variable W : Type.
Variable sys : Sys W.

(** C5. When the structs are laid out as [layout_ok] says: for the progs
    section read by [readProgDefs] and the maps section read by
    [createMaps], of advertised record size [sz], decoding fails (-1) when
    the length of the section is not a multiple of [sz]; otherwise the
    records are those of the decoding rule: one per [sz] bytes, each the
    zero-initialized record seeded with the defaults (bpfloader_max_ver =
    DEFAULT_BPFLOADER_MAX_VER for both, max_kver = 0xFFFFFFFF for maps) with
    its first min(sz, size of the in-memory record) bytes copied from the
    file at the cursor, which advances by [sz].  [readProgDefs] returns
    these records; [createMaps] goes on with them: it fails as the reading
    of the map names fails, and otherwise runs its loop over the map names
    on these records. *)
Theorem decoding_rule :
  layout_ok hdr ->
  (forall sz s s1 pdData,
     0 < sz ->
     readSectionByName "progs" s = Val ((0, pdData), s1) ->
     Z.of_nat (List.length pdData) / sz < 2 ^ 31 ->
     readProgDefs hdr sz s =
     if Z.of_nat (List.length pdData) mod sz =? 0
     then Val ((0, decoded_records (default_prog_def hdr) (sizeof_bpf_prog_def hdr)
                     (Z.to_nat sz) pdData), s1)
     else Val ((-1, []), s1)) /\
  (forall sz elfPath prefix ver s s1 w mdData,
     0 < sz ->
     readSectionByName "maps" s = Val ((0, mdData), s1) ->
     Z.of_nat (List.length mdData) / sz < 2 ^ 31 ->
     (Z.of_nat (List.length mdData) mod sz <> 0 ->
      createMaps std_sort hdr sys elfPath prefix sz ver (s, w) = Val ((-1, []), (s1, w))) /\
     (Z.of_nat (List.length mdData) mod sz = 0 ->
      forall ret mapNames s2,
        getSectionSymNames std_sort "maps" None s1 = Val ((ret, mapNames), s2) ->
        createMaps std_sort hdr sys elfPath prefix sz ver (s, w) =
        if negb (ret =? 0) then Val ((ret, []), (s2, w)) else
        match for_range (Z.to_nat (cast_int (Z.of_nat (List.length mapNames)))) 0
                (createMaps_body hdr sys (pathToObjName elfPath) prefix ver
                   (kernelVersion sys)
                   (decoded_records (default_map_def hdr) (sizeof_bpf_map_def hdr)
                      (Z.to_nat sz) mdData)
                   mapNames) (0, []) w with
        | Val (inl (code, fds), w') => Val ((code, fds), (s2, w'))
        | Val (inr (ret', fds), w') => Val ((ret', fds), (s2, w'))
        | Undef => Undef
        | Abort => Abort
        end)) /\
  (field (offsetof_prog_bpfloader_max_ver hdr) 4 (default_prog_def hdr) =
     DEFAULT_BPFLOADER_MAX_VER hdr mod 2 ^ 32 /\
   forall k, ~ (offsetof_prog_bpfloader_max_ver hdr <= k <
                offsetof_prog_bpfloader_max_ver hdr + 4)%nat ->
     nth k (default_prog_def hdr) NUL = NUL) /\
  (field (offsetof_map_bpfloader_max_ver hdr) 4 (default_map_def hdr) =
     DEFAULT_BPFLOADER_MAX_VER hdr mod 2 ^ 32 /\
   field (offsetof_map_max_kver hdr) 4 (default_map_def hdr) = 4294967295 /\
   forall k, ~ (offsetof_map_bpfloader_max_ver hdr <= k <
                offsetof_map_bpfloader_max_ver hdr + 4)%nat ->
             ~ (offsetof_map_max_kver hdr <= k < offsetof_map_max_kver hdr + 4)%nat ->
     nth k (default_map_def hdr) NUL = NUL).
Proof.
  intros Hlay.
  split; [|split; [|exact (default_defs_spec Hlay)]].
  - intros sz s s1 pdData Hsz Hread Hcount.
    unfold readProgDefs, bind. rewrite Hread.
    change (negb (0 =? 0)) with false. cbv iota.
    destruct (Z.eqb_spec sz 0) as [->|_]; [lia|].
    destruct (Z.eqb_spec (Z.of_nat (List.length pdData) mod sz) 0) as [Hmod|Hmod];
      cbn [negb]; [|reflexivity].
    assert (Hnn : 0 <= Z.of_nat (List.length pdData) / sz) by (apply Z.div_pos; lia).
    rewrite cast_int_id by lia.
    destruct (Z.ltb_spec (Z.of_nat (List.length pdData) / sz) 0); [lia|].
    rewrite to_nat_min by exact Hsz. rewrite to_nat_div by exact Hsz.
    pose proof (readProgDefs_loop_spec (Z.to_nat sz) pdData) as Hloop.
    specialize (Hloop ltac:(lia)).
    rewrite (length_default_prog_def Hlay) in Hloop. specialize (Hloop ltac:(lia)).
    specialize (Hloop (List.length pdData / Z.to_nat sz)%nat 0%nat
                  (length_multiple _ _ Hsz Hmod)).
    cbn [Nat.mul skipn] in Hloop. rewrite Hloop. reflexivity.
  - intros sz elfPath prefix ver s s1 w mdData Hsz Hread Hcount. split.
    + intros Hmod. unfold createMaps, bind, liftE. rewrite Hread.
      change (0 =? -2) with false. change (negb (0 =? 0)) with false. cbv iota.
      destruct (Z.eqb_spec sz 0) as [->|_]; [lia|].
      apply Z.eqb_neq in Hmod. rewrite Hmod. reflexivity.
    + intros Hmod ret mapNames s2 Hnames.
      assert (Hdecode :
        createMaps_decode hdr (Z.to_nat (Z.of_nat (List.length mdData) / sz)) mdData
          (Z.to_nat sz) (Z.to_nat (Z.min sz (Z.of_nat (sizeof_bpf_map_def hdr)))) =
        Some (decoded_records (default_map_def hdr) (sizeof_bpf_map_def hdr)
                (Z.to_nat sz) mdData)).
      { rewrite to_nat_min by exact Hsz. rewrite to_nat_div by exact Hsz.
        pose proof (createMaps_decode_spec (Z.to_nat sz) mdData) as Hloop.
        specialize (Hloop ltac:(lia)).
        rewrite (length_default_map_def Hlay) in Hloop. specialize (Hloop ltac:(lia)).
        specialize (Hloop (List.length mdData / Z.to_nat sz)%nat 0%nat
                      (length_multiple _ _ Hsz Hmod)).
        cbn [Nat.mul skipn] in Hloop. exact Hloop. }
      unfold createMaps, bind, liftE, liftW. rewrite Hread.
      change (0 =? -2) with false. change (negb (0 =? 0)) with false. cbv iota.
      destruct (Z.eqb_spec sz 0) as [->|_]; [lia|].
      rewrite Hmod. change (negb (0 =? 0)) with false. cbv iota.
      assert (Hnn : 0 <= Z.of_nat (List.length mdData) / sz) by (apply Z.div_pos; lia).
      rewrite (cast_int_id (Z.of_nat (List.length mdData) / sz)) by lia.
      destruct (Z.ltb_spec (Z.of_nat (List.length mdData) / sz) 0) as [Hneg|_]; [lia|].
      rewrite Hdecode, Hnames.
      destruct (Z.eqb_spec ret 0) as [->|Hret]; cbn [negb]; [|reflexivity].
      destruct (for_range _ 0 _ (0, []) w) as [[[[code fds]|[ret' fds]] w']| |];
        reflexivity.
Qed.

End Decoder.

(** ** The relocation applier *)

(** The register byte after [src_reg] is set. *)
Lemma regs_after_src_reg (b : byte) :
  let regs := byte.unsigned (byte.of_Z (Z.lor (Z.land (byte.unsigned b) 15)
                                          (Z.shiftl (Z.land BPF_PSEUDO_MAP_FD 15) 4))) in
  Z.shiftr regs 4 = BPF_PSEUDO_MAP_FD /\ Z.land regs 15 = Z.land (byte.unsigned b) 15.
Proof.
  destruct b; vm_compute; split; reflexivity.
Qed.





Section RelocationApplier.

Variable std_sort : (Elf64_Sym -> Elf64_Sym -> bool) -> list Elf64_Sym -> list Elf64_Sym.






End RelocationApplier.

(** ** The map manager and the program loader *)

Section MapManager.

Variable std_sort : (Elf64_Sym -> Elf64_Sym -> bool) -> list Elf64_Sym -> list Elf64_Sym.
Variable hdr : Headers.
Variable W : Type.
Variable sys : Sys W.

(** The six tests of the loop body that skip a map are the gating of the
    specification. *)
Lemma createMaps_body_gated (objName prefix : string) (ver : Z)
    (md : list (list byte)) (mapNames : list string) (i ret : Z) (fds : list Z)
    (raw : list byte) (mapName : string) (w : W) :
  nth_error md (Z.to_nat i) = Some raw ->
  nth_error mapNames (Z.to_nat i) = Some mapName ->
  md_zero (view_map_def hdr raw) = 0 ->
  map_gated_out sys ver (view_map_def hdr raw) = true ->
  createMaps_body hdr sys objName prefix ver (kernelVersion sys) md mapNames i (ret, fds) w =
  Val (Continue (ret, fds ++ [null_fd]), w).
Proof.
  intros Hraw Hname Hzero Hgated.
  unfold createMaps_body. rewrite Hraw, Hname, Hzero.
  change (negb (0 =? 0)) with false. cbv iota.
  unfold map_gated_out in Hgated.
  destruct (ver <? md_bpfloader_min_ver (view_map_def hdr raw)); [reflexivity|].
  destruct (md_bpfloader_max_ver (view_map_def hdr raw) <=? ver); [reflexivity|].
  destruct (kernelVersion sys <? md_min_kver (view_map_def hdr raw)); [reflexivity|].
  destruct (md_max_kver (view_map_def hdr raw) <=? kernelVersion sys); [reflexivity|].
  cbn [orb] in Hgated.
  match type of Hgated with (?a || ?b)%bool = true =>
    destruct a; [reflexivity|]; cbn [orb] in Hgated; rewrite Hgated; reflexivity
  end.
Qed.


Lemma createMaps_body_not_gated (objName prefix : string) (ver : Z)
    (md : list (list byte)) (mapNames : list string) (i ret : Z) (fds : list Z)
    (raw : list byte) (mapName : string) :
  nth_error md (Z.to_nat i) = Some raw ->
  nth_error mapNames (Z.to_nat i) = Some mapName ->
  md_zero (view_map_def hdr raw) = 0 ->
  map_gated_out sys ver (view_map_def hdr raw) = false ->
  createMaps_body hdr sys objName prefix ver (kernelVersion sys) md mapNames i (ret, fds) =
  createMaps_create sys objName prefix (view_map_def hdr raw) mapName (ret, fds).
Proof.
  intros Hraw Hname Hzero Hgated.
  unfold createMaps_body. rewrite Hraw, Hname, Hzero.
  change (negb (0 =? 0)) with false. cbv iota.
  unfold map_gated_out in Hgated.
  repeat (apply orb_false_elim in Hgated; destruct Hgated as [Hgated ?]).
  repeat match goal with H : _ = false |- _ => rewrite H; clear H end.
  reflexivity.
Qed.

(** What the pinning of a new map returns. *)
Lemma createMaps_pin_code (objName : string) (m : bpf_map_def) (sel : domain) (fd : Z)
    (mapName mapPinLoc : string) (w w' : W) (code : Z) :
  errno_set sys ->
  createMaps_pin sys objName m sel fd mapName mapPinLoc w = Val (inl code, w') ->
  code <> 0.
Proof.
  intros (_ & _ & Hpin & Hren & Hmod & Hown) Hrun.
  unfold createMaps_pin, bind, call, Ret in Hrun.
  destruct (specified sel).
  - destruct (bpfFdPin sys fd _ w) as [[r1 e1] w1] eqn:H1.
    destruct (Z.eqb_spec r1 0) as [->|Hr1]; cbn [negb] in Hrun.
    2: { injection Hrun as <- _. specialize (Hpin _ _ _ _ _ _ H1 Hr1). lia. }
    destruct (renameat2_NOREPLACE sys _ mapPinLoc w1) as [[r2 e2] w2] eqn:H2.
    destruct (Z.eqb_spec r2 0) as [->|Hr2]; cbn [negb] in Hrun.
    2: { injection Hrun as <- _. specialize (Hren _ _ _ _ _ _ H2 Hr2). lia. }
    destruct (chmod sys mapPinLoc (md_mode m) w2) as [[r3 e3] w3] eqn:H3.
    destruct (Z.eqb_spec r3 0) as [->|Hr3]; cbn [negb] in Hrun.
    2: { injection Hrun as <- _. specialize (Hmod _ _ _ _ _ _ H3 Hr3). lia. }
    destruct (chown sys mapPinLoc (md_uid m) (md_gid m) w3) as [[r4 e4] w4] eqn:H4.
    destruct (Z.eqb_spec r4 0) as [->|Hr4]; cbn [negb] in Hrun; [discriminate|].
    injection Hrun as <- _. specialize (Hown _ _ _ _ _ _ _ H4 Hr4). lia.
  - destruct (bpfFdPin sys fd mapPinLoc w) as [[r1 e1] w1] eqn:H1.
    destruct (Z.eqb_spec r1 0) as [->|Hr1]; cbn [negb] in Hrun.
    2: { injection Hrun as <- _. specialize (Hpin _ _ _ _ _ _ H1 Hr1). lia. }
    destruct (chmod sys mapPinLoc (md_mode m) w1) as [[r3 e3] w3] eqn:H3.
    destruct (Z.eqb_spec r3 0) as [->|Hr3]; cbn [negb] in Hrun.
    2: { injection Hrun as <- _. specialize (Hmod _ _ _ _ _ _ H3 Hr3). lia. }
    destruct (chown sys mapPinLoc (md_uid m) (md_gid m) w3) as [[r4 e4] w4] eqn:H4.
    destruct (Z.eqb_spec r4 0) as [->|Hr4]; cbn [negb] in Hrun; [discriminate|].
    injection Hrun as <- _. specialize (Hown _ _ _ _ _ _ _ H4 Hr4). lia.
Qed.

Lemma createMaps_obtain_errno (m : bpf_map_def) (type max_entries : Z)
    (mapName mapPinLoc : string) (w w' : W) (reuse : bool) (fd e : Z) :
  errno_set sys ->
  createMaps_obtain sys m type max_entries mapName mapPinLoc w = Val ((reuse, (fd, e)), w') ->
  fd < 0 -> 0 < e.
Proof.
  intros (Hopen & Hcreate & _) Hrun Hfd.
  unfold createMaps_obtain, bind, call, query, Ret in Hrun.
  destruct (access_F_OK sys mapPinLoc w).
  - destruct (mapRetrieveRO sys mapPinLoc w) as [[fd1 e1] w1] eqn:H1.
    injection Hrun as _ <- <- _. exact (Hopen _ _ _ _ _ H1 Hfd).
  - match type of Hrun with context [bpf_MAP_CREATE sys ?req w] =>
      destruct (bpf_MAP_CREATE sys req w) as [[fd1 e1] w1] eqn:H1 end.
    injection Hrun as _ <- <- _. exact (Hcreate _ _ _ _ _ H1 Hfd).
Qed.

(** A map that is not skipped gets a descriptor that is open, or
    [createMaps] returns. *)
Lemma createMaps_create_cases (objName prefix : string) (m : bpf_map_def)
    (mapName : string) (ret : Z) (fds : list Z) (w w' : W)
    (r : step (Z * list Z) (Z * list Z)) :
  createMaps_create sys objName prefix m mapName (ret, fds) w = Val (r, w') ->
  (exists ret' fd, r = Continue (ret', fds ++ [fd]) /\ fd_ok fd = true) \/
  (exists code, r = Return (code, fds) /\ (errno_set sys -> code <> 0)).
Proof.
  intros Hrun. unfold createMaps_create, bind, lift_outcome, query, Ret in Hrun.
  destruct (getDomainFromSelinuxContext (md_selinux_context m)) as [sel| |]; try discriminate.
  destruct (getDomainFromPinSubdir (md_pin_subdir m)) as [pin| |]; try discriminate.
  destruct (is_unrecognized pin).
  { injection Hrun as <- _. right. exists (- ENOTDIR). split; [reflexivity|]. discriminate. }
  match type of Hrun with context [createMaps_obtain sys m ?t ?me mapName ?loc w] =>
    destruct (createMaps_obtain sys m t me mapName loc w)
      as [[[reuse [fd e]] w1]| |] eqn:Hobtain; try discriminate end.
  destruct (fd_ok fd) eqn:Hok; cbn [negb] in Hrun.
  2: { injection Hrun as <- _. right. exists (- e). split; [reflexivity|].
       intros Herr. unfold fd_ok in Hok. apply Z.leb_gt in Hok.
       pose proof (createMaps_obtain_errno _ _ _ _ _ _ _ _ _ _ Herr Hobtain Hok). lia. }
  destruct (mapMatchesExpectations sys fd m (createMaps_type sys m) w1); cbn [negb] in Hrun.
  2: { injection Hrun as <- _. right. exists (- ENOTUNIQ). split; [reflexivity|]. discriminate. }
  destruct reuse; cbn [negb] in Hrun.
  { injection Hrun as <- _. left. exists ret, fd. split; [reflexivity|exact Hok]. }
  match type of Hrun with context [createMaps_pin sys objName m sel fd mapName ?loc w1] =>
    destruct (createMaps_pin sys objName m sel fd mapName loc w1)
      as [[[code|ret'] w2]| |] eqn:Hpin; try discriminate end.
  - injection Hrun as <- _. right. exists code. split; [reflexivity|].
    intros Herr. exact (createMaps_pin_code _ _ _ _ _ _ _ _ _ Herr Hpin).
  - injection Hrun as <- _. left. exists ret', fd. split; [reflexivity|exact Hok].
Qed.


Lemma createMaps_body_cases (objName prefix : string) (ver : Z)
    (md : list (list byte)) (mapNames : list string) (i ret : Z) (fds : list Z)
    (w w' : W) (r : step (Z * list Z) (Z * list Z)) :
  createMaps_body hdr sys objName prefix ver (kernelVersion sys) md mapNames i (ret, fds) w =
    Val (r, w') ->
  exists raw,
    nth_error md (Z.to_nat i) = Some raw /\
    ((map_gated_out sys ver (view_map_def hdr raw) = true /\
      r = Continue (ret, fds ++ [null_fd])) \/
     (map_gated_out sys ver (view_map_def hdr raw) = false /\
      ((exists ret' fd, r = Continue (ret', fds ++ [fd]) /\ fd_ok fd = true) \/
       (exists code, r = Return (code, fds) /\ (errno_set sys -> code <> 0))))).
Proof.
  intros Hrun.
  destruct (nth_error md (Z.to_nat i)) as [raw|] eqn:Hraw.
  2: { unfold createMaps_body in Hrun. rewrite Hraw in Hrun. discriminate. }
  destruct (nth_error mapNames (Z.to_nat i)) as [mapName|] eqn:Hname.
  2: { unfold createMaps_body in Hrun. rewrite Hraw, Hname in Hrun. discriminate. }
  destruct (Z.eqb_spec (md_zero (view_map_def hdr raw)) 0) as [Hzero|Hzero].
  2: { unfold createMaps_body in Hrun. rewrite Hraw, Hname in Hrun.
       apply Z.eqb_neq in Hzero. rewrite Hzero in Hrun. discriminate. }
  exists raw. split; [reflexivity|].
  destruct (map_gated_out sys ver (view_map_def hdr raw)) eqn:Hgated.
  - left. split; [reflexivity|].
    rewrite (createMaps_body_gated _ _ _ _ _ _ _ _ _ _ _ Hraw Hname Hzero Hgated) in Hrun.
    injection Hrun as <- _. reflexivity.
  - right. split; [reflexivity|].
    rewrite (createMaps_body_not_gated _ _ _ _ _ _ _ _ _ _ Hraw Hname Hzero Hgated) in Hrun.
    exact (createMaps_create_cases _ _ _ _ _ _ _ _ _ Hrun).
Qed.

Lemma createMaps_body_no_break (objName prefix : string) (ver : Z)
    (md : list (list byte)) (mapNames : list string) (i : Z) (st st' : Z * list Z)
    (w w' : W) :
  createMaps_body hdr sys objName prefix ver (kernelVersion sys) md mapNames i st w <>
  Val (Break st', w').
Proof.
  destruct st as [ret fds]. intros Hrun.
  destruct (createMaps_body_cases _ _ _ _ _ _ _ _ _ _ _ Hrun)
    as [raw [_ [[_ H]|[_ [[? [? [H _]]]|[? [H _]]]]]]]; discriminate.
Qed.

Lemma aligned_snoc (ver : Z) (md : list (list byte)) (fds : list Z) (fd : Z)
    (raw : list byte) :
  aligned hdr sys ver md fds ->
  nth_error md (List.length fds) = Some raw ->
  (map_gated_out sys ver (view_map_def hdr raw) = true -> fd = null_fd) ->
  (map_gated_out sys ver (view_map_def hdr raw) = false -> fd_ok fd = true) ->
  aligned hdr sys ver md (fds ++ [fd]).
Proof.
  intros Hal Hraw Hnull Hok i fd' Hi.
  destruct (Nat.lt_ge_cases i (List.length fds)) as [Hlt|Hge].
  - rewrite nth_error_app1 in Hi by exact Hlt. exact (Hal _ _ Hi).
  - rewrite nth_error_app2 in Hi by exact Hge.
    destruct (i - List.length fds)%nat as [|k] eqn:Hk.
    + cbn in Hi. injection Hi as <-.
      replace i with (List.length fds) by lia.
      exists raw. split; [exact Hraw|]. split; assumption.
    + cbn in Hi. destruct k; discriminate.
Qed.

Lemma createMaps_loop_aligned (objName prefix : string) (ver : Z)
    (md : list (list byte)) (mapNames : list string) (n : nat) (ret0 : Z) (w w' : W)
    (r : (Z * list Z) + (Z * list Z)) :
  for_range n 0 (createMaps_body hdr sys objName prefix ver (kernelVersion sys) md mapNames)
    (ret0, []) w = Val (r, w') ->
  match r with
  | inr (_, fds) => List.length fds = n /\ aligned hdr sys ver md fds
  | inl (code, fds) =>
      (List.length fds < n)%nat /\ aligned hdr sys ver md fds /\ (errno_set sys -> code <> 0)
  end.
Proof.
  intros Hrun.
  pose proof (for_range_invariant
    (createMaps_body hdr sys objName prefix ver (kernelVersion sys) md mapNames)
    (fun k st => List.length (snd st) = k /\ aligned hdr sys ver md (snd st))
    (fun k r => List.length (snd r) = k /\ aligned hdr sys ver md (snd r) /\
                (errno_set sys -> fst r <> 0))
    0) as Hinv.
  assert (Hbody : forall (k : nat) (st : Z * list Z) (s : W)
            (r : step (Z * list Z) (Z * list Z)) (s' : W),
            List.length (snd st) = k /\ aligned hdr sys ver md (snd st) ->
            createMaps_body hdr sys objName prefix ver (kernelVersion sys) md mapNames
              (0 + Z.of_nat k) st s = Val (r, s') ->
            match r with
            | Return r0 => List.length (snd r0) = k /\ aligned hdr sys ver md (snd r0) /\
                           (errno_set sys -> fst r0 <> 0)
            | Break _ => False
            | Continue st' => List.length (snd st') = S k /\ aligned hdr sys ver md (snd st')
            end).
  { intros k [ret fds] s r0 s' [Hlen Hal] Hb. cbn [snd] in Hlen, Hal.
    destruct (createMaps_body_cases _ _ _ _ _ _ _ _ _ _ _ Hb)
      as [raw [Hraw [[Hg ->]|[Hg [[ret' [fd [-> Hok]]]|[code [-> Hcode]]]]]]];
      cbn [snd fst].
    - rewrite Z.add_0_l, Nat2Z.id in Hraw. split.
      + rewrite length_app. cbn. lia.
      + apply (aligned_snoc _ _ _ _ raw Hal); [rewrite Hlen; exact Hraw|reflexivity|].
        rewrite Hg. discriminate.
    - rewrite Z.add_0_l, Nat2Z.id in Hraw. split.
      + rewrite length_app. cbn. lia.
      + apply (aligned_snoc _ _ _ _ raw Hal); [rewrite Hlen; exact Hraw| |intros _; exact Hok].
        rewrite Hg. discriminate.
    - split; [exact Hlen|]. split; [exact Hal|exact Hcode]. }
  specialize (Hinv Hbody n 0%nat (ret0, []) w r w').
  cbn [snd Z.of_nat] in Hinv. rewrite Z.add_0_r in Hinv.
  assert (Hinit : @List.length Z [] = 0%nat /\ aligned hdr sys ver md []).
  { split; [reflexivity|]. intros i fd Hi. destruct i; discriminate. }
  specialize (Hinv Hinit Hrun).
  destruct r as [[code fds]|[ret fds]]; cbn [snd fst] in Hinv.
  - destruct Hinv as [k [Hk [Hlen [Hal Hcode]]]]. split; [lia|]. split; assumption.
  - exact Hinv.
Qed.


(** [createMaps] on an object whose maps section reads as [maps_read] says
    is the loop over the map names. *)
Lemma createMaps_run (elfPath prefix : string) (sz ver : Z) (s s2 : ifstream) (w : W)
    (md : list (list byte)) (mapNames : list string) :
  maps_read std_sort hdr sz s md mapNames s2 ->
  createMaps std_sort hdr sys elfPath prefix sz ver (s, w) =
  match for_range (List.length mapNames) 0
          (createMaps_body hdr sys (pathToObjName elfPath) prefix ver (kernelVersion sys)
             md mapNames) (0, []) w with
  | Val (inl (code, fds), w') => Val ((code, fds), (s2, w'))
  | Val (inr (ret, fds), w') => Val ((ret, fds), (s2, w'))
  | Undef => Undef
  | Abort => Abort
  end.
Proof.
  intros (mdData & s1 & Hread & Hsz & Hmod & Hcount & Hdecode & Hnames & Hlen).
  unfold createMaps, bind, liftE, liftW. rewrite Hread.
  change (0 =? -2) with false. change (negb (0 =? 0)) with false. cbv iota.
  destruct (Z.eqb_spec sz 0) as [->|_]; [lia|].
  rewrite Hmod. change (negb (0 =? 0)) with false. cbv iota.
  assert (Hnn : 0 <= Z.of_nat (List.length mdData) / sz) by (apply Z.div_pos; lia).
  rewrite (cast_int_id (Z.of_nat (List.length mdData) / sz)) by lia.
  destruct (Z.ltb_spec (Z.of_nat (List.length mdData) / sz) 0) as [Hneg|_]; [lia|].
  rewrite Hdecode, Hnames.
  change (negb (0 =? 0)) with false. cbv iota.
  rewrite (cast_int_id (Z.of_nat (List.length mapNames))) by lia.
  rewrite Nat2Z.id.
  destruct (for_range (List.length mapNames) 0 _ (0, []) w) as [[[[code fds]|[ret fds]] w']| |];
    reflexivity.
Qed.

(** C6. On an object whose maps section holds the definitions [md] named by
    [mapNames], whatever [createMaps] returns, the descriptors it has put
    into [mapFds] stand for the first definitions in order: the i-th is null
    when the i-th definition is skipped by gating (loader version window,
    kernel version window, build flavor, architecture and bitness) and an
    open descriptor when it is not; when [createMaps] returns 0 (failing
    calls setting errno), there is one descriptor for every map name. *)
Theorem createMaps_descriptors_aligned (elfPath prefix : string) (sz ver : Z)
    (s s2 : ifstream) (w : W) (md : list (list byte)) (mapNames : list string)
    (ret : Z) (mapFds : list Z) (st' : ifstream * W) :
  maps_read std_sort hdr sz s md mapNames s2 ->
  createMaps std_sort hdr sys elfPath prefix sz ver (s, w) = Val ((ret, mapFds), st') ->
  (List.length mapFds <= List.length mapNames)%nat /\
  (forall i fd,
     nth_error mapFds i = Some fd ->
     exists raw,
       nth_error md i = Some raw /\
       (map_gated_out sys ver (view_map_def hdr raw) = true -> fd = null_fd) /\
       (map_gated_out sys ver (view_map_def hdr raw) = false -> fd_ok fd = true)) /\
  (errno_set sys -> ret = 0 -> List.length mapFds = List.length mapNames).
Proof.
  intros Hmaps Hrun.
  rewrite (createMaps_run _ _ _ _ _ _ _ _ _ Hmaps) in Hrun.
  destruct (for_range (List.length mapNames) 0 _ (0, []) w) as [[r w']| |] eqn:Hloop;
    try discriminate.
  pose proof (createMaps_loop_aligned _ _ _ _ _ _ _ _ _ _ Hloop) as Hal.
  destruct r as [[code fds]|[ret' fds]]; injection Hrun as <- <- _.
  - destruct Hal as [Hlen [Hal Hcode]]. split; [lia|]. split; [exact Hal|].
    intros Herr Hz. exfalso. exact (Hcode Herr Hz).
  - destruct Hal as [Hlen Hal]. split; [lia|]. split; [exact Hal|].
    intros _ _. exact Hlen.
Qed.


(** The loop returns what its body returns at iteration [i], once the
    iterations before [i] are through. *)
Lemma createMaps_loop_returns (objName prefix : string) (ver : Z)
    (md : list (list byte)) (mapNames : list string) (n i : nat) (st0 st : Z * list Z)
    (w0 w w1 : W) (r : Z * list Z) :
  (i < n)%nat ->
  for_range i 0 (createMaps_body hdr sys objName prefix ver (kernelVersion sys) md mapNames)
    st0 w0 = Val (inr st, w) ->
  createMaps_body hdr sys objName prefix ver (kernelVersion sys) md mapNames (Z.of_nat i) st w =
    Val (Return r, w1) ->
  for_range n 0 (createMaps_body hdr sys objName prefix ver (kernelVersion sys) md mapNames)
    st0 w0 = Val (inl r, w1).
Proof.
  intros Hi Hreach Hbody.
  replace n with (i + S (n - i - 1))%nat by lia.
  rewrite for_range_split by (intros; apply createMaps_body_no_break).
  rewrite Hreach. cbn [for_range]. unfold bind. rewrite Z.add_0_l, Hbody. reflexivity.
Qed.

Lemma createMaps_create_unrecognized (objName prefix : string) (m : bpf_map_def)
    (mapName : string) (ret : Z) (fds : list Z) (w : W) :
  getDomainFromPinSubdir (md_pin_subdir m) = Val unrecognized ->
  createMaps_create sys objName prefix m mapName (ret, fds) w =
  Val (Return (- ENOTDIR, fds), w).
Proof.
  intros Hpin. unfold createMaps_create, bind, lift_outcome.
  destruct (getDomainFromSelinuxContext_recognized (md_selinux_context m)) as [sel [-> _]].
  rewrite Hpin. reflexivity.
Qed.

Lemma createMaps_create_mismatch (objName prefix : string) (m : bpf_map_def)
    (mapName : string) (ret : Z) (fds : list Z) (w w1 : W) (pin : domain)
    (reuse : bool) (fd e : Z) :
  getDomainFromPinSubdir (md_pin_subdir m) = Val pin ->
  pin <> unrecognized ->
  createMaps_obtain sys m (createMaps_type sys m)
    (createMaps_max_entries sys m (createMaps_type sys m)) mapName
    (createMaps_pin_loc objName prefix m pin mapName) w = Val ((reuse, (fd, e)), w1) ->
  fd_ok fd = true ->
  mapMatchesExpectations sys fd m (createMaps_type sys m) w1 = false ->
  createMaps_create sys objName prefix m mapName (ret, fds) w =
  Val (Return (- ENOTUNIQ, fds), w1).
Proof.
  intros Hpin Hrec Hobtain Hok Hmatch. unfold createMaps_create, bind, lift_outcome.
  destruct (getDomainFromSelinuxContext_recognized (md_selinux_context m)) as [sel [-> _]].
  rewrite Hpin.
  replace (is_unrecognized pin) with false by (destruct pin; try reflexivity; contradiction).
  rewrite Hobtain, Hok. unfold query. cbn [negb]. rewrite Hmatch. reflexivity.
Qed.

Lemma max_entries_rounded (m : bpf_map_def) (type : Z) :
  (if type =? BPF_MAP_TYPE_RINGBUF then
     if md_max_entries m <? page_size sys then page_size sys else md_max_entries m
   else md_max_entries m) = desired_max_entries sys m type.
Proof.
  unfold desired_max_entries. destruct (type =? BPF_MAP_TYPE_RINGBUF); [|reflexivity].
  destruct (Z.ltb_spec (md_max_entries m) (page_size sys)); lia.
Qed.

(** C3. The map type that [createMaps] works with for a definition, its
    effective type, is an array in place of a devmap on kernels before 4.14,
    a hash in place of a devmap-hash on kernels before 5.4, and the type of
    the definition otherwise.  On kernels from 4.14 on,
    [mapMatchesExpectations] holds of a descriptor and that type iff the map
    type, key size, value size, max entries and map flags of the descriptor
    equal the desired effective values (as [int]s): the effective type,
    max_entries rounded up to the page size for a ringbuf, map_flags with
    BPF_F_RDONLY_PROG for the devmap kinds; on older kernels the check is
    skipped and holds.  For a map that is not skipped and whose descriptor
    is open, a mismatch makes [createMaps] return -ENOTUNIQ. *)
Theorem mapMatchesExpectations_spec (fd : Z) (m : bpf_map_def) (w : W) :
  ((md_type m = BPF_MAP_TYPE_DEVMAP -> isAtLeastKernelVersion sys 4 14 0 = false ->
    createMaps_type sys m = BPF_MAP_TYPE_ARRAY) /\
   (md_type m = BPF_MAP_TYPE_DEVMAP_HASH -> isAtLeastKernelVersion sys 5 4 0 = false ->
    createMaps_type sys m = BPF_MAP_TYPE_HASH) /\
   ((md_type m = BPF_MAP_TYPE_DEVMAP -> isAtLeastKernelVersion sys 4 14 0 = true) ->
    (md_type m = BPF_MAP_TYPE_DEVMAP_HASH -> isAtLeastKernelVersion sys 5 4 0 = true) ->
    createMaps_type sys m = md_type m)) /\
  (isAtLeastKernelVersion sys 4 14 0 = true ->
   (mapMatchesExpectations sys fd m (createMaps_type sys m) w = true <->
    bpfGetFdMapType sys fd w = cast_int (createMaps_type sys m) /\
    bpfGetFdKeySize sys fd w = cast_int (md_key_size m) /\
    bpfGetFdValueSize sys fd w = cast_int (md_value_size m) /\
    bpfGetFdMaxEntries sys fd w =
      cast_int (desired_max_entries sys m (createMaps_type sys m)) /\
    bpfGetFdMapFlags sys fd w = desired_map_flags m (createMaps_type sys m))) /\
  (isAtLeastKernelVersion sys 4 14 0 = false ->
   mapMatchesExpectations sys fd m (createMaps_type sys m) w = true) /\
  (forall elfPath prefix sz ver s s2 w0 md mapNames i raw mapName ret fds w' pin reuse e,
     maps_read std_sort hdr sz s md mapNames s2 ->
     for_range i 0
       (createMaps_body hdr sys (pathToObjName elfPath) prefix ver (kernelVersion sys)
          md mapNames) (0, []) w0 = Val (inr (ret, fds), w') ->
     nth_error md i = Some raw ->
     nth_error mapNames i = Some mapName ->
     m = view_map_def hdr raw ->
     md_zero m = 0 ->
     map_gated_out sys ver m = false ->
     getDomainFromPinSubdir (md_pin_subdir m) = Val pin ->
     pin <> unrecognized ->
     createMaps_obtain sys m (createMaps_type sys m)
       (createMaps_max_entries sys m (createMaps_type sys m)) mapName
       (createMaps_pin_loc (pathToObjName elfPath) prefix m pin mapName) w' =
       Val ((reuse, (fd, e)), w) ->
     fd_ok fd = true ->
     mapMatchesExpectations sys fd m (createMaps_type sys m) w = false ->
     createMaps std_sort hdr sys elfPath prefix sz ver (s, w0) =
     Val ((- ENOTUNIQ, fds), (s2, w))).
Proof.
  split; [|split; [|split]].
  - unfold createMaps_type. split; [|split].
    + intros -> ->. reflexivity.
    + intros -> ->. reflexivity.
    + intros H414 H54.
      destruct (Z.eqb_spec (md_type m) BPF_MAP_TYPE_DEVMAP) as [Hdev|_]; cbn [andb].
      * rewrite (H414 Hdev). cbn [negb]. rewrite Hdev. reflexivity.
      * destruct (Z.eqb_spec (md_type m) BPF_MAP_TYPE_DEVMAP_HASH) as [Hhash|_]; cbn [andb];
          [|reflexivity].
        rewrite (H54 Hhash). reflexivity.
  - intros Hk. unfold mapMatchesExpectations. rewrite Hk. cbn [negb].
    rewrite max_entries_rounded. fold (desired_map_flags m (createMaps_type sys m)).
    rewrite !andb_true_iff, !Z.eqb_eq. tauto.
  - intros Hk. unfold mapMatchesExpectations. rewrite Hk. reflexivity.
  - intros elfPath prefix sz ver s s2 w0 md mapNames i raw mapName ret fds w' pin reuse e
      Hmaps Hreach Hraw Hname -> Hzero Hgated Hpin Hrec Hobtain Hok Hmatch.
    rewrite (createMaps_run _ _ _ _ _ _ _ _ _ Hmaps).
    assert (Hi : (i < List.length mapNames)%nat)
      by (apply nth_error_Some; rewrite Hname; discriminate).
    assert (Hbody :
      createMaps_body hdr sys (pathToObjName elfPath) prefix ver (kernelVersion sys)
        md mapNames (Z.of_nat i) (ret, fds) w' = Val (Return (- ENOTUNIQ, fds), w)).
    { rewrite createMaps_body_not_gated with (raw := raw) (mapName := mapName);
        rewrite ?Nat2Z.id; try assumption.
      exact (createMaps_create_mismatch _ _ _ _ _ _ _ _ _ _ _ _ Hpin Hrec Hobtain Hok Hmatch). }
    rewrite (createMaps_loop_returns _ _ _ _ _ _ _ _ _ _ _ _ _ Hi Hreach Hbody).
    reflexivity.
Qed.


(** ** The program loader *)

Ltac break_match H :=
  match type of H with
  | context [match ?x with _ => _ end] =>
      match x with
      | context [match _ with _ => _ end] => fail 1
      | _ => destruct x eqn:?
      end
  end.

Lemma loadCodeSections_body_no_break (elfPath objName license prefix : string)
    (ver kvers : Z) (c : codeSection) (u u' : unit) (w w' : W) :
  loadCodeSections_body hdr sys elfPath objName license prefix ver kvers c u w <>
  Val (Break u', w').
Proof.
  intros Hrun.
  unfold loadCodeSections_body, bind, lift_outcome, query, call, Ret in Hrun.
  repeat (break_match Hrun; try discriminate).
Qed.

Lemma loadCodeSections_body_unrecognized (elfPath objName license prefix : string)
    (ver : Z) (c : codeSection) (raw : list byte) (w : W) :
  cs_prog_def c = Some raw ->
  prog_gated_out sys ver (view_prog_def hdr raw) = false ->
  getDomainFromPinSubdir (pd_pin_subdir (view_prog_def hdr raw)) = Val unrecognized ->
  loadCodeSections_body hdr sys elfPath objName license prefix ver (kernelVersion sys) c tt w =
  Val (Return (- ENOTDIR), w).
Proof.
  intros Hdef Hgated Hpin. unfold loadCodeSections_body. rewrite Hdef.
  unfold prog_gated_out in Hgated.
  repeat (apply orb_false_elim in Hgated; destruct Hgated as [Hgated ?]).
  unfold bind, lift_outcome.
  destruct (getDomainFromSelinuxContext_recognized
              (pd_selinux_context (view_prog_def hdr raw))) as [sel [-> _]].
  rewrite Hpin.
  repeat match goal with H : _ = false |- _ => rewrite H; clear H end.
  reflexivity.
Qed.

(** A selinux_context that matches no token of the table decodes to
    [unspecified]. *)
Lemma getDomainFromSelinuxContext_unmatched (token : list byte) :
  (forall d', In d' AllDomains ->
     strncmp token (list_byte_of_string (lookupSelinuxContext d' ""))
       BPF_SELINUX_CONTEXT_CHAR_ARRAY_SIZE <> 0) ->
  getDomainFromSelinuxContext token = Val unspecified.
Proof.
  intros Hnone. unfold getDomainFromSelinuxContext.
  destruct (getDomainFromSelinuxContext_loop_spec token AllDomains)
    as [[d [Hin [_ Hcmp]]]|[Hrun _]].
  - intros d Hd. apply (AllDomains_tokens_fit d Hd).
  - exfalso. exact (Hnone d Hin Hcmp).
  - exact Hrun.
Qed.

(** A map that is not skipped, whose selinux_context matches no token and
    whose pin_subdir is recognized: the loop goes on once the map is
    obtained, found as expected and, when it is new, pinned as a map of the
    unspecified domain. *)
Lemma createMaps_create_unmatched (objName prefix : string) (m : bpf_map_def)
    (mapName : string) (ret : Z) (fds : list Z) (w w1 w2 : W) (pin : domain)
    (reuse : bool) (fd e ret' : Z) :
  (forall d', In d' AllDomains ->
     strncmp (md_selinux_context m) (list_byte_of_string (lookupSelinuxContext d' ""))
       BPF_SELINUX_CONTEXT_CHAR_ARRAY_SIZE <> 0) ->
  getDomainFromPinSubdir (md_pin_subdir m) = Val pin ->
  pin <> unrecognized ->
  createMaps_obtain sys m (createMaps_type sys m)
    (createMaps_max_entries sys m (createMaps_type sys m)) mapName
    (createMaps_pin_loc objName prefix m pin mapName) w = Val ((reuse, (fd, e)), w1) ->
  fd_ok fd = true ->
  mapMatchesExpectations sys fd m (createMaps_type sys m) w1 = true ->
  (if reuse then Val (inr ret, w1)
   else createMaps_pin sys objName m unspecified fd mapName
          (createMaps_pin_loc objName prefix m pin mapName) w1) = Val (inr ret', w2) ->
  createMaps_create sys objName prefix m mapName (ret, fds) w =
  Val (Continue (ret', fds ++ [fd]), w2).
Proof.
  intros Hnone Hpin Hrec Hobtain Hok Hmatch Hpinned.
  unfold createMaps_create, bind, lift_outcome.
  rewrite (getDomainFromSelinuxContext_unmatched _ Hnone), Hpin.
  replace (is_unrecognized pin) with false by (destruct pin; try reflexivity; contradiction).
  rewrite Hobtain, Hok. unfold query. cbn [negb]. rewrite Hmatch. cbn [negb].
  destruct reuse; cbn [negb].
  - injection Hpinned as <- <-. reflexivity.
  - rewrite Hpinned. reflexivity.
Qed.

(** A program that is not skipped, whose selinux_context matches no token
    and whose pin_subdir is recognized: the loop goes on once the program is
    loaded and pinned as a program of the unspecified domain. *)
Lemma loadCodeSections_body_unmatched (elfPath objName license prefix : string)
    (ver : Z) (c : codeSection) (raw : list byte) (pin : domain) (fd e1 e2 e3 : Z)
    (w w1 w2 w3 w4 : W) :
  cs_prog_def c = Some raw ->
  prog_gated_out sys ver (view_prog_def hdr raw) = false ->
  (forall d', In d' AllDomains ->
     strncmp (pd_selinux_context (view_prog_def hdr raw))
       (list_byte_of_string (lookupSelinuxContext d' ""))
       BPF_SELINUX_CONTEXT_CHAR_ARRAY_SIZE <> 0) ->
  getDomainFromPinSubdir (pd_pin_subdir (view_prog_def hdr raw)) = Val pin ->
  pin <> unrecognized ->
  access_F_OK sys (prog_pin_loc objName prefix pin c) w = false ->
  bpf_PROG_LOAD sys (prog_load_req sys license c) w = (fd, w1) ->
  fd_ok fd = true ->
  bpfFdPin sys fd (prog_pin_loc objName prefix pin c) w1 = ((0, e1), w2) ->
  chmod sys (prog_pin_loc objName prefix pin c) 288 w2 = ((0, e2), w3) ->
  chown sys (prog_pin_loc objName prefix pin c) (pd_uid (view_prog_def hdr raw))
    (pd_gid (view_prog_def hdr raw)) w3 = ((0, e3), w4) ->
  loadCodeSections_body hdr sys elfPath objName license prefix ver (kernelVersion sys) c tt w =
  Val (Continue tt, w4).
Proof.
  intros Hdef Hgated Hnone Hpin Hrec Haccess Hload Hok Hpinned Hmod Hown.
  unfold loadCodeSections_body. rewrite Hdef.
  unfold prog_gated_out in Hgated.
  repeat (apply orb_false_elim in Hgated; destruct Hgated as [Hgated ?]).
  unfold bind, lift_outcome.
  rewrite (getDomainFromSelinuxContext_unmatched _ Hnone), Hpin.
  repeat match goal with H : _ = false |- _ => rewrite H; clear H end.
  replace (is_unrecognized pin) with false by (destruct pin; try reflexivity; contradiction).
  unfold prog_pin_loc, prog_load_req in *. unfold query, call, Ret.
  rewrite Haccess, Hload, Hok. cbn [negb andb]. rewrite Hok. cbn [negb].
  change (specified unspecified) with false. cbv iota.
  cbv beta. rewrite Hpinned. cbn [Z.eqb negb]. cbv beta iota.
  rewrite Hmod. cbn [Z.eqb negb]. cbv beta iota. rewrite Hown. reflexivity.
Qed.

(** C7 (amended). A map definition that is not skipped by gating and whose
    pin_subdir token decodes to [unrecognized] makes [createMaps] return
    -ENOTDIR; a program definition that is not skipped by gating and whose
    pin_subdir token decodes to [unrecognized] makes [loadCodeSections]
    return -ENOTDIR (when the kernel version is unknown, [loadCodeSections]
    fails at once with -EINVAL).  A selinux_context token never decodes to
    [unrecognized]: one that matches no token of the table decodes to
    [unspecified], where a pin_subdir token decodes to [unrecognized]; and
    processing continues with it: [createMaps] goes on with the maps that
    follow once the map is obtained and, when new, pinned as a map of the
    unspecified domain, and [loadCodeSections] goes on with the sections
    that follow once the program is loaded and pinned at its pin
    location. *)
Theorem unrecognized_tokens :
  (forall elfPath prefix sz ver s s2 w0 md mapNames i raw mapName ret fds w,
     maps_read std_sort hdr sz s md mapNames s2 ->
     for_range i 0
       (createMaps_body hdr sys (pathToObjName elfPath) prefix ver (kernelVersion sys)
          md mapNames) (0, []) w0 = Val (inr (ret, fds), w) ->
     nth_error md i = Some raw ->
     nth_error mapNames i = Some mapName ->
     md_zero (view_map_def hdr raw) = 0 ->
     map_gated_out sys ver (view_map_def hdr raw) = false ->
     getDomainFromPinSubdir (md_pin_subdir (view_map_def hdr raw)) = Val unrecognized ->
     createMaps std_sort hdr sys elfPath prefix sz ver (s, w0) =
     Val ((- ENOTDIR, fds), (s2, w))) /\
  (forall elfPath pre c post license prefix ver w0 w raw,
     for_each pre
       (loadCodeSections_body hdr sys elfPath (pathToObjName elfPath) license prefix ver
          (kernelVersion sys)) tt w0 = Val (inr tt, w) ->
     cs_prog_def c = Some raw ->
     prog_gated_out sys ver (view_prog_def hdr raw) = false ->
     getDomainFromPinSubdir (pd_pin_subdir (view_prog_def hdr raw)) = Val unrecognized ->
     loadCodeSections hdr sys elfPath (pre ++ c :: post) license prefix ver w0 =
     if kernelVersion sys =? 0 then Val (- EINVAL, w0) else Val (- ENOTDIR, w)) /\
  (forall token,
     exists d,
       getDomainFromSelinuxContext token = Val d /\ d <> unrecognized /\
       ((forall d', In d' AllDomains ->
           strncmp token (list_byte_of_string (lookupSelinuxContext d' ""))
             BPF_SELINUX_CONTEXT_CHAR_ARRAY_SIZE <> 0) ->
        d = unspecified)) /\
  (forall token,
     (forall d', In d' AllDomains ->
        strncmp token (list_byte_of_string (lookupPinSubdir d' ""))
          BPF_PIN_SUBDIR_CHAR_ARRAY_SIZE <> 0) ->
     getDomainFromPinSubdir token = Val unrecognized) /\
  (forall elfPath prefix sz ver s s2 w0 md mapNames i raw mapName ret fds w m pin
          reuse fd e w1 ret' w2,
     maps_read std_sort hdr sz s md mapNames s2 ->
     for_range i 0
       (createMaps_body hdr sys (pathToObjName elfPath) prefix ver (kernelVersion sys)
          md mapNames) (0, []) w0 = Val (inr (ret, fds), w) ->
     nth_error md i = Some raw ->
     nth_error mapNames i = Some mapName ->
     m = view_map_def hdr raw ->
     md_zero m = 0 ->
     map_gated_out sys ver m = false ->
     (forall d', In d' AllDomains ->
        strncmp (md_selinux_context m) (list_byte_of_string (lookupSelinuxContext d' ""))
          BPF_SELINUX_CONTEXT_CHAR_ARRAY_SIZE <> 0) ->
     getDomainFromPinSubdir (md_pin_subdir m) = Val pin ->
     pin <> unrecognized ->
     createMaps_obtain sys m (createMaps_type sys m)
       (createMaps_max_entries sys m (createMaps_type sys m)) mapName
       (createMaps_pin_loc (pathToObjName elfPath) prefix m pin mapName) w =
       Val ((reuse, (fd, e)), w1) ->
     fd_ok fd = true ->
     mapMatchesExpectations sys fd m (createMaps_type sys m) w1 = true ->
     (if reuse then Val (inr ret, w1)
      else createMaps_pin sys (pathToObjName elfPath) m unspecified fd mapName
             (createMaps_pin_loc (pathToObjName elfPath) prefix m pin mapName) w1) =
       Val (inr ret', w2) ->
     createMaps std_sort hdr sys elfPath prefix sz ver (s, w0) =
     match for_range (List.length mapNames - S i) (Z.of_nat (S i))
             (createMaps_body hdr sys (pathToObjName elfPath) prefix ver (kernelVersion sys)
                md mapNames) (ret', fds ++ [fd]) w2 with
     | Val (inl (code, fds'), w') => Val ((code, fds'), (s2, w'))
     | Val (inr (ret'', fds'), w') => Val ((ret'', fds'), (s2, w'))
     | Undef => Undef
     | Abort => Abort
     end) /\
  (forall elfPath pre c post license prefix ver w0 w raw pin fd w1 e1 w2 e2 w3 e3 w4,
     kernelVersion sys <> 0 ->
     for_each pre
       (loadCodeSections_body hdr sys elfPath (pathToObjName elfPath) license prefix ver
          (kernelVersion sys)) tt w0 = Val (inr tt, w) ->
     cs_prog_def c = Some raw ->
     prog_gated_out sys ver (view_prog_def hdr raw) = false ->
     (forall d', In d' AllDomains ->
        strncmp (pd_selinux_context (view_prog_def hdr raw))
          (list_byte_of_string (lookupSelinuxContext d' ""))
          BPF_SELINUX_CONTEXT_CHAR_ARRAY_SIZE <> 0) ->
     getDomainFromPinSubdir (pd_pin_subdir (view_prog_def hdr raw)) = Val pin ->
     pin <> unrecognized ->
     access_F_OK sys (prog_pin_loc (pathToObjName elfPath) prefix pin c) w = false ->
     bpf_PROG_LOAD sys (prog_load_req sys license c) w = (fd, w1) ->
     fd_ok fd = true ->
     bpfFdPin sys fd (prog_pin_loc (pathToObjName elfPath) prefix pin c) w1 = ((0, e1), w2) ->
     chmod sys (prog_pin_loc (pathToObjName elfPath) prefix pin c) 288 w2 = ((0, e2), w3) ->
     chown sys (prog_pin_loc (pathToObjName elfPath) prefix pin c)
       (pd_uid (view_prog_def hdr raw)) (pd_gid (view_prog_def hdr raw)) w3 =
       ((0, e3), w4) ->
     loadCodeSections hdr sys elfPath (pre ++ c :: post) license prefix ver w0 =
     loadCodeSections hdr sys elfPath post license prefix ver w4).
Proof.
  split; [|split; [|split; [|split; [|split]]]].
  - intros elfPath prefix sz ver s s2 w0 md mapNames i raw mapName ret fds w
      Hmaps Hreach Hraw Hname Hzero Hgated Hpin.
    rewrite (createMaps_run _ _ _ _ _ _ _ _ _ Hmaps).
    assert (Hi : (i < List.length mapNames)%nat)
      by (apply nth_error_Some; rewrite Hname; discriminate).
    assert (Hbody :
      createMaps_body hdr sys (pathToObjName elfPath) prefix ver (kernelVersion sys)
        md mapNames (Z.of_nat i) (ret, fds) w = Val (Return (- ENOTDIR, fds), w)).
    { rewrite createMaps_body_not_gated with (raw := raw) (mapName := mapName);
        rewrite ?Nat2Z.id; try assumption.
      exact (createMaps_create_unrecognized _ _ _ _ _ _ _ Hpin). }
    rewrite (createMaps_loop_returns _ _ _ _ _ _ _ _ _ _ _ _ _ Hi Hreach Hbody).
    reflexivity.
  - intros elfPath pre c post license prefix ver w0 w raw Hreach Hdef Hgated Hpin.
    unfold loadCodeSections.
    destruct (Z.eqb_spec (kernelVersion sys) 0) as [Hk|Hk]; [reflexivity|]. unfold bind.
    rewrite for_each_app by (intros [] [] ? [] ?; apply loadCodeSections_body_no_break).
    rewrite Hreach. cbn [for_each]. unfold bind.
    rewrite (loadCodeSections_body_unrecognized _ _ _ _ _ _ _ _ Hdef Hgated Hpin).
    reflexivity.
  - intros token. unfold getDomainFromSelinuxContext.
    destruct (getDomainFromSelinuxContext_loop_spec token AllDomains)
      as [[d [Hin [Hrun Hcmp]]]|[Hrun Hnone]].
    + intros d Hd. apply (AllDomains_tokens_fit d Hd).
    + exists d. split; [exact Hrun|]. split; [apply AllDomains_recognized; exact Hin|].
      intros Hnone. exfalso. exact (Hnone d Hin Hcmp).
    + exists unspecified. split; [exact Hrun|]. split; [discriminate|reflexivity].
  - intros token Hnone. unfold getDomainFromPinSubdir.
    destruct (getDomainFromPinSubdir_loop_spec token AllDomains)
      as [[d [Hin [Hrun Hcmp]]]|[Hrun _]].
    + intros d Hd. apply (AllDomains_tokens_fit d Hd).
    + exfalso. exact (Hnone d Hin Hcmp).
    + exact Hrun.
  - intros elfPath prefix sz ver s s2 w0 md mapNames i raw mapName ret fds w m pin
      reuse fd e w1 ret' w2
      Hmaps Hreach Hraw Hname -> Hzero Hgated Hnone Hpin Hrec Hobtain Hok Hmatch Hpinned.
    rewrite (createMaps_run _ _ _ _ _ _ _ _ _ Hmaps).
    assert (Hi : (i < List.length mapNames)%nat)
      by (apply nth_error_Some; rewrite Hname; discriminate).
    assert (Hbody :
      createMaps_body hdr sys (pathToObjName elfPath) prefix ver (kernelVersion sys)
        md mapNames (Z.of_nat i) (ret, fds) w = Val (Continue (ret', fds ++ [fd]), w2)).
    { rewrite createMaps_body_not_gated with (raw := raw) (mapName := mapName);
        rewrite ?Nat2Z.id; try assumption.
      exact (createMaps_create_unmatched _ _ _ _ _ _ _ _ _ _ _ _ _ _
               Hnone Hpin Hrec Hobtain Hok Hmatch Hpinned). }
    replace (List.length mapNames) with (i + S (List.length mapNames - S i))%nat at 1 by lia.
    rewrite for_range_split by (intros; apply createMaps_body_no_break).
    rewrite Hreach. cbn [for_range]. unfold bind. rewrite Z.add_0_l, Hbody.
    replace (Z.of_nat i + 1) with (Z.of_nat (S i)) by lia.
    reflexivity.
  - intros elfPath pre c post license prefix ver w0 w raw pin fd w1 e1 w2 e2 w3 e3 w4
      Hk Hreach Hdef Hgated Hnone Hpin Hrec Haccess Hload Hok Hpinned Hmod Hown.
    unfold loadCodeSections. apply Z.eqb_neq in Hk. rewrite Hk. unfold bind.
    rewrite for_each_app by (intros [] [] ? [] ?; apply loadCodeSections_body_no_break).
    rewrite Hreach. cbn [for_each]. unfold bind.
    rewrite (loadCodeSections_body_unmatched _ _ _ _ _ _ _ _ _ _ _ _ _ _ _ _ _
               Hdef Hgated Hnone Hpin Hrec Haccess Hload Hok Hpinned Hmod Hown).
    reflexivity.
Qed.

End MapManager.

(** ** The version gate of an object *)

Section ObjectGate.

Variable std_sort : (Elf64_Sym -> Elf64_Sym -> bool) -> list Elf64_Sym -> list Elf64_Sym.
Variable hdr : Headers.
Variable W : Type.
Variable sys : Sys W.

(** C1 (amended). For an ELF object whose license section is read, with
    the version scalars [minVer], [maxVer] and [minRequiredVer]: when the
    loader version is outside the half-open window [minVer, maxVer),
    [loadProg] returns 0 without loading the object (a silent skip),
    whatever [minRequiredVer] is; when it is inside the window, [loadProg]
    returns the failure -1 if the loader version is below [minRequiredVer],
    and proceeds to load the object otherwise. *)
Theorem loadProg_version_gate (elfPath : string) (ver : Z) (location : Location)
    (s s1 s2 s3 s4 s5 s6 s7 : ifstream) (w : W) (rc : Z) (critical license : list byte)
    (minVer maxVer minRequiredVer sizeOfBpfMapDef sizeOfBpfProgDef : Z) :
  readSectionByName "critical" s = Val ((rc, critical), s1) ->
  readSectionByName "license" s1 = Val ((0, license), s2) ->
  readSectionUint "bpfloader_min_ver" (DEFAULT_BPFLOADER_MIN_VER hdr) s2 = Val (minVer, s3) ->
  readSectionUint "bpfloader_max_ver" (DEFAULT_BPFLOADER_MAX_VER hdr) s3 = Val (maxVer, s4) ->
  readSectionUint "bpfloader_min_required_ver" 0 s4 = Val (minRequiredVer, s5) ->
  readSectionUint "size_of_bpf_map_def" (DEFAULT_SIZEOF_BPF_MAP_DEF hdr) s5 =
    Val (sizeOfBpfMapDef, s6) ->
  readSectionUint "size_of_bpf_prog_def" (DEFAULT_SIZEOF_BPF_PROG_DEF hdr) s6 =
    Val (sizeOfBpfProgDef, s7) ->
  (ver < minVer \/ maxVer <= ver ->
   loadProg_stream std_sort hdr sys elfPath ver location (s, w) =
   Val ((0, rc =? 0), (s7, w))) /\
  (minVer <= ver < maxVer -> ver < minRequiredVer ->
   loadProg_stream std_sort hdr sys elfPath ver location (s, w) =
   Val ((-1, rc =? 0), (s7, w))) /\
  (minVer <= ver < maxVer -> minRequiredVer <= ver ->
   loadProg_stream std_sort hdr sys elfPath ver location (s, w) =
   loadProg_load std_sort hdr sys elfPath ver location (rc =? 0) license
     sizeOfBpfMapDef sizeOfBpfProgDef (s7, w)).
Proof.
  intros Hcrit Hlic Hmin Hmax Hreq Hmap Hprog.
  assert (Hrun : loadProg_stream std_sort hdr sys elfPath ver location (s, w) =
                 if ver <? minVer then Val ((0, rc =? 0), (s7, w))
                 else if maxVer <=? ver then Val ((0, rc =? 0), (s7, w))
                 else if ver <? minRequiredVer then Val ((-1, rc =? 0), (s7, w))
                 else loadProg_load std_sort hdr sys elfPath ver location (rc =? 0) license
                        sizeOfBpfMapDef sizeOfBpfProgDef (s7, w)).
  { unfold loadProg_stream, bind, liftE.
    rewrite Hcrit. cbv beta iota. rewrite Hlic.
    change (negb (0 =? 0)) with false. cbv beta iota.
    rewrite Hmin. cbv beta iota. rewrite Hmax. cbv beta iota.
    rewrite Hreq. cbv beta iota. rewrite Hmap. cbv beta iota.
    rewrite Hprog. cbv beta iota.
    destruct (ver <? minVer); [reflexivity|].
    destruct (maxVer <=? ver); [reflexivity|].
    destruct (ver <? minRequiredVer); reflexivity. }
  rewrite Hrun. repeat split.
  - intros [Hlt|Hge].
    + destruct (Z.ltb_spec ver minVer); [reflexivity|lia].
    + destruct (Z.ltb_spec ver minVer); [reflexivity|].
      destruct (Z.leb_spec maxVer ver); [reflexivity|lia].
  - intros Hwin Hlt.
    destruct (Z.ltb_spec ver minVer); [lia|].
    destruct (Z.leb_spec maxVer ver); [lia|].
    destruct (Z.ltb_spec ver minRequiredVer); [reflexivity|lia].
  - intros Hwin Hge.
    destruct (Z.ltb_spec ver minVer); [lia|].
    destruct (Z.leb_spec maxVer ver); [lia|].
    destruct (Z.ltb_spec ver minRequiredVer); [lia|reflexivity].
Qed.

End ObjectGate.

(** ** The orchestrator *)

Lemma fold_keep_critical (rs : list (Z * bool)) :
  forall acc,
    (fold_left keep_critical rs acc = acc /\
     forall ret critical, In (ret, critical) rs -> ret <> 0 -> critical = false) \/
    (fold_left keep_critical rs acc <> 0 /\
     exists pre post,
       rs = pre ++ (fold_left keep_critical rs acc, true) :: post /\
       forall ret critical, In (ret, critical) post -> ret <> 0 -> critical = false).
Proof.
  induction rs as [|[ret critical] rs IH]; intros acc.
  - left. split; [reflexivity|]. intros ? ? [].
  - cbn [fold_left]. unfold keep_critical at 2 4 6. cbn [fst snd].
    destruct (Z.eqb_spec ret 0) as [Hz|Hnz]; cbn [negb andb].
    + destruct (IH acc) as [[Heq Hnone]|[Hne [pre [post [Hrs Hpost]]]]].
      * left. split; [exact Heq|].
        intros r c [Hin|Hin] Hr; [injection Hin as <- <-; contradiction|eauto].
      * right. split; [exact Hne|]. exists ((ret, critical) :: pre), post.
        split; [cbn [app]; f_equal; exact Hrs|exact Hpost].
    + destruct critical.
      * destruct (IH ret) as [[Heq Hnone]|[Hne [pre [post [Hrs Hpost]]]]].
        -- right. rewrite Heq. split; [exact Hnz|]. exists [], rs. split; [reflexivity|exact Hnone].
        -- right. split; [exact Hne|]. exists ((ret, true) :: pre), post.
           split; [cbn [app]; f_equal; exact Hrs|exact Hpost].
      * destruct (IH acc) as [[Heq Hnone]|[Hne [pre [post [Hrs Hpost]]]]].
        -- left. split; [exact Heq|].
           intros r c [Hin|Hin] Hr; [injection Hin as <- <-; reflexivity|eauto].
        -- right. split; [exact Hne|]. exists ((ret, false) :: pre), post.
           split; [cbn [app]; f_equal; exact Hrs|exact Hpost].
Qed.

Section Orchestrator.

Variable std_sort : (Elf64_Sym -> Elf64_Sym -> bool) -> list Elf64_Sym -> list Elf64_Sym.
Variable hdr : Headers.
Variable W : Type.
Variable sys : Sys W.

Lemma loadAllElfObjects_loop (ver : Z) (loc : Location) (ents : list string) :
  forall retVal w rs w',
    load_objects std_sort hdr sys ver loc ents w = Val (rs, w') ->
    for_each ents (loadAllElfObjects_body std_sort hdr sys ver loc) retVal w =
    Val (inr (fold_left keep_critical rs retVal), w').
Proof.
  induction ents as [|s ents IH]; intros retVal w rs w' Hrun.
  - cbn in Hrun. injection Hrun as <- <-. reflexivity.
  - cbn [for_each]. cbn [load_objects] in Hrun.
    unfold loadAllElfObjects_body at 1. unfold bind at 1 2.
    destruct (EndsWith s ".o"); cbn [negb] in *.
    + unfold bind in Hrun.
      destruct (loadProg std_sort hdr sys (loc_dir loc ++ s)%string ver loc w)
        as [[[ret critical] w1]| |]; try discriminate.
      destruct (load_objects std_sort hdr sys ver loc ents w1) as [[rs1 w2]| |] eqn:Hrest;
        try discriminate.
      injection Hrun as <- <-.
      cbn [fold_left]. unfold keep_critical at 2. cbn [fst snd].
      destruct (ret =? 0); cbn [negb andb Ret]; [|destruct critical];
        apply (IH _ _ _ _ Hrest).
    + cbn [Ret]. apply (IH _ _ _ _ Hrun).
Qed.

(** C2 (amended). For every search location whose directory opens: when the
    loads of its .o objects return the results [rs], [loadAllElfObjects]
    returns the last critical per-object error of [rs]; failures of objects
    that are not critical do not affect the value, and it is zero when no
    critical object failed. *)
Theorem loadAllElfObjects_last_critical (ver : Z) (loc : Location)
    (ents : list string) (w w' : W) (rs : list (Z * bool)) :
  readdir_all sys (loc_dir loc) w = Some ents ->
  load_objects std_sort hdr sys ver loc ents w = Val (rs, w') ->
  exists r,
    loadAllElfObjects std_sort hdr sys ver loc w = Val (r, w') /\
    last_critical_error rs r.
Proof.
  intros Hdir Hrun.
  exists (fold_left keep_critical rs 0). split.
  - unfold loadAllElfObjects, bind, query. rewrite Hdir.
    rewrite (loadAllElfObjects_loop _ _ _ _ _ _ _ Hrun). reflexivity.
  - unfold last_critical_error.
    destruct (fold_keep_critical rs 0) as [[Heq Hnone]|[Hne Hex]].
    + left. split; assumption.
    + right. split; assumption.
Qed.

End Orchestrator.

(** * The loader at work *)


(** ** Scalar sections *)

Lemma readSectionUint_spec_witness :
  exists v,
    readSectionUint "size_of_bpf_map_def" 32 (stream_of elf_good) =
      Val (v, state_after (readSectionByName "size_of_bpf_map_def" (stream_of elf_good))
                (stream_of elf_good)) /\
    (0 = 0 /\ (4 <= List.length (u32 120))%nat ->
     forall value, 0 <= value < 2 ^ 32 ->
       (v = value <-> firstn 4 (u32 120) = le_split 4 value)) /\
    (~ (0 = 0 /\ (4 <= List.length (u32 120))%nat) -> v = 32) /\
    (forall value, 0 <= value < 2 ^ 32 -> value <> 32 ->
       (v = value <->
        0 = 0 /\ (4 <= List.length (u32 120))%nat /\ firstn 4 (u32 120) = le_split 4 value)).
Proof.
  apply (readSectionUint_spec "size_of_bpf_map_def" 32 (stream_of elf_good)).
  vm_compute. reflexivity.
Defined.

Example readSectionUint_present :
  result_of (readSectionUint "size_of_bpf_map_def" 32 (stream_of elf_good)) 0 = 120.
Proof. vm_compute. reflexivity. Qed.

Example readSectionUint_absent :
  result_of (readSectionUint "bpfloader_min_required_ver" 7 (stream_of elf_good)) 0 = 7.
Proof. vm_compute. reflexivity. Qed.

(** ** The decoding rule *)

Lemma sample_layout_ok : layout_ok sample_hdr.
Proof. unfold layout_ok. simpl. lia. Defined.

Lemma decoding_rule_witness :
  let pdData := snd (result_of (readSectionByName "progs" (stream_of elf_good)) (0, [])) in
  let s1 := state_after (readSectionByName "progs" (stream_of elf_good)) (stream_of elf_good) in
  readProgDefs sample_hdr 92 (stream_of elf_good) =
    (if Z.of_nat (List.length pdData) mod 92 =? 0
     then Val ((0, decoded_records (default_prog_def sample_hdr)
                     (sizeof_bpf_prog_def sample_hdr) (Z.to_nat 92) pdData), s1)
     else Val ((-1, []), s1)) /\
  createMaps sample_sort sample_hdr sys_5_10 "/apex/bpf/a.o" "tethering/" 120 46
    (stream_of elf_good, world_of [] []) =
    match for_range 2 0
            (createMaps_body sample_hdr sys_5_10 (pathToObjName "/apex/bpf/a.o")
               "tethering/" 46 (kernelVersion sys_5_10)
               (decoded_records (default_map_def sample_hdr)
                  (sizeof_bpf_map_def sample_hdr) (Z.to_nat 120) (maps_data elf_good))
               (maps_names elf_good)) (0, []) (world_of [] []) with
    | Val (inl (code, fds), w') => Val ((code, fds), (maps_stream2 elf_good, w'))
    | Val (inr (ret', fds), w') => Val ((ret', fds), (maps_stream2 elf_good, w'))
    | Undef => Undef
    | Abort => Abort
    end /\
  createMaps sample_sort sample_hdr sys_5_10 "/apex/bpf/a.o" "tethering/" 100 46
    (stream_of elf_good, world_of [] []) =
    Val ((-1, []), (maps_stream1 elf_good, world_of [] [])).
Proof.
  pose proof (decoding_rule sample_hdr sample_sort world sys_5_10 sample_layout_ok)
    as (Hprogs & Hmaps & _).
  split; [|split].
  - apply (Hprogs 92 (stream_of elf_good)); vm_compute; reflexivity.
  - destruct (Hmaps 120 "/apex/bpf/a.o"%string "tethering/"%string 46 (stream_of elf_good)
                (maps_stream1 elf_good) (world_of [] []) (maps_data elf_good))
      as [_ Hrule]; [reflexivity|vm_compute; reflexivity|vm_compute; reflexivity|].
    apply (Hrule ltac:(vm_compute; reflexivity) 0 (maps_names elf_good)
             (maps_stream2 elf_good)).
    vm_compute. reflexivity.
  - destruct (Hmaps 100 "/apex/bpf/a.o"%string "tethering/"%string 46 (stream_of elf_good)
                (maps_stream1 elf_good) (world_of [] []) (maps_data elf_good))
      as [Hfail _]; [reflexivity|vm_compute; reflexivity|vm_compute; reflexivity|].
    apply Hfail. vm_compute. discriminate.
Defined.

Example decoded_prog_def_of_short_record :
  decoded_records (default_prog_def sample_hdr) 92 20
    (u32 0 ++ u32 0 ++ u32 0 ++ u32 4294967295 ++ u32 1) =
  [ u32 0 ++ u32 0 ++ u32 0 ++ u32 4294967295 ++ u32 1 ++ u32 0 ++ u32 65536 ++
    repeat NUL 64 ].
Proof. vm_compute. reflexivity. Qed.

(** ** Relocation *)



(** A relocation against an instruction that is not the 64-bit immediate
    load leaves the section as it is. *)
Example relocation_skipped :
  applyRelo good_code 8 3 = Val good_code.
Proof. vm_compute. reflexivity. Qed.

Example relocation_applied :
  applyRelo good_code 0 3 = Val (insn 24 17 3 ++ insn 0 0 0 ++ insn 149 0 0).
Proof. vm_compute. reflexivity. Qed.

(** ** Maps *)

Lemma maps_read_good :
  maps_read sample_sort sample_hdr 120 (stream_of elf_good)
    (maps_defs elf_good 120) (maps_names elf_good) (maps_stream2 elf_good).
Proof.
  exists (maps_data elf_good), (maps_stream1 elf_good).
  repeat split; vm_compute; reflexivity.
Defined.

Lemma sample_errno_set (kver : Z) (build : string) : errno_set (sample_sys kver build).
Proof.
  unfold errno_set, sample_sys.
  cbn [mapRetrieveRO bpf_MAP_CREATE bpfFdPin renameat2_NOREPLACE chmod chown].
  repeat split.
  - intros path w fd e w' H Hfd. unfold open_pin, new_fd in H.
    destruct (assoc path (w_pins w)); result_eqs H; lia.
  - intros req w fd e w' H Hfd. unfold new_fd in H. result_eqs H. lia.
  - intros fd path w r e w' H Hr.
    destruct (fd_obj fd w); [destruct (assoc path (w_pins w))|]; result_eqs H; lia.
  - intros from to w r e w' H Hr.
    destruct (assoc from (w_pins w)); [destruct (assoc to (w_pins w))|]; result_eqs H; lia.
  - intros path mode w r e w' H Hr. result_eqs H. lia.
  - intros path uid gid w r e w' H Hr. result_eqs H. lia.
Defined.

Lemma createMaps_descriptors_aligned_witness :
  (List.length [null_fd; 3%Z] <= List.length (maps_names elf_good))%nat /\
  (forall i fd,
     nth_error [null_fd; 3] i = Some fd ->
     exists raw,
       nth_error (maps_defs elf_good 120) i = Some raw /\
       (map_gated_out sys_5_10 46 (view_map_def sample_hdr raw) = true -> fd = null_fd) /\
       (map_gated_out sys_5_10 46 (view_map_def sample_hdr raw) = false -> fd_ok fd = true)) /\
  (errno_set sys_5_10 -> 0 = 0 ->
   List.length [null_fd; 3] = List.length (maps_names elf_good)).
Proof.
  apply (createMaps_descriptors_aligned sample_sort sample_hdr world sys_5_10
           "/apex/bpf/a.o"%string "tethering/"%string 120 46
           (stream_of elf_good) (maps_stream2 elf_good) (world_of [] [])
           (maps_defs elf_good 120) (maps_names elf_good) 0 [null_fd; 3]
           (state_after (createMaps sample_sort sample_hdr sys_5_10
                           "/apex/bpf/a.o"%string "tethering/"%string 120 46
                           (stream_of elf_good, world_of [] []))
              (stream_of elf_good, world_of [] []))).
  - exact maps_read_good.
  - vm_compute. reflexivity.
Defined.

Lemma maps_read_resized :
  maps_read sample_sort sample_hdr 120 (stream_of elf_resized)
    (maps_defs elf_resized 120) (maps_names elf_resized) (maps_stream2 elf_resized).
Proof.
  exists (maps_data elf_resized), (maps_stream1 elf_resized).
  repeat split; vm_compute; reflexivity.
Defined.

Lemma mapMatchesExpectations_spec_witness :
  let m := view_map_def sample_hdr (nth 1 (maps_defs elf_resized 120) []) in
  (createMaps_type sys_4_9 sample_devmap = BPF_MAP_TYPE_ARRAY /\
   createMaps_type sys_5_10 sample_devmap = BPF_MAP_TYPE_DEVMAP /\
   createMaps_type sys_5_10 m = BPF_MAP_TYPE_HASH) /\
  (mapMatchesExpectations sys_5_10 3 m (createMaps_type sys_5_10 m) mismatch_world = true <->
   bpfGetFdMapType sys_5_10 3 mismatch_world = cast_int (createMaps_type sys_5_10 m) /\
   bpfGetFdKeySize sys_5_10 3 mismatch_world = cast_int (md_key_size m) /\
   bpfGetFdValueSize sys_5_10 3 mismatch_world = cast_int (md_value_size m) /\
   bpfGetFdMaxEntries sys_5_10 3 mismatch_world =
     cast_int (desired_max_entries sys_5_10 m (createMaps_type sys_5_10 m)) /\
   bpfGetFdMapFlags sys_5_10 3 mismatch_world =
     desired_map_flags m (createMaps_type sys_5_10 m)) /\
  mapMatchesExpectations sys_4_9 3 m (createMaps_type sys_4_9 m) mismatch_world = true /\
  createMaps sample_sort sample_hdr sys_5_10 "/apex/bpf/a.o" "tethering/" 120 46
    (stream_of elf_resized, world_pinned) =
  Val ((- ENOTUNIQ, [null_fd]), (maps_stream2 elf_resized, mismatch_world)).
Proof.
  intros m.
  pose proof (mapMatchesExpectations_spec sample_sort sample_hdr world sys_5_10
                3 m mismatch_world) as ((_ & _ & Hsame) & H414 & _ & Hmismatch).
  pose proof (mapMatchesExpectations_spec sample_sort sample_hdr world sys_4_9
                3 m mismatch_world) as (_ & _ & H49 & _).
  pose proof (mapMatchesExpectations_spec sample_sort sample_hdr world sys_4_9
                3 sample_devmap mismatch_world) as ((Harray & _) & _).
  pose proof (mapMatchesExpectations_spec sample_sort sample_hdr world sys_5_10
                3 sample_devmap mismatch_world) as ((_ & _ & Hdevmap) & _).
  split; [split; [|split]|split; [|split]].
  - apply Harray; vm_compute; reflexivity.
  - rewrite Hdevmap; [vm_compute; reflexivity|reflexivity|vm_compute; discriminate].
  - rewrite Hsame; [vm_compute; reflexivity|vm_compute; discriminate|vm_compute; discriminate].
  - apply H414. reflexivity.
  - apply H49. reflexivity.
  - apply (Hmismatch "/apex/bpf/a.o"%string "tethering/"%string 120 46
             (stream_of elf_resized) (maps_stream2 elf_resized) world_pinned
             (maps_defs elf_resized 120) (maps_names elf_resized) 1%nat
             (nth 1 (maps_defs elf_resized 120) []) "map_b"%string 0 [null_fd]
             world_pinned unspecified true 0).
    + exact maps_read_resized.
    + vm_compute. reflexivity.
    + vm_compute. reflexivity.
    + vm_compute. reflexivity.
    + reflexivity.
    + vm_compute. reflexivity.
    + vm_compute. reflexivity.
    + vm_compute. reflexivity.
    + discriminate.
    + vm_compute. reflexivity.
    + vm_compute. reflexivity.
    + vm_compute. reflexivity.
Defined.

(** A map created anew matches (the 5.10 kernel), and the object loads. *)
Example load_good :
  loadProg sample_sort sample_hdr sys_5_10 "/apex/bpf/a.o" 46 sample_location
    (world_one elf_good) =
  Val ((0, false),
       {| w_files := w_files (world_one elf_good);
          w_dirs := w_dirs (world_one elf_good);
          w_fds := [KMap 1 4 8 16 0; KProg];
          w_pins := [("/sys/fs/bpf/tethering/prog_a_xdp_foo"%string, KProg);
                     ("/sys/fs/bpf/tethering/map_a_map_b"%string, KMap 1 4 8 16 0)] |}).
Proof. vm_compute. reflexivity. Qed.

(** ** Unrecognized tokens *)

Lemma maps_read_bogus :
  maps_read sample_sort sample_hdr 120 (stream_of elf_bogus_map)
    (maps_defs elf_bogus_map 120) (maps_names elf_bogus_map) (maps_stream2 elf_bogus_map).
Proof.
  exists (maps_data elf_bogus_map), (maps_stream1 elf_bogus_map).
  repeat split; vm_compute; reflexivity.
Defined.

Lemma maps_read_context :
  maps_read sample_sort sample_hdr 120 (stream_of elf_bogus_context)
    (maps_defs elf_bogus_context 120) (maps_names elf_bogus_context)
    (maps_stream2 elf_bogus_context).
Proof.
  exists (maps_data elf_bogus_context), (maps_stream1 elf_bogus_context).
  repeat split; vm_compute; reflexivity.
Defined.

Lemma unrecognized_tokens_witness :
  createMaps sample_sort sample_hdr sys_5_10 "/apex/bpf/a.o" "tethering/" 120 46
    (stream_of elf_bogus_map, world_of [] []) =
    Val ((- ENOTDIR, []), (maps_stream2 elf_bogus_map, world_of [] [])) /\
  loadCodeSections sample_hdr sys_5_10 "/apex/bpf/a.o"
    ([] ++ nth 0 (code_sections elf_bogus_subdir 92)
                (mkCodeSection BPF_PROG_TYPE_UNSPEC BPF_ATTACH_TYPE_UNSPEC "" [] [] None (-1))
        :: [])
    "Apache 2.0" "tethering/" 100 (world_of [] []) =
    Val (- ENOTDIR, world_of [] []) /\
  createMaps sample_sort sample_hdr sys_5_10 "/apex/bpf/a.o" "tethering/" 120 46
    (stream_of elf_bogus_context, world_of [] []) =
    Val ((0, [3]),
         (maps_stream2 elf_bogus_context,
          mkWorld [] [] [KMap 1 4 8 16 0]
            [("/sys/fs/bpf/tethering/map_a_map_c"%string, KMap 1 4 8 16 0)])) /\
  loadCodeSections sample_hdr sys_5_10 "/apex/bpf/a.o"
    ([] ++ nth 0 (code_sections elf_bogus_context 92)
                (mkCodeSection BPF_PROG_TYPE_UNSPEC BPF_ATTACH_TYPE_UNSPEC "" [] [] None (-1))
        :: [])
    "Apache 2.0" "tethering/" 46 (world_of [] []) =
    Val (0, mkWorld [] [] [KProg]
              [("/sys/fs/bpf/tethering/prog_a_xdp_foo"%string, KProg)]).
Proof.
  pose proof (unrecognized_tokens sample_sort sample_hdr world sys_5_10)
    as (Hmaps & Hprogs & _ & _ & Hmaps_on & Hprogs_on).
  split; [|split; [|split]].
  - apply (Hmaps "/apex/bpf/a.o"%string "tethering/"%string 120 46
             (stream_of elf_bogus_map) (maps_stream2 elf_bogus_map) (world_of [] [])
             (maps_defs elf_bogus_map 120) (maps_names elf_bogus_map) 0%nat
             (nth 0 (maps_defs elf_bogus_map 120) []) "map_c"%string 0 []).
    + exact maps_read_bogus.
    + reflexivity.
    + vm_compute. reflexivity.
    + vm_compute. reflexivity.
    + vm_compute. reflexivity.
    + vm_compute. reflexivity.
    + vm_compute. reflexivity.
  - apply (Hprogs "/apex/bpf/a.o"%string [] _ [] "Apache 2.0"%string "tethering/"%string 100
             (world_of [] []) (world_of [] [])
             (encode_prog_def 0 4294967295 false 0 100 65536 "" "bogus/")).
    + reflexivity.
    + vm_compute. reflexivity.
    + vm_compute. reflexivity.
    + vm_compute. reflexivity.
  - etransitivity.
    + apply (Hmaps_on "/apex/bpf/a.o"%string "tethering/"%string 120 46
               (stream_of elf_bogus_context) (maps_stream2 elf_bogus_context) (world_of [] [])
               (maps_defs elf_bogus_context 120) (maps_names elf_bogus_context) 0%nat
               (nth 0 (maps_defs elf_bogus_context 120) []) "map_c"%string 0 []
               (world_of [] [])
               (view_map_def sample_hdr (nth 0 (maps_defs elf_bogus_context 120) []))
               unspecified false 3 0 (mkWorld [] [] [KMap 1 4 8 16 0] []) 0
               (mkWorld [] [] [KMap 1 4 8 16 0]
                  [("/sys/fs/bpf/tethering/map_a_map_c"%string, KMap 1 4 8 16 0)])).
      * exact maps_read_context.
      * reflexivity.
      * vm_compute. reflexivity.
      * vm_compute. reflexivity.
      * reflexivity.
      * vm_compute. reflexivity.
      * vm_compute. reflexivity.
      * intros d' Hin. unfold AllDomains in Hin. cbn [In] in Hin.
        repeat (destruct Hin as [<- | Hin]; [vm_compute; discriminate|]).
        contradiction.
      * vm_compute. reflexivity.
      * discriminate.
      * vm_compute. reflexivity.
      * vm_compute. reflexivity.
      * vm_compute. reflexivity.
      * vm_compute. reflexivity.
    + vm_compute. reflexivity.
  - etransitivity.
    + apply (Hprogs_on "/apex/bpf/a.o"%string [] _ [] "Apache 2.0"%string "tethering/"%string 46
               (world_of [] []) (world_of [] [])
               (encode_prog_def 0 4294967295 false 0 0 65536 "bogus" "")
               unspecified 3 (mkWorld [] [] [KProg] []) 0
               (mkWorld [] [] [KProg]
                  [("/sys/fs/bpf/tethering/prog_a_xdp_foo"%string, KProg)]) 0
               (mkWorld [] [] [KProg]
                  [("/sys/fs/bpf/tethering/prog_a_xdp_foo"%string, KProg)]) 0
               (mkWorld [] [] [KProg]
                  [("/sys/fs/bpf/tethering/prog_a_xdp_foo"%string, KProg)])).
      * vm_compute. discriminate.
      * reflexivity.
      * vm_compute. reflexivity.
      * vm_compute. reflexivity.
      * intros d' Hin. unfold AllDomains in Hin. cbn [In] in Hin.
        repeat (destruct Hin as [<- | Hin]; [vm_compute; discriminate|]).
        contradiction.
      * vm_compute. reflexivity.
      * discriminate.
      * vm_compute. reflexivity.
      * vm_compute. reflexivity.
      * vm_compute. reflexivity.
      * vm_compute. reflexivity.
      * vm_compute. reflexivity.
      * vm_compute. reflexivity.
    + vm_compute. reflexivity.
Defined.

(** The object of [elf_bogus_subdir] loads without failure on a loader of
    version 46, for which its program is skipped, although the pin_subdir
    token of the program decodes to [unrecognized]. *)
Lemma unrecognized_pin_subdir_of_skipped_program :
  (exists raw,
     cs_prog_def (nth 0 (code_sections elf_bogus_subdir 92)
                    (mkCodeSection BPF_PROG_TYPE_UNSPEC BPF_ATTACH_TYPE_UNSPEC "" [] [] None (-1)))
       = Some raw /\
     getDomainFromPinSubdir (pd_pin_subdir (view_prog_def sample_hdr raw)) = Val unrecognized) /\
  loadProg sample_sort sample_hdr sys_5_10 "/apex/bpf/a.o" 46 sample_location
    (world_one elf_bogus_subdir) = Val ((0, false), world_one elf_bogus_subdir).
Proof.
  split.
  - exists (encode_prog_def 0 4294967295 false 0 100 65536 "" "bogus/").
    split; vm_compute; reflexivity.
  - vm_compute. reflexivity.
Qed.

(** ** The version gate *)

Lemma loadProg_version_gate_witness :
  let license := list_byte_of_string "Apache 2.0" ++ [NUL] in
  let w := world_one elf_good in
  (46 < 0 \/ 65536 <= 46 ->
   loadProg_stream sample_sort sample_hdr sys_5_10 "/apex/bpf/a.o" 46 sample_location
     (stream_of elf_good, w) = Val ((0, -2 =? 0), (good_s7, w))) /\
  (0 <= 46 < 65536 -> 46 < 0 ->
   loadProg_stream sample_sort sample_hdr sys_5_10 "/apex/bpf/a.o" 46 sample_location
     (stream_of elf_good, w) = Val ((-1, -2 =? 0), (good_s7, w))) /\
  (0 <= 46 < 65536 -> 0 <= 46 ->
   loadProg_stream sample_sort sample_hdr sys_5_10 "/apex/bpf/a.o" 46 sample_location
     (stream_of elf_good, w) =
   loadProg_load sample_sort sample_hdr sys_5_10 "/apex/bpf/a.o" 46 sample_location
     (-2 =? 0) license 120 92 (good_s7, w)).
Proof.
  intros license w.
  apply (loadProg_version_gate sample_sort sample_hdr world sys_5_10
           "/apex/bpf/a.o"%string 46 sample_location
           (stream_of elf_good) good_s1 good_s2 good_s3 good_s4 good_s5 good_s6 good_s7
           w (-2) [] license 0 65536 0 120 92);
    vm_compute; reflexivity.
Defined.

(** A loader of version 46 on [elf_future], an object that requires version
    100 and whose window opens at version 100: the loader version is below
    the required one, and [loadProg] returns 0.  On [elf_required], whose
    window holds the loader version, [loadProg] does not go on to load. *)
Lemma loadProg_below_required_version_skips :
  result_of (readSectionUint "bpfloader_min_required_ver" 0 (stream_of elf_future)) 0 = 100 /\
  46 < 100 /\
  loadProg sample_sort sample_hdr sys_5_10 "/apex/bpf/a.o" 46 sample_location
    (world_one elf_future) = Val ((0, true), world_one elf_future) /\
  result_of (readSectionUint "bpfloader_min_ver" 0 (stream_of elf_required)) 1 = 0 /\
  result_of (readSectionUint "bpfloader_max_ver" 65536 (stream_of elf_required)) 0 = 65536 /\
  0 <= 46 < 65536 /\
  loadProg sample_sort sample_hdr sys_5_10 "/apex/bpf/a.o" 46 sample_location
    (world_one elf_required) = Val ((-1, true), world_one elf_required).
Proof.
  repeat split; try (vm_compute; reflexivity); try lia; vm_compute; discriminate.
Qed.

(** ** The orchestrator *)

Lemma loadAllElfObjects_last_critical_witness :
  exists r,
    loadAllElfObjects sample_sort sample_hdr sys_5_10 46 sample_location world_two_critical =
      Val (r, world_two_critical) /\
    last_critical_error [(-1, true); (-2, true)] r.
Proof.
  apply (loadAllElfObjects_last_critical sample_sort sample_hdr world sys_5_10 46
           sample_location ["."; ".."; "a.o"; "b.o"]%string world_two_critical
           world_two_critical [(-1, true); (-2, true)]);
    vm_compute; reflexivity.
Defined.

(** Two critical objects fail, the first with -1 and the second with -2:
    [loadAllElfObjects] returns -2, which is not the first critical error. *)
Lemma loadAllElfObjects_not_first_critical :
  load_objects sample_sort sample_hdr sys_5_10 46 sample_location
    ["."; ".."; "a.o"; "b.o"]%string world_two_critical =
    Val ([(-1, true); (-2, true)], world_two_critical) /\
  first_critical_error [(-1, true); (-2, true)] = -1 /\
  loadAllElfObjects sample_sort sample_hdr sys_5_10 46 sample_location world_two_critical =
    Val (-2, world_two_critical) /\
  -2 <> first_critical_error [(-1, true); (-2, true)].
Proof.
  repeat split; try (vm_compute; reflexivity). vm_compute. discriminate.
Qed.

(** ** The relocation section of the last code section *)

(** C8. In [elf_code_last] the code section xdp/foo is the last of the 7
    sections: [readCodeSections] reads the section header of index 7, which
    the table does not have; with the same sections in another order
    ([elf_bogus_subdir]) the object is read. *)
Theorem readCodeSections_reads_past_last_header :
  List.length (snd (result_of (readSectionHeadersAll (stream_of elf_code_last)) (0, [])))
    = 7%nat /\
  result_of (getSymName 53 (stream_of elf_code_last)) (0, EmptyString) = (0, "xdp/foo"%string) /\
  nth_error (snd (result_of (readSectionHeadersAll (stream_of elf_code_last)) (0, []))) 7
    = None /\
  readCodeSections sample_sort sample_hdr 92 (stream_of elf_code_last) = Undef /\
  loadProg sample_sort sample_hdr sys_5_10 "/apex/bpf/a.o" 46 sample_location
    (world_one elf_code_last) = Undef /\
  fst (result_of (readCodeSections sample_sort sample_hdr 92 (stream_of elf_bogus_subdir))
         (-1, [])) = 0.
Proof.
  repeat split; vm_compute; reflexivity.
Qed.


(** * Further properties *)

(** ** Section names, paths and tokens *)

Lemma prefix_empty (q : string) : String.prefix "" q = true.
Proof. destruct q; reflexivity. Qed.

(** Two prefixes of one string: one is a prefix of the other. *)
Lemma prefix_of_same (s p q : string) :
  String.prefix p s = true -> String.prefix q s = true ->
  String.prefix p q = true \/ String.prefix q p = true.
Proof.
  revert p q. induction s as [|c s IH]; intros p q Hp Hq.
  - destruct p; [left; apply prefix_empty|discriminate].
  - destruct p as [|a p]; [left; apply prefix_empty|].
    destruct q as [|b q]; [right; apply prefix_empty|].
    cbn [String.prefix] in *.
    destruct (ascii_dec a c) as [->|]; [|discriminate].
    destruct (ascii_dec b c) as [->|]; [|discriminate].
    destruct (ascii_dec c c) as [_|Hne]; [|contradiction].
    apply IH; assumption.
Qed.

Lemma section_loops_unique (name : string) (tbl : list sectionType) (e : sectionType) :
  prefix_free (map snt_name tbl) = true ->
  In e tbl ->
  StartsWith name (snt_name e) = true ->
  getSectionType_loop name tbl = snt_type e /\
  getExpectedAttachType_loop name tbl = snt_expected_attach_type e.
Proof.
  induction tbl as [|e0 tbl IH]; intros Hfree Hin Hpre; [contradiction|].
  cbn [map prefix_free] in Hfree. apply andb_prop in Hfree as [Hhead Hfree].
  cbn [getSectionType_loop getExpectedAttachType_loop].
  destruct Hin as [->|Hin].
  - rewrite Hpre. split; reflexivity.
  - destruct (StartsWith name (snt_name e0)) eqn:Hpre0; [|apply IH; assumption].
    exfalso. rewrite forallb_forall in Hhead.
    specialize (Hhead (snt_name e) (in_map snt_name _ _ Hin)).
    apply andb_prop in Hhead as [H1 H2].
    unfold StartsWith in *.
    destruct (prefix_of_same name _ _ Hpre0 Hpre) as [H|H]; rewrite H in *; discriminate.
Qed.

Lemma section_loop_unspec (name : string) (tbl : list sectionType) :
  forallb (fun e => negb (prog_type_is_unspec (snt_type e))) tbl = true ->
  (getSectionType_loop name tbl = BPF_PROG_TYPE_UNSPEC <->
   forall e, In e tbl -> StartsWith name (snt_name e) = false).
Proof.
  induction tbl as [|e0 tbl IH]; intros Hty.
  - split; [intros _ e []|reflexivity].
  - cbn [forallb] in Hty. apply andb_prop in Hty as [Hty0 Hty].
    cbn [getSectionType_loop].
    destruct (StartsWith name (snt_name e0)) eqn:Hpre0.
    + split.
      * intros Hu. rewrite Hu in Hty0. discriminate.
      * intros Hnone. rewrite (Hnone e0 (or_introl eq_refl)) in Hpre0. discriminate.
    + rewrite (IH Hty). split.
      * intros Hnone e [<-|Hin]; [exact Hpre0|apply Hnone; exact Hin].
      * intros Hnone e Hin. apply Hnone. right. exact Hin.
Qed.

(** X1. The table of section names is prefix-free: a section name that
    starts with the prefix of an entry gets the program type and the
    expected attach type of that entry, whatever the order of the table;
    and [getSectionType] gives BPF_PROG_TYPE_UNSPEC exactly for the names
    that start with no prefix of the table. *)
Theorem section_name_decides_types (name : string) :
  (forall e, In e sectionNameTypes -> StartsWith name (snt_name e) = true ->
     getSectionType name = snt_type e /\
     getExpectedAttachType name = snt_expected_attach_type e) /\
  (getSectionType name = BPF_PROG_TYPE_UNSPEC <->
   forall e, In e sectionNameTypes -> StartsWith name (snt_name e) = false).
Proof.
  split.
  - intros e Hin Hpre. apply section_loops_unique; [|exact Hin|exact Hpre].
    vm_compute. reflexivity.
  - apply section_loop_unspec. vm_compute. reflexivity.
Qed.

Lemma section_name_decides_types_witness :
  getSectionType "cgroupsockcreate/inet_create" = BPF_PROG_TYPE_CGROUP_SOCK /\
  getExpectedAttachType "cgroupsockcreate/inet_create" = BPF_CGROUP_INET_SOCK_CREATE.
Proof.
  apply (proj1 (section_name_decides_types "cgroupsockcreate/inet_create")
           (mkSectionType "cgroupsockcreate/" BPF_PROG_TYPE_CGROUP_SOCK
              BPF_CGROUP_INET_SOCK_CREATE)).
  - cbn [sectionNameTypes In]. do 4 right. left. reflexivity.
  - reflexivity.
Defined.

Lemma has_char_app (c : ascii) (a b : string) :
  has_char c (a ++ b) = has_char c a || has_char c b.
Proof.
  induction a as [|x a IH]; [reflexivity|].
  cbn [String.append has_char]. rewrite IH. apply orb_assoc.
Qed.

Lemma find_last_of_absent (c : ascii) (s : string) :
  has_char c s = false -> find_last_of c s = None.
Proof.
  induction s as [|a s IH]; [reflexivity|].
  cbn [has_char find_last_of]. intros H. apply orb_false_elim in H as [Ha Hs].
  rewrite (IH Hs), Ha. reflexivity.
Qed.

Lemma find_last_of_app (c : ascii) (a b : string) :
  has_char c b = false ->
  find_last_of c (a ++ String c b) = Some (String.length a).
Proof.
  intros Hb. induction a as [|x a IH].
  - cbn [String.append find_last_of String.length].
    rewrite (find_last_of_absent c b Hb), Ascii.eqb_refl. reflexivity.
  - cbn [String.append find_last_of String.length]. rewrite IH. reflexivity.
Qed.

Lemma substring_all (s : string) : substring 0 (String.length s) s = s.
Proof. induction s as [|a s IH]; [reflexivity|]. cbn. rewrite IH. reflexivity. Qed.

Lemma substring_head (a b : string) : substring 0 (String.length a) (a ++ b) = a.
Proof.
  induction a as [|x a IH]; [destruct b; reflexivity|].
  cbn. rewrite IH. reflexivity.
Qed.

Lemma length_append (a b : string) :
  String.length (a ++ b) = (String.length a + String.length b)%nat.
Proof. induction a as [|x a IH]; [reflexivity|]. cbn. rewrite IH. reflexivity. Qed.

Lemma append_assoc (a b c : string) : (a ++ (b ++ c) = (a ++ b) ++ c)%string.
Proof. induction a as [|x a IH]; [reflexivity|]. cbn. rewrite IH. reflexivity. Qed.

Lemma substring_tail (a b : string) (c : ascii) :
  substring (S (String.length a))
    (String.length (a ++ String c b) - S (String.length a)) (a ++ String c b) = b.
Proof.
  rewrite length_append. cbn [String.length].
  replace (String.length a + S (String.length b) - S (String.length a))%nat
    with (String.length b) by lia.
  induction a as [|x a IH].
  - cbn [String.append String.length substring]. apply substring_all.
  - cbn [String.append String.length substring]. exact IH.
Qed.

Lemma strip_from_last_absent (c : ascii) (s : string) :
  has_char c s = false -> strip_from_last c s = s.
Proof. intros H. unfold strip_from_last. rewrite (find_last_of_absent c s H). reflexivity. Qed.

Lemma strip_from_last_app (c : ascii) (a b : string) :
  has_char c b = false -> strip_from_last c (a ++ String c b) = a.
Proof.
  intros H. unfold strip_from_last. rewrite (find_last_of_app c a b H).
  apply substring_head.
Qed.

Lemma basename_app (dir f : string) :
  has_char "/" f = false -> basename (dir ++ String "/" f) = f.
Proof.
  intros H. unfold basename. rewrite (find_last_of_app "/" dir f H).
  apply substring_tail.
Qed.

Lemma basename_absent (f : string) : has_char "/" f = false -> basename f = f.
Proof. intros H. unfold basename. rewrite (find_last_of_absent "/" f H). reflexivity. Qed.

(** X2. The object name of a path is the file name without its directory,
    without its extension and without a version suffix after an at sign:
    for a [name] free of slash, period and at sign, the paths dir/name.ext,
    dir/name@ver.ext, name.ext and dir/name all give [name]. *)
Theorem pathToObjName_strips (dir name ver ext : string) :
  has_char "/" name = false -> has_char "." name = false -> has_char "@" name = false ->
  has_char "/" ver = false -> has_char "." ver = false -> has_char "@" ver = false ->
  has_char "/" ext = false -> has_char "." ext = false ->
  pathToObjName (dir ++ "/" ++ name ++ "." ++ ext) = name /\
  pathToObjName (dir ++ "/" ++ name ++ "@" ++ ver ++ "." ++ ext) = name /\
  pathToObjName (name ++ "." ++ ext) = name /\
  pathToObjName (dir ++ "/" ++ name) = name.
Proof.
  intros Hn1 Hn2 Hn3 Hv1 Hv2 Hv3 He1 He2.
  assert (Hfile1 : has_char "/" (name ++ String "." ext) = false).
  { rewrite has_char_app. cbn [has_char]. rewrite Hn1, He1. reflexivity. }
  assert (Hfile2 : has_char "/" (name ++ String "@" (ver ++ String "." ext)) = false).
  { rewrite has_char_app. cbn [has_char]. rewrite has_char_app. cbn [has_char].
    rewrite Hn1, Hv1, He1. reflexivity. }
  assert (Hstrip1 : strip_from_last "@" (strip_from_last "." (name ++ String "." ext)) = name).
  { rewrite (strip_from_last_app "." name ext He2). apply strip_from_last_absent. exact Hn3. }
  unfold pathToObjName. cbn [String.append]. repeat split.
  - rewrite (basename_app dir _ Hfile1). exact Hstrip1.
  - rewrite (basename_app dir _ Hfile2).
    change (name ++ String "@" (ver ++ String "." ext))%string
      with (name ++ (String "@" ver ++ String "." ext))%string.
    rewrite append_assoc.
    rewrite (strip_from_last_app "." _ ext He2).
    apply strip_from_last_app. exact Hv3.
  - rewrite (basename_absent _ Hfile1). exact Hstrip1.
  - rewrite (basename_app dir name Hn1).
    rewrite (strip_from_last_absent "." name Hn2). apply strip_from_last_absent. exact Hn3.
Qed.

Lemma pathToObjName_strips_witness :
  pathToObjName "/apex/com.android.tethering/etc/bpf/offload.o" = "offload"%string /\
  pathToObjName "/apex/com.android.tethering/etc/bpf/offload@1.o" = "offload"%string /\
  pathToObjName "offload.o" = "offload"%string /\
  pathToObjName "/apex/com.android.tethering/etc/bpf/offload" = "offload"%string.
Proof.
  apply (pathToObjName_strips "/apex/com.android.tethering/etc/bpf" "offload" "1" "o");
    reflexivity.
Defined.

Lemma byte_sub_zero (a b : byte) : byte.unsigned a - byte.unsigned b = 0 -> a = b.
Proof. intros H. apply byte.unsigned_inj. lia. Qed.

(** [strncmp] of an array with a literal shorter than the bound is zero
    exactly when the array starts with the literal and a NUL. *)
Lemma strncmp_exact (t : list byte) :
  nul_free t = true ->
  forall (n : nat) (s : list byte),
    (List.length t < n)%nat -> (List.length t < List.length s)%nat ->
    (strncmp s t n = 0 <-> firstn (S (List.length t)) s = t ++ [NUL]).
Proof.
  induction t as [|b t IH]; intros Hfree n s Hn Hs.
  - destruct n as [|n]; [cbn in Hn; lia|].
    destruct s as [|c s]; [cbn in Hs; lia|].
    cbn [strncmp hd tl List.length firstn app].
    destruct (Byte.eqb c NUL) eqn:Hc; cbn [negb].
    + apply Byte.byte_dec_bl in Hc. subst c. split; reflexivity.
    + split.
      * intros H. apply byte_sub_zero in H. subst c. discriminate.
      * intros H. injection H as ->. discriminate.
  - cbn [nul_free forallb] in Hfree. apply andb_prop in Hfree as [Hb Hfree].
    destruct n as [|n]; [cbn in Hn; lia|].
    destruct s as [|c s]; [cbn in Hs; lia|].
    cbn [List.length] in Hn, Hs.
    cbn [strncmp hd tl List.length app]. rewrite firstn_cons.
    destruct (Byte.eqb c b) eqn:Hcb; cbn [negb].
    + apply Byte.byte_dec_bl in Hcb. subst c.
      apply negb_true_iff in Hb. rewrite Hb.
      rewrite (IH Hfree n s) by lia. split.
      * intros ->. reflexivity.
      * intros H. injection H as H. exact H.
    + split.
      * intros H. apply byte_sub_zero in H. subst c.
        rewrite (Byte.byte_dec_lb eq_refl) in Hcb. discriminate.
      * intros H. injection H as -> _.
        rewrite (Byte.byte_dec_lb eq_refl) in Hcb. discriminate.
Qed.

Lemma length_list_byte_of_string (s : string) :
  List.length (list_byte_of_string s) = String.length s.
Proof.
  unfold list_byte_of_string. rewrite length_map.
  induction s as [|a s IH]; [reflexivity|]. cbn. rewrite IH. reflexivity.
Qed.

Lemma nul_free_In (t : list byte) : nul_free t = true -> ~ In NUL t.
Proof.
  unfold nul_free. rewrite forallb_forall. intros H Hin.
  specialize (H NUL Hin). discriminate.
Qed.

(** An array holds at most one C string. *)
Lemma holds_token_unique (s : list byte) (t t' : list byte) :
  nul_free t = true -> nul_free t' = true ->
  (List.length t <= List.length t')%nat ->
  firstn (S (List.length t)) s = t ++ [NUL] ->
  firstn (S (List.length t')) s = t' ++ [NUL] ->
  t = t'.
Proof.
  intros Ht Ht' Hle H H'.
  assert (Hcut : firstn (S (List.length t)) (t' ++ [NUL]) = t ++ [NUL]).
  { rewrite <- H', firstn_firstn.
    replace (Nat.min (S (List.length t)) (S (List.length t'))) with (S (List.length t)) by lia.
    exact H. }
  destruct (Nat.eq_dec (List.length t) (List.length t')) as [Heq|Hne].
  - rewrite Heq in Hcut. rewrite firstn_all2 in Hcut by (rewrite length_app; cbn; lia).
    apply app_inv_tail in Hcut. symmetry. exact Hcut.
  - exfalso. rewrite firstn_app in Hcut.
    replace (S (List.length t) - List.length t')%nat with 0%nat in Hcut by lia.
    rewrite firstn_O, app_nil_r in Hcut.
    apply (nul_free_In t' Ht').
    assert (Hin : In NUL (firstn (S (List.length t)) t')).
    { rewrite Hcut. apply in_or_app. right. left. reflexivity. }
    revert Hin. generalize (S (List.length t)). intros k. revert t'  Ht' Hle Hne H' Hcut.
    intros t' _ _ _ _ _. revert k. induction t' as [|x t' IH]; intros k Hin.
    + destruct k; contradiction.
    + destruct k as [|k]; [contradiction|]. cbn [firstn] in Hin.
      destruct Hin as [->|Hin]; [left; reflexivity|right; exact (IH k Hin)].
Qed.

Lemma holds_token_strncmp (s : list byte) (tok : string) (n : nat) :
  nul_free (list_byte_of_string tok) = true ->
  (String.length tok < n)%nat -> (String.length tok < List.length s)%nat ->
  (strncmp s (list_byte_of_string tok) n = 0 <-> holds_token s tok).
Proof.
  intros Hfree Hn Hs. unfold holds_token.
  rewrite <- (length_list_byte_of_string tok) in *.
  apply strncmp_exact; assumption.
Qed.

Lemma holds_token_same (s : list byte) (tok tok' : string) :
  nul_free (list_byte_of_string tok) = true ->
  nul_free (list_byte_of_string tok') = true ->
  holds_token s tok -> holds_token s tok' ->
  list_byte_of_string tok = list_byte_of_string tok'.
Proof.
  unfold holds_token. rewrite <- (length_list_byte_of_string tok).
  rewrite <- (length_list_byte_of_string tok'). intros Hf Hf' H H'.
  destruct (Nat.le_ge_cases (List.length (list_byte_of_string tok))
              (List.length (list_byte_of_string tok'))) as [Hle|Hge].
  - exact (holds_token_unique s _ _ Hf Hf' Hle H H').
  - symmetry. exact (holds_token_unique s _ _ Hf' Hf Hge H' H).
Qed.

Lemma AllDomains_tokens_nul_free (d : domain) :
  In d AllDomains ->
  nul_free (list_byte_of_string (lookupSelinuxContext d "")) = true /\
  nul_free (list_byte_of_string (lookupPinSubdir d "")) = true.
Proof.
  unfold AllDomains. cbn [In]. intros H.
  repeat (destruct H as [<-|H]; [split; vm_compute; reflexivity|]). contradiction.
Qed.

Lemma AllDomains_tokens_injective (d d' : domain) :
  In d AllDomains -> In d' AllDomains ->
  (list_byte_of_string (lookupSelinuxContext d "") =
   list_byte_of_string (lookupSelinuxContext d' "") -> d = d') /\
  (list_byte_of_string (lookupPinSubdir d "") =
   list_byte_of_string (lookupPinSubdir d' "") -> d = d').
Proof.
  unfold AllDomains. cbn [In]. intros H H'.
  repeat (destruct H as [<-|H]; [|]); try contradiction;
    repeat (destruct H' as [<-|H']; [|]); try contradiction;
    split; intros Heq; first [reflexivity | vm_compute in Heq; discriminate].
Qed.

(** X3. A token array of 32 bytes decodes to a domain of [AllDomains]
    exactly when it holds the token of that domain followed by a NUL (the
    bytes after the NUL do not matter, and a longer string with the token as
    a prefix does not match); a pin_subdir array that holds none of the
    tokens decodes to [unrecognized], a selinux_context array that holds
    none of the tokens of the specified domains to [unspecified]. *)
Theorem tokens_decode_exactly (s : list byte) :
  List.length s = 32%nat ->
  (forall d, In d AllDomains ->
     (getDomainFromPinSubdir s = Val d <-> holds_token s (lookupPinSubdir d ""))) /\
  (getDomainFromPinSubdir s = Val unrecognized <->
   forall d, In d AllDomains -> ~ holds_token s (lookupPinSubdir d "")) /\
  (forall d, In d AllDomains -> specified d = true ->
     (getDomainFromSelinuxContext s = Val d <-> holds_token s (lookupSelinuxContext d ""))) /\
  (getDomainFromSelinuxContext s = Val unspecified <->
   forall d, In d AllDomains -> specified d = true ->
     ~ holds_token s (lookupSelinuxContext d "")).
Proof.
  intros Hlen.
  assert (Hpin : forall d, In d AllDomains ->
            (strncmp s (list_byte_of_string (lookupPinSubdir d ""))
               BPF_PIN_SUBDIR_CHAR_ARRAY_SIZE = 0 <-> holds_token s (lookupPinSubdir d ""))).
  { intros d Hd. pose proof (AllDomains_tokens_fit d Hd) as [_ Hfit].
    apply holds_token_strncmp.
    - apply (AllDomains_tokens_nul_free d Hd).
    - exact Hfit.
    - rewrite Hlen. exact Hfit. }
  assert (Hsel : forall d, In d AllDomains ->
            (strncmp s (list_byte_of_string (lookupSelinuxContext d ""))
               BPF_SELINUX_CONTEXT_CHAR_ARRAY_SIZE = 0 <->
             holds_token s (lookupSelinuxContext d ""))).
  { intros d Hd. pose proof (AllDomains_tokens_fit d Hd) as [Hfit _].
    apply holds_token_strncmp.
    - apply (AllDomains_tokens_nul_free d Hd).
    - exact Hfit.
    - rewrite Hlen. exact Hfit. }
  assert (Hpin1 : forall d d', In d AllDomains -> In d' AllDomains ->
            holds_token s (lookupPinSubdir d "") -> holds_token s (lookupPinSubdir d' "") ->
            d = d').
  { intros d d' Hd Hd' H H'. apply (proj2 (AllDomains_tokens_injective d d' Hd Hd')).
    apply (holds_token_same s); try assumption.
    - apply (AllDomains_tokens_nul_free d Hd).
    - apply (AllDomains_tokens_nul_free d' Hd'). }
  assert (Hsel1 : forall d d', In d AllDomains -> In d' AllDomains ->
            holds_token s (lookupSelinuxContext d "") ->
            holds_token s (lookupSelinuxContext d' "") -> d = d').
  { intros d d' Hd Hd' H H'. apply (proj1 (AllDomains_tokens_injective d d' Hd Hd')).
    apply (holds_token_same s); try assumption.
    - apply (AllDomains_tokens_nul_free d Hd).
    - apply (AllDomains_tokens_nul_free d' Hd'). }
  split; [|split; [|split]].
  - intros d Hd. unfold getDomainFromPinSubdir.
    destruct (getDomainFromPinSubdir_loop_spec s AllDomains)
      as [[d0 [Hin0 [Hrun Hcmp]]]|[Hrun Hnone]].
    + intros d' Hd'. apply (AllDomains_tokens_fit d' Hd').
    + rewrite Hrun. apply Hpin in Hcmp; [|exact Hin0]. split.
      * intros Heq. injection Heq as <-. exact Hcmp.
      * intros H. f_equal. exact (Hpin1 d0 d Hin0 Hd Hcmp H).
    + rewrite Hrun. split.
      * intros Heq. injection Heq as <-. exfalso.
        exact (AllDomains_recognized unrecognized Hd eq_refl).
      * intros H. exfalso. apply (Hnone d Hd). apply Hpin; assumption.
  - unfold getDomainFromPinSubdir.
    destruct (getDomainFromPinSubdir_loop_spec s AllDomains)
      as [[d0 [Hin0 [Hrun Hcmp]]]|[Hrun Hnone]].
    + intros d' Hd'. apply (AllDomains_tokens_fit d' Hd').
    + rewrite Hrun. apply Hpin in Hcmp; [|exact Hin0]. split.
      * intros Heq. injection Heq as ->. exfalso.
        exact (AllDomains_recognized unrecognized Hin0 eq_refl).
      * intros H. exfalso. exact (H d0 Hin0 Hcmp).
    + rewrite Hrun. split; [|reflexivity].
      intros _ d Hd H. apply (Hnone d Hd). apply Hpin; assumption.
  - intros d Hd Hspec. unfold getDomainFromSelinuxContext.
    destruct (getDomainFromSelinuxContext_loop_spec s AllDomains)
      as [[d0 [Hin0 [Hrun Hcmp]]]|[Hrun Hnone]].
    + intros d' Hd'. apply (AllDomains_tokens_fit d' Hd').
    + rewrite Hrun. apply Hsel in Hcmp; [|exact Hin0]. split.
      * intros Heq. injection Heq as <-. exact Hcmp.
      * intros H. f_equal. exact (Hsel1 d0 d Hin0 Hd Hcmp H).
    + rewrite Hrun. split.
      * intros Heq. injection Heq as <-. discriminate.
      * intros H. exfalso. apply (Hnone d Hd). apply Hsel; assumption.
  - unfold getDomainFromSelinuxContext.
    destruct (getDomainFromSelinuxContext_loop_spec s AllDomains)
      as [[d0 [Hin0 [Hrun Hcmp]]]|[Hrun Hnone]].
    + intros d' Hd'. apply (AllDomains_tokens_fit d' Hd').
    + rewrite Hrun. apply Hsel in Hcmp; [|exact Hin0]. split.
      * intros Heq. injection Heq as ->. intros d Hd Hspec H.
        rewrite (Hsel1 d unspecified Hd Hin0 H Hcmp) in Hspec. discriminate.
      * intros H. destruct (specified d0) eqn:Hspec.
        -- exfalso. exact (H d0 Hin0 Hspec Hcmp).
        -- destruct d0; try discriminate. reflexivity.
    + rewrite Hrun. split; [|reflexivity].
      intros _ d Hd _ H. apply (Hnone d Hd). apply Hsel; assumption.
Qed.

Lemma tokens_decode_exactly_witness :
  holds_token (token "net_shared/") (lookupPinSubdir net_shared "") /\
  getDomainFromPinSubdir (token "net_shared/") = Val net_shared /\
  getDomainFromPinSubdir (token "net_shared/x") = Val unrecognized.
Proof.
  assert (Hin : In net_shared AllDomains) by (cbn; auto).
  assert (Hholds : holds_token (token "net_shared/") (lookupPinSubdir net_shared ""))
    by (vm_compute; reflexivity).
  split; [exact Hholds|]. split.
  - apply (proj1 (tokens_decode_exactly (token "net_shared/") eq_refl) net_shared Hin).
    exact Hholds.
  - apply (proj1 (proj2 (tokens_decode_exactly (token "net_shared/x") eq_refl))).
    unfold AllDomains. cbn [In]. intros d H.
    repeat (destruct H as [<-|H]; [vm_compute; discriminate|]). contradiction.
Defined.
(** ** The stream and the sections *)

Lemma seekg_run (off : Z) (s : ifstream) :
  exists s1, seekg off s = Val (tt, s1) /\ s_file s1 = s_file s.
Proof.
  unfold seekg. destruct (s_fail s); [eauto|].
  destruct (_ || _)%bool; eauto.
Qed.

Lemma read_run (n : Z) (s : ifstream) :
  exists b s1, read n s = Val (b, s1) /\ s_file s1 = s_file s.
Proof.
  unfold read. destruct (s_fail s); [eauto|].
  destruct (_ =? n); eauto.
Qed.

Ltac run_seekg off s s1 Hfile :=
  destruct (seekg_run off s) as (s1 & -> & Hfile).
Ltac run_read n s b s1 Hfile :=
  destruct (read_run n s) as (b & s1 & -> & Hfile).

Lemma readElfHeader_outcome (s s' : ifstream) (ret : Z) (eh : Elf64_Ehdr) :
  readElfHeader s = Val ((ret, eh), s') ->
  reader_outcome s ret s' /\ (ret = 0 \/ ret = -1).
Proof.
  unfold readElfHeader, bind, fail, Ret, reader_outcome.
  run_seekg 0 s s1 Hfile1.
  destruct (s_fail s1) eqn:Hf1.
  { intros H. injection H as <- <- <-. auto 6. }
  run_read sizeof_Ehdr s1 b s2 Hfile2.
  destruct (s_fail s2) eqn:Hf2; intros H; injection H as <- <- <-;
    (split; [split; [congruence|auto 6]|auto]).
Qed.

Lemma readSectionHeadersAll_outcome (s s' : ifstream) (ret : Z) (shTable : list Elf64_Shdr) :
  readSectionHeadersAll s = Val ((ret, shTable), s') ->
  reader_outcome s ret s' /\ (ret = 0 \/ ret = -1 \/ ret = - ENOMEM).
Proof.
  unfold readSectionHeadersAll, bind.
  destruct (readElfHeader s) as [[[ret0 eh] s0]| |] eqn:Heh; try discriminate.
  destruct (readElfHeader_outcome _ _ _ _ Heh) as [[Hfile0 Hout0] Hret0].
  destruct (Z.eqb_spec ret0 0) as [->|Hne]; cbn [negb].
  2: { unfold Ret. intros H. injection H as <- <- <-.
       split; [split; assumption|]. destruct Hret0; [contradiction|auto]. }
  unfold fail, Ret, undefined, reader_outcome.
  run_seekg (e_shoff eh) s0 s1 Hfile1.
  destruct (s_fail s1) eqn:Hf1.
  { intros H. injection H as <- <- <-. split; [split; [congruence|auto 6]|auto]. }
  destruct (2 ^ 31 <=? _); [discriminate|].
  run_read (e_shnum eh * e_shentsize eh) s1 b s2 Hfile2.
  destruct (_ <? _); [discriminate|].
  destruct (s_fail s2) eqn:Hf2; intros H; injection H as <- <- <-;
    (split; [split; [congruence|auto 6]|auto]).
Qed.

Lemma readSectionByIdx_outcome (id : Z) (s s' : ifstream) (ret : Z) (sec : list byte) :
  readSectionByIdx id s = Val ((ret, sec), s') ->
  reader_outcome s ret s' /\ (ret = 0 \/ ret = -1 \/ ret = - ENOMEM).
Proof.
  unfold readSectionByIdx, bind.
  destruct (readSectionHeadersAll s) as [[[ret0 shTable] s0]| |] eqn:Hsh; try discriminate.
  destruct (readSectionHeadersAll_outcome _ _ _ _ Hsh) as [[Hfile0 Hout0] Hret0].
  destruct (Z.eqb_spec ret0 0) as [->|Hne]; cbn [negb].
  2: { unfold Ret. intros H. injection H as <- <- <-.
       split; [split; assumption|]. destruct Hret0 as [?|?]; [contradiction|auto]. }
  destruct (id <? 0); [discriminate|].
  destruct (nth_error shTable (Z.to_nat id)) as [sh|]; [|discriminate].
  unfold fail, Ret, resize_check, reader_outcome.
  run_seekg (sh_offset sh) s0 s1 Hfile1.
  destruct (s_fail s1) eqn:Hf1.
  { intros H. injection H as <- <- <-. split; [split; [congruence|auto 6]|auto]. }
  destruct (_ || _)%bool; [discriminate|].
  run_read (sh_size sh) s1 b s2 Hfile2.
  destruct (s_fail s2) eqn:Hf2; intros H; injection H as <- <- <-;
    (split; [split; [congruence|auto 6]|auto]).
Qed.

Lemma readSectionHeaderStrtab_outcome (s s' : ifstream) (ret : Z) (strtab : list byte) :
  readSectionHeaderStrtab s = Val ((ret, strtab), s') ->
  reader_outcome s ret s' /\ (ret = 0 \/ ret = -1 \/ ret = - ENOMEM).
Proof.
  unfold readSectionHeaderStrtab, bind.
  destruct (readElfHeader s) as [[[ret0 eh] s0]| |] eqn:Heh; try discriminate.
  destruct (readElfHeader_outcome _ _ _ _ Heh) as [[Hfile0 Hout0] Hret0].
  destruct (Z.eqb_spec ret0 0) as [->|Hne]; cbn [negb].
  2: { unfold Ret. intros H. injection H as <- <- <-.
       split; [split; assumption|]. destruct Hret0; [contradiction|auto]. }
  destruct (readSectionByIdx (e_shstrndx eh) s0) as [[[ret1 sec] s1]| |] eqn:Hsec;
    try discriminate.
  destruct (readSectionByIdx_outcome _ _ _ _ _ Hsec) as [[Hfile1 Hout1] Hret1].
  destruct (Z.eqb_spec ret1 0) as [->|Hne]; cbn [negb];
    unfold Ret; intros H; injection H as <- <- <-;
    (split; [split; [congruence|assumption]|auto]).
Qed.

(** A section found by its name or by its type is read in the same way. *)
Lemma read_section_outcome (sh : Elf64_Shdr) (s s' : ifstream) (ret : Z) (data : list byte) :
  (_ <- resize_check (sh_size sh) ;;
   _ <- seekg (sh_offset sh) ;;
   f <- fail ;;
   if f then Ret (-1, []) else
   b <- read (sh_size sh) ;;
   f <- fail ;;
   if f then Ret (-1, []) else
   Ret (0, b)) s = Val ((ret, data), s') ->
  reader_outcome s ret s' /\ (ret = 0 \/ ret = -1).
Proof.
  unfold bind, resize_check, fail, Ret, reader_outcome.
  destruct (_ || _)%bool; [discriminate|].
  run_seekg (sh_offset sh) s s1 Hfile1.
  destruct (s_fail s1) eqn:Hf1.
  { intros H. injection H as <- <- <-. split; [split; [congruence|auto 6]|auto]. }
  run_read (sh_size sh) s1 b s2 Hfile2.
  destruct (s_fail s2) eqn:Hf2; intros H; injection H as <- <- <-;
    (split; [split; [congruence|auto 6]|auto]).
Qed.

Lemma readSectionByName_loop_outcome (name : string) (secStrTab : list byte)
    (shTable : list Elf64_Shdr) (s s' : ifstream) (ret : Z) (data : list byte) :
  s_fail s = false ->
  readSectionByName_loop name secStrTab shTable s = Val ((ret, data), s') ->
  reader_outcome s ret s' /\ (ret = 0 \/ ret = -1 \/ ret = -2).
Proof.
  intros Hgood. induction shTable as [|sh shTable IH].
  - cbn. unfold Ret. intros H. injection H as <- <- <-.
    split; [split; [reflexivity|auto]|auto].
  - cbn [readSectionByName_loop].
    destruct (_ && _)%bool; [exact IH|].
    destruct (cstr_at secStrTab (sh_name sh)) as [secname|]; [|discriminate].
    destruct (String.eqb secname name); [|exact IH].
    intros H. destruct (read_section_outcome _ _ _ _ _ H) as [Hout Hret].
    split; [exact Hout|]. destruct Hret; auto.
Qed.

Lemma readSectionByType_loop_outcome (type : Z) (shTable : list Elf64_Shdr)
    (s s' : ifstream) (ret : Z) (data : list byte) :
  s_fail s = false ->
  readSectionByType_loop type shTable s = Val ((ret, data), s') ->
  reader_outcome s ret s' /\ (ret = 0 \/ ret = -1 \/ ret = -2).
Proof.
  intros Hgood. induction shTable as [|sh shTable IH].
  - cbn. unfold Ret. intros H. injection H as <- <- <-.
    split; [split; [reflexivity|auto]|auto].
  - cbn [readSectionByType_loop].
    destruct (negb _); [exact IH|].
    intros H. destruct (read_section_outcome _ _ _ _ _ H) as [Hout Hret].
    split; [exact Hout|]. destruct Hret; auto.
Qed.

Lemma reader_outcome_good (s s' : ifstream) (ret : Z) :
  reader_outcome s ret s' -> ret = 0 -> s_fail s' = false.
Proof.
  intros [_ [[Hf _]|[_ [H|H]]]] ->; [exact Hf|discriminate H|discriminate H].
Qed.

Lemma reader_outcome_trans (s s1 s' : ifstream) (ret : Z) :
  s_file s1 = s_file s -> reader_outcome s1 ret s' -> reader_outcome s ret s'.
Proof. intros Hfile [Hfile' Hout]. split; [congruence|exact Hout]. Qed.

(** The outcome of [readSectionByName], for the callers of it below. *)
Lemma readSectionByName_reader_outcome (name : string) (s s' : ifstream) (ret : Z)
    (data : list byte) :
  readSectionByName name s = Val ((ret, data), s') ->
  reader_outcome s ret s'.
Proof.
  unfold readSectionByName, bind.
  destruct (readSectionHeadersAll s) as [[[ret0 shTable] s0]| |] eqn:Hsh; try discriminate.
  destruct (readSectionHeadersAll_outcome _ _ _ _ Hsh) as [Hout0 Hret0].
  destruct (Z.eqb_spec ret0 0) as [->|Hne]; cbn [negb].
  2: { unfold Ret. intros H. injection H as <- <- <-. exact Hout0. }
  destruct (readSectionHeaderStrtab s0) as [[[ret1 strtab] s1]| |] eqn:Hstr; try discriminate.
  destruct (readSectionHeaderStrtab_outcome _ _ _ _ Hstr) as [Hout1 Hret1].
  destruct (Z.eqb_spec ret1 0) as [->|Hne]; cbn [negb].
  2: { unfold Ret. intros H. injection H as <- <- <-.
       apply (reader_outcome_trans s s0); [apply Hout0|exact Hout1]. }
  intros Hloop.
  destruct (readSectionByName_loop_outcome _ _ _ _ _ _ _
              (reader_outcome_good _ _ _ Hout1 eq_refl) Hloop) as [Hout _].
  apply (reader_outcome_trans s s1); [|exact Hout].
  destruct Hout0 as [Hf0 _]. destruct Hout1 as [Hf1 _]. congruence.
Qed.

(** X4. [readSectionByName] never changes the file; it returns 0, -1, -2
    or -ENOMEM; and the stream is good after 0 and -2 and has failed after
    -1 and -ENOMEM. *)
Theorem readSectionByName_outcome (name : string) (s s' : ifstream) (ret : Z)
    (data : list byte) :
  readSectionByName name s = Val ((ret, data), s') ->
  reader_outcome s ret s'.
Proof. exact (readSectionByName_reader_outcome name s s' ret data). Qed.

Lemma readSectionByType_outcome (type : Z) (s s' : ifstream) (ret : Z) (data : list byte) :
  readSectionByType type s = Val ((ret, data), s') ->
  reader_outcome s ret s'.
Proof.
  unfold readSectionByType, bind.
  destruct (readSectionHeadersAll s) as [[[ret0 shTable] s0]| |] eqn:Hsh; try discriminate.
  destruct (readSectionHeadersAll_outcome _ _ _ _ Hsh) as [Hout0 Hret0].
  destruct (Z.eqb_spec ret0 0) as [->|Hne]; cbn [negb].
  2: { unfold Ret. intros H. injection H as <- <- <-. exact Hout0. }
  intros Hloop.
  destruct (readSectionByType_loop_outcome _ _ _ _ _ _
              (reader_outcome_good _ _ _ Hout0 eq_refl) Hloop) as [Hout _].
  apply (reader_outcome_trans s s0); [apply Hout0|exact Hout].
Qed.

Lemma readSectionByName_outcome_witness :
  reader_outcome (stream_of elf_good) 0
    (state_after (readSectionByName "license" (stream_of elf_good)) (stream_of elf_good)) /\
  reader_outcome (stream_of elf_good) (-2)
    (state_after (readSectionByName "critical" (stream_of elf_good)) (stream_of elf_good)).
Proof.
  split.
  - apply (readSectionByName_outcome "license" (stream_of elf_good) _ 0
             (list_byte_of_string "Apache 2.0" ++ [NUL])).
    vm_compute. reflexivity.
  - apply (readSectionByName_outcome "critical" (stream_of elf_good) _ (-2) []).
    vm_compute. reflexivity.
Defined.

(** *** A stream that has failed *)

Lemma readElfHeader_failed (s : ifstream) :
  s_fail s = true -> readElfHeader s = Val ((-1, parse_Ehdr []), s).
Proof.
  intros Hf. unfold readElfHeader, bind, seekg, fail. rewrite Hf. cbn. rewrite Hf. reflexivity.
Qed.

Lemma readSectionHeadersAll_failed (s : ifstream) :
  s_fail s = true -> readSectionHeadersAll s = Val ((-1, []), s).
Proof.
  intros Hf. unfold readSectionHeadersAll, bind. rewrite (readElfHeader_failed s Hf).
  reflexivity.
Qed.

Lemma readSectionByName_failed (name : string) (s : ifstream) :
  s_fail s = true -> readSectionByName name s = Val ((-1, []), s).
Proof.
  intros Hf. unfold readSectionByName, bind. rewrite (readSectionHeadersAll_failed s Hf).
  reflexivity.
Qed.

Lemma readSectionByType_failed (type : Z) (s : ifstream) :
  s_fail s = true -> readSectionByType type s = Val ((-1, []), s).
Proof.
  intros Hf. unfold readSectionByType, bind. rewrite (readSectionHeadersAll_failed s Hf).
  reflexivity.
Qed.

Lemma getSymName_failed (off : Z) (s : ifstream) :
  s_fail s = true -> getSymName off s = Val ((-1, EmptyString), s).
Proof.
  intros Hf. unfold getSymName, readSectionHeaderStrtab, bind.
  rewrite (readElfHeader_failed s Hf). reflexivity.
Qed.

Section FailedStream.

Variable std_sort : (Elf64_Sym -> Elf64_Sym -> bool) -> list Elf64_Sym -> list Elf64_Sym.
Variable hdr : Headers.

Lemma readSymTab_failed (sort : bool) (s : ifstream) :
  s_fail s = true -> readSymTab std_sort sort s = Val ((-1, []), s).
Proof.
  intros Hf. unfold readSymTab, bind. rewrite (readSectionByType_failed _ s Hf). reflexivity.
Qed.

Lemma getSectionSymNames_failed (name : string) (ty : option Z) (s : ifstream) :
  s_fail s = true -> getSectionSymNames std_sort name ty s = Val ((-1, []), s).
Proof.
  intros Hf. unfold getSectionSymNames, bind. rewrite (readSymTab_failed _ s Hf). reflexivity.
Qed.

(** X5. Once the stream has failed it stays failed (the loader never
    clears it): every reader of sections returns -1 without touching the
    stream, a scalar section reads as its default, and [loadProg], from
    there on, returns -1 for an object that it takes as not critical. *)
Theorem failed_stream_is_sticky (s : ifstream) :
  s_fail s = true ->
  (forall name, readSectionByName name s = Val ((-1, []), s)) /\
  (forall name d, readSectionUint name d s = Val (d, s)) /\
  (forall name ty, getSectionSymNames std_sort name ty s = Val ((-1, []), s)) /\
  (forall idx, getSymNameByIdx std_sort idx s = Val ((-1, EmptyString), s)) /\
  (forall sz, readCodeSections std_sort hdr sz s = Val ((-1, []), s)) /\
  (forall W (sys : Sys W) path loc ver w,
     loadProg_stream std_sort hdr sys path ver loc (s, w) = Val ((-1, false), (s, w))).
Proof.
  intros Hf. repeat split.
  - intros name. exact (readSectionByName_failed name s Hf).
  - intros name d. unfold readSectionUint, bind.
    rewrite (readSectionByName_failed name s Hf). reflexivity.
  - intros name ty. exact (getSectionSymNames_failed name ty s Hf).
  - intros idx. unfold getSymNameByIdx, bind. rewrite (readSymTab_failed _ s Hf). reflexivity.
  - intros sz. unfold readCodeSections, bind.
    rewrite (readSectionHeadersAll_failed s Hf). reflexivity.
  - intros W sys path loc ver w. unfold loadProg_stream, bind, liftE.
    rewrite (readSectionByName_failed "critical" s Hf).
    rewrite (readSectionByName_failed "license" s Hf). reflexivity.
Qed.


End FailedStream.

Lemma failed_stream_is_sticky_witness :
  readSectionByName "license" failed_stream = Val ((-1, []), failed_stream) /\
  readSectionUint "bpfloader_min_ver" 7 failed_stream = Val (7, failed_stream).
Proof.
  destruct (failed_stream_is_sticky sample_sort sample_hdr failed_stream eq_refl)
    as (Hname & Huint & _).
  split; [apply Hname|apply Huint].
Defined.

Lemma cstr_at_nonempty (strtab : list byte) (off : Z) (nm : string) :
  cstr_at strtab off = Some nm -> strtab <> [].
Proof.
  intros H ->. unfold cstr_at in H. destruct (off <? 0); [discriminate|].
  rewrite skipn_nil in H. discriminate.
Qed.

Lemma readSectionByName_loop_skip (name : string) (strtab : list byte)
    (pre rest : list Elf64_Shdr) (s : ifstream) :
  (forall x, In x pre -> exists nm, section_name strtab x = Some nm /\ nm <> name) ->
  readSectionByName_loop name strtab (pre ++ rest) s =
  readSectionByName_loop name strtab rest s.
Proof.
  induction pre as [|x pre IH]; intros Hpre; [reflexivity|].
  cbn [app readSectionByName_loop].
  destruct (Hpre x (or_introl eq_refl)) as [nm [Hnm Hne]]. unfold section_name in Hnm.
  pose proof (cstr_at_nonempty _ _ _ Hnm) as Hnonempty.
  destruct strtab as [|b strtab]; [contradiction|]. cbn [List.length Nat.eqb andb].
  rewrite Hnm. apply String.eqb_neq in Hne. rewrite Hne.
  apply IH. intros y Hy. apply Hpre. right. exact Hy.
Qed.

Lemma length_file_bytes (file : list byte) (off size : Z) :
  0 <= off -> 0 <= size ->
  (Z.of_nat (List.length (file_bytes file off size)) = size <->
   size = 0 \/ off + size <= Z.of_nat (List.length file)).
Proof.
  intros Hoff Hsize. unfold file_bytes.
  rewrite length_firstn, length_skipn. lia.
Qed.

(** The headers that [readSectionHeadersAll] returns are decoded from
    bytes: their offsets and sizes are not negative. *)
Lemma field_nonneg (off len : nat) (b : list byte) : 0 <= field off len b.
Proof. unfold field. apply le_combine_bound. Qed.

Lemma readSectionHeadersAll_parsed (s s' : ifstream) (ret : Z) (shTable : list Elf64_Shdr) :
  readSectionHeadersAll s = Val ((ret, shTable), s') ->
  Forall (fun sh => 0 <= sh_offset sh /\ 0 <= sh_size sh) shTable.
Proof.
  unfold readSectionHeadersAll, bind, fail, Ret, undefined.
  destruct (readElfHeader s) as [[[ret0 eh] s0]| |]; try discriminate.
  destruct (negb (ret0 =? 0)); [intros H; injection H as <- <- <-; constructor|].
  run_seekg (e_shoff eh) s0 s1 Hfile1.
  destruct (s_fail s1); [intros H; injection H as <- <- <-; constructor|].
  destruct (2 ^ 31 <=? _); [discriminate|].
  run_read (e_shnum eh * e_shentsize eh) s1 b s2 Hfile2.
  destruct (_ <? _); [discriminate|].
  destruct (s_fail s2); intros H; injection H as <- <- <-; [constructor|].
  apply Forall_map, Forall_forall. intros x _. split; apply field_nonneg.
Qed.

(** The reading of a section whose header is [sh], on a good stream. *)
Lemma read_section_run (sh : Elf64_Shdr) (s : ifstream) :
  s_fail s = false ->
  0 <= sh_offset sh -> 0 <= sh_size sh ->
  (_ <- resize_check (sh_size sh) ;;
   _ <- seekg (sh_offset sh) ;;
   f <- fail ;;
   if f then Ret (-1, []) else
   b <- read (sh_size sh) ;;
   f <- fail ;;
   if f then Ret (-1, []) else
   Ret (0, b)) s =
  if (2 ^ 63 <=? sh_size sh) || (Z.of_N (f_maxalloc (s_file s)) <? sh_size sh) then Abort
  else if (2 ^ 63 <=? sh_offset sh) || (Z.of_N (f_maxbytes (s_file s)) <? sh_offset sh)
  then Val ((-1, []), set_fail s)
  else if (sh_size sh =? 0) ||
          (sh_offset sh + sh_size sh <=? Z.of_nat (List.length (f_bytes (s_file s))))
  then Val ((0, file_bytes (f_bytes (s_file s)) (sh_offset sh) (sh_size sh)),
            set_pos (sh_offset sh + sh_size sh) s)
  else Val ((-1, []), set_fail (set_pos (sh_offset sh) s)).
Proof.
  intros Hgood Hoff Hsize.
  unfold bind, resize_check, seekg, fail, Ret.
  destruct ((2 ^ 63 <=? sh_size sh) || (Z.of_N (f_maxalloc (s_file s)) <? sh_size sh))%bool;
    [reflexivity|].
  rewrite Hgood.
  destruct ((2 ^ 63 <=? sh_offset sh) || (Z.of_N (f_maxbytes (s_file s)) <? sh_offset sh))%bool.
  { assert (Hbad : s_fail (set_fail s) = true) by reflexivity. rewrite Hbad. reflexivity. }
  assert (Hgood1 : s_fail (set_pos (sh_offset sh) s) = false) by exact Hgood.
  rewrite Hgood1. unfold read. rewrite Hgood1.
  change (s_pos (set_pos (sh_offset sh) s)) with (sh_offset sh).
  change (s_file (set_pos (sh_offset sh) s)) with (s_file s).
  fold (file_bytes (f_bytes (s_file s)) (sh_offset sh) (sh_size sh)).
  pose proof (length_file_bytes (f_bytes (s_file s)) _ _ Hoff Hsize) as Hlen.
  destruct (Z.eqb_spec (Z.of_nat (List.length (file_bytes (f_bytes (s_file s)) (sh_offset sh)
                                                 (sh_size sh)))) (sh_size sh)) as [Heq|Hne].
  - assert (Hgood2 : s_fail (set_pos (sh_offset sh + sh_size sh)
                               (set_pos (sh_offset sh) s)) = false) by exact Hgood.
    rewrite Hgood2.
    replace ((sh_size sh =? 0) ||
             (sh_offset sh + sh_size sh <=? Z.of_nat (List.length (f_bytes (s_file s)))))%bool
      with true; [reflexivity|].
    symmetry. apply orb_true_iff. rewrite Z.eqb_eq, Z.leb_le. apply Hlen. exact Heq.
  - assert (Hbad : s_fail (set_fail (set_pos (sh_offset sh) s)) = true) by reflexivity.
    rewrite Hbad.
    replace ((sh_size sh =? 0) ||
             (sh_offset sh + sh_size sh <=? Z.of_nat (List.length (f_bytes (s_file s)))))%bool
      with false; [reflexivity|].
    symmetry. apply orb_false_iff. rewrite Z.eqb_neq, Z.leb_gt.
    split; [intros H0; apply Hne, Hlen; left; exact H0|].
    apply Z.nle_gt. intros Hle. apply Hne, Hlen. right. exact Hle.
Qed.

(** X6. With the section headers [shTable] and the string table [strtab]
    of the section names read from the object, [readSectionByName] goes by
    the first section [sh] of the given name.  The program terminates when
    the buffer of [sh_size] bytes cannot be allocated.  Otherwise -1 is
    returned when the stream cannot seek to [sh_offset], or when the section
    is not empty and the file ends before its end; and 0 with the bytes of
    the section, the [sh_size] bytes of the file from [sh_offset] on, in the
    remaining case.  When no section has the name, -2 is returned. *)
Theorem readSectionByName_first_match (name : string) (s s1 s2 : ifstream)
    (shTable : list Elf64_Shdr) (strtab : list byte) :
  readSectionHeadersAll s = Val ((0, shTable), s1) ->
  readSectionHeaderStrtab s1 = Val ((0, strtab), s2) ->
  (forall pre sh post,
     shTable = pre ++ sh :: post ->
     (forall x, In x pre -> exists nm, section_name strtab x = Some nm /\ nm <> name) ->
     section_name strtab sh = Some name ->
     (2 ^ 63 <= sh_size sh \/ Z.of_N (f_maxalloc (s_file s)) < sh_size sh ->
      readSectionByName name s = Abort) /\
     (sh_size sh < 2 ^ 63 -> sh_size sh <= Z.of_N (f_maxalloc (s_file s)) ->
      (2 ^ 63 <= sh_offset sh \/ Z.of_N (f_maxbytes (s_file s)) < sh_offset sh ->
       readSectionByName name s = Val ((-1, []), set_fail s2)) /\
      (sh_offset sh < 2 ^ 63 -> sh_offset sh <= Z.of_N (f_maxbytes (s_file s)) ->
       (sh_size sh = 0 \/
        sh_offset sh + sh_size sh <= Z.of_nat (List.length (f_bytes (s_file s))) ->
        readSectionByName name s =
        Val ((0, file_bytes (f_bytes (s_file s)) (sh_offset sh) (sh_size sh)),
             set_pos (sh_offset sh + sh_size sh) s2)) /\
       (0 < sh_size sh /\
        Z.of_nat (List.length (f_bytes (s_file s))) < sh_offset sh + sh_size sh ->
        readSectionByName name s =
        Val ((-1, []), set_fail (set_pos (sh_offset sh) s2)))))) /\
  ((forall x, In x shTable -> exists nm, section_name strtab x = Some nm /\ nm <> name) ->
   readSectionByName name s = Val ((-2, []), s2)).
Proof.
  intros Hsh Hstr.
  destruct (readSectionHeadersAll_outcome _ _ _ _ Hsh) as [[Hfile1 _] _].
  destruct (readSectionHeaderStrtab_outcome _ _ _ _ Hstr) as [Hout2 _].
  pose proof (reader_outcome_good _ _ _ Hout2 eq_refl) as Hgood.
  assert (Hfile : s_file s2 = s_file s) by (destruct Hout2 as [Hfile2 _]; congruence).
  assert (Hrun : readSectionByName name s = readSectionByName_loop name strtab shTable s2).
  { unfold readSectionByName, bind. rewrite Hsh. cbn [negb Z.eqb]. rewrite Hstr. reflexivity. }
  split.
  - intros pre sh post -> Hpre Hname.
    pose proof (readSectionHeadersAll_parsed _ _ _ _ Hsh) as Hparsed.
    rewrite Forall_forall in Hparsed.
    destruct (Hparsed sh) as [Hoff Hsize]; [apply in_elt|].
    assert (Hone : readSectionByName name s =
              if (2 ^ 63 <=? sh_size sh) || (Z.of_N (f_maxalloc (s_file s)) <? sh_size sh)
              then Abort
              else if (2 ^ 63 <=? sh_offset sh) || (Z.of_N (f_maxbytes (s_file s)) <? sh_offset sh)
              then Val ((-1, []), set_fail s2)
              else if (sh_size sh =? 0) ||
                      (sh_offset sh + sh_size sh <=?
                       Z.of_nat (List.length (f_bytes (s_file s))))
              then Val ((0, file_bytes (f_bytes (s_file s)) (sh_offset sh) (sh_size sh)),
                        set_pos (sh_offset sh + sh_size sh) s2)
              else Val ((-1, []), set_fail (set_pos (sh_offset sh) s2))).
    { rewrite Hrun, (readSectionByName_loop_skip _ _ _ _ _ Hpre).
      cbn [readSectionByName_loop]. unfold section_name in Hname.
      pose proof (cstr_at_nonempty _ _ _ Hname) as Hnonempty.
      destruct strtab as [|b strtab]; [contradiction|]. cbn [List.length Nat.eqb andb].
      rewrite Hname, String.eqb_refl.
      rewrite (read_section_run sh s2 Hgood Hoff Hsize), Hfile. reflexivity. }
    rewrite Hone. split.
    + intros Hno.
      replace ((2 ^ 63 <=? sh_size sh) || (Z.of_N (f_maxalloc (s_file s)) <? sh_size sh))%bool
        with true; [reflexivity|].
      symmetry. apply orb_true_iff. rewrite Z.leb_le, Z.ltb_lt. exact Hno.
    + intros Hsmall Halloc.
      replace (2 ^ 63 <=? sh_size sh) with false by (symmetry; apply Z.leb_gt; exact Hsmall).
      replace (Z.of_N (f_maxalloc (s_file s)) <? sh_size sh) with false
        by (symmetry; apply Z.ltb_ge; exact Halloc).
      cbn [orb]. split.
      * intros Hno.
        replace ((2 ^ 63 <=? sh_offset sh) || (Z.of_N (f_maxbytes (s_file s)) <? sh_offset sh))%bool
          with true; [reflexivity|].
        symmetry. apply orb_true_iff. rewrite Z.leb_le, Z.ltb_lt. exact Hno.
      * intros Hsmall' Hseek.
        replace (2 ^ 63 <=? sh_offset sh) with false
          by (symmetry; apply Z.leb_gt; exact Hsmall').
        replace (Z.of_N (f_maxbytes (s_file s)) <? sh_offset sh) with false
          by (symmetry; apply Z.ltb_ge; exact Hseek).
        cbn [orb]. split; intros Hfit.
        -- replace ((sh_size sh =? 0) ||
                    (sh_offset sh + sh_size sh <=?
                     Z.of_nat (List.length (f_bytes (s_file s)))))%bool
             with true; [reflexivity|].
           symmetry. apply orb_true_iff. rewrite Z.eqb_eq, Z.leb_le. exact Hfit.
        -- replace ((sh_size sh =? 0) ||
                    (sh_offset sh + sh_size sh <=?
                     Z.of_nat (List.length (f_bytes (s_file s)))))%bool
             with false; [reflexivity|].
           symmetry. apply orb_false_iff. rewrite Z.eqb_neq, Z.leb_gt. lia.
  - intros Hnone. rewrite Hrun.
    rewrite <- (app_nil_r shTable), (readSectionByName_loop_skip _ _ _ _ _ Hnone).
    reflexivity.
Qed.

(** Every read starts with a seek to the start of the file: on a stream
    that has not failed, neither the result nor the stream left behind
    depends on where the stream stood. *)
Lemma readElfHeader_rewinds (s1 s2 : ifstream) :
  s_fail s1 = false -> s_fail s2 = false -> s_file s1 = s_file s2 ->
  readElfHeader s1 = readElfHeader s2.
Proof.
  intros H1 H2 Hfile. unfold readElfHeader, bind, seekg, fail, read.
  rewrite H1, H2. replace (2 ^ 63 <=? 0) with false by reflexivity.
  replace (Z.of_N (f_maxbytes (s_file s1)) <? 0) with false by (symmetry; apply Z.ltb_ge; lia).
  replace (Z.of_N (f_maxbytes (s_file s2)) <? 0) with false by (symmetry; apply Z.ltb_ge; lia).
  cbn [orb].
  unfold set_pos, set_fail. cbn [s_fail s_file s_pos]. rewrite H1, H2, Hfile.
  reflexivity.
Qed.

Section Rewinding.

Variable std_sort : (Elf64_Sym -> Elf64_Sym -> bool) -> list Elf64_Sym -> list Elf64_Sym.
Variable hdr : Headers.

(** X7. On a stream that has not failed, what a reader of sections returns
    and the stream it leaves depend on the file only, not on where the
    stream stood: two good streams on the same file give the same. *)
Theorem reads_rewind_the_stream (s1 s2 : ifstream) :
  s_fail s1 = false -> s_fail s2 = false -> s_file s1 = s_file s2 ->
  (forall name, readSectionByName name s1 = readSectionByName name s2) /\
  (forall name d, readSectionUint name d s1 = readSectionUint name d s2) /\
  (forall name ty, getSectionSymNames std_sort name ty s1 =
                   getSectionSymNames std_sort name ty s2) /\
  (forall idx, getSymNameByIdx std_sort idx s1 = getSymNameByIdx std_sort idx s2) /\
  (forall sz, readCodeSections std_sort hdr sz s1 = readCodeSections std_sort hdr sz s2).
Proof.
  intros H1 H2 Hfile.
  pose proof (readElfHeader_rewinds s1 s2 H1 H2 Hfile) as Heh.
  assert (Hsh : readSectionHeadersAll s1 = readSectionHeadersAll s2).
  { unfold readSectionHeadersAll, bind. rewrite Heh. reflexivity. }
  assert (Hname : forall name, readSectionByName name s1 = readSectionByName name s2).
  { intros name. unfold readSectionByName, bind. rewrite Hsh. reflexivity. }
  assert (Hsym : forall sort, readSymTab std_sort sort s1 = readSymTab std_sort sort s2).
  { intros sort. unfold readSymTab, readSectionByType, bind. rewrite Hsh. reflexivity. }
  repeat split.
  - exact Hname.
  - intros name d. unfold readSectionUint, bind. rewrite Hname. reflexivity.
  - intros name ty. unfold getSectionSymNames, bind. rewrite Hsym. reflexivity.
  - intros idx. unfold getSymNameByIdx, bind. rewrite Hsym. reflexivity.
  - intros sz. unfold readCodeSections, bind. rewrite Hsh. reflexivity.
Qed.

End Rewinding.
Lemma readSectionByName_first_match_witness :
  readSectionByName "license" (stream_of elf_good) =
    Val ((0, list_byte_of_string "Apache 2.0" ++ [NUL]), set_pos 75 good_sh2) /\
  readSectionByName "maps" short_of_memory = Abort /\
  readSectionByName "license" (stream_of elf_far_license) =
    Val ((-1, []), set_fail (sh2_of elf_far_license)) /\
  readSectionByName "license" (stream_of elf_huge_license) = Abort.
Proof.
  destruct (readSectionByName_first_match "license" (stream_of elf_good) good_sh1 good_sh2
              good_shTable good_strtab) as [Hfirst _];
    [vm_compute; reflexivity|vm_compute; reflexivity|].
  destruct (readSectionByName_first_match "maps" short_of_memory short_sh1 short_sh2
              good_shTable good_strtab) as [Hshort _];
    [vm_compute; reflexivity|vm_compute; reflexivity|].
  destruct (readSectionByName_first_match "license" (stream_of elf_far_license)
              (sh1_of elf_far_license) (sh2_of elf_far_license)
              (shTable_of elf_far_license) good_strtab) as [Hfar _];
    [vm_compute; reflexivity|vm_compute; reflexivity|].
  destruct (readSectionByName_first_match "license" (stream_of elf_huge_license)
              (sh1_of elf_huge_license) (sh2_of elf_huge_license)
              (shTable_of elf_huge_license) good_strtab) as [Hhuge _];
    [vm_compute; reflexivity|vm_compute; reflexivity|].
  split; [|split; [|split]].
  - apply (Hfirst [nth 0 good_shTable (parse_Shdr [])] (nth 1 good_shTable (parse_Shdr []))
             (skipn 2 good_shTable)).
    + vm_compute. reflexivity.
    + intros x [<-|[]]. exists EmptyString. split; [vm_compute; reflexivity|discriminate].
    + vm_compute. reflexivity.
    + vm_compute. reflexivity.
    + vm_compute. discriminate.
    + vm_compute. reflexivity.
    + vm_compute. discriminate.
    + right. vm_compute. discriminate.
  - apply (Hshort (map (fun k => nth k good_shTable (parse_Shdr [])) [0; 1; 2; 3; 4; 5]%nat)
             (nth 6 good_shTable (parse_Shdr [])) (skipn 7 good_shTable)).
    + vm_compute. reflexivity.
    + intros x Hx. cbn [map In] in Hx.
      exists (match section_name good_strtab x with Some nm => nm | None => EmptyString end).
      repeat (destruct Hx as [<-|Hx];
              [split; [vm_compute; reflexivity|vm_compute; discriminate]|]).
      contradiction.
    + vm_compute. reflexivity.
    + right. vm_compute. reflexivity.
  - apply (Hfar [nth 0 good_shTable (parse_Shdr [])]
             (mkShdr 2 1 (2 ^ 44) 11) (skipn 2 good_shTable)).
    + vm_compute. reflexivity.
    + intros x [<-|[]]. exists EmptyString. split; [vm_compute; reflexivity|discriminate].
    + vm_compute. reflexivity.
    + vm_compute. reflexivity.
    + vm_compute. discriminate.
    + right. vm_compute. reflexivity.
  - apply (Hhuge [nth 0 good_shTable (parse_Shdr [])]
             (mkShdr 2 1 64 (2 ^ 40)) (skipn 2 good_shTable)).
    + vm_compute. reflexivity.
    + intros x [<-|[]]. exists EmptyString. split; [vm_compute; reflexivity|discriminate].
    + vm_compute. reflexivity.
    + right. vm_compute. reflexivity.
Defined.

Lemma reads_rewind_the_stream_witness :
  readSectionByName "maps" (stream_of elf_good) = readSectionByName "maps" good_s2 /\
  readSectionUint "size_of_bpf_map_def" 32 (stream_of elf_good) =
    readSectionUint "size_of_bpf_map_def" 32 good_s2.
Proof.
  destruct (reads_rewind_the_stream sample_sort sample_hdr (stream_of elf_good) good_s2)
    as (Hname & Huint & _); try (vm_compute; reflexivity).
  split; [apply Hname|apply Huint].
Defined.
(** ** Code sections and their relocation *)

Lemma has_char_replace_char (s : string) : has_char "/" (replace_char "/" "_" s) = false.
Proof.
  unfold replace_char. induction s as [|a s IH]; [reflexivity|].
  cbn [list_ascii_of_string map string_of_list_ascii has_char]. rewrite IH.
  destruct (Ascii.eqb a "/") eqn:Ha; [reflexivity|]. rewrite Ha. reflexivity.
Qed.

(** Loop invariants that also speak of the state the body runs in. *)
Lemma for_each_invariant_st {T R St X : Type} (body : X -> St -> M T (step R St))
    (I : St -> T -> Prop) (Q : R -> T -> Prop) :
  (forall x st s r s', I st s -> body x st s = Val (r, s') ->
     match r with
     | Continue st' => I st' s'
     | Break st' => I st' s'
     | Return r => Q r s'
     end) ->
  forall xs st s r s',
    I st s -> for_each xs body st s = Val (r, s') ->
    match r with
    | inr st' => I st' s'
    | inl r => Q r s'
    end.
Proof.
  intros Hbody xs. induction xs as [|x xs IH]; intros st s r s' HI Hrun.
  - cbn in Hrun. injection Hrun as <- <-. exact HI.
  - cbn [for_each] in Hrun. unfold bind in Hrun.
    destruct (body x st s) as [[[r0|st0|st0] s0]| |] eqn:Hb; try discriminate;
      pose proof (Hbody _ _ _ _ _ HI Hb) as Hstep; cbn in Hstep.
    + cbn in Hrun. injection Hrun as <- <-. exact Hstep.
    + cbn in Hrun. injection Hrun as <- <-. exact Hstep.
    + exact (IH _ _ _ _ Hstep Hrun).
Qed.

Lemma for_range_invariant_st {T R St : Type} (body : Z -> St -> M T (step R St))
    (I : St -> T -> Prop) (Q : R -> T -> Prop) :
  (forall i st s r s', 0 <= i -> I st s -> body i st s = Val (r, s') ->
     match r with
     | Continue st' => I st' s'
     | Break st' => I st' s'
     | Return r => Q r s'
     end) ->
  forall n i st s r s',
    0 <= i -> I st s -> for_range n i body st s = Val (r, s') ->
    match r with
    | inr st' => I st' s'
    | inl r => Q r s'
    end.
Proof.
  intros Hbody n. induction n as [|n IH]; intros i st s r s' Hi HI Hrun.
  - cbn in Hrun. injection Hrun as <- <-. exact HI.
  - cbn [for_range] in Hrun. unfold bind in Hrun.
    destruct (body i st s) as [[[r0|st0|st0] s0]| |] eqn:Hb; try discriminate;
      pose proof (Hbody _ _ _ _ _ Hi HI Hb) as Hstep; cbn in Hstep.
    + cbn in Hrun. injection Hrun as <- <-. exact Hstep.
    + cbn in Hrun. injection Hrun as <- <-. exact Hstep.
    + apply (IH (i + 1) st0 s0); [lia|exact Hstep|exact Hrun].
Qed.

(** A reader leaves the file as it is, and the stream good when it
    returns 0. *)
Lemma reader_outcome_kept (s s' : ifstream) (ret : Z) :
  reader_outcome s ret s' -> s_file s' = s_file s /\ (ret = 0 -> s_fail s' = false).
Proof.
  intros Hout. split; [apply Hout|]. exact (reader_outcome_good _ _ _ Hout).
Qed.

Lemma getSymName_kept (off : Z) (s s' : ifstream) (ret : Z) (name : string) :
  getSymName off s = Val ((ret, name), s') ->
  s_file s' = s_file s /\ (ret <> 0 \/ s_fail s' = false).
Proof.
  unfold getSymName, bind, Ret.
  destruct (readSectionHeaderStrtab s) as [[[ret0 strtab] s0]| |] eqn:Hstr; try discriminate.
  destruct (readSectionHeaderStrtab_outcome _ _ _ _ Hstr) as [Hout _].
  destruct (reader_outcome_kept _ _ _ Hout) as [Hfile Hgood].
  destruct (Z.eqb_spec ret0 0) as [->|Hne]; cbn [negb].
  2: { intros H. injection H as <- _ <-. auto. }
  destruct (_ <=? off); [intros H; injection H as <- _ <-; split; [exact Hfile|left; lia]|].
  destruct (cstr_at strtab off); [|discriminate].
  intros H. injection H as <- _ <-. auto.
Qed.

Lemma getSymName_rewinds (off : Z) (s1 s2 : ifstream) :
  s_fail s1 = false -> s_fail s2 = false -> s_file s1 = s_file s2 ->
  getSymName off s1 = getSymName off s2.
Proof.
  intros H1 H2 Hfile. unfold getSymName, readSectionHeaderStrtab, bind.
  rewrite (readElfHeader_rewinds s1 s2 H1 H2 Hfile). reflexivity.
Qed.

Lemma readSectionByIdx_rewinds (id : Z) (s1 s2 : ifstream) :
  s_fail s1 = false -> s_fail s2 = false -> s_file s1 = s_file s2 ->
  readSectionByIdx id s1 = readSectionByIdx id s2.
Proof.
  intros H1 H2 Hfile. unfold readSectionByIdx, readSectionHeadersAll, bind.
  rewrite (readElfHeader_rewinds s1 s2 H1 H2 Hfile). reflexivity.
Qed.

Section CodeSections.

Variable std_sort : (Elf64_Sym -> Elf64_Sym -> bool) -> list Elf64_Sym -> list Elf64_Sym.
Variable hdr : Headers.

Lemma getSectionSymNames_kept (name : string) (ty : option Z) (s s' : ifstream) (ret : Z)
    (names : list string) :
  getSectionSymNames std_sort name ty s = Val ((ret, names), s') ->
  s_file s' = s_file s /\ (ret <> 0 \/ s_fail s' = false).
Proof.
  unfold getSectionSymNames, bind, Ret.
  destruct (readSymTab std_sort true s) as [[[ret0 symtab] s0]| |] eqn:Hsym; try discriminate.
  assert (Hk0 : s_file s0 = s_file s /\ (ret0 = 0 -> s_fail s0 = false)).
  { revert Hsym. unfold readSymTab, bind, Ret.
    destruct (readSectionByType SHT_SYMTAB s) as [[[ret00 data] s00]| |] eqn:Hty;
      try discriminate.
    pose proof (reader_outcome_kept _ _ _ (readSectionByType_outcome _ _ _ _ _ Hty)) as Hk.
    destruct (Z.eqb_spec ret00 0) as [->|Hne]; cbn [negb].
    2: { intros H. injection H as <- _ <-. exact Hk. }
    destruct (_ <? 0); [discriminate|].
    intros H. injection H as <- _ <-. exact Hk. }
  destruct Hk0 as [Hfile0 Hgood0].
  destruct (Z.eqb_spec ret0 0) as [->|Hne]; cbn [negb].
  2: { intros H. injection H as <- _ <-. auto. }
  destruct (readSectionHeadersAll s0) as [[[ret1 shTable] s1]| |] eqn:Hsh; try discriminate.
  destruct (readSectionHeadersAll_outcome _ _ _ _ Hsh) as [Hout1 _].
  destruct (reader_outcome_kept _ _ _ Hout1) as [Hfile1 Hgood1].
  destruct (Z.eqb_spec ret1 0) as [->|Hne]; cbn [negb].
  2: { intros H. injection H as <- _ <-. split; [congruence|auto]. }
  destruct (getSectionSymNames_find name shTable s1) as [[r2 s2]| |] eqn:Hfind;
    try discriminate.
  unfold getSectionSymNames_find in Hfind.
  apply (for_each_invariant_st _
           (fun _ e => s_file e = s_file s /\ s_fail e = false)
           (fun r e => s_file e = s_file s /\ r <> 0)) in Hfind.
  3: { split; [congruence|auto]. }
  2: { intros [i sh] st e r e' [Hfe Hge] Hb. unfold bind, Ret in Hb.
       destruct (getSymName (cast_int (sh_name sh)) e) as [[[ret3 nm] e1]| |] eqn:Hnm;
         try discriminate.
       destruct (getSymName_kept _ _ _ _ _ Hnm) as [Hf3 Hg3].
       destruct (Z.eqb_spec ret3 0) as [->|Hne]; cbn [negb] in Hb.
       2: { injection Hb as <- <-. split; [congruence|exact Hne]. }
       destruct Hg3 as [Hg3|Hg3]; [contradiction|].
       destruct (String.eqb nm name); injection Hb as <- <-; split; congruence. }
  destruct r2 as [ret2|idx].
  { intros H. injection H as <- _ <-. destruct Hfind as [Hf2 Hne2]. auto. }
  destruct Hfind as [Hf2 Hg2].
  destruct (idx =? -1); [intros H; injection H as <- _ <-; split; [exact Hf2|left; lia]|].
  destruct (getSectionSymNames_collect idx ty symtab s2) as [[r3 s3]| |] eqn:Hcollect;
    try discriminate.
  unfold getSectionSymNames_collect in Hcollect.
  apply (for_each_invariant_st _
           (fun _ e => s_file e = s_file s /\ s_fail e = false)
           (fun r e => s_file e = s_file s /\ fst r <> 0)) in Hcollect.
  3: { split; assumption. }
  2: { intros sym st e r e' [Hfe Hge] Hb. unfold bind, Ret in Hb.
       destruct (match ty with
                 | Some t => negb (ELF_ST_TYPE (st_info sym) =? t)
                 | None => false
                 end);
         [injection Hb as <- <-; split; assumption|].
       destruct (st_shndx sym =? idx); [|injection Hb as <- <-; split; assumption].
       destruct (getSymName (cast_int (st_name sym)) e) as [[[ret4 nm] e1]| |] eqn:Hnm;
         try discriminate.
       destruct (getSymName_kept _ _ _ _ _ Hnm) as [Hf4 Hg4].
       destruct (Z.eqb_spec ret4 0) as [->|Hne]; cbn [negb] in Hb.
       2: { injection Hb as <- <-. split; [congruence|exact Hne]. }
       destruct Hg4 as [Hg4|Hg4]; [contradiction|].
       injection Hb as <- <-. split; congruence. }
  destruct r3 as [[ret3 nms]|nms]; intros H; injection H as <- _ <-.
  - destruct Hcollect as [Hf3 Hne3]. auto.
  - destruct Hcollect as [Hf3 Hg3]. auto.
Qed.

Lemma readProgDefs_kept (sz : Z) (s s' : ifstream) (ret : Z) (pd : list (list byte)) :
  readProgDefs hdr sz s = Val ((ret, pd), s') ->
  s_file s' = s_file s /\ (ret = 0 -> s_fail s' = false).
Proof.
  unfold readProgDefs, bind, Ret.
  destruct (readSectionByName "progs" s) as [[[ret0 data] s0]| |] eqn:Hread; try discriminate.
  pose proof (reader_outcome_kept _ _ _ (readSectionByName_reader_outcome _ _ _ _ _ Hread))
    as Hk.
  destruct (Z.eqb_spec ret0 0) as [->|Hne]; cbn [negb].
  2: { intros H. injection H as <- _ <-. exact Hk. }
  destruct (sz =? 0); [discriminate|].
  destruct (negb (_ =? 0)).
  { intros H. injection H as <- _ <-. split; [apply Hk|]. intros Hc. discriminate Hc. }
  destruct (_ <? 0); [discriminate|].
  destruct (readProgDefs_loop _ _ _ _ _); [|discriminate].
  intros H. injection H as <- _ <-. exact Hk.
Qed.

Lemma readCodeSections_body_ok (s0 : ifstream) (shTable : list Elf64_Shdr) (s00 : ifstream)
    (entries : Z) (pd : list (list byte)) (progDefNames : list string) (i : Z)
    (cs : list codeSection) (s s' : ifstream)
    (r : step (Z * list codeSection) (list codeSection)) :
  readSectionHeadersAll s0 = Val ((0, shTable), s00) ->
  s_fail s0 = false ->
  0 <= i ->
  s_file s = s_file s0 /\ Forall (code_section_ok s0) cs ->
  readCodeSections_body std_sort shTable entries pd progDefNames i cs s = Val (r, s') ->
  match r with
  | Continue cs' => s_file s' = s_file s0 /\ Forall (code_section_ok s0) cs'
  | Return (_, cs') => Forall (code_section_ok s0) cs'
  | Break _ => False
  end.
Proof.
  intros Htable Hgood0 Hi [Hfile Hcs]. unfold readCodeSections_body, bind, Ret.
  destruct (nth_error shTable (Z.to_nat i)) as [sh|] eqn:Hsh; [|discriminate].
  destruct (s_fail s) eqn:Hgood.
  { rewrite (getSymName_failed _ s Hgood). cbn [Z.eqb negb].
    intros H. injection H as <- <-. exact Hcs. }
  destruct (getSymName _ s) as [[[ret name] s1]| |] eqn:Hname; try discriminate.
  destruct (getSymName_kept _ _ _ _ _ Hname) as [Hfile1 Hgood1].
  destruct (Z.eqb_spec ret 0) as [->|Hne]; cbn [negb];
    [|intros H; injection H as <- <-; exact Hcs].
  destruct Hgood1 as [Hgood1|Hgood1]; [contradiction|].
  destruct (prog_type_is_unspec (getSectionType name)) eqn:Hty.
  { intros H. injection H as <- <-. split; [congruence|exact Hcs]. }
  destruct (readSectionByIdx i s1) as [[[ret1 data] s2]| |] eqn:Hdata; try discriminate.
  destruct (readSectionByIdx_outcome _ _ _ _ _ Hdata) as [Hout2 _].
  destruct (reader_outcome_kept _ _ _ Hout2) as [Hfile2 Hgood2].
  destruct (Z.eqb_spec ret1 0) as [->|Hne]; cbn [negb];
    [|intros H; injection H as <- <-; exact Hcs].
  specialize (Hgood2 eq_refl).
  destruct (getSectionSymNames std_sort name (Some STT_FUNC) s2)
    as [[[ret2 csSymNames] s3]| |] eqn:Hsyms; try discriminate.
  destruct (getSectionSymNames_kept _ _ _ _ _ _ Hsyms) as [Hfile3 Hgood3].
  destruct csSymNames as [|sym0 rest]; [intros H; injection H as <- <-; exact Hcs|].
  destruct (Z.eqb_spec ret2 0) as [->|Hne]; cbn [negb];
    [|intros H; injection H as <- <-; exact Hcs].
  destruct Hgood3 as [Hgood3|Hgood3]; [contradiction|].
  match goal with
  | |- context [match ?x with Some prog_def => _ | None => undefined end] =>
      destruct x as [prog_def|]; [|discriminate]
  end.
  match goal with
  | |- match ?c s3 with _ => _ end = _ -> _ =>
      destruct (c s3) as [[[ret3 rel_data] s4]| |] eqn:Hrel; try discriminate
  end.
  assert (Hk4 : s_file s4 = s_file s3 /\ (ret3 <> 0 \/ s_fail s4 = false)).
  { revert Hrel. destruct (_ && _)%bool.
    2: { unfold Ret. intros H. injection H as <- _ <-. auto. }
    destruct (nth_error shTable (Z.to_nat (i + 1))) as [sh1|]; [|discriminate].
    unfold bind, Ret.
    destruct (getSymName _ s3) as [[[ret4 name1] s5]| |] eqn:Hname1; try discriminate.
    destruct (getSymName_kept _ _ _ _ _ Hname1) as [Hfile5 Hgood5].
    destruct (Z.eqb_spec ret4 0) as [->|Hne]; cbn [negb];
      [|intros H; injection H as <- _ <-; auto].
    destruct Hgood5 as [Hgood5|Hgood5]; [contradiction|].
    destruct (String.eqb name1 _).
    - intros Hread. destruct (readSectionByIdx_outcome _ _ _ _ _ Hread) as [Hout6 _].
      destruct (reader_outcome_kept _ _ _ Hout6) as [Hfile6 Hgood6].
      split; [congruence|].
      destruct (Z.eq_dec ret3 0) as [->|Hne]; [right; auto|left; exact Hne].
    - intros H. injection H as <- _ <-. auto. }
  destruct Hk4 as [Hfile4 Hgood4].
  destruct (Z.eqb_spec ret3 0) as [->|Hne]; cbn [negb];
    [|intros H; injection H as <- <-; exact Hcs].
  destruct Hgood4 as [Hgood4|Hgood4]; [contradiction|].
  assert (Hstream : s_file s4 = s_file s0) by congruence.
  destruct (0 <? Z.of_nat (List.length data)) eqn:Hlen;
    intros H; injection H as <- <-; (split; [exact Hstream|]); [|exact Hcs].
  apply Forall_app. split; [exact Hcs|]. constructor; [|constructor].
  assert (Hname0 : getSymName (cast_int (sh_name sh)) s0 = Val ((0, name), s1)).
  { rewrite <- Hname. apply getSymName_rewinds; congruence. }
  assert (Hdata0 : readSectionByIdx i s0 = Val ((0, data), s2)).
  { rewrite <- Hdata. apply readSectionByIdx_rewinds; congruence. }
  exists shTable, s00, i, sh, name, s1, s2.
  cbn [cs_data cs_type cs_prog_fd cs_name cs_expected_attach_type].
  split; [exact Htable|]. split; [exact Hi|]. split; [exact Hsh|].
  split; [exact Hname0|]. split; [exact Hdata0|].
  split; [intros ->; discriminate|].
  split; [reflexivity|].
  split; [apply has_char_replace_char|].
  split; [reflexivity|].
  split; [intros Hu; rewrite Hu in Hty; discriminate|].
  split; reflexivity.
Qed.

(** X8. Whatever [readCodeSections] returns, every code section that it
    has collected holds the bytes of a section of the object that has
    code, has the program type, other than UNSPEC, that the table of
    section names gives to the name of that section in the object, with
    the attach type of the same entry, bears that name with every slash
    replaced by an underscore, and has no descriptor yet. *)
Theorem readCodeSections_sections_ok (sizeOfBpfProgDef : Z) (s s' : ifstream) (ret : Z)
    (cs : list codeSection) :
  readCodeSections std_sort hdr sizeOfBpfProgDef s = Val ((ret, cs), s') ->
  Forall (code_section_ok s) cs.
Proof.
  unfold readCodeSections, bind, Ret.
  destruct (readSectionHeadersAll s) as [[[ret0 shTable] s0]| |] eqn:Htable;
    try discriminate.
  destruct (Z.eqb_spec ret0 0) as [->|Hne]; cbn [negb];
    [|intros H; injection H as <- <- <-; constructor].
  assert (Hgood : s_fail s = false).
  { destruct (s_fail s) eqn:Hf; [|reflexivity].
    rewrite (readSectionHeadersAll_failed s Hf) in Htable. discriminate Htable. }
  destruct (readSectionHeadersAll_outcome _ _ _ _ Htable) as [Hout0 _].
  destruct (reader_outcome_kept _ _ _ Hout0) as [Hfile0 Hgood0].
  specialize (Hgood0 eq_refl).
  destruct (readProgDefs hdr sizeOfBpfProgDef s0) as [[[ret1 pd] s1]| |] eqn:Hpd;
    try discriminate.
  destruct (readProgDefs_kept _ _ _ _ _ Hpd) as [Hfile1 Hgood1].
  destruct (Z.eqb_spec ret1 0) as [->|Hne]; cbn [negb];
    [|intros H; injection H as <- <- <-; constructor].
  specialize (Hgood1 eq_refl).
  destruct (getSectionSymNames std_sort "progs" None s1) as [[[ret2 names] s2]| |] eqn:Hnames;
    try discriminate.
  destruct (getSectionSymNames_kept _ _ _ _ _ _ Hnames) as [Hfile2 _].
  destruct (_ && _)%bool; [intros H; injection H as <- <- <-; constructor|].
  destruct (for_range _ 0 _ [] s2) as [[r s3]| |] eqn:Hloop; try discriminate.
  apply (for_range_invariant_st _
           (fun cs e => s_file e = s_file s /\ Forall (code_section_ok s) cs)
           (fun r _ => Forall (code_section_ok s) (snd r))) in Hloop.
  - destruct r as [[ret3 cs3]|cs3]; intros H; injection H as <- <- <-.
    + exact Hloop.
    + apply Hloop.
  - intros i st e r0 e' Hi HI Hrun.
    pose proof (readCodeSections_body_ok _ _ _ _ _ _ _ _ _ _ _ Htable Hgood Hi HI Hrun) as H.
    destruct r0 as [[? ?]| |]; [exact H|contradiction|exact H].
  - lia.
  - split; [congruence|constructor].
Qed.

End CodeSections.

Lemma readCodeSections_sections_ok_witness :
  Forall (code_section_ok (stream_of elf_good)) (code_sections elf_good 92).
Proof.
  apply (readCodeSections_sections_ok sample_sort sample_hdr 92 (stream_of elf_good)
           (state_after (readCodeSections sample_sort sample_hdr 92 (stream_of elf_good))
              (stream_of elf_good))
           0 (code_sections elf_good 92)).
  vm_compute. reflexivity.
Defined.

Lemma relocated_from_refl (data : list byte) : relocated_from data data.
Proof. split; [reflexivity|]. intros idx. repeat split. Qed.

Lemma relocated_from_trans (a b c : list byte) :
  relocated_from a b -> relocated_from b c -> relocated_from a c.
Proof.
  intros [Hl1 H1] [Hl2 H2]. split; [congruence|].
  intros idx. destruct (H1 idx) as (Hc1 & Hd1 & Ho1 & Hp1 & Hk1).
  destruct (H2 idx) as (Hc2 & Hd2 & Ho2 & Hp2 & Hk2).
  repeat split; try congruence.
  intros Hne k Hk. rewrite Hk2 by (try congruence; exact Hk). apply Hk1; assumption.
Qed.

(** The two stores of [applyRelo] on an instruction of the section. *)
Lemma relocated_from_stores (insns : list byte) (idx : nat) (fd : Z) :
  (8 * idx + 8 <= List.length insns)%nat ->
  insn_code insns idx = BPF_LD_IMM_DW ->
  relocated_from insns
    (set_insn_src_reg (set_insn_imm insns idx fd) idx BPF_PSEUDO_MAP_FD).
Proof.
  intros Hlen Hcode. unfold set_insn_src_reg, set_insn_imm.
  assert (Hlen1 : List.length (store_u32 (8 * idx + 4) fd insns) = List.length insns)
    by (apply length_store_u32; lia).
  set (v := Z.lor _ _).
  assert (Hnth : forall p,
            nth p (store_u8 (8 * idx + 1) v (store_u32 (8 * idx + 4) fd insns)) NUL =
            if (p =? 8 * idx + 1)%nat then byte.of_Z v
            else if ((8 * idx + 4 <=? p) && (p <? 8 * idx + 4 + 4))%nat
                 then nth (p - (8 * idx + 4)) (le_split 4 fd) NUL
                 else nth p insns NUL).
  { intros p. rewrite nth_store_u8 by lia.
    destruct (p =? 8 * idx + 1)%nat; [reflexivity|].
    apply nth_store_u32. lia. }
  assert (Hother : forall j k, j <> idx -> (k < 8)%nat ->
            nth (8 * j + k) (store_u8 (8 * idx + 1) v (store_u32 (8 * idx + 4) fd insns)) NUL =
            nth (8 * j + k) insns NUL).
  { intros j k Hj Hk. rewrite Hnth.
    destruct (Nat.eqb_spec (8 * j + k) (8 * idx + 1)) as [Heq|_]; [lia|].
    destruct (Nat.leb_spec (8 * idx + 4) (8 * j + k)); cbn [andb]; [|reflexivity].
    destruct (Nat.ltb_spec (8 * j + k) (8 * idx + 4 + 4)); [lia|reflexivity]. }
  split; [rewrite length_store_u8; lia|].
  intros j. destruct (Nat.eq_dec j idx) as [->|Hj].
  - repeat split.
    + unfold insn_code. rewrite Hnth.
      destruct (Nat.eqb_spec (8 * idx) (8 * idx + 1)); [lia|].
      destruct (Nat.leb_spec (8 * idx + 4) (8 * idx)); [lia|reflexivity].
    + unfold insn_dst_reg, insn_regs at 1. rewrite Hnth, Nat.eqb_refl. subst v.
      unfold insn_regs at 1. rewrite nth_store_u32 by lia.
      destruct (Nat.leb_spec (8 * idx + 4) (8 * idx + 1)); [lia|]. cbn [andb].
      unfold insn_regs.
      apply (regs_after_src_reg (nth (8 * idx + 1) insns NUL)).
    + rewrite Hnth.
      destruct (Nat.eqb_spec (8 * idx + 2) (8 * idx + 1)); [lia|].
      destruct (Nat.leb_spec (8 * idx + 4) (8 * idx + 2)); [lia|reflexivity].
    + rewrite Hnth.
      destruct (Nat.eqb_spec (8 * idx + 3) (8 * idx + 1)); [lia|].
      destruct (Nat.leb_spec (8 * idx + 4) (8 * idx + 3)); [lia|reflexivity].
    + intros Hne. contradiction.
  - repeat split.
    + unfold insn_code. rewrite <- (Nat.add_0_r (8 * j)). rewrite Hother; [reflexivity|exact Hj|lia].
    + unfold insn_dst_reg, insn_regs. rewrite Hother; [reflexivity|exact Hj|lia].
    + apply Hother; [exact Hj|lia].
    + apply Hother; [exact Hj|lia].
    + intros _ k Hk. apply Hother; assumption.
Qed.

Lemma applyRelo_relocated (insns insns' : list byte) (offset fd : Z) :
  applyRelo insns offset fd = Val insns' -> relocated_from insns insns'.
Proof.
  unfold applyRelo.
  destruct (Z.ltb_spec (cast_int (offset / sizeof_bpf_insn)) 0) as [|Hpos];
    cbn [orb]; [discriminate|].
  destruct (Z.ltb_spec (Z.of_nat (List.length insns))
              (8 * cast_int (offset / sizeof_bpf_insn) + 8)) as [|Hlen]; [discriminate|].
  destruct (Z.eqb_spec (insn_code insns (Z.to_nat (cast_int (offset / sizeof_bpf_insn))))
              BPF_LD_IMM_DW) as [Hcode|Hcode]; cbn [negb]; intros H; injection H as <-.
  - apply relocated_from_stores; [lia|exact Hcode].
  - apply relocated_from_refl.
Qed.

Section RelocationInvariant.

Variable std_sort : (Elf64_Sym -> Elf64_Sym -> bool) -> list Elf64_Sym -> list Elf64_Sym.

Lemma applyMapRelo_record_relocated (mapNames : list string) (mapFds : list Z)
    (rel data : list byte) (s s' : ifstream) (r : step (list byte) (list byte)) :
  applyMapRelo_record std_sort mapNames mapFds rel data s = Val (r, s') ->
  match r with
  | Return d | Continue d => relocated_from data d
  | Break _ => False
  end.
Proof.
  unfold applyMapRelo_record, bind.
  destruct (getSymNameByIdx std_sort _ s) as [[[ret symName] s1]| |]; try discriminate.
  destruct (negb (ret =? 0)).
  { intros H. injection H as <- <-. apply relocated_from_refl. }
  destruct (find_index (String.eqb symName) mapNames 0) as [j|].
  2: { intros H. injection H as <- <-. apply relocated_from_refl. }
  destruct (nth_error mapFds j) as [fd|]; [|discriminate].
  unfold lift_outcome.
  destruct (applyRelo data (r_offset rel) fd) as [data'| |] eqn:Hrelo; try discriminate.
  intros H. injection H as <- <-. exact (applyRelo_relocated _ _ _ _ Hrelo).
Qed.

Lemma applyMapRelo_records_relocated (mapNames : list string) (mapFds : list Z)
    (recs : list (list byte)) :
  forall (data : list byte) (s s' : ifstream) (r : list byte + list byte),
    for_each recs (applyMapRelo_record std_sort mapNames mapFds) data s = Val (r, s') ->
    relocated_from data (match r with inl d => d | inr d => d end).
Proof.
  induction recs as [|rel recs IH]; intros data s s' r Hrun.
  - cbn in Hrun. injection Hrun as <- <-. apply relocated_from_refl.
  - cbn [for_each] in Hrun. unfold bind in Hrun.
    destruct (applyMapRelo_record std_sort mapNames mapFds rel data s)
      as [[[d|d|d] s1]| |] eqn:Hrec; try discriminate;
      pose proof (applyMapRelo_record_relocated _ _ _ _ _ _ _ Hrec) as Hstep;
      cbn in Hstep.
    + cbn in Hrun. injection Hrun as <- <-. exact Hstep.
    + contradiction.
    + apply (relocated_from_trans _ d); [exact Hstep|]. exact (IH _ _ _ _ Hrun).
Qed.

Lemma set_cs_data_relocated (c : codeSection) (data : list byte) :
  relocated_from (cs_data c) data ->
  cs_type (set_cs_data c data) = cs_type c /\
  cs_expected_attach_type (set_cs_data c data) = cs_expected_attach_type c /\
  cs_name (set_cs_data c data) = cs_name c /\
  cs_rel_data (set_cs_data c data) = cs_rel_data c /\
  cs_prog_def (set_cs_data c data) = cs_prog_def c /\
  cs_prog_fd (set_cs_data c data) = cs_prog_fd c /\
  relocated_from (cs_data c) (cs_data (set_cs_data c data)).
Proof. intros H. do 6 (split; [reflexivity|]). exact H. Qed.

Lemma sections_relocated_refl (cs : list codeSection) : sections_relocated cs cs.
Proof.
  induction cs as [|c cs IH]; constructor; [|exact IH].
  do 6 (split; [reflexivity|]). apply relocated_from_refl.
Qed.

Lemma applyMapRelo_sections_relocated (mapNames : list string) (mapFds : list Z)
    (cs : list codeSection) :
  forall (s s' : ifstream) (cs' : list codeSection),
    applyMapRelo_sections std_sort mapNames mapFds cs s = Val (cs', s') ->
    sections_relocated cs cs'.
Proof.
  induction cs as [|c cs IH]; intros s s' cs' Hrun.
  - cbn in Hrun. injection Hrun as <- <-. constructor.
  - cbn [applyMapRelo_sections] in Hrun. unfold bind in Hrun.
    destruct (for_each _ (applyMapRelo_record std_sort mapNames mapFds) (cs_data c) s)
      as [[[d|d] s1]| |] eqn:Hrecs; try discriminate;
      pose proof (applyMapRelo_records_relocated _ _ _ _ _ _ _ Hrecs) as Hdata;
      cbn in Hdata.
    + cbn in Hrun. injection Hrun as <- <-. constructor.
      * apply set_cs_data_relocated. exact Hdata.
      * apply sections_relocated_refl.
    + destruct (applyMapRelo_sections std_sort mapNames mapFds cs s1)
        as [[rest' s2]| |] eqn:Hrest; try discriminate.
      cbn in Hrun. injection Hrun as <- <-. constructor.
      * apply set_cs_data_relocated. exact Hdata.
      * exact (IH _ _ _ Hrest).
Qed.

(** X9. Relocation changes nothing of the code sections but immediates and
    source registers of 64-bit immediate loads: [applyMapRelo] returns as
    many sections, each with its type, attach type, name, relocation
    records, definition and descriptor, and with code of the same length
    in which every opcode, destination register and offset is as before
    and every instruction that is not a 64-bit immediate load is
    unchanged. *)
Theorem applyMapRelo_preserves (mapFds : list Z) (cs cs' : list codeSection)
    (s s' : ifstream) :
  applyMapRelo std_sort mapFds cs s = Val (cs', s') ->
  sections_relocated cs cs'.
Proof.
  unfold applyMapRelo, bind.
  destruct (getSectionSymNames std_sort "maps" None s) as [[[ret mapNames] s1]| |];
    try discriminate.
  destruct (negb (ret =? 0)).
  - intros H. injection H as <- <-. apply sections_relocated_refl.
  - apply applyMapRelo_sections_relocated.
Qed.

End RelocationInvariant.

Lemma applyMapRelo_preserves_witness :
  sections_relocated (code_sections elf_good 92)
    (result_of (applyMapRelo sample_sort [null_fd; 3] (code_sections elf_good 92)
                  (stream_of elf_good)) []).
Proof.
  apply (applyMapRelo_preserves sample_sort [null_fd; 3] (code_sections elf_good 92)
           (result_of (applyMapRelo sample_sort [null_fd; 3] (code_sections elf_good 92)
                         (stream_of elf_good)) [])
           (stream_of elf_good)
           (state_after (applyMapRelo sample_sort [null_fd; 3] (code_sections elf_good 92)
                           (stream_of elf_good)) (stream_of elf_good))).
  vm_compute. reflexivity.
Defined.
(** ** Maps and programs that are skipped, and malformed maps *)

Section Skipping.

Variable std_sort : (Elf64_Sym -> Elf64_Sym -> bool) -> list Elf64_Sym -> list Elf64_Sym.
Variable hdr : Headers.
Variable W : Type.
Variable sys : Sys W.

Lemma loadCodeSections_body_gated (elfPath objName license prefix : string)
    (ver : Z) (c : codeSection) (raw : list byte) (w : W) :
  cs_prog_def c = Some raw ->
  prog_gated_out sys ver (view_prog_def hdr raw) = true ->
  loadCodeSections_body hdr sys elfPath objName license prefix ver (kernelVersion sys) c tt w =
  Val (Continue tt, w).
Proof.
  intros Hdef Hgated. unfold loadCodeSections_body. rewrite Hdef.
  unfold prog_gated_out in Hgated.
  destruct (kernelVersion sys <? pd_min_kver (view_prog_def hdr raw)); [reflexivity|].
  destruct (pd_max_kver (view_prog_def hdr raw) <=? kernelVersion sys); [reflexivity|].
  unfold bind, lift_outcome.
  destruct (getDomainFromSelinuxContext_recognized
              (pd_selinux_context (view_prog_def hdr raw))) as [sel [-> _]].
  destruct (getDomainFromPinSubdir_total (pd_pin_subdir (view_prog_def hdr raw)))
    as [pin ->].
  destruct (ver <? pd_bpfloader_min_ver (view_prog_def hdr raw)); [reflexivity|].
  destruct (pd_bpfloader_max_ver (view_prog_def hdr raw) <=? ver); [reflexivity|].
  cbn [orb] in Hgated.
  match type of Hgated with (?a || ?b)%bool = true =>
    destruct a; [reflexivity|]; cbn [orb] in Hgated; rewrite Hgated; reflexivity
  end.
Qed.

(** X10. Code sections that are gated out leave no trace: with such
    sections in front, [loadCodeSections] returns what it returns without
    them, in the same world (no program is retrieved, loaded or pinned for
    them, and their pin subdirectory is not even looked at). *)
Theorem loadCodeSections_skips (elfPath license prefix : string) (ver : Z)
    (skipped rest : list codeSection) (w : W) :
  Forall (fun c => exists raw,
            cs_prog_def c = Some raw /\
            prog_gated_out sys ver (view_prog_def hdr raw) = true) skipped ->
  loadCodeSections hdr sys elfPath (skipped ++ rest) license prefix ver w =
  loadCodeSections hdr sys elfPath rest license prefix ver w.
Proof.
  intros Hskipped. unfold loadCodeSections.
  destruct (kernelVersion sys =? 0); [reflexivity|]. unfold bind.
  replace (for_each (skipped ++ rest)
             (loadCodeSections_body hdr sys elfPath (pathToObjName elfPath) license prefix ver
                (kernelVersion sys)) tt w)
    with (for_each rest
            (loadCodeSections_body hdr sys elfPath (pathToObjName elfPath) license prefix ver
               (kernelVersion sys)) tt w); [reflexivity|].
  induction Hskipped as [|c skipped [raw [Hdef Hgated]] _ IH]; [reflexivity|].
  cbn [app for_each]. unfold bind.
  rewrite (loadCodeSections_body_gated _ _ _ _ _ _ _ _ Hdef Hgated). exact IH.
Qed.

(** The loop of [createMaps] over definitions that are all skipped. *)
Lemma createMaps_loop_gated (objName prefix : string) (ver : Z)
    (md : list (list byte)) (mapNames : list string) (w : W) :
  (forall i mapName, nth_error mapNames i = Some mapName ->
     exists raw, nth_error md i = Some raw /\
                 md_zero (view_map_def hdr raw) = 0 /\
                 map_gated_out sys ver (view_map_def hdr raw) = true) ->
  forall (n k : nat) (ret : Z) (fds : list Z),
    (k + n <= List.length mapNames)%nat ->
    for_range n (Z.of_nat k)
      (createMaps_body hdr sys objName prefix ver (kernelVersion sys) md mapNames)
      (ret, fds) w = Val (inr (ret, fds ++ repeat null_fd n), w).
Proof.
  intros Hall n. induction n as [|n IH]; intros k ret fds Hk.
  - cbn. rewrite app_nil_r. reflexivity.
  - cbn [for_range]. unfold bind.
    destruct (nth_error mapNames k) as [mapName|] eqn:Hname.
    2: { apply nth_error_None in Hname. lia. }
    destruct (Hall k mapName Hname) as [raw [Hraw [Hzero Hgated]]].
    rewrite (createMaps_body_gated hdr W sys objName prefix ver md mapNames (Z.of_nat k)
               ret fds raw mapName w); rewrite ?Nat2Z.id; try assumption.
    replace (Z.of_nat k + 1) with (Z.of_nat (S k)) by lia.
    rewrite IH by lia. cbn [repeat]. rewrite <- app_assoc. reflexivity.
Qed.

(** X11. When every map definition of the object has 0 in its [zero] field
    and is gated out, [createMaps] returns 0 with one null descriptor per
    map, and the world is untouched: no map is retrieved, created or
    pinned.  The [zero] field is tested before the gating: the first
    definition with another value there that the loop reaches makes the
    loader abort, gated out or not. *)
Theorem createMaps_all_skipped (elfPath prefix : string) (sz ver : Z)
    (s s2 : ifstream) (w : W) (md : list (list byte)) (mapNames : list string) :
  maps_read std_sort hdr sz s md mapNames s2 ->
  ((forall i mapName, nth_error mapNames i = Some mapName ->
      exists raw, nth_error md i = Some raw /\
                  md_zero (view_map_def hdr raw) = 0 /\
                  map_gated_out sys ver (view_map_def hdr raw) = true) ->
   createMaps std_sort hdr sys elfPath prefix sz ver (s, w) =
   Val ((0, repeat null_fd (List.length mapNames)), (s2, w))) /\
  (forall i raw mapName ret fds w',
     for_range i 0
       (createMaps_body hdr sys (pathToObjName elfPath) prefix ver (kernelVersion sys)
          md mapNames) (0, []) w = Val (inr (ret, fds), w') ->
     nth_error md i = Some raw ->
     nth_error mapNames i = Some mapName ->
     md_zero (view_map_def hdr raw) <> 0 ->
     createMaps std_sort hdr sys elfPath prefix sz ver (s, w) = Abort).
Proof.
  intros Hmaps. split.
  - intros Hall.
    rewrite (createMaps_run std_sort hdr W sys _ _ _ _ _ _ _ _ _ Hmaps).
    rewrite (createMaps_loop_gated _ _ _ _ _ w Hall (List.length mapNames) 0 0 []) by lia.
    reflexivity.
  - intros i raw mapName ret fds w' Hreach Hraw Hname Hzero.
    rewrite (createMaps_run std_sort hdr W sys _ _ _ _ _ _ _ _ _ Hmaps).
    assert (Hi : (i < List.length mapNames)%nat)
      by (apply nth_error_Some; rewrite Hname; discriminate).
    replace (List.length mapNames) with (i + S (List.length mapNames - i - 1))%nat by lia.
    rewrite for_range_split by (intros; apply createMaps_body_no_break).
    rewrite Hreach. cbn [for_range]. unfold bind. rewrite Z.add_0_l.
    unfold createMaps_body. rewrite Nat2Z.id, Hraw, Hname.
    apply Z.eqb_neq in Hzero. rewrite Hzero. reflexivity.
Qed.

End Skipping.

Lemma maps_read_nonzero :
  maps_read sample_sort sample_hdr 120 (stream_of elf_nonzero_map)
    (maps_defs elf_nonzero_map 120) (maps_names elf_nonzero_map)
    (maps_stream2 elf_nonzero_map).
Proof.
  exists (maps_data elf_nonzero_map), (maps_stream1 elf_nonzero_map).
  repeat split; vm_compute; reflexivity.
Defined.

Lemma createMaps_all_skipped_witness :
  createMaps sample_sort sample_hdr sys_5_10 "/apex/bpf/a.o" "tethering/" 120 70000
    (stream_of elf_good, world_of [] []) =
  Val ((0, repeat null_fd (List.length (maps_names elf_good))),
       (maps_stream2 elf_good, world_of [] [])) /\
  map_gated_out sys_5_10 46
    (view_map_def sample_hdr (nth 0 (maps_defs elf_nonzero_map 120) [])) = true /\
  createMaps sample_sort sample_hdr sys_5_10 "/apex/bpf/a.o" "tethering/" 120 46
    (stream_of elf_nonzero_map, world_of [] []) = Abort.
Proof.
  split; [|split].
  - apply (createMaps_all_skipped sample_sort sample_hdr world sys_5_10
             "/apex/bpf/a.o" "tethering/" 120 70000 (stream_of elf_good)
             (maps_stream2 elf_good) (world_of [] []) (maps_defs elf_good 120)
             (maps_names elf_good) maps_read_good).
    intros [|[|i]] mapName Hname.
    + exists (nth 0 (maps_defs elf_good 120) []).
      split; [vm_compute; reflexivity|]. split; vm_compute; reflexivity.
    + exists (nth 1 (maps_defs elf_good 120) []).
      split; [vm_compute; reflexivity|]. split; vm_compute; reflexivity.
    + replace (maps_names elf_good) with ["map_a"; "map_b"]%string in Hname
        by (vm_compute; reflexivity).
      destruct i; discriminate.
  - vm_compute. reflexivity.
  - apply (createMaps_all_skipped sample_sort sample_hdr world sys_5_10
             "/apex/bpf/a.o" "tethering/" 120 46 (stream_of elf_nonzero_map)
             (maps_stream2 elf_nonzero_map) (world_of [] []) (maps_defs elf_nonzero_map 120)
             (maps_names elf_nonzero_map) maps_read_nonzero)
      with (i := 0%nat) (raw := nth 0 (maps_defs elf_nonzero_map 120) [])
           (mapName := "map_z"%string) (ret := 0) (fds := @nil Z) (w' := world_of [] []).
    + reflexivity.
    + vm_compute. reflexivity.
    + vm_compute. reflexivity.
    + vm_compute. discriminate.
Defined.

Lemma loadCodeSections_skips_witness :
  loadCodeSections sample_hdr sys_5_10 "/apex/bpf/a.o"
    (code_sections elf_bogus_subdir 92 ++ []) "Apache 2.0" "tethering/" 46 (world_of [] []) =
  loadCodeSections sample_hdr sys_5_10 "/apex/bpf/a.o" [] "Apache 2.0" "tethering/" 46
    (world_of [] []).
Proof.
  apply (loadCodeSections_skips sample_hdr world sys_5_10 "/apex/bpf/a.o" "Apache 2.0"
           "tethering/" 46 (code_sections elf_bogus_subdir 92) [] (world_of [] [])).
  replace (code_sections elf_bogus_subdir 92)
    with [nth 0 (code_sections elf_bogus_subdir 92) (mkCodeSection BPF_PROG_TYPE_UNSPEC BPF_ATTACH_TYPE_UNSPEC "" [] [] None (-1))]
    by (vm_compute; reflexivity).
  constructor; [|constructor].
  exists (encode_prog_def 0 4294967295 false 0 100 65536 "" "bogus/").
  split; vm_compute; reflexivity.
Defined.

Section MalformedMaps.

Variable std_sort : (Elf64_Sym -> Elf64_Sym -> bool) -> list Elf64_Sym -> list Elf64_Sym.
Variable hdr : Headers.
Variable W : Type.
Variable sys : Sys W.

(** X12. Two malformed objects.  When [createMaps] has got through the
    first [i] maps and the definition of the next one has a non-zero
    [zero] field, the loader aborts; and when the maps section has more
    symbols than definitions, the definition of the first symbol without
    one is read past the end of the vector, which is undefined
    behaviour. *)
Theorem createMaps_malformed (elfPath prefix : string) (sz ver : Z)
    (s s2 : ifstream) (w0 w : W) (md : list (list byte)) (mapNames : list string)
    (i : nat) (ret : Z) (fds : list Z) :
  maps_read std_sort hdr sz s md mapNames s2 ->
  for_range i 0
    (createMaps_body hdr sys (pathToObjName elfPath) prefix ver (kernelVersion sys)
       md mapNames) (0, []) w0 = Val (inr (ret, fds), w) ->
  (i < List.length mapNames)%nat ->
  (forall raw, nth_error md i = Some raw -> md_zero (view_map_def hdr raw) <> 0 ->
     createMaps std_sort hdr sys elfPath prefix sz ver (s, w0) = Abort) /\
  (nth_error md i = None ->
   createMaps std_sort hdr sys elfPath prefix sz ver (s, w0) = Undef).
Proof.
  intros Hmaps Hreach Hi.
  rewrite (createMaps_run std_sort hdr W sys _ _ _ _ _ _ _ _ _ Hmaps).
  replace (List.length mapNames) with (i + S (List.length mapNames - i - 1))%nat by lia.
  rewrite for_range_split by (intros; apply createMaps_body_no_break).
  rewrite Hreach. cbn [for_range]. unfold bind. rewrite Z.add_0_l.
  destruct (nth_error mapNames i) as [mapName|] eqn:Hname.
  2: { apply nth_error_None in Hname. lia. }
  unfold createMaps_body. rewrite Nat2Z.id, Hname. split.
  - intros raw Hraw Hzero. rewrite Hraw. apply Z.eqb_neq in Hzero. rewrite Hzero.
    reflexivity.
  - intros Hraw. rewrite Hraw. reflexivity.
Qed.

End MalformedMaps.

Lemma maps_read_short :
  maps_read sample_sort sample_hdr 120 (stream_of elf_short_maps)
    (maps_defs elf_short_maps 120) (maps_names elf_short_maps) (maps_stream2 elf_short_maps).
Proof.
  exists (maps_data elf_short_maps), (maps_stream1 elf_short_maps).
  repeat split; vm_compute; reflexivity.
Defined.

Lemma createMaps_malformed_witness :
  createMaps sample_sort sample_hdr sys_5_10 "/apex/bpf/a.o" "tethering/" 120 46
    (stream_of elf_short_maps, world_of [] []) = Undef.
Proof.
  destruct (createMaps_malformed sample_sort sample_hdr world sys_5_10
              "/apex/bpf/a.o" "tethering/" 120 46 (stream_of elf_short_maps)
              (maps_stream2 elf_short_maps) (world_of [] [])
              (state_after
                 (for_range 1 0
                    (createMaps_body sample_hdr sys_5_10 (pathToObjName "/apex/bpf/a.o")
                       "tethering/" 46 (kernelVersion sys_5_10)
                       (maps_defs elf_short_maps 120) (maps_names elf_short_maps))
                    (0, []) (world_of [] []))
                 (world_of [] []))
              (maps_defs elf_short_maps 120) (maps_names elf_short_maps) 1 0 [3]
              maps_read_short) as [_ Hshort].
  - vm_compute. reflexivity.
  - vm_compute. lia.
  - apply Hshort. vm_compute. reflexivity.
Defined.

(** ** Return codes *)

(** ** Return codes *)

Lemma for_each_invariant {T R St X : Type} (body : X -> St -> M T (step R St))
    (I : St -> Prop) (Q : R -> Prop) :
  (forall x st s r s', I st -> body x st s = Val (r, s') ->
     match r with
     | Continue st' => I st'
     | Break st' => I st'
     | Return r => Q r
     end) ->
  forall xs st s r s',
    I st -> for_each xs body st s = Val (r, s') ->
    match r with
    | inr st' => I st'
    | inl r => Q r
    end.
Proof.
  intros Hbody xs. induction xs as [|x xs IH]; intros st s r s' HI Hrun.
  - cbn in Hrun. injection Hrun as <- <-. exact HI.
  - cbn [for_each] in Hrun. unfold bind in Hrun.
    destruct (body x st s) as [[[r0|st0|st0] s0]| |] eqn:Hb; try discriminate;
      pose proof (Hbody _ _ _ _ _ HI Hb) as Hstep; cbn in Hstep.
    + cbn in Hrun. injection Hrun as <- <-. exact Hstep.
    + cbn in Hrun. injection Hrun as <- <-. exact Hstep.
    + exact (IH _ _ _ _ Hstep Hrun).
Qed.

Lemma reader_outcome_code (s s' : ifstream) (ret : Z) :
  reader_outcome s ret s' -> ret <= 0.
Proof. unfold reader_outcome, ENOMEM. intros [_ [[_ [->| ->]]|[_ [->| ->]]]]; lia. Qed.

Lemma getSymName_code (off : Z) (s s' : ifstream) (ret : Z) (name : string) :
  getSymName off s = Val ((ret, name), s') -> ret <= 0.
Proof.
  unfold getSymName, bind, Ret.
  destruct (readSectionHeaderStrtab s) as [[[ret0 strtab] s0]| |] eqn:Hstr; try discriminate.
  destruct (readSectionHeaderStrtab_outcome _ _ _ _ Hstr) as [Hout _].
  pose proof (reader_outcome_code _ _ _ Hout) as Hle.
  destruct (negb (ret0 =? 0)); [intros H; injection H as <- _ _; exact Hle|].
  destruct (_ <=? off); [intros H; injection H as <- _ _; lia|].
  destruct (cstr_at strtab off); [|discriminate].
  intros H. injection H as <- _ _. lia.
Qed.

Section ReturnCodes.

Variable std_sort : (Elf64_Sym -> Elf64_Sym -> bool) -> list Elf64_Sym -> list Elf64_Sym.
Variable hdr : Headers.

Lemma readSymTab_code (sort : bool) (s s' : ifstream) (ret : Z) (symtab : list Elf64_Sym) :
  readSymTab std_sort sort s = Val ((ret, symtab), s') -> ret <= 0.
Proof.
  unfold readSymTab, bind, Ret.
  destruct (readSectionByType SHT_SYMTAB s) as [[[ret0 data] s0]| |] eqn:Hty;
    try discriminate.
  pose proof (reader_outcome_code _ _ _ (readSectionByType_outcome _ _ _ _ _ Hty)) as Hle.
  destruct (negb (ret0 =? 0)); [intros H; injection H as <- _ _; exact Hle|].
  destruct (_ <? 0); [discriminate|].
  intros H. injection H as <- _ _. lia.
Qed.

Lemma getSectionSymNames_code (name : string) (ty : option Z) (s s' : ifstream) (ret : Z)
    (names : list string) :
  getSectionSymNames std_sort name ty s = Val ((ret, names), s') -> ret <= 0.
Proof.
  unfold getSectionSymNames, bind, Ret.
  destruct (readSymTab std_sort true s) as [[[ret0 symtab] s0]| |] eqn:Hsym; try discriminate.
  pose proof (readSymTab_code _ _ _ _ _ Hsym) as Hle0.
  destruct (negb (ret0 =? 0)); [intros H; injection H as <- _ _; exact Hle0|].
  destruct (readSectionHeadersAll s0) as [[[ret1 shTable] s1]| |] eqn:Hsh; try discriminate.
  destruct (readSectionHeadersAll_outcome _ _ _ _ Hsh) as [Hout1 _].
  pose proof (reader_outcome_code _ _ _ Hout1) as Hle1.
  destruct (negb (ret1 =? 0)); [intros H; injection H as <- _ _; exact Hle1|].
  destruct (getSectionSymNames_find name shTable s1) as [[[ret2|idx] s2]| |] eqn:Hfind;
    try discriminate.
  { intros H. injection H as <- _ _.
    unfold getSectionSymNames_find in Hfind.
    apply (for_each_invariant _ (fun _ => True) (fun r => r <= 0)) in Hfind;
      [exact Hfind| |exact I].
    intros [i sh] st e r e' _ Hb. unfold bind, Ret in Hb.
    destruct (getSymName (cast_int (sh_name sh)) e) as [[[ret3 nm] e1]| |] eqn:Hnm;
      try discriminate.
    pose proof (getSymName_code _ _ _ _ _ Hnm) as Hle3.
    destruct (negb (ret3 =? 0)); [injection Hb as <- _; exact Hle3|].
    destruct (String.eqb nm name); injection Hb as <- _; exact I. }
  destruct (idx =? -1); [intros H; injection H as <- _ _; lia|].
  destruct (getSectionSymNames_collect idx ty symtab s2) as [[[[ret3 nms]|nms] s3]| |]
    eqn:Hcollect; try discriminate; intros H; injection H as <- _ _; [|lia].
  unfold getSectionSymNames_collect in Hcollect.
  apply (for_each_invariant _ (fun _ => True) (fun r => fst r <= 0)) in Hcollect;
    [exact Hcollect| |exact I].
  intros sym st e r e' _ Hb. unfold bind, Ret in Hb.
  destruct (match ty with Some t => negb (ELF_ST_TYPE (st_info sym) =? t) | None => false end);
    [injection Hb as <- _; exact I|].
  destruct (st_shndx sym =? idx); [|injection Hb as <- _; exact I].
  destruct (getSymName (cast_int (st_name sym)) e) as [[[ret4 nm] e1]| |] eqn:Hnm;
    try discriminate.
  pose proof (getSymName_code _ _ _ _ _ Hnm) as Hle4.
  destruct (negb (ret4 =? 0)); injection Hb as <- _; [exact Hle4|exact I].
Qed.

Lemma readProgDefs_code (sz : Z) (s s' : ifstream) (ret : Z) (pd : list (list byte)) :
  readProgDefs hdr sz s = Val ((ret, pd), s') -> ret <= 0.
Proof.
  unfold readProgDefs, bind, Ret.
  destruct (readSectionByName "progs" s) as [[[ret0 data] s0]| |] eqn:Hread; try discriminate.
  pose proof (reader_outcome_code _ _ _ (readSectionByName_reader_outcome _ _ _ _ _ Hread)) as Hle.
  destruct (negb (ret0 =? 0)); [intros H; injection H as <- _ _; exact Hle|].
  destruct (sz =? 0); [discriminate|].
  destruct (negb (_ =? 0)); [intros H; injection H as <- _ _; lia|].
  destruct (_ <? 0); [discriminate|].
  destruct (readProgDefs_loop _ _ _ _ _); [|discriminate].
  intros H. injection H as <- _ _. lia.
Qed.

Lemma readCodeSections_body_code (shTable : list Elf64_Shdr) (entries : Z)
    (pd : list (list byte)) (progDefNames : list string) (i : Z) (cs : list codeSection)
    (s s' : ifstream) (r : step (Z * list codeSection) (list codeSection)) :
  readCodeSections_body std_sort shTable entries pd progDefNames i cs s = Val (r, s') ->
  match r with
  | Return (ret, _) => ret <= 0
  | Continue _ => True
  | Break _ => False
  end.
Proof.
  unfold readCodeSections_body, bind, Ret.
  destruct (nth_error shTable (Z.to_nat i)) as [sh|]; [|discriminate].
  destruct (getSymName _ s) as [[[ret name] s1]| |] eqn:Hnm; try discriminate.
  pose proof (getSymName_code _ _ _ _ _ Hnm) as Hle.
  destruct (negb (ret =? 0)); [intros H; injection H as <- _; exact Hle|].
  destruct (prog_type_is_unspec (getSectionType name)); [intros H; injection H as <- _; exact I|].
  destruct (readSectionByIdx i s1) as [[[ret1 data] s2]| |] eqn:Hidx; try discriminate.
  destruct (readSectionByIdx_outcome _ _ _ _ _ Hidx) as [Hout1 _].
  pose proof (reader_outcome_code _ _ _ Hout1) as Hle1.
  destruct (negb (ret1 =? 0)); [intros H; injection H as <- _; exact Hle1|].
  destruct (getSectionSymNames std_sort name (Some STT_FUNC) s2)
    as [[[ret2 csSymNames] s3]| |] eqn:Hsyms; try discriminate.
  pose proof (getSectionSymNames_code _ _ _ _ _ _ Hsyms) as Hle2.
  destruct csSymNames as [|sym0 rest]; [intros H; injection H as <- _; exact Hle2|].
  destruct (negb (ret2 =? 0)); [intros H; injection H as <- _; exact Hle2|].
  match goal with
  | |- context [match ?x with Some prog_def => _ | None => undefined end] =>
      destruct x as [prog_def|]; [|discriminate]
  end.
  match goal with
  | |- match ?c s3 with _ => _ end = _ -> _ =>
      destruct (c s3) as [[[ret3 rel_data] s4]| |] eqn:Hrel; try discriminate
  end.
  assert (Hle3 : ret3 <= 0).
  { destruct (_ && _)%bool; [|injection Hrel as <- _ _; lia].
    destruct (nth_error shTable (Z.to_nat (i + 1))) as [sh1|]; [|discriminate].
    unfold bind, Ret in Hrel.
    destruct (getSymName _ s3) as [[[ret4 name1] s5]| |] eqn:Hnm1; try discriminate.
    pose proof (getSymName_code _ _ _ _ _ Hnm1) as Hle4.
    destruct (negb (ret4 =? 0)); [injection Hrel as <- _ _; exact Hle4|].
    destruct (String.eqb name1 _); [|injection Hrel as <- _ _; lia].
    destruct (readSectionByIdx_outcome _ _ _ _ _ Hrel) as [Hout5 _].
    exact (reader_outcome_code _ _ _ Hout5). }
  destruct (negb (ret3 =? 0)); [intros H; injection H as <- _; exact Hle3|].
  destruct (0 <? _); intros H; injection H as <- _; exact I.
Qed.

Lemma readCodeSections_code (sz : Z) (s s' : ifstream) (ret : Z) (cs : list codeSection) :
  readCodeSections std_sort hdr sz s = Val ((ret, cs), s') -> ret <= 0.
Proof.
  unfold readCodeSections, bind, Ret.
  destruct (readSectionHeadersAll s) as [[[ret0 shTable] s0]| |] eqn:Hsh; try discriminate.
  destruct (readSectionHeadersAll_outcome _ _ _ _ Hsh) as [Hout0 _].
  pose proof (reader_outcome_code _ _ _ Hout0) as Hle0.
  destruct (negb (ret0 =? 0)); [intros H; injection H as <- _ _; exact Hle0|].
  destruct (readProgDefs hdr sz s0) as [[[ret1 pd] s1]| |] eqn:Hpd; try discriminate.
  pose proof (readProgDefs_code _ _ _ _ _ Hpd) as Hle1.
  destruct (negb (ret1 =? 0)); [intros H; injection H as <- _ _; exact Hle1|].
  destruct (getSectionSymNames std_sort "progs" None s1) as [[[ret2 names] s2]| |] eqn:Hnames;
    try discriminate.
  pose proof (getSectionSymNames_code _ _ _ _ _ _ Hnames) as Hle2.
  destruct (_ && _)%bool; [intros H; injection H as <- _ _; exact Hle2|].
  destruct (for_range _ 0 _ [] s2) as [[r s3]| |] eqn:Hloop; try discriminate.
  pose proof (for_range_invariant
    (readCodeSections_body std_sort shTable (cast_int (Z.of_nat (List.length shTable)))
       pd names)
    (fun _ _ => True) (fun _ r => fst r <= 0) 0) as Hinv.
  assert (Hbody : forall (k : nat) (st : list codeSection) (e : ifstream)
            (r0 : step (Z * list codeSection) (list codeSection)) (e' : ifstream),
            True ->
            readCodeSections_body std_sort shTable (cast_int (Z.of_nat (List.length shTable)))
              pd names (0 + Z.of_nat k) st e = Val (r0, e') ->
            match r0 with
            | Continue _ => True
            | Return r1 => fst r1 <= 0
            | Break _ => False
            end).
  { intros k st e r0 e' _ Hrun.
    pose proof (readCodeSections_body_code _ _ _ _ _ _ _ _ _ Hrun) as Hc.
    destruct r0 as [[? ?]|st0|st0]; exact Hc. }
  specialize (Hinv Hbody _ 0%nat [] s2 r s3 I Hloop).
  destruct r as [[ret3 cs3]|cs3]; intros H; injection H as <- _ _.
  - destruct Hinv as [k [_ H]]. exact H.
  - lia.
Qed.

End ReturnCodes.

Section LoaderCodes.

Variable std_sort : (Elf64_Sym -> Elf64_Sym -> bool) -> list Elf64_Sym -> list Elf64_Sym.
Variable hdr : Headers.
Variable W : Type.
Variable sys : Sys W.

Hypothesis Herrno : errno_set sys.

Lemma createMaps_pin_negative (objName : string) (m : bpf_map_def) (sel : domain) (fd : Z)
    (mapName mapPinLoc : string) (w w' : W) (r : Z + Z) :
  createMaps_pin sys objName m sel fd mapName mapPinLoc w = Val (r, w') ->
  match r with
  | inl code => code < 0
  | inr ret => ret = 0
  end.
Proof.
  destruct Herrno as (_ & _ & Hpin & Hren & Hmod & Hown).
  unfold createMaps_pin, bind, call, Ret.
  assert (Htail : forall w1 r1 w2,
            ('(ret, err) <- (fun w0 => Val (chmod sys mapPinLoc (md_mode m) w0)) ;;
             if negb (ret =? 0) then (fun s => Val (inl (- err), s)) else
             '(ret, err) <- (fun w0 => Val (chown sys mapPinLoc (md_uid m) (md_gid m) w0)) ;;
             if negb (ret =? 0) then (fun s => Val (inl (- err), s))
             else (fun s => Val (inr ret, s))) w1 = Val (r1, w2) ->
            match r1 with inl code => code < 0 | inr ret => ret = 0 end).
  { intros w1 r1 w2. unfold bind.
    destruct (chmod sys mapPinLoc (md_mode m) w1) as [[r3 e3] w3] eqn:H3.
    destruct (Z.eqb_spec r3 0) as [->|Hr3]; cbn [negb].
    2: { intros H. injection H as <- _. specialize (Hmod _ _ _ _ _ _ H3 Hr3). lia. }
    destruct (chown sys mapPinLoc (md_uid m) (md_gid m) w3) as [[r4 e4] w4] eqn:H4.
    destruct (Z.eqb_spec r4 0) as [->|Hr4]; cbn [negb]; intros H; injection H as <- _.
    - reflexivity.
    - specialize (Hown _ _ _ _ _ _ _ H4 Hr4). lia. }
  destruct (specified sel).
  - destruct (bpfFdPin sys fd _ w) as [[r1 e1] w1] eqn:H1.
    destruct (Z.eqb_spec r1 0) as [->|Hr1]; cbn [negb].
    2: { intros H. injection H as <- _. specialize (Hpin _ _ _ _ _ _ H1 Hr1). lia. }
    destruct (renameat2_NOREPLACE sys _ mapPinLoc w1) as [[r2 e2] w2] eqn:H2.
    destruct (Z.eqb_spec r2 0) as [->|Hr2]; cbn [negb].
    2: { intros H. injection H as <- _. specialize (Hren _ _ _ _ _ _ H2 Hr2). lia. }
    apply Htail.
  - destruct (bpfFdPin sys fd mapPinLoc w) as [[r1 e1] w1] eqn:H1.
    destruct (Z.eqb_spec r1 0) as [->|Hr1]; cbn [negb].
    2: { intros H. injection H as <- _. specialize (Hpin _ _ _ _ _ _ H1 Hr1). lia. }
    apply Htail.
Qed.

Lemma createMaps_create_code (objName prefix : string) (m : bpf_map_def)
    (mapName : string) (fds : list Z) (w w' : W) (r : step (Z * list Z) (Z * list Z)) :
  createMaps_create sys objName prefix m mapName (0, fds) w = Val (r, w') ->
  match r with
  | Return (code, _) => code < 0
  | Continue (ret, _) => ret = 0
  | Break _ => False
  end.
Proof.
  unfold createMaps_create, bind, lift_outcome, query, Ret. intros Hrun.
  destruct (getDomainFromSelinuxContext (md_selinux_context m)) as [sel| |]; try discriminate.
  destruct (getDomainFromPinSubdir (md_pin_subdir m)) as [pin| |]; try discriminate.
  destruct (is_unrecognized pin).
  { injection Hrun as <- _. unfold ENOTDIR. lia. }
  match type of Hrun with context [createMaps_obtain sys m ?t ?me mapName ?loc w] =>
    destruct (createMaps_obtain sys m t me mapName loc w)
      as [[[reuse [fd e]] w1]| |] eqn:Hobtain; try discriminate end.
  destruct (fd_ok fd) eqn:Hok; cbn [negb] in Hrun.
  2: { injection Hrun as <- _. unfold fd_ok in Hok. apply Z.leb_gt in Hok.
       pose proof (createMaps_obtain_errno _ _ _ _ _ _ _ _ _ _ _ _ Herrno Hobtain Hok). lia. }
  destruct (mapMatchesExpectations sys fd m (createMaps_type sys m) w1); cbn [negb] in Hrun.
  2: { injection Hrun as <- _. unfold ENOTUNIQ. lia. }
  destruct reuse; cbn [negb] in Hrun.
  { injection Hrun as <- _. reflexivity. }
  match type of Hrun with context [createMaps_pin sys objName m sel fd mapName ?loc w1] =>
    destruct (createMaps_pin sys objName m sel fd mapName loc w1)
      as [[[code|ret'] w2]| |] eqn:Hpin; try discriminate end;
    pose proof (createMaps_pin_negative _ _ _ _ _ _ _ _ _ Hpin) as Hcode; cbn in Hcode;
    injection Hrun as <- _; exact Hcode.
Qed.

Lemma createMaps_body_code (objName prefix : string) (ver kvers : Z)
    (md : list (list byte)) (mapNames : list string) (i : Z) (fds : list Z) (w w' : W)
    (r : step (Z * list Z) (Z * list Z)) :
  createMaps_body hdr sys objName prefix ver kvers md mapNames i (0, fds) w = Val (r, w') ->
  match r with
  | Return (code, _) => code < 0
  | Continue (ret, _) => ret = 0
  | Break _ => False
  end.
Proof.
  unfold createMaps_body.
  destruct (nth_error md (Z.to_nat i)) as [raw|]; [|discriminate].
  destruct (nth_error mapNames (Z.to_nat i)) as [mapName|]; [|discriminate].
  destruct (negb _); [discriminate|].
  repeat match goal with
         | |- (if ?c then Ret (Continue (0, ?l)) else _) w = _ -> _ =>
             destruct c; [intros H; injection H as <- _; reflexivity|]
         end.
  apply createMaps_create_code.
Qed.

Lemma createMaps_code (elfPath prefix : string) (sz ver : Z) (st st' : ifstream * W)
    (ret : Z) (mapFds : list Z) :
  createMaps std_sort hdr sys elfPath prefix sz ver st = Val ((ret, mapFds), st') ->
  ret <= 0.
Proof.
  destruct st as [s w]. unfold createMaps, bind, liftE, liftW, Ret.
  destruct (readSectionByName "maps" s) as [[[ret0 data] s0]| |] eqn:Hread; try discriminate.
  pose proof (reader_outcome_code _ _ _ (readSectionByName_reader_outcome _ _ _ _ _ Hread)) as Hle0.
  destruct (ret0 =? -2); [intros H; injection H as <- _ _; lia|].
  destruct (negb (ret0 =? 0)); [intros H; injection H as <- _ _; exact Hle0|].
  destruct (sz =? 0); [discriminate|].
  destruct (negb (_ =? 0)); [intros H; injection H as <- _ _; lia|].
  destruct (_ <? 0); [discriminate|].
  destruct (createMaps_decode _ _ _ _ _); [|discriminate].
  destruct (getSectionSymNames std_sort "maps" None s0) as [[[ret1 names] s1]| |] eqn:Hnames;
    try discriminate.
  pose proof (getSectionSymNames_code _ _ _ _ _ _ _ Hnames) as Hle1.
  destruct (Z.eqb_spec ret1 0) as [->|Hne]; cbn [negb];
    [|intros H; injection H as <- _ _; exact Hle1].
  match goal with
  | |- context [for_range ?n 0 ?body (0, []) w] =>
      destruct (for_range n 0 body (0, []) w) as [[r w1]| |] eqn:Hloop; try discriminate;
      pose proof (for_range_invariant body
        (fun _ st => fst st = 0) (fun _ r => fst r < 0) 0) as Hinv
  end.
  match type of Hinv with
  | ?P -> _ => assert (Hbody : P)
  end.
  { intros k [ret2 fds] e r0 e' Hst Hrun. cbn [fst] in Hst. subst ret2.
    pose proof (createMaps_body_code _ _ _ _ _ _ _ _ _ _ _ Hrun) as Hc.
    destruct r0 as [[? ?]|[? ?]|[? ?]]; cbn [fst]; exact Hc. }
  specialize (Hinv Hbody _ 0%nat (0, []) w r w1 eq_refl Hloop).
  destruct r as [[code fds]|[ret2 fds]]; intros H; injection H as <- _ _.
  - destruct Hinv as [k [_ Hk]]. cbn [fst] in Hk. lia.
  - cbn [fst] in Hinv. lia.
Qed.

Lemma loadCodeSections_body_code (elfPath objName license prefix : string)
    (ver kvers : Z) (c : codeSection) (w w' : W) (r : step Z unit) :
  loadCodeSections_body hdr sys elfPath objName license prefix ver kvers c tt w = Val (r, w') ->
  match r with
  | Return code => code < 0
  | Continue _ => True
  | Break _ => False
  end.
Proof.
  destruct Herrno as (_ & _ & Hpin & Hren & Hmod & Hown).
  unfold loadCodeSections_body, bind, lift_outcome, query, call, Ret. intros Hrun.
  destruct (cs_prog_def c) as [raw|]; [|injection Hrun as <- _; unfold EINVAL; lia].
  destruct (_ <? _); [injection Hrun as <- _; exact I|].
  destruct (_ <=? _); [injection Hrun as <- _; exact I|].
  destruct (getDomainFromSelinuxContext _) as [sel| |]; try discriminate.
  destruct (getDomainFromPinSubdir _) as [pin| |]; try discriminate.
  destruct (_ <? _); [injection Hrun as <- _; exact I|].
  destruct (_ <=? _); [injection Hrun as <- _; exact I|].
  match type of Hrun with (if ?c then _ else _) _ = _ =>
    destruct c; [injection Hrun as <- _; exact I|] end.
  match type of Hrun with (if ?c then _ else _) _ = _ =>
    destruct c; [injection Hrun as <- _; exact I|] end.
  destruct (is_unrecognized pin); [injection Hrun as <- _; unfold ENOTDIR; lia|].
  match type of Hrun with
  | match (if ?b then _ else _) w with _ => _ end = _ => destruct b
  end.
  - match type of Hrun with context [retrieveProgram sys ?loc w] =>
      destruct (retrieveProgram sys loc w) as [fd w1] end.
    destruct (fd_ok fd) eqn:Hok; cbn [negb] in Hrun; injection Hrun as <- _; [exact I|].
    unfold fd_ok in Hok. apply Z.leb_gt in Hok. exact Hok.
  - match type of Hrun with context [bpf_PROG_LOAD sys ?req w] =>
      destruct (bpf_PROG_LOAD sys req w) as [fd w1] end.
    destruct (fd_ok fd) eqn:Hok; cbn [negb andb] in Hrun.
    2: { destruct (pd_optional _); cbv beta iota in Hrun; rewrite ?Hok in Hrun;
           cbn [negb] in Hrun; cbv beta iota in Hrun; injection Hrun as <- _; [exact I|].
         unfold fd_ok in Hok. apply Z.leb_gt in Hok. exact Hok. }
    cbv beta iota in Hrun. rewrite ?Hok in Hrun. cbn [negb] in Hrun.
    destruct (specified sel).
    + match type of Hrun with context [bpfFdPin sys fd ?loc w1] =>
        destruct (bpfFdPin sys fd loc w1) as [[r1 e1] w2] eqn:H1 end.
      destruct (Z.eqb_spec r1 0) as [->|Hr1]; cbn [negb] in Hrun.
      2: { injection Hrun as <- _. specialize (Hpin _ _ _ _ _ _ H1 Hr1). lia. }
      match type of Hrun with context [renameat2_NOREPLACE sys ?a ?b w2] =>
        destruct (renameat2_NOREPLACE sys a b w2) as [[r2 e2] w3] eqn:H2 end.
      destruct (Z.eqb_spec r2 0) as [->|Hr2]; cbn [negb] in Hrun.
      2: { injection Hrun as <- _. specialize (Hren _ _ _ _ _ _ H2 Hr2). lia. }
      match type of Hrun with context [chmod sys ?loc 288 ?w0] =>
        destruct (chmod sys loc 288 w0) as [[r3 e3] w4] eqn:H3 end.
      destruct (Z.eqb_spec r3 0) as [->|Hr3]; cbn [negb] in Hrun.
      2: { injection Hrun as <- _. specialize (Hmod _ _ _ _ _ _ H3 Hr3). lia. }
      match type of Hrun with context [chown sys ?loc ?u ?g w4] =>
        destruct (chown sys loc u g w4) as [[r4 e4] w5] eqn:H4 end.
      destruct (Z.eqb_spec r4 0) as [->|Hr4]; cbn [negb] in Hrun; injection Hrun as <- _.
      * exact I.
      * specialize (Hown _ _ _ _ _ _ _ H4 Hr4). lia.
    + match type of Hrun with context [bpfFdPin sys fd ?loc w1] =>
        destruct (bpfFdPin sys fd loc w1) as [[r1 e1] w2] eqn:H1 end.
      destruct (Z.eqb_spec r1 0) as [->|Hr1]; cbn [negb] in Hrun.
      2: { injection Hrun as <- _. specialize (Hpin _ _ _ _ _ _ H1 Hr1). lia. }
      match type of Hrun with context [chmod sys ?loc 288 ?w0] =>
        destruct (chmod sys loc 288 w0) as [[r3 e3] w4] eqn:H3 end.
      destruct (Z.eqb_spec r3 0) as [->|Hr3]; cbn [negb] in Hrun.
      2: { injection Hrun as <- _. specialize (Hmod _ _ _ _ _ _ H3 Hr3). lia. }
      match type of Hrun with context [chown sys ?loc ?u ?g w4] =>
        destruct (chown sys loc u g w4) as [[r4 e4] w5] eqn:H4 end.
      destruct (Z.eqb_spec r4 0) as [->|Hr4]; cbn [negb] in Hrun; injection Hrun as <- _.
      * exact I.
      * specialize (Hown _ _ _ _ _ _ _ H4 Hr4). lia.
Qed.

Lemma loadCodeSections_code (elfPath license prefix : string) (cs : list codeSection)
    (ver : Z) (w w' : W) (ret : Z) :
  loadCodeSections hdr sys elfPath cs license prefix ver w = Val (ret, w') -> ret <= 0.
Proof.
  unfold loadCodeSections, bind, Ret.
  destruct (kernelVersion sys =? 0); [intros H; injection H as <- _; unfold EINVAL; lia|].
  match goal with
  | |- context [for_each cs ?body tt w] =>
      destruct (for_each cs body tt w) as [[r w1]| |] eqn:Hloop; try discriminate;
      apply (for_each_invariant body (fun _ => True) (fun r => r < 0)) in Hloop;
      [| |exact I]
  end.
  - destruct r as [code|u]; intros H; injection H as <- _; lia.
  - intros c [] e r0 e' _ Hb.
    pose proof (loadCodeSections_body_code _ _ _ _ _ _ _ _ _ _ Hb) as Hc.
    destruct r0; [exact Hc|contradiction|exact I].
Qed.

Lemma loadProg_stream_code (elfPath : string) (ver : Z) (location : Location)
    (st st' : ifstream * W) (ret : Z) (critical : bool) :
  loadProg_stream std_sort hdr sys elfPath ver location st = Val ((ret, critical), st') ->
  ret <= 0.
Proof.
  destruct st as [s w]. unfold loadProg_stream, bind, liftE, Ret.
  destruct (readSectionByName "critical" s) as [[[rc crit] s1]| |]; try discriminate.
  destruct (readSectionByName "license" s1) as [[[rl license] s2]| |] eqn:Hlic;
    try discriminate.
  pose proof (reader_outcome_code _ _ _ (readSectionByName_reader_outcome _ _ _ _ _ Hlic)) as Hle.
  destruct (negb (rl =? 0)); [intros H; injection H as <- _ _; exact Hle|].
  destruct (readSectionUint "bpfloader_min_ver" _ s2) as [[minVer s3]| |]; try discriminate.
  destruct (readSectionUint "bpfloader_max_ver" _ s3) as [[maxVer s4]| |]; try discriminate.
  destruct (readSectionUint "bpfloader_min_required_ver" _ s4) as [[reqVer s5]| |];
    try discriminate.
  destruct (readSectionUint "size_of_bpf_map_def" _ s5) as [[szMap s6]| |]; try discriminate.
  destruct (readSectionUint "size_of_bpf_prog_def" _ s6) as [[szProg s7]| |]; try discriminate.
  destruct (ver <? minVer); [intros H; injection H as <- _ _; lia|].
  destruct (maxVer <=? ver); [intros H; injection H as <- _ _; lia|].
  destruct (ver <? reqVer); [intros H; injection H as <- _ _; lia|].
  unfold loadProg_load, bind, liftE, liftW, Ret.
  destruct (szMap <? _); [intros H; injection H as <- _ _; lia|].
  destruct (szProg <? _); [intros H; injection H as <- _ _; lia|].
  destruct (readCodeSections std_sort hdr szProg s7) as [[[r1 cs] s8]| |] eqn:Hcs;
    try discriminate.
  pose proof (readCodeSections_code _ _ _ _ _ _ _ Hcs) as Hle1.
  destruct (negb (r1 =? 0)); [intros H; injection H as <- _ _; exact Hle1|].
  destruct (createMaps std_sort hdr sys elfPath (loc_prefix location) szMap ver (s8, w))
    as [[[r2 fds] [s9 w1]]| |] eqn:Hmaps; try discriminate.
  pose proof (createMaps_code _ _ _ _ _ _ _ _ Hmaps) as Hle2.
  destruct (negb (r2 =? 0)); [intros H; injection H as <- _ _; exact Hle2|].
  destruct (applyMapRelo std_sort fds cs s9) as [[cs' s10]| |]; try discriminate.
  destruct (c_str license); [|discriminate].
  match goal with
  | |- context [loadCodeSections hdr sys elfPath cs' ?lic ?p ver w1] =>
      destruct (loadCodeSections hdr sys elfPath cs' lic p ver w1) as [[r3 w2]| |] eqn:Hload;
        try discriminate
  end.
  pose proof (loadCodeSections_code _ _ _ _ _ _ _ _ Hload) as Hle3.
  intros H. injection H as <- _ _. exact Hle3.
Qed.

Lemma loadProg_code (elfPath : string) (ver : Z) (location : Location) (w w' : W)
    (ret : Z) (critical : bool) :
  loadProg std_sort hdr sys elfPath ver location w = Val ((ret, critical), w') -> ret <= 0.
Proof.
  unfold loadProg. destruct (open_file sys elfPath w) as [bytes|].
  - match goal with
    | |- context [loadProg_stream std_sort hdr sys elfPath ver location ?st] =>
        destruct (loadProg_stream std_sort hdr sys elfPath ver location st)
          as [[[r c] [e w1]]| |] eqn:Hrun; try discriminate
    end.
    intros H. injection H as <- _ _. exact (loadProg_stream_code _ _ _ _ _ _ _ Hrun).
  - intros H. injection H as <- _ _. lia.
Qed.

Lemma loadAllElfObjects_code (ver : Z) (location : Location) (w w' : W) (ret : Z) :
  loadAllElfObjects std_sort hdr sys ver location w = Val (ret, w') -> ret <= 0.
Proof.
  unfold loadAllElfObjects, bind, query, Ret.
  destruct (readdir_all sys (loc_dir location) w) as [ents|];
    [|intros H; injection H as <- _; lia].
  match goal with
  | |- context [for_each ents ?body 0 w] =>
      destruct (for_each ents body 0 w) as [[r w1]| |] eqn:Hloop; try discriminate;
      apply (for_each_invariant body (fun retVal => retVal <= 0) (fun _ => False)) in Hloop;
      [| |lia]
  end.
  - destruct r as [r|r]; [contradiction|]. intros H. injection H as <- _. exact Hloop.
  - intros ent retVal e r0 e' HI Hb. unfold loadAllElfObjects_body, bind, Ret in Hb.
    destruct (negb (EndsWith ent ".o")); [injection Hb as <- _; exact HI|].
    destruct (loadProg std_sort hdr sys _ ver location e) as [[[r1 crit] e1]| |] eqn:Hprog;
      try discriminate.
    pose proof (loadProg_code _ _ _ _ _ _ _ Hprog) as Hle.
    destruct (negb (r1 =? 0)); [|injection Hb as <- _; exact HI].
    destruct crit; injection Hb as <- _; [exact Hle|exact HI].
Qed.

End LoaderCodes.

(** X13. On a kernel whose failing calls set [errno] to a positive value,
    [loadProg] and [loadAllElfObjects] return 0 or a negative code, never
    a positive one. *)
Theorem loader_codes_nonpositive
    (std_sort : (Elf64_Sym -> Elf64_Sym -> bool) -> list Elf64_Sym -> list Elf64_Sym)
    (hdr : Headers) (W : Type) (sys : Sys W) :
  errno_set sys ->
  (forall elfPath ver location w ret critical w',
     loadProg std_sort hdr sys elfPath ver location w = Val ((ret, critical), w') ->
     ret <= 0) /\
  (forall ver location w ret w',
     loadAllElfObjects std_sort hdr sys ver location w = Val (ret, w') -> ret <= 0).
Proof.
  intros Herrno. split.
  - intros elfPath ver location w ret critical w'.
    apply (loadProg_code std_sort hdr W sys Herrno).
  - intros ver location w ret w'.
    apply (loadAllElfObjects_code std_sort hdr W sys Herrno).
Qed.

Lemma loader_codes_nonpositive_witness :
  fst (result_of (loadProg sample_sort sample_hdr sys_5_10 "/apex/bpf/a.o" 46
                    sample_location (world_one elf_bogus_map)) (1, false)) <= 0 /\
  result_of (loadAllElfObjects sample_sort sample_hdr sys_5_10 46 sample_location
               world_two_critical) 1 <= 0.
Proof.
  destruct (loader_codes_nonpositive sample_sort sample_hdr world sys_5_10
              (sample_errno_set (KVER 5 10 0) "userdebug")) as [Hprog Hall].
  split.
  - apply (Hprog "/apex/bpf/a.o"%string 46 sample_location (world_one elf_bogus_map)
             (fst (result_of (loadProg sample_sort sample_hdr sys_5_10 "/apex/bpf/a.o" 46
                                sample_location (world_one elf_bogus_map)) (1, false)))
             (snd (result_of (loadProg sample_sort sample_hdr sys_5_10 "/apex/bpf/a.o" 46
                                sample_location (world_one elf_bogus_map)) (1, false)))
             (state_after (loadProg sample_sort sample_hdr sys_5_10 "/apex/bpf/a.o" 46
                             sample_location (world_one elf_bogus_map))
                (world_one elf_bogus_map))).
    vm_compute. reflexivity.
  - apply (Hall 46 sample_location world_two_critical
             (result_of (loadAllElfObjects sample_sort sample_hdr sys_5_10 46
                           sample_location world_two_critical) 1)
             (state_after (loadAllElfObjects sample_sort sample_hdr sys_5_10 46
                             sample_location world_two_critical) world_two_critical)).
    vm_compute. reflexivity.
Defined.
(** ** Startup *)

Section StartupProps.

Variable std_sort : (Elf64_Sym -> Elf64_Sym -> bool) -> list Elf64_Sym -> list Elf64_Sym.
Variable hdr : Headers.
Variable W : Type.
Variable sys : Sys W.
Variable plat : Platform W.

Lemma exists_keeps_world (path : string) (w w' : W) (b : bool) :
  exists_ sys plat path w = Val (b, w') -> w' = w /\ b = access_F_OK sys path w.
Proof.
  unfold exists_. destruct (access_F_OK sys path w).
  - intros H. injection H as <- <-. split; reflexivity.
  - destruct (_ =? ENOENT); [|discriminate].
    intros H. injection H as <- <-. split; reflexivity.
Qed.

Lemma bpfloader_version_bounds :
  42 <= bpfloader_version plat <= 46 /\
  (isAtLeastT plat = true -> 43 <= bpfloader_version plat).
Proof.
  unfold bpfloader_version.
  destruct (isAtLeastT plat), (isAtLeastU plat), (runningAsRoot plat), (isAtLeastV plat);
    split; try lia; intros; try lia; discriminate.
Qed.

(** [doLoad] returns 1 when a check of the platform fails, and goes on to
    load with the version of the loader otherwise. *)
Lemma doLoad_checks (w w' : W) (r : exit_status) :
  doLoad std_sort hdr sys plat w = Val (r, w') ->
  r = Exited 1 \/
  (platform_checked sys plat w /\
   doLoad_load std_sort hdr sys plat (bpfloader_version plat) w = Val (r, w')).
Proof.
  unfold doLoad, bind, Ret.
  destruct (2 ^ 31 <=? effective_api_level plat); [discriminate|].
  destruct (exists_ sys plat "/system/etc/init/bpfloader.rc" w) as [[b1 w1]| |] eqn:H1;
    try discriminate.
  destruct (exists_keeps_world _ _ _ _ H1) as [-> ->].
  destruct (exists_ sys plat "/system/etc/init/netbpfload.rc" w) as [[b2 w2]| |] eqn:H2;
    try discriminate.
  destruct (exists_keeps_world _ _ _ _ H2) as [-> ->].
  intros Hrun.
  destruct (negb (access_F_OK sys "/system/etc/init/bpfloader.rc" w) &&
            negb (access_F_OK sys "/system/etc/init/netbpfload.rc" w))%bool eqn:Hnone;
    [injection Hrun as <- _; left; reflexivity|].
  destruct (access_F_OK sys "/system/etc/init/bpfloader.rc" w &&
            access_F_OK sys "/system/etc/init/netbpfload.rc" w)%bool eqn:Hboth;
    [injection Hrun as <- _; left; reflexivity|].
  destruct (isAtLeastT plat) eqn:HT; cbn [negb andb] in Hrun;
    [|injection Hrun as <- _; left; reflexivity].
  destruct (isAtLeastKernelVersion sys 4 9 0) eqn:H49; cbn [negb] in Hrun;
    [|injection Hrun as <- _; left; reflexivity].
  destruct (isAtLeastU plat && negb (isAtLeastKernelVersion sys 4 14 0))%bool eqn:HU;
    [injection Hrun as <- _; left; reflexivity|].
  destruct (isAtLeastV plat && negb (isAtLeastKernelVersion sys 4 19 0))%bool eqn:HV;
    [injection Hrun as <- _; left; reflexivity|].
  destruct (isAtLeastV plat && isKernel32Bit sys && isAtLeastKernelVersion sys 5 16 0 &&
            negb (isTV plat))%bool eqn:H516;
    [injection Hrun as <- _; left; reflexivity|].
  destruct (isAtLeastV plat && isKernel32Bit sys && isX86 sys && negb (isTV plat))%bool
    eqn:Hx86; [injection Hrun as <- _; left; reflexivity|].
  destruct (isUserspace32bit plat && isAtLeastKernelVersion sys 6 2 0 &&
            (negb (isTV plat) && negb (isWear plat && isArm sys)))%bool eqn:H62;
    [injection Hrun as <- _; left; reflexivity|].
  destruct (negb (isEng sys) && negb (isUser sys) && negb (isUserdebug sys))%bool eqn:Hbuild;
    [injection Hrun as <- _; left; reflexivity|].
  right. split; [|exact Hrun]. unfold platform_checked. rewrite HT, H49.
  split.
  { destruct (access_F_OK sys "/system/etc/init/bpfloader.rc" w),
             (access_F_OK sys "/system/etc/init/netbpfload.rc" w);
      try discriminate; reflexivity. }
  split; [reflexivity|]. split; [reflexivity|].
  split.
  { intros HU'. rewrite HU' in HU. apply negb_false_iff in HU. exact HU. }
  split.
  { intros HV'. rewrite HV' in HV. apply negb_false_iff in HV. exact HV. }
  split.
  { intros HV' H32 [Hk|Hk].
    - rewrite HV', H32, Hk in H516. apply negb_false_iff in H516. exact H516.
    - rewrite HV', H32, Hk in Hx86. apply negb_false_iff in Hx86. exact Hx86. }
  split.
  { intros H32 Hk. rewrite H32, Hk in H62. cbn [andb] in H62.
    destruct (isTV plat); [left; reflexivity|]. right. cbn [negb andb] in H62.
    apply negb_false_iff, andb_true_iff in H62. exact H62. }
  split.
  { destruct (isEng sys), (isUser sys), (isUserdebug sys); try discriminate; auto. }
  pose proof bpfloader_version_bounds as [Hb HbT]. specialize (HbT HT). lia.
Qed.

(** X14. When [doLoad] ends otherwise than by returning 1, the platform
    has passed every check: exactly one of the init scripts of bpfloader
    and netbpfload exists, the device is at least T, the kernel is at
    least 4.9 (4.14 from U on, 4.19 from V on), a 32-bit kernel from V on
    that is 5.16 or later, or x86, is that of a TV, a 32-bit userspace on a
    kernel from 6.2 on is that of a TV or of a Wear device on Arm, the
    build type is eng, user or userdebug; and the objects were loaded with
    a loader version from 43 to 46. *)
Theorem doLoad_requirements (w w' : W) (r : exit_status) :
  doLoad std_sort hdr sys plat w = Val (r, w') ->
  r <> Exited 1 ->
  platform_checked sys plat w /\
  doLoad_load std_sort hdr sys plat (bpfloader_version plat) w = Val (r, w').
Proof.
  intros Hrun Hne. destruct (doLoad_checks _ _ _ Hrun) as [->|H]; [contradiction|exact H].
Qed.

(** A loop whose body returns nothing but [c] returns [c] when it returns. *)
Lemma for_each_returns {T R St X : Type} (body : X -> St -> M T (step R St)) (c : R) :
  (forall x st s r s', body x st s = Val (r, s') ->
     r = Return c \/ exists st', r = Continue st') ->
  forall xs st s r s', for_each xs body st s = Val (inl r, s') -> r = c.
Proof.
  intros Hbody xs. induction xs as [|x xs IH]; intros st s r s' Hrun.
  - discriminate.
  - cbn [for_each] in Hrun. unfold bind in Hrun.
    destruct (body x st s) as [[r0 s0]| |] eqn:Hb; try discriminate.
    destruct (Hbody _ _ _ _ _ Hb) as [->|[st' ->]].
    + injection Hrun as <- _. reflexivity.
    + exact (IH _ _ _ _ Hrun).
Qed.

Lemma doLoad_load_status (ver : Z) (w w' : W) (r : exit_status) :
  doLoad_load std_sort hdr sys plat ver w = Val (r, w') ->
  (r = Exited 0 /\ runningAsRoot plat = false) \/
  r = Exited 1 \/
  r = Exited 2 \/
  (r = Replaced platformBpfLoader /\ runningAsRoot plat = true).
Proof.
  unfold doLoad_load, bind, Ret. intros Hrun.
  match type of Hrun with
  | match ?c w with _ => _ end = _ => destruct (c w) as [[[] w1]| |]; try discriminate
  end.
  { injection Hrun as <- _. auto. }
  match type of Hrun with
  | match ?c w1 with _ => _ end = _ => destruct (c w1) as [[[] w2]| |]; try discriminate
  end.
  { injection Hrun as <- _. auto. }
  match type of Hrun with
  | match for_each locations ?body tt w2 with _ => _ end = _ =>
      destruct (for_each locations body tt w2) as [[[st|u] w3]| |] eqn:Hdirs;
        try discriminate
  end.
  { injection Hrun as <- _. right. left.
    apply (for_each_returns _ (Exited 1)) in Hdirs; [exact Hdirs|].
    intros x st0 s0 r0 s0' Hb. unfold bind, Ret in Hb.
    destruct (createSysFsBpfSubDir plat (loc_prefix x) s0) as [[ret s1]| |]; try discriminate.
    destruct (negb (ret =? 0)); injection Hb as <- _; eauto. }
  destruct (createSysFsBpfSubDir plat "loader" w3) as [[ret w4]| |]; try discriminate.
  destruct (negb (ret =? 0)); [injection Hrun as <- _; auto|].
  match type of Hrun with
  | match for_each locations ?body tt w4 with _ => _ end = _ =>
      destruct (for_each locations body tt w4) as [[[st|u'] w5]| |] eqn:Hload;
        try discriminate
  end.
  { injection Hrun as <- _. right. right. left.
    apply (for_each_returns _ (Exited 2)) in Hload; [exact Hload|].
    intros x st0 s0 r0 s0' Hb. unfold bind, Ret, call in Hb.
    destruct (loadAllElfObjects std_sort hdr sys ver x s0) as [[ret1 s1]| |];
      try discriminate.
    destruct (negb (ret1 =? 0)); injection Hb as <- _; eauto. }
  unfold call in Hrun.
  destruct (createMap plat BPF_MAP_TYPE_ARRAY 4 4 2 0 w5) as [map w6].
  destruct (writeToMapEntry plat map 1 123 0 w6) as [ret2 w7].
  destruct (negb (ret2 =? 0)); [injection Hrun as <- _; auto|].
  destruct (createSysFsBpfSubDir plat "netd_shared/mainline_done" w7) as [[ret3 w8]| |];
    try discriminate.
  destruct (negb (ret3 =? 0)); [injection Hrun as <- _; auto|].
  destruct (runningAsRoot plat) eqn:Hroot; cbn [negb] in Hrun;
    [|injection Hrun as <- _; auto].
  destruct (execve plat platformBpfLoader w8) as [[] w9]; injection Hrun as <- _; auto.
Qed.

Lemma doLoad_status (w w' : W) (r : exit_status) :
  doLoad std_sort hdr sys plat w = Val (r, w') ->
  (r = Exited 0 /\ runningAsRoot plat = false) \/
  r = Exited 1 \/
  r = Exited 2 \/
  (r = Replaced platformBpfLoader /\ runningAsRoot plat = true).
Proof.
  intros Hrun. destruct (doLoad_checks _ _ _ Hrun) as [->|[_ Hload]]; [auto|].
  exact (doLoad_load_status _ _ _ _ Hload).
Qed.

(** X15. When [main] ends, it has returned 0, 1, 2 or 125, or the platform
    loader has replaced the process.  It returns 125 only when called with
    the one argument done, hands over to the platform loader only when it
    runs as root, and returns 0 only when it does not run as root or was
    called with the one argument done. *)
Theorem main_exit_status (argv : list string) (w w' : W) (r : exit_status) :
  main std_sort hdr sys plat argv w = Val (r, w') ->
  (r = Exited 0 \/ r = Exited 1 \/ r = Exited 2 \/ r = Exited 125 \/
   r = Replaced platformBpfLoader) /\
  (r = Exited 125 -> exists arg0, argv = [arg0; "done"]%string) /\
  (r = Replaced platformBpfLoader -> runningAsRoot plat = true) /\
  (r = Exited 0 ->
   runningAsRoot plat = false \/ exists arg0, argv = [arg0; "done"]%string).
Proof.
  intros Hrun.
  assert (Hcases : (exists arg0, argv = [arg0; "done"]%string /\
                      (r = Exited 0 \/ r = Exited 125)) \/
                   doLoad std_sort hdr sys plat w = Val (r, w')).
  { unfold main in Hrun.
    destruct argv as [|arg0 [|arg1 [|arg2 rest]]]; try (right; exact Hrun).
    destruct (String.eqb_spec arg1 "done") as [->|_]; [|right; exact Hrun].
    left. exists arg0. split; [reflexivity|].
    unfold bind, call, Ret in Hrun.
    destruct (SetProperty plat "bpf.progs_loaded" "1" w) as [[] w1];
      injection Hrun as <- _; auto. }
  destruct Hcases as [[arg0 [-> Hr]]|Hload].
  - split; [destruct Hr as [->| ->]; auto|].
    split; [intros _; exists arg0; reflexivity|].
    split; [intros ->; destruct Hr; discriminate|].
    intros _. right. exists arg0. reflexivity.
  - destruct (doLoad_status _ _ _ Hload) as [[-> Hroot]|[->|[->|[-> Hroot]]]].
    + split; [auto|]. split; [discriminate|]. split; [discriminate|]. auto.
    + split; [auto|]. split; [discriminate|]. split; discriminate.
    + split; [auto|]. split; [discriminate|]. split; discriminate.
    + split; [auto 6|]. split; [discriminate|]. split; [intros _; exact Hroot|discriminate].
Qed.

(** X16. [createSysFsBpfSubDir] and the umask of the process, where the
    umask is a part [get_umask] of the state that [umask] returns and sets
    and [mkdir] keeps.  With an empty prefix nothing is done.  Otherwise
    the directory /sys/fs/bpf/prefix is made with mode 01777 under a umask
    of 0; when it is made or exists already, 0 is returned and the umask
    is as before the call; when [mkdir] fails otherwise, the negated
    errno is returned and the umask is left at 0. *)
Theorem createSysFsBpfSubDir_umask (get_umask : W -> Z) (prefix : string) (w w' : W)
    (ret : Z) :
  (forall m w0, fst (umask plat m w0) = get_umask w0 /\
                get_umask (snd (umask plat m w0)) = m) ->
  (forall path mode w0, get_umask (snd (mkdir plat path mode w0)) = get_umask w0) ->
  createSysFsBpfSubDir plat prefix w = Val (ret, w') ->
  (prefix = EmptyString -> ret = 0 /\ w' = w) /\
  (prefix <> EmptyString ->
   forall r e w1,
     mkdir plat ("/sys/fs/bpf/" ++ prefix) 1023 (snd (umask plat 0 w)) = ((r, e), w1) ->
     (r = 0 \/ e = EEXIST -> ret = 0 /\ get_umask w' = get_umask w) /\
     (r <> 0 /\ e <> EEXIST -> ret = - e /\ w' = w1 /\ get_umask w' = 0)).
Proof.
  intros Humask Hmkdir. unfold createSysFsBpfSubDir, bind, call, Ret.
  destruct (String.eqb_spec prefix "") as [->|Hne]; cbn [negb].
  - intros H. injection H as <- <-. split; [auto|]. intros Hc. contradiction.
  - destruct (umask plat 0 w) as [prev w0] eqn:Hu0. cbn [snd].
    destruct (mkdir plat ("/sys/fs/bpf/" ++ prefix) 1023 w0) as [[r0 e0] w2] eqn:Hmk.
    pose proof (Humask 0 w) as [Hprev Hzero]. rewrite Hu0 in Hprev, Hzero.
    cbn [fst snd] in Hprev, Hzero.
    pose proof (Hmkdir ("/sys/fs/bpf/" ++ prefix)%string 1023 w0) as Hkeep.
    rewrite Hmk in Hkeep. cbn [snd] in Hkeep.
    intros Hrun. split; [intros Hc; contradiction|].
    intros _ r e w1 Heq. injection Heq as <- <- <-.
    destruct (Z.eqb_spec r0 0) as [Hr|Hr]; cbn [negb andb] in Hrun.
    + destruct (umask plat prev w2) as [u w3] eqn:Hu1. injection Hrun as <- <-.
      pose proof (Humask prev w2) as [_ Hrestored]. rewrite Hu1 in Hrestored.
      cbn [snd] in Hrestored. split.
      * intros _. split; [reflexivity|]. congruence.
      * intros [Hc _]. contradiction.
    + destruct (Z.eqb_spec e0 EEXIST) as [He|He]; cbn [negb] in Hrun.
      * destruct (umask plat prev w2) as [u w3] eqn:Hu1. injection Hrun as <- <-.
        pose proof (Humask prev w2) as [_ Hrestored]. rewrite Hu1 in Hrestored.
        cbn [snd] in Hrestored. split.
        -- intros _. split; [reflexivity|]. congruence.
        -- intros [_ Hc]. contradiction.
      * injection Hrun as <- <-. split.
        -- intros [Hc|Hc]; contradiction.
        -- intros _. split; [reflexivity|]. split; [reflexivity|]. congruence.
Qed.

End StartupProps.

Lemma doLoad_requirements_witness :
  platform_checked (sys_on_host sys_5_10) platform_U host_empty /\
  doLoad_load sample_sort sample_hdr (sys_on_host sys_5_10) platform_U
    (bpfloader_version platform_U) host_empty =
  Val (Replaced platformBpfLoader, booted_host).
Proof.
  apply (doLoad_requirements sample_sort sample_hdr host (sys_on_host sys_5_10) platform_U
           host_empty booted_host (Replaced platformBpfLoader)).
  - vm_compute. reflexivity.
  - discriminate.
Defined.

Lemma main_exit_status_witness :
  (Exited 2 = Exited 0 \/ Exited 2 = Exited 1 \/ Exited 2 = Exited 2 \/
   Exited 2 = Exited 125 \/ Exited 2 = Replaced platformBpfLoader) /\
  (Exited 2 = Exited 125 -> exists arg0, ["netbpfload"%string] = [arg0; "done"%string]) /\
  (Exited 2 = Replaced platformBpfLoader -> runningAsRoot platform_U = true) /\
  (Exited 2 = Exited 0 ->
   runningAsRoot platform_U = false \/ exists arg0, ["netbpfload"%string] = [arg0; "done"%string]).
Proof.
  apply (main_exit_status sample_sort sample_hdr host (sys_on_host sys_5_10) platform_U
           ["netbpfload"%string] host_critical
           (state_after (main sample_sort sample_hdr (sys_on_host sys_5_10) platform_U
                           ["netbpfload"%string] host_critical) host_critical)
           (Exited 2)).
  vm_compute. reflexivity.
Defined.

Lemma createSysFsBpfSubDir_umask_witness :
  createSysFsBpfSubDir platform_U "tethering/" host_empty =
    Val (0, state_after (createSysFsBpfSubDir platform_U "tethering/" host_empty) host_empty) /\
  h_umask (state_after (createSysFsBpfSubDir platform_U "tethering/" host_empty) host_empty) =
    h_umask host_empty.
Proof.
  assert (Hrun : createSysFsBpfSubDir platform_U "tethering/" host_empty =
                 Val (0, state_after (createSysFsBpfSubDir platform_U "tethering/" host_empty)
                           host_empty)) by (vm_compute; reflexivity).
  split; [exact Hrun|].
  destruct (createSysFsBpfSubDir_umask host platform_U h_umask "tethering/" host_empty
              (state_after (createSysFsBpfSubDir platform_U "tethering/" host_empty)
                 host_empty) 0) as [_ Hmade].
  - intros m w0. split; reflexivity.
  - intros path mode w0. cbn [platform_U sample_platform mkdir].
    destruct (existsb (String.eqb path) (h_made w0)); reflexivity.
  - exact Hrun.
  - destruct (Hmade ltac:(discriminate) 0 0
               (snd (mkdir platform_U "/sys/fs/bpf/tethering/" 1023
                       (snd (umask platform_U 0 host_empty)))))
      as [Hok _]; [vm_compute; reflexivity|].
    apply Hok. left. reflexivity.
Defined.
